(** * ai-NES core: a shallow embedding of the controller, the mappers
      NROM / CNROM / MMC3 and the 6502 interpreter, with the properties
      the specification states about them.

    Conventions.  JavaScript numbers that the emulator only ever uses as
    small integers are modelled as [Z].  The bit operators of JavaScript
    work on 32-bit two's-complement integers; where an operand comes
    from outside (a button index, a bank count) the conversion is
    written out with the functions of module [JS]; on bytes and 16-bit
    addresses the operators coincide with [Z.land], [Z.lor], [Z.lxor],
    [Z.shiftl] and [Z.shiftr] and are written that way.  Typed arrays
    ([Uint8Array], [Uint32Array]) are lists read and written by index;
    a store into a [Uint8Array] keeps the low eight bits, a read outside
    the array is [undefined] ([None]).

    The file has two parts: the model (definitions only), then the
    statements and proofs. *)

From Stdlib Require Import ZArith Lia List Bool.
From stdpp Require Import base numbers list.

Open Scope Z_scope.

(* ================================================================== *)
(** * Part I: the model *)
(* ================================================================== *)

(** ** JavaScript integer operators and typed arrays *)

Module JS.

(** ToInt32: reduce modulo 2^32 and read the result as a signed word. *)
Definition toInt32 (x : Z) : Z :=
  let u := x mod 2 ^ 32 in
  if u <? 2 ^ 31 then u else u - 2 ^ 32.

(** ToUint32, the conversion done by a store into a [Uint32Array]. *)
Definition toUint32 (x : Z) : Z := x mod 2 ^ 32.

(** ToUint8, the conversion done by a store into a [Uint8Array]. *)
Definition toUint8 (x : Z) : Z := x mod 256.

(** [a << k]: the shift count is taken modulo 32. *)
Definition shl (a k : Z) : Z := toInt32 (Z.shiftl (toInt32 a) (k mod 32)).

(** [a >> k]: sign-propagating. *)
Definition sar (a k : Z) : Z := Z.shiftr (toInt32 a) (k mod 32).

(** [a >>> k]: zero-filling. *)
Definition shr (a k : Z) : Z := Z.shiftr (toUint32 a) (k mod 32).

Definition band (a b : Z) : Z := Z.land (toInt32 a) (toInt32 b).
Definition bor (a b : Z) : Z := Z.lor (toInt32 a) (toInt32 b).
Definition bxor (a b : Z) : Z := Z.lxor (toInt32 a) (toInt32 b).

(** [arr[i]] on a typed array: [undefined] outside the array. *)
Definition get (arr : list Z) (i : Z) : option Z :=
  if i <? 0 then None else arr !! Z.to_nat i.

(** [arr[i]] used as a number in a bit operation, where [undefined]
    counts as 0. *)
Definition getNum (arr : list Z) (i : Z) : Z := default 0 (get arr i).

(** [arr[i] = v] on a [Uint8Array]: nothing happens outside the array. *)
Definition store8 (arr : list Z) (i v : Z) : list Z :=
  if i <? 0 then arr else <[Z.to_nat i := toUint8 v]> arr.

(** [arr[i] = v] on a [Uint32Array]. *)
Definition store32 (arr : list Z) (i v : Z) : list Z :=
  if i <? 0 then arr else <[Z.to_nat i := toUint32 v]> arr.

End JS.

(** The values of a range, for checks that run over every byte. *)
Definition Zrange (n : nat) : list Z := List.map Z.of_nat (seq 0 n).

(** ** Calls one component makes on another

    The mappers, the PPU and the APU call back into the CPU
    ([requestIrq], [clearIrq], [haltCycles]) and the mappers call the
    PPU ([setMirroring]).  A modelled operation returns the calls it
    makes, in order, next to its new state. *)

Inductive effect : Type :=
| RequestIrq (type : Z)
| ClearIrq (type : Z)
| HaltCycles (cycles : Z)
| SetMirroring (mode : Z).

(** [CPU.IRQ_NORMAL], [CPU.IRQ_NMI], [CPU.IRQ_RESET]. *)
Definition IRQ_NORMAL : Z := 0.
Definition IRQ_NMI : Z := 1.
Definition IRQ_RESET : Z := 2.

(* ================================================================== *)
(** ** Controller (controller.js) *)
(* ================================================================== *)

Module Controller.

(** Bit 0 = A, 1 = B, 2 = Select, 3 = Start, 4 = Up, 5 = Down,
    6 = Left, 7 = Right. *)
Record t := mk {
  currentState : Z;   (* live buttons *)
  strobedState : Z;   (* snapshot taken when the strobe goes low *)
  strobeByte : Z;     (* the strobe line *)
  shiftRegister : Z   (* serial position, 0..8 *)
}.

(** The constructor. *)
Definition init : t := mk 0 0 0 0.

Definition BUTTON_A : Z := 0.
Definition BUTTON_B : Z := 1.
Definition BUTTON_SELECT : Z := 2.
Definition BUTTON_START : Z := 3.
Definition BUTTON_UP : Z := 4.
Definition BUTTON_DOWN : Z := 5.
Definition BUTTON_LEFT : Z := 6.
Definition BUTTON_RIGHT : Z := 7.

(** [read()] returns the byte and the controller as the call leaves
    it. *)
Definition read (c : t) : Z * t :=
  let ret :=
    if strobeByte c =? 1 then JS.band (currentState c) 1
    else if shiftRegister c <? 8
         then JS.band (JS.sar (strobedState c) (shiftRegister c)) 1
         else 1 in
  (JS.bor 0x40 ret, c).

Definition clock (c : t) : t :=
  if (strobeByte c =? 0) && (shiftRegister c <? 8)
  then mk (currentState c) (strobedState c) (strobeByte c) (shiftRegister c + 1)
  else c.

Definition strobe (data : Z) (c : t) : t :=
  let c1 :=
    if (strobeByte c =? 1) && (JS.band data 1 =? 0)
    then mk (currentState c) (currentState c) (strobeByte c) 0
    else c in
  mk (currentState c1) (strobedState c1) (JS.band data 1) (shiftRegister c1).

Definition _getDuplicateMask (buttonIndex : Z) : Z :=
  match buttonIndex with
  | 4 => 0xDF
  | 5 => 0xEF
  | 6 => 0x7F
  | 7 => 0xBF
  | _ => 0xFF
  end.

Definition buttonDown (button : Z) (c : t) : t :=
  let s1 := JS.bor (currentState c) (JS.shl 1 button) in
  let s2 := JS.band s1 (_getDuplicateMask button) in
  mk s2 (strobedState c) (strobeByte c) (shiftRegister c).

Definition buttonUp (button : Z) (c : t) : t :=
  let s1 := JS.band (currentState c) (JS.bxor 0xFF (JS.shl 1 button)) in
  mk s1 (strobedState c) (strobeByte c) (shiftRegister c).

(** Host input events. *)
Inductive input : Type :=
| Down (button : Z)
| Up (button : Z).

Definition button_of (i : input) : Z :=
  match i with Down b => b | Up b => b end.

Definition apply_input (c : t) (i : input) : t :=
  match i with
  | Down b => buttonDown b c
  | Up b => buttonUp b c
  end.

Definition run_inputs (c : t) (evs : list input) : t :=
  fold_left apply_input evs c.

(** One of the eight buttons of the pad ([BUTTON_A] .. [BUTTON_RIGHT]). *)
Definition is_button (b : Z) : Prop := 0 <= b < 8.

(** Up and Down are not both held, nor Left and Right. *)
Definition exclusive (s : Z) : bool :=
  negb (Z.testbit s 4 && Z.testbit s 5) &&
  negb (Z.testbit s 6 && Z.testbit s 7).

(** The controller after [n] clocks. *)
Definition after_clocks (n : nat) (c : t) : t := Nat.iter n clock c.

(** What the [k]-th port read sees (counting from 0) when every read is
    made by an instruction of its own, so that one [clock] from
    [CPU.stepControllers] separates two reads. *)
Definition nth_read (k : nat) (c : t) : Z := fst (read (after_clocks k c)).

(** The serial bit a read presents. *)
Definition serial_bit (c : t) : bool :=
  if strobeByte c =? 1 then Z.testbit (currentState c) 0
  else if shiftRegister c <? 8
       then Z.testbit (JS.sar (strobedState c) (shiftRegister c)) 0
       else true.

(** The state is a byte. *)
Definition byte_ok (s : Z) : bool := (0 <=? s) && (s <? 256).

(** The invariant of the button state. *)
Definition inv (c : t) : Prop :=
  byte_ok (currentState c) = true /\ exclusive (currentState c) = true.

(** Checks that pressing, or releasing, button [b] in button state [s]
    keeps the invariant. *)
Definition down_keeps (s b : Z) : bool :=
  let s' := currentState (buttonDown b (mk s 0 0 0)) in
  negb (exclusive s) || (byte_ok s' && exclusive s').

Definition up_keeps (s b : Z) : bool :=
  let s' := currentState (buttonUp b (mk s 0 0 0)) in
  negb (exclusive s) || (byte_ok s' && exclusive s').

End Controller.

(* ================================================================== *)
(** ** Cartridge and the mapper base class *)
(* ================================================================== *)

(** Modelled from the spec: mapper-base.js and rom.js are not among the
    source files.  What a mapper reads from them is a parameter here:
    the linear PRG array, the values its bank-count getters return, and
    the header's mirroring data. *)
Record Cartridge := mkCartridge {
  prgData : list Z;             (* linear PRG-ROM, a Uint8Array *)
  prgBankCount : Z;             (* this.prgBankCount *)
  get8kPrgBankCount : Z;
  get16kPrgBankCount : Z;
  get32kPrgBankCount : Z;
  get1kChrBankCount : Z;
  get8kChrBankCount : Z;
  fourScreen : bool;            (* nes.rom.fourScreen *)
  HORIZONTAL_MIRRORING : Z;     (* nes.rom.HORIZONTAL_MIRRORING *)
  VERTICAL_MIRRORING : Z;       (* nes.rom.VERTICAL_MIRRORING *)
  getMirroringType : Z          (* nes.rom.getMirroringType() *)
}.

Module MapperBase.

(** Modelled from the spec: "banks are masked to available size". *)
Definition maskBank (bank count : Z) : Z :=
  if 0 <? count then bank mod count else 0.

(** Modelled from the spec: the helper of mapper-base.js that switches a
    32 KiB PRG bank into the PRG page map, "four 8 KiB slots ... indexed
    into [the] linear PRG [array]". *)
Definition switch32kPrgBank (c : Cartridge) (bank : Z) (prgPagesMap : list Z) : list Z :=
  let base := maskBank bank (get32kPrgBankCount c) * 0x8000 in
  <[3%nat := base + 0x6000]> (<[2%nat := base + 0x4000]>
    (<[1%nat := base + 0x2000]> (<[0%nat := base]> prgPagesMap))).

(** Modelled from the spec: the helper that switches a 16 KiB PRG bank
    into the low ($8000-$BFFF) or the high ($C000-$FFFF) pair of slots. *)
Definition switch16kPrgBank (c : Cartridge) (bank : Z) (low : bool) (prgPagesMap : list Z) : list Z :=
  let base := maskBank bank (get16kPrgBankCount c) * 0x4000 in
  if low
  then <[1%nat := base + 0x2000]> (<[0%nat := base]> prgPagesMap)
  else <[3%nat := base + 0x2000]> (<[2%nat := base]> prgPagesMap).

(** The byte offsets of the eight 1 KiB pages of 8 KiB CHR bank [bank]. *)
Definition chrPagesOf8k (c : Cartridge) (bank : Z) : list Z :=
  let base := maskBank bank (get8kChrBankCount c) * 0x2000 in
  List.map (fun i => base + i * 0x400) (Zrange 8).

(** Modelled from the spec: the helper that switches an 8 KiB CHR bank
    into the CHR page map, "eight 1 KiB slots". *)
Definition switch8kChrBank (c : Cartridge) (bank : Z) (chrPagesMap : list Z) : list Z :=
  chrPagesOf8k c bank.

End MapperBase.

(* ================================================================== *)
(** ** Mapper 000, NROM *)
(* ================================================================== *)

Module Mapper000.

Record t := mk {
  prgRam : list Z;        (* the 8 KiB at $6000-$7FFF, a Uint8Array *)
  prgPagesMap : list Z;   (* byte offset of each 8 KiB CPU slot *)
  cart : Cartridge
}.

(** [undefined] is [None].  The test [!this.prgData] is left out:
    [prgData] is an array. *)
Definition cpuRead (address : Z) (m : t) : option Z :=
  if (0x6000 <=? address) && (address <? 0x8000) then
    JS.get (prgRam m) (address - 0x6000)
  else if 0x8000 <=? address then
    if prgBankCount (cart m) =? 0 then Some 0
    else
      let slot := Z.land (Z.shiftr address 13) 0x03 in
      let offsetInSlot := Z.land address 0x1FFF in
      match JS.get (prgPagesMap m) slot with
      | Some bankOffset => JS.get (prgData (cart m)) (bankOffset + offsetInSlot)
      | None => None
      end
  else None.

Definition cpuWrite (address data : Z) (m : t) : t :=
  if (0x6000 <=? address) && (address <? 0x8000)
  then mk (JS.store8 (prgRam m) (address - 0x6000) data) (prgPagesMap m) (cart m)
  else m.

End Mapper000.

(* ================================================================== *)
(** ** Mapper 003, CNROM (mappers/mapper003.js) *)
(* ================================================================== *)

Module Mapper003.

Record t := mk {
  chrBank : Z;
  prgPagesMap : list Z;   (* byte offset of each 8 KiB CPU slot *)
  chrPagesMap : list Z;   (* byte offset of each 1 KiB PPU slot *)
  cart : Cartridge
}.

Definition updateBanks (m : t) : t :=
  let c := cart m in
  let prg :=
    if 0 <? get32kPrgBankCount c
    then MapperBase.switch32kPrgBank c 0 (prgPagesMap m)
    else MapperBase.switch16kPrgBank c 0 false
           (MapperBase.switch16kPrgBank c 0 true (prgPagesMap m)) in
  mk (chrBank m) prg (MapperBase.switch8kChrBank c (chrBank m) (chrPagesMap m)) c.

(** [reset()]; the mirroring it sets on the PPU is returned as a call. *)
Definition reset (m : t) : t * list effect :=
  (updateBanks (mk 0 (prgPagesMap m) (chrPagesMap m) (cart m)),
   [SetMirroring (getMirroringType (cart m))]).

(** [this.prgData[this.prgPagesMap[slot] + offset]]. *)
Definition romAt (address : Z) (m : t) : option Z :=
  let slot := Z.land (Z.shiftr address 13) 0x03 in
  let offset := Z.land address 0x1FFF in
  match JS.get (prgPagesMap m) slot with
  | Some page => JS.get (prgData (cart m)) (page + offset)
  | None => None
  end.

Definition cpuRead (address : Z) (m : t) : option Z :=
  if 0x8000 <=? address then romAt address m else None.

(** In [data & romValue] an [undefined] ROM value counts as 0. *)
Definition cpuWrite (address data : Z) (m : t) : t :=
  if 0x8000 <=? address then
    let romValue := default 0 (romAt address m) in
    updateBanks
      (mk (JS.band (JS.band data romValue) 0x03)
          (prgPagesMap m) (chrPagesMap m) (cart m))
  else m.

(** The PRG page map is the one [updateBanks] installs: true after
    [reset()] and after every write. *)
Definition settled (m : t) : Prop :=
  prgPagesMap m = prgPagesMap (updateBanks m).

End Mapper003.

(* ================================================================== *)
(** ** Mapper 004, MMC3 *)
(* ================================================================== *)

Module Mapper004.

Record t := mk {
  reg : list Z;   (* bank data registers R0..R7, a Uint8Array(8) *)
  prgOffsets : list Z;   (* Uint32Array(4): byte offset of each 8 KiB CPU slot *)
  chrOffsets : list Z;   (* Uint32Array(8): byte offset of each 1 KiB PPU slot *)
  prgRam : list Z;   (* Uint8Array(0x2000) *)
  prgMode : Z;
  chrMode : Z;
  bankSelect : Z;
  irqEnabled : bool;
  irqCounter : Z;
  irqLatch : Z;
  irqReload : bool;
  prgRamEnabled : bool;
  prgRamWriteProtect : bool;
  cart : Cartridge   (* the ROM image and its bank counts *)
}.

Definition set_reg (v : list Z) (m : t) : t :=
  mk v (prgOffsets m) (chrOffsets m) (prgRam m) (prgMode m) (chrMode m)
    (bankSelect m) (irqEnabled m) (irqCounter m) (irqLatch m) (irqReload m)
    (prgRamEnabled m) (prgRamWriteProtect m) (cart m).
Definition set_prgOffsets (v : list Z) (m : t) : t :=
  mk (reg m) v (chrOffsets m) (prgRam m) (prgMode m) (chrMode m)
    (bankSelect m) (irqEnabled m) (irqCounter m) (irqLatch m) (irqReload m)
    (prgRamEnabled m) (prgRamWriteProtect m) (cart m).
Definition set_chrOffsets (v : list Z) (m : t) : t :=
  mk (reg m) (prgOffsets m) v (prgRam m) (prgMode m) (chrMode m)
    (bankSelect m) (irqEnabled m) (irqCounter m) (irqLatch m) (irqReload m)
    (prgRamEnabled m) (prgRamWriteProtect m) (cart m).
Definition set_prgRam (v : list Z) (m : t) : t :=
  mk (reg m) (prgOffsets m) (chrOffsets m) v (prgMode m) (chrMode m)
    (bankSelect m) (irqEnabled m) (irqCounter m) (irqLatch m) (irqReload m)
    (prgRamEnabled m) (prgRamWriteProtect m) (cart m).
Definition set_prgMode (v : Z) (m : t) : t :=
  mk (reg m) (prgOffsets m) (chrOffsets m) (prgRam m) v (chrMode m)
    (bankSelect m) (irqEnabled m) (irqCounter m) (irqLatch m) (irqReload m)
    (prgRamEnabled m) (prgRamWriteProtect m) (cart m).
Definition set_chrMode (v : Z) (m : t) : t :=
  mk (reg m) (prgOffsets m) (chrOffsets m) (prgRam m) (prgMode m) v
    (bankSelect m) (irqEnabled m) (irqCounter m) (irqLatch m) (irqReload m)
    (prgRamEnabled m) (prgRamWriteProtect m) (cart m).
Definition set_bankSelect (v : Z) (m : t) : t :=
  mk (reg m) (prgOffsets m) (chrOffsets m) (prgRam m) (prgMode m)
    (chrMode m) v (irqEnabled m) (irqCounter m) (irqLatch m) (irqReload m)
    (prgRamEnabled m) (prgRamWriteProtect m) (cart m).
Definition set_irqEnabled (v : bool) (m : t) : t :=
  mk (reg m) (prgOffsets m) (chrOffsets m) (prgRam m) (prgMode m)
    (chrMode m) (bankSelect m) v (irqCounter m) (irqLatch m) (irqReload m)
    (prgRamEnabled m) (prgRamWriteProtect m) (cart m).
Definition set_irqCounter (v : Z) (m : t) : t :=
  mk (reg m) (prgOffsets m) (chrOffsets m) (prgRam m) (prgMode m)
    (chrMode m) (bankSelect m) (irqEnabled m) v (irqLatch m) (irqReload m)
    (prgRamEnabled m) (prgRamWriteProtect m) (cart m).
Definition set_irqLatch (v : Z) (m : t) : t :=
  mk (reg m) (prgOffsets m) (chrOffsets m) (prgRam m) (prgMode m)
    (chrMode m) (bankSelect m) (irqEnabled m) (irqCounter m) v (irqReload m)
    (prgRamEnabled m) (prgRamWriteProtect m) (cart m).
Definition set_irqReload (v : bool) (m : t) : t :=
  mk (reg m) (prgOffsets m) (chrOffsets m) (prgRam m) (prgMode m)
    (chrMode m) (bankSelect m) (irqEnabled m) (irqCounter m) (irqLatch m) v
    (prgRamEnabled m) (prgRamWriteProtect m) (cart m).
Definition set_prgRamEnabled (v : bool) (m : t) : t :=
  mk (reg m) (prgOffsets m) (chrOffsets m) (prgRam m) (prgMode m)
    (chrMode m) (bankSelect m) (irqEnabled m) (irqCounter m) (irqLatch m)
    (irqReload m) v (prgRamWriteProtect m) (cart m).
Definition set_prgRamWriteProtect (v : bool) (m : t) : t :=
  mk (reg m) (prgOffsets m) (chrOffsets m) (prgRam m) (prgMode m)
    (chrMode m) (bankSelect m) (irqEnabled m) (irqCounter m) (irqLatch m)
    (irqReload m) (prgRamEnabled m) v (cart m).

(** [this.reg[i]] used as a number. *)
Definition regAt (m : t) (i : Z) : Z := JS.getNum (reg m) i.

Definition updateBanks (m : t) : t :=
  let c1k := get1kChrBankCount (cart m) in
  let c8k := get8kPrgBankCount (cart m) in
  let chrMask := if 0 <? c1k then c1k - 1 else 0 in
  let chr x := JS.shl (JS.band x chrMask) 10 in
  let pairLo i := chr (JS.band (regAt m i) 0xFE) in
  let pairHi i := chr (JS.bor (regAt m i) 0x01) in
  let single i := chr (regAt m i) in
  let put k v arr := JS.store32 arr k v in
  let chrOffsets' :=
    if chrMode m =? 0 then
      put 7 (single 5) (put 6 (single 4) (put 5 (single 3) (put 4 (single 2)
        (put 3 (pairHi 1) (put 2 (pairLo 1) (put 1 (pairHi 0) (put 0 (pairLo 0)
          (chrOffsets m))))))))
    else
      put 7 (pairHi 1) (put 6 (pairLo 1) (put 5 (pairHi 0) (put 4 (pairLo 0)
        (put 3 (single 5) (put 2 (single 4) (put 1 (single 3) (put 0 (single 2)
          (chrOffsets m)))))))) in
  let prgMask := if 0 <? c8k then c8k - 1 else 0 in
  let prg i := JS.shl (JS.band (regAt m i) prgMask) 13 in
  let secondLast := JS.shl (c8k - 2) 13 in
  let prgOffsets' :=
    if prgMode m =? 0 then
      put 2 secondLast (put 1 (prg 7) (put 0 (prg 6) (prgOffsets m)))
    else
      put 2 (prg 6) (put 1 (prg 7) (put 0 secondLast (prgOffsets m))) in
  set_prgOffsets (put 3 (JS.shl (c8k - 1) 13) prgOffsets')
    (set_chrOffsets chrOffsets' m).

Definition reset (m : t) : t :=
  set_prgOffsets
    (JS.store32 (prgOffsets m) 3 (JS.shl (get8kPrgBankCount (cart m) - 1) 13)) m.

Definition cpuWrite (address data : Z) (m : t) : t * list effect :=
  if (0x6000 <=? address) && (address <? 0x8000) then
    (if prgRamEnabled m && negb (prgRamWriteProtect m)
     then set_prgRam (JS.store8 (prgRam m) (address - 0x6000) data) m
     else m, [])
  else if address <? 0x8000 then (m, [])
  else
    let r := Z.land address 1 in
    let base := Z.land address 0xE000 in
    match base with
    | 0x8000 =>
        if r =? 0 then
          (updateBanks
             (set_bankSelect (Z.land data 7)
                (set_chrMode (Z.land (Z.shiftr data 7) 1)
                   (set_prgMode (Z.land (Z.shiftr data 6) 1) m))), [])
        else
          (updateBanks (set_reg (JS.store8 (reg m) (bankSelect m) data) m), [])
    | 0xA000 =>
        if r =? 0 then
          if fourScreen (cart m) then (m, [])
          else
            (m, [SetMirroring
                   (if Z.land data 1 =? 0
                    then VERTICAL_MIRRORING (cart m)
                    else HORIZONTAL_MIRRORING (cart m))])
        else
          (set_prgRamWriteProtect (negb (Z.land data 0x40 =? 0))
             (set_prgRamEnabled (negb (Z.land data 0x80 =? 0)) m), [])
    | 0xC000 =>
        if r =? 0 then (set_irqLatch data m, [])
        else (set_irqReload true m, [])
    | 0xE000 =>
        if r =? 0 then (set_irqEnabled false m, [ClearIrq IRQ_NORMAL])
        else (set_irqEnabled true m, [])
    | _ => (m, [])
    end.

Definition cpuRead (address : Z) (m : t) : option Z :=
  if (0x6000 <=? address) && (address <? 0x8000) then
    if negb (prgRamEnabled m) then Some (Z.land (Z.shiftr address 8) 0xFF)
    else JS.get (prgRam m) (address - 0x6000)
  else if 0x8000 <=? address then
    let slot := Z.land (Z.shiftr address 13) 0x03 in
    let offset := Z.land address 0x1FFF in
    match JS.get (prgOffsets m) slot with
    | Some page => JS.get (prgData (cart m)) (page + offset)
    | None => None
    end
  else None.

(** Clocked by the PPU on a rising edge of A12. *)
Definition clockScanline (m : t) : t * list effect :=
  if (irqCounter m =? 0) || irqReload m then
    (set_irqReload false (set_irqCounter (irqLatch m) m), [])
  else
    let m' := set_irqCounter (irqCounter m - 1) m in
    if (irqCounter m' =? 0) && irqEnabled m'
    then (m', [RequestIrq IRQ_NORMAL])
    else (m', []).

(** [n] rising edges of A12 in a row: the mapper after them and the
    calls made, oldest first. *)
Fixpoint clockScanlines (n : nat) (m : t) : t * list effect :=
  match n with
  | O => (m, [])
  | S n' =>
      let '(m1, e1) := clockScanline m in
      let '(m2, e2) := clockScanlines n' m1 in
      (m2, e1 ++ e2)
  end.

(** A sequence of register writes: the mapper after them and the calls
    made. *)
Fixpoint cpuWrites (ws : list (Z * Z)) (m : t) : t * list effect :=
  match ws with
  | [] => (m, [])
  | (a, d) :: ws' =>
      let '(m1, e1) := cpuWrite a d m in
      let '(m2, e2) := cpuWrites ws' m1 in
      (m2, e1 ++ e2)
  end.

End Mapper004.

(* ================================================================== *)
(** ** Mapper 006, MMC6: MMC3 with 1 KiB of internal RAM *)
(* ================================================================== *)

Module Mapper006.

(** The inherited MMC3 state, whose [prgRam] is here the 1 KiB internal
    RAM ([new Uint8Array(1024)]), and the RAM control register. *)
Record t := mk {
  base : Mapper004.t;
  ramControl : Z
}.

Definition reset (m : t) : t := mk (Mapper004.reset (base m)) 0xF0.

Definition cpuRead (address : Z) (m : t) : option Z :=
  if (0x7000 <=? address) && (address <? 0x8000) then
    let offset := Z.land address 0x3FF in
    let bank := if offset <? 0x200 then 0 else 1 in
    let enableBit := if bank =? 0 then 0x40 else 0x80 in
    if negb (Z.land (ramControl m) enableBit =? 0)
    then JS.get (Mapper004.prgRam (base m)) offset
    else Some (Z.land (Z.shiftr address 8) 0xFF)
  else if (0x6000 <=? address) && (address <? 0x7000) then
    Some (Z.land (Z.shiftr address 8) 0xFF)
  else Mapper004.cpuRead address (base m).

Definition cpuWrite (address data : Z) (m : t) : t * list effect :=
  if (0x7000 <=? address) && (address <? 0x8000) then
    let offset := Z.land address 0x3FF in
    let bank := if offset <? 0x200 then 0 else 1 in
    let enableBit := if bank =? 0 then 0x10 else 0x20 in
    (if negb (Z.land (ramControl m) enableBit =? 0)
     then mk (Mapper004.set_prgRam
                (JS.store8 (Mapper004.prgRam (base m)) offset data) (base m))
             (ramControl m)
     else m, [])
  else if (0x6000 <=? address) && (address <? 0x7000) then (m, [])
  else if Z.land address 0xE001 =? 0xA001 then (mk (base m) data, [])
  else
    let '(b, calls) := Mapper004.cpuWrite address data (base m) in
    (mk b (ramControl m), calls).

(** A sequence of CPU writes: the mapper after them and the calls made. *)
Fixpoint cpuWrites (ws : list (Z * Z)) (m : t) : t * list effect :=
  match ws with
  | [] => (m, [])
  | (a, d) :: ws' =>
      let '(m1, e1) := cpuWrite a d m in
      let '(m2, e2) := cpuWrites ws' m1 in
      (m2, e1 ++ e2)
  end.

End Mapper006.

(* ================================================================== *)
(** ** Mapper 206, DxROM: a subset of MMC3 *)
(* ================================================================== *)

Module Mapper206.

(** The state is the inherited MMC3 state; [cpuRead] is inherited. *)
Definition reset (m : Mapper004.t) : Mapper004.t :=
  Mapper004.set_prgRamWriteProtect true
    (Mapper004.set_prgRamEnabled false
       (Mapper004.updateBanks
          (Mapper004.set_chrMode 0
             (Mapper004.set_prgMode 0 (Mapper004.reset m))))).

Definition cpuWrite (address data : Z) (m : Mapper004.t)
  : Mapper004.t * list effect :=
  if (0x8000 <=? address) && (address <=? 0x9FFF) then
    let r := Z.land address 1 in
    if r =? 0 then
      (Mapper004.updateBanks
         (Mapper004.set_chrMode 0
            (Mapper004.set_prgMode 0
               (Mapper004.set_bankSelect (Z.land data 0x07) m))), [])
    else
      let reg := Mapper004.reg m in
      let reg' :=
        match Mapper004.bankSelect m with
        | 0 => JS.store8 reg 0 (Z.land data 0xFE)
        | 1 => JS.store8 reg 1 (Z.land data 0xFE)
        | 2 => JS.store8 reg 2 data
        | 3 => JS.store8 reg 3 data
        | 4 => JS.store8 reg 4 data
        | 5 => JS.store8 reg 5 data
        | 6 => JS.store8 reg 6 (Z.land data 0x3F)
        | 7 => JS.store8 reg 7 (Z.land data 0x3F)
        | _ => reg
        end in
      (Mapper004.updateBanks (Mapper004.set_reg reg' m), [])
  else (m, []).

Fixpoint cpuWrites (ws : list (Z * Z)) (m : Mapper004.t)
  : Mapper004.t * list effect :=
  match ws with
  | [] => (m, [])
  | (a, d) :: ws' =>
      let '(m1, e1) := cpuWrite a d m in
      let '(m2, e2) := cpuWrites ws' m1 in
      (m2, e1 ++ e2)
  end.

End Mapper206.

(* ================================================================== *)
(** ** Mapper 047: MMC3 with two 128 KiB blocks (mappers/mapper047.js) *)
(* ================================================================== *)

Module Mapper047.

Record t := mk {
  base : Mapper004.t;
  block : Z
}.

(** [super.updateBanks()], then every PRG and CHR offset is moved into
    the selected block. *)
Definition updateBanks (m : t) : t :=
  let b := Mapper004.updateBanks (base m) in
  let prgBlockOffset := JS.shl (block m) 4 in
  let prg off :=
    let bank := JS.shr off 13 in
    let bank := JS.bor (JS.band bank 0x0F) prgBlockOffset in
    JS.toUint32 (JS.shl bank 13) in
  let chrBlockOffset := JS.shl (block m) 7 in
  let chr off :=
    let bank := JS.shr off 10 in
    let bank := JS.bor (JS.band bank 0x7F) chrBlockOffset in
    JS.toUint32 (JS.shl bank 10) in
  mk (Mapper004.set_chrOffsets (List.map chr (Mapper004.chrOffsets b))
        (Mapper004.set_prgOffsets (List.map prg (Mapper004.prgOffsets b)) b))
     (block m).

Definition reset (m : t) : t :=
  updateBanks (mk (Mapper004.reset (base m)) 0).

(** Outside $6000-$7FFF the write goes to the inherited [cpuWrite]; the
    [this.updateBanks()] of its $8000 and $8001 cases is the method
    above, which runs the MMC3 one first. *)
Definition cpuWrite (address value : Z) (m : t) : t * list effect :=
  if (0x6000 <=? address) && (address <=? 0x7FFF) then
    (updateBanks (mk (base m) (Z.land value 0x01)), [])
  else if (0x8000 <=? address) && (Z.land address 0xE000 =? 0x8000) then
    if Z.land address 1 =? 0 then
      (updateBanks
         (mk (Mapper004.set_bankSelect (Z.land value 7)
                (Mapper004.set_chrMode (Z.land (Z.shiftr value 7) 1)
                   (Mapper004.set_prgMode (Z.land (Z.shiftr value 6) 1)
                      (base m))))
             (block m)), [])
    else
      (updateBanks
         (mk (Mapper004.set_reg
                (JS.store8 (Mapper004.reg (base m))
                   (Mapper004.bankSelect (base m)) value) (base m))
             (block m)), [])
  else
    let '(b, calls) := Mapper004.cpuWrite address value (base m) in
    (mk b (block m), calls).

End Mapper047.
(* ================================================================== *)
(** ** Mapper 025, VRC4b / VRC4d (mappers/mapper025.js) *)
(* ================================================================== *)

Module Mapper025.

(** The four mirroring constants of [nes.rom]. *)
Record RomConstants := mkRomConstants {
  VERTICAL_MIRRORING : Z;
  HORIZONTAL_MIRRORING : Z;
  SINGLESCREEN_MIRRORING_A : Z;
  SINGLESCREEN_MIRRORING_B : Z
}.

(** The registers of the chip.  The PRG and CHR page maps live in the
    mapper base class, which is not among the source files: the calls
    [updatePrgBanks] and [updateChrBanks] make on it are a function of
    the registers below and are left out, and with them [cpuRead]. *)
Record t := mk {
  prgRegs : list Z;          (* the registers for $8000 and $A000 *)
  chrRegs : list Z;          (* Int32Array(8) *)
  mirroringReg : Z;
  programMode : Z;
  irqLatch : Z;
  irqCounter : Z;
  irqEnabled : bool;
  irqEnabledAfterAck : bool;
  irqMode : Z;               (* 0 = scanline, 1 = cycle *)
  prescaler : Z;
  pinA0 : Z;                 (* 1 on VRC4b, 2 on VRC4d *)
  pinA1 : Z;                 (* 2 on VRC4b, 1 on VRC4d *)
  prgRam : list Z;
  rom : RomConstants
}.

Definition set_prgRegs (v : list Z) (m : t) : t :=
  mk v (chrRegs m) (mirroringReg m) (programMode m) (irqLatch m)
    (irqCounter m) (irqEnabled m) (irqEnabledAfterAck m) (irqMode m)
    (prescaler m) (pinA0 m) (pinA1 m) (prgRam m) (rom m).
Definition set_chrRegs (v : list Z) (m : t) : t :=
  mk (prgRegs m) v (mirroringReg m) (programMode m) (irqLatch m)
    (irqCounter m) (irqEnabled m) (irqEnabledAfterAck m) (irqMode m)
    (prescaler m) (pinA0 m) (pinA1 m) (prgRam m) (rom m).
Definition set_mirroringReg (v : Z) (m : t) : t :=
  mk (prgRegs m) (chrRegs m) v (programMode m) (irqLatch m)
    (irqCounter m) (irqEnabled m) (irqEnabledAfterAck m) (irqMode m)
    (prescaler m) (pinA0 m) (pinA1 m) (prgRam m) (rom m).
Definition set_programMode (v : Z) (m : t) : t :=
  mk (prgRegs m) (chrRegs m) (mirroringReg m) v (irqLatch m)
    (irqCounter m) (irqEnabled m) (irqEnabledAfterAck m) (irqMode m)
    (prescaler m) (pinA0 m) (pinA1 m) (prgRam m) (rom m).
Definition set_irqLatch (v : Z) (m : t) : t :=
  mk (prgRegs m) (chrRegs m) (mirroringReg m) (programMode m) v
    (irqCounter m) (irqEnabled m) (irqEnabledAfterAck m) (irqMode m)
    (prescaler m) (pinA0 m) (pinA1 m) (prgRam m) (rom m).
Definition set_irqCounter (v : Z) (m : t) : t :=
  mk (prgRegs m) (chrRegs m) (mirroringReg m) (programMode m) (irqLatch m)
    v (irqEnabled m) (irqEnabledAfterAck m) (irqMode m)
    (prescaler m) (pinA0 m) (pinA1 m) (prgRam m) (rom m).
Definition set_irqEnabled (v : bool) (m : t) : t :=
  mk (prgRegs m) (chrRegs m) (mirroringReg m) (programMode m) (irqLatch m)
    (irqCounter m) v (irqEnabledAfterAck m) (irqMode m)
    (prescaler m) (pinA0 m) (pinA1 m) (prgRam m) (rom m).
Definition set_irqEnabledAfterAck (v : bool) (m : t) : t :=
  mk (prgRegs m) (chrRegs m) (mirroringReg m) (programMode m) (irqLatch m)
    (irqCounter m) (irqEnabled m) v (irqMode m)
    (prescaler m) (pinA0 m) (pinA1 m) (prgRam m) (rom m).
Definition set_irqMode (v : Z) (m : t) : t :=
  mk (prgRegs m) (chrRegs m) (mirroringReg m) (programMode m) (irqLatch m)
    (irqCounter m) (irqEnabled m) (irqEnabledAfterAck m) v
    (prescaler m) (pinA0 m) (pinA1 m) (prgRam m) (rom m).
Definition set_prescaler (v : Z) (m : t) : t :=
  mk (prgRegs m) (chrRegs m) (mirroringReg m) (programMode m) (irqLatch m)
    (irqCounter m) (irqEnabled m) (irqEnabledAfterAck m) (irqMode m)
    v (pinA0 m) (pinA1 m) (prgRam m) (rom m).
Definition set_prgRam (v : list Z) (m : t) : t :=
  mk (prgRegs m) (chrRegs m) (mirroringReg m) (programMode m) (irqLatch m)
    (irqCounter m) (irqEnabled m) (irqEnabledAfterAck m) (irqMode m)
    (prescaler m) (pinA0 m) (pinA1 m) v (rom m).

(** [arr[i] = v] on an [Int32Array]. *)
Definition storeInt32 (arr : list Z) (i v : Z) : list Z :=
  if i <? 0 then arr else <[Z.to_nat i := JS.toInt32 v]> arr.

(** The register address a CPU address selects: A15-A12, and the two
    address lines wired to the chip's A0 and A1. *)
Definition getRegisterAddress (address : Z) (m : t) : Z :=
  let a0 := if negb (Z.land address (pinA0 m) =? 0) then 1 else 0 in
  let a1 := if negb (Z.land address (pinA1 m) =? 0) then 1 else 0 in
  Z.lor (Z.lor (Z.land address 0xF000) (Z.shiftl a0 0)) (Z.shiftl a1 1).

(** The PPU is told the mode that the two low bits of the mirroring
    register select. *)
Definition updateMirroring (m : t) : list effect :=
  match Z.land (mirroringReg m) 0x03 with
  | 0 => [SetMirroring (VERTICAL_MIRRORING (rom m))]
  | 1 => [SetMirroring (HORIZONTAL_MIRRORING (rom m))]
  | 2 => [SetMirroring (SINGLESCREEN_MIRRORING_A (rom m))]
  | 3 => [SetMirroring (SINGLESCREEN_MIRRORING_B (rom m))]
  | _ => []
  end.

Definition writeChrReg (baseChrIndex regIndex value : Z) (m : t) : t :=
  let isHigh := negb (Z.land regIndex 0x01 =? 0) in
  let chrSlot := baseChrIndex + Z.land (Z.shiftr regIndex 1) 0x01 in
  let old := JS.getNum (chrRegs m) chrSlot in
  if isHigh then
    set_chrRegs
      (storeInt32 (chrRegs m) chrSlot
         (Z.lor (Z.land old 0x0F) (Z.shiftl (Z.land value 0x0F) 4))) m
  else
    set_chrRegs
      (storeInt32 (chrRegs m) chrSlot
         (Z.lor (Z.land old 0xF0) (Z.land value 0x0F))) m.

Definition cpuWrite (address value : Z) (m : t) : t * list effect :=
  if address <? 0x6000 then (m, [])
  else if address <? 0x8000 then
    (set_prgRam (JS.store8 (prgRam m) (address - 0x6000) value) m, [])
  else
    let regAddress := getRegisterAddress address m in
    let regIndex := Z.land regAddress 0x0003 in
    match regAddress with
    | 0x8000 | 0x8001 | 0x8002 | 0x8003 =>
        (set_prgRegs (<[0%nat := Z.land value 0x1F]> (prgRegs m)) m, [])
    | 0x9000 | 0x9001 =>
        let m' := set_mirroringReg (Z.land value 0x03) m in
        (m', updateMirroring m')
    | 0x9002 | 0x9003 =>
        (set_programMode (if negb (Z.land value 0x02 =? 0) then 1 else 0) m, [])
    | 0xA000 | 0xA001 | 0xA002 | 0xA003 =>
        (set_prgRegs (<[1%nat := Z.land value 0x1F]> (prgRegs m)) m, [])
    | 0xB000 | 0xB001 | 0xB002 | 0xB003 => (writeChrReg 0 regIndex value m, [])
    | 0xC000 | 0xC001 | 0xC002 | 0xC003 => (writeChrReg 2 regIndex value m, [])
    | 0xD000 | 0xD001 | 0xD002 | 0xD003 => (writeChrReg 4 regIndex value m, [])
    | 0xE000 | 0xE001 | 0xE002 | 0xE003 => (writeChrReg 6 regIndex value m, [])
    | 0xF000 =>
        (set_irqLatch
           (Z.lor (Z.land (irqLatch m) 0xF0) (Z.land value 0x0F)) m, [])
    | 0xF001 =>
        (set_irqLatch
           (Z.lor (Z.land (irqLatch m) 0x0F)
              (Z.shiftl (Z.land value 0x0F) 4)) m, [])
    | 0xF002 =>
        let m1 :=
          set_irqMode (if negb (Z.land value 0x04 =? 0) then 1 else 0)
            (set_irqEnabled (negb (Z.land value 0x02 =? 0))
               (set_irqEnabledAfterAck (negb (Z.land value 0x01 =? 0)) m)) in
        let m2 :=
          if irqEnabled m1
          then set_prescaler 341 (set_irqCounter (irqLatch m1) m1)
          else m1 in
        (m2, [ClearIrq IRQ_NORMAL])
    | 0xF003 =>
        (set_irqEnabled (irqEnabledAfterAck m) m, [ClearIrq IRQ_NORMAL])
    | _ => (m, [])
    end.

Fixpoint cpuWrites (ws : list (Z * Z)) (m : t) : t * list effect :=
  match ws with
  | [] => (m, [])
  | (a, d) :: ws' =>
      let '(m1, e1) := cpuWrite a d m in
      let '(m2, e2) := cpuWrites ws' m1 in
      (m2, e1 ++ e2)
  end.

(** One clock of the IRQ counter, the body of both loops of
    [cpuClock]: at $FF the counter is reloaded from the latch and the
    IRQ is requested, otherwise the counter goes up by one. *)
Definition clockIrqCounter (m : t) : t * list effect :=
  if irqCounter m =? 0xFF
  then (set_irqCounter (irqLatch m) m, [RequestIrq IRQ_NORMAL])
  else (set_irqCounter (irqCounter m + 1) m, []).

(** [while (this.prescaler <= 0) ...], at most [fuel] rounds. *)
Fixpoint scanlineLoop (fuel : nat) (m : t) : t * list effect :=
  match fuel with
  | O => (m, [])
  | S fuel' =>
      if prescaler m <=? 0 then
        let '(m1, e1) :=
          clockIrqCounter (set_prescaler (prescaler m + 341) m) in
        let '(m2, e2) := scanlineLoop fuel' m1 in
        (m2, e1 ++ e2)
      else (m, [])
  end.

(** [for (let i = 0; i < cpuCycles; i++) ...]. *)
Fixpoint cycleLoop (n : nat) (m : t) : t * list effect :=
  match n with
  | O => (m, [])
  | S n' =>
      let '(m1, e1) := clockIrqCounter m in
      let '(m2, e2) := cycleLoop n' m1 in
      (m2, e1 ++ e2)
  end.

(** Every round of the scanline loop adds 341 to the prescaler, so
    [1 - prescaler] rounds are more than the loop can make. *)
Definition cpuClock (cpuCycles : Z) (m : t) : t * list effect :=
  if negb (irqEnabled m) then (m, [])
  else if irqMode m =? 0 then
    let ppuCycles := cpuCycles * 3 in
    let m1 := set_prescaler (prescaler m - ppuCycles) m in
    scanlineLoop (Z.to_nat (1 - prescaler m1)) m1
  else cycleLoop (Z.to_nat cpuCycles) m.

End Mapper025.
(* ================================================================== *)
(** ** The pulse channels of the MMC5 (mappers/mapper005-audio.js) *)
(* ================================================================== *)

Module Mmc5Square.

(** Length counter lookup (same as APU). *)
Definition LENGTH_LOOKUP : list Z :=
  [0x0a; 0xfe; 0x14; 0x02; 0x28; 0x04; 0x50; 0x06;
   0xa0; 0x08; 0x3c; 0x0a; 0x0e; 0x0c; 0x1a; 0x0e;
   0x0c; 0x10; 0x18; 0x12; 0x30; 0x14; 0x60; 0x16;
   0xc0; 0x18; 0x48; 0x1a; 0x10; 0x1c; 0x20; 0x1e].

(** Duty sequences (same as APU). *)
Definition DUTY_LOOKUP : list Z :=
  [0; 1; 0; 0; 0; 0; 0; 0;
   0; 1; 1; 0; 0; 0; 0; 0;
   0; 1; 1; 1; 1; 0; 0; 0;
   1; 0; 0; 1; 1; 1; 1; 1].

Record t := mk {
  isEnabled : bool;
  lengthCounterHalt : bool;
  envDecayDisable : bool;
  envDecayLoopEnable : bool;
  envReset : bool;
  envDecayRate : Z;
  envDecayCounter : Z;
  envVolume : Z;
  masterVolume : Z;
  dutyMode : Z;
  lengthCounter : Z;
  lengthReloadValue : Z;
  timerCounter : Z;
  timerPeriod : Z;
  dutyPos : Z;
  output : Z
}.

Definition set_isEnabled (v : bool) (s : t) : t :=
  mk v (lengthCounterHalt s) (envDecayDisable s) (envDecayLoopEnable s)
    (envReset s) (envDecayRate s) (envDecayCounter s) (envVolume s)
    (masterVolume s) (dutyMode s) (lengthCounter s) (lengthReloadValue s)
    (timerCounter s) (timerPeriod s) (dutyPos s) (output s).
Definition set_lengthCounterHalt (v : bool) (s : t) : t :=
  mk (isEnabled s) v (envDecayDisable s) (envDecayLoopEnable s)
    (envReset s) (envDecayRate s) (envDecayCounter s) (envVolume s)
    (masterVolume s) (dutyMode s) (lengthCounter s) (lengthReloadValue s)
    (timerCounter s) (timerPeriod s) (dutyPos s) (output s).
Definition set_envDecayDisable (v : bool) (s : t) : t :=
  mk (isEnabled s) (lengthCounterHalt s) v (envDecayLoopEnable s)
    (envReset s) (envDecayRate s) (envDecayCounter s) (envVolume s)
    (masterVolume s) (dutyMode s) (lengthCounter s) (lengthReloadValue s)
    (timerCounter s) (timerPeriod s) (dutyPos s) (output s).
Definition set_envDecayLoopEnable (v : bool) (s : t) : t :=
  mk (isEnabled s) (lengthCounterHalt s) (envDecayDisable s) v
    (envReset s) (envDecayRate s) (envDecayCounter s) (envVolume s)
    (masterVolume s) (dutyMode s) (lengthCounter s) (lengthReloadValue s)
    (timerCounter s) (timerPeriod s) (dutyPos s) (output s).
Definition set_envReset (v : bool) (s : t) : t :=
  mk (isEnabled s) (lengthCounterHalt s) (envDecayDisable s)
    (envDecayLoopEnable s) v (envDecayRate s) (envDecayCounter s)
    (envVolume s) (masterVolume s) (dutyMode s) (lengthCounter s)
    (lengthReloadValue s) (timerCounter s) (timerPeriod s) (dutyPos s)
    (output s).
Definition set_envDecayRate (v : Z) (s : t) : t :=
  mk (isEnabled s) (lengthCounterHalt s) (envDecayDisable s)
    (envDecayLoopEnable s) (envReset s) v (envDecayCounter s)
    (envVolume s) (masterVolume s) (dutyMode s) (lengthCounter s)
    (lengthReloadValue s) (timerCounter s) (timerPeriod s) (dutyPos s)
    (output s).
Definition set_envDecayCounter (v : Z) (s : t) : t :=
  mk (isEnabled s) (lengthCounterHalt s) (envDecayDisable s)
    (envDecayLoopEnable s) (envReset s) (envDecayRate s) v (envVolume s)
    (masterVolume s) (dutyMode s) (lengthCounter s) (lengthReloadValue s)
    (timerCounter s) (timerPeriod s) (dutyPos s) (output s).
Definition set_envVolume (v : Z) (s : t) : t :=
  mk (isEnabled s) (lengthCounterHalt s) (envDecayDisable s)
    (envDecayLoopEnable s) (envReset s) (envDecayRate s)
    (envDecayCounter s) v (masterVolume s) (dutyMode s) (lengthCounter s)
    (lengthReloadValue s) (timerCounter s) (timerPeriod s) (dutyPos s)
    (output s).
Definition set_masterVolume (v : Z) (s : t) : t :=
  mk (isEnabled s) (lengthCounterHalt s) (envDecayDisable s)
    (envDecayLoopEnable s) (envReset s) (envDecayRate s)
    (envDecayCounter s) (envVolume s) v (dutyMode s) (lengthCounter s)
    (lengthReloadValue s) (timerCounter s) (timerPeriod s) (dutyPos s)
    (output s).
Definition set_dutyMode (v : Z) (s : t) : t :=
  mk (isEnabled s) (lengthCounterHalt s) (envDecayDisable s)
    (envDecayLoopEnable s) (envReset s) (envDecayRate s)
    (envDecayCounter s) (envVolume s) (masterVolume s) v (lengthCounter s)
    (lengthReloadValue s) (timerCounter s) (timerPeriod s) (dutyPos s)
    (output s).
Definition set_lengthCounter (v : Z) (s : t) : t :=
  mk (isEnabled s) (lengthCounterHalt s) (envDecayDisable s)
    (envDecayLoopEnable s) (envReset s) (envDecayRate s)
    (envDecayCounter s) (envVolume s) (masterVolume s) (dutyMode s) v
    (lengthReloadValue s) (timerCounter s) (timerPeriod s) (dutyPos s)
    (output s).
Definition set_lengthReloadValue (v : Z) (s : t) : t :=
  mk (isEnabled s) (lengthCounterHalt s) (envDecayDisable s)
    (envDecayLoopEnable s) (envReset s) (envDecayRate s)
    (envDecayCounter s) (envVolume s) (masterVolume s) (dutyMode s)
    (lengthCounter s) v (timerCounter s) (timerPeriod s) (dutyPos s)
    (output s).
Definition set_timerCounter (v : Z) (s : t) : t :=
  mk (isEnabled s) (lengthCounterHalt s) (envDecayDisable s)
    (envDecayLoopEnable s) (envReset s) (envDecayRate s)
    (envDecayCounter s) (envVolume s) (masterVolume s) (dutyMode s)
    (lengthCounter s) (lengthReloadValue s) v (timerPeriod s) (dutyPos s)
    (output s).
Definition set_timerPeriod (v : Z) (s : t) : t :=
  mk (isEnabled s) (lengthCounterHalt s) (envDecayDisable s)
    (envDecayLoopEnable s) (envReset s) (envDecayRate s)
    (envDecayCounter s) (envVolume s) (masterVolume s) (dutyMode s)
    (lengthCounter s) (lengthReloadValue s) (timerCounter s) v (dutyPos s)
    (output s).
Definition set_dutyPos (v : Z) (s : t) : t :=
  mk (isEnabled s) (lengthCounterHalt s) (envDecayDisable s)
    (envDecayLoopEnable s) (envReset s) (envDecayRate s)
    (envDecayCounter s) (envVolume s) (masterVolume s) (dutyMode s)
    (lengthCounter s) (lengthReloadValue s) (timerCounter s)
    (timerPeriod s) v (output s).
Definition set_output (v : Z) (s : t) : t :=
  mk (isEnabled s) (lengthCounterHalt s) (envDecayDisable s)
    (envDecayLoopEnable s) (envReset s) (envDecayRate s)
    (envDecayCounter s) (envVolume s) (masterVolume s) (dutyMode s)
    (lengthCounter s) (lengthReloadValue s) (timerCounter s)
    (timerPeriod s) (dutyPos s) v.

(** [reset()]; the constructor leaves the same values. *)
Definition reset (s : t) : t :=
  mk false false false false false 0 0 0 0 0 0 0 0 0 0 0.

(** An entry of a table, used as a number.  The registers are written
    with bytes, so [value >> 3] is inside [LENGTH_LOOKUP], and
    [dutyMode] (two bits) and [dutyPos] (three bits) make an index
    inside [DUTY_LOOKUP]. *)
Definition tableAt (table : list Z) (i : Z) : Z := JS.getNum table i.

Definition updateOutput (s : t) : t :=
  if isEnabled s && (0 <? lengthCounter s) then
    set_output
      (masterVolume s
       * tableAt DUTY_LOOKUP (Z.shiftl (dutyMode s) 3 + dutyPos s)) s
  else set_output 0 s.

(** [while (this.timerCounter <= 0) ...], at most [fuel] rounds. *)
Fixpoint timerLoop (fuel : nat) (s : t) : t :=
  match fuel with
  | O => s
  | S fuel' =>
      if timerCounter s <=? 0 then
        timerLoop fuel'
          (updateOutput
             (set_dutyPos (Z.land (dutyPos s + 1) 7)
                (set_timerCounter
                   (timerCounter s + Z.shiftl (timerPeriod s + 1) 1) s)))
      else s
  end.

(** With a timer period that is not negative every round adds at least
    2 to the counter, so [1 - timerCounter] rounds are more than the
    loop can make. *)
Definition clockTimer (nCycles : Z) (s : t) : t :=
  let s1 := set_timerCounter (timerCounter s - nCycles) s in
  timerLoop (Z.to_nat (1 - timerCounter s1)) s1.

Definition clockEnvelope (s : t) : t :=
  let s1 :=
    if envReset s then
      set_envVolume 0x0f
        (set_envDecayCounter (envDecayRate s + 1) (set_envReset false s))
    else
      let s' := set_envDecayCounter (envDecayCounter s - 1) s in
      if envDecayCounter s' <=? 0 then
        let s'' := set_envDecayCounter (envDecayRate s' + 1) s' in
        if 0 <? envVolume s'' then set_envVolume (envVolume s'' - 1) s''
        else set_envVolume (if envDecayLoopEnable s'' then 0x0f else 0) s''
      else s' in
  updateOutput
    (set_masterVolume
       (if envDecayDisable s1 then envDecayRate s1 else envVolume s1) s1).

Definition clockLengthCounter (s : t) : t :=
  if negb (lengthCounterHalt s) && (0 <? lengthCounter s) then
    let s1 := set_lengthCounter (lengthCounter s - 1) s in
    if lengthCounter s1 =? 0 then updateOutput s1 else s1
  else s.

Definition writeReg (addr value : Z) (s : t) : t :=
  match addr with
  | 0x5000 | 0x5004 =>
      let s1 := set_envDecayDisable (negb (Z.land value 0x10 =? 0)) s in
      let s2 := set_envDecayRate (Z.land value 0x0f) s1 in
      let s3 := set_lengthCounterHalt (negb (Z.land value 0x20 =? 0)) s2 in
      let s4 := set_envDecayLoopEnable (lengthCounterHalt s3) s3 in
      let s5 := set_dutyMode (Z.land (Z.shiftr value 6) 0x03) s4 in
      updateOutput
        (set_masterVolume
           (if envDecayDisable s5 then envDecayRate s5 else envVolume s5) s5)
  | 0x5001 | 0x5005 => s
  | 0x5002 | 0x5006 =>
      set_timerPeriod (Z.lor (Z.land (timerPeriod s) 0x700) value) s
  | 0x5003 | 0x5007 =>
      let s1 :=
        set_timerPeriod
          (Z.lor (Z.land (timerPeriod s) 0x0ff)
             (Z.shiftl (Z.land value 0x07) 8)) s in
      let s2 :=
        set_lengthReloadValue (tableAt LENGTH_LOOKUP (Z.shiftr value 3)) s1 in
      let s3 :=
        if isEnabled s2 then set_lengthCounter (lengthReloadValue s2) s2
        else s2 in
      updateOutput (set_envReset true s3)
  | _ => s
  end.

Definition setEnabled (value : bool) (s : t) : t :=
  let s1 := set_isEnabled value s in
  updateOutput (if negb value then set_lengthCounter 0 s1 else s1).

Definition getLengthStatus (s : t) : Z :=
  if (lengthCounter s =? 0) || negb (isEnabled s) then 0 else 1.

Definition getOutput (s : t) : Z := output s.

(** What the MMC5 audio unit does to a channel. *)
Inductive call : Type :=
| ClockTimer (nCycles : Z)
| ClockEnvelope
| ClockLengthCounter
| WriteReg (addr value : Z)
| SetEnabled (value : bool).

Definition apply_call (s : t) (c : call) : t :=
  match c with
  | ClockTimer n => clockTimer n s
  | ClockEnvelope => clockEnvelope s
  | ClockLengthCounter => clockLengthCounter s
  | WriteReg a v => writeReg a v s
  | SetEnabled b => setEnabled b s
  end.

Definition run_calls (s : t) (cs : list call) : t := fold_left apply_call cs s.

(** The registers are written with bytes. *)
Definition byte_call (c : call) : Prop :=
  match c with
  | WriteReg _ v => 0 <= v < 256
  | _ => True
  end.

(** The sample [updateOutput] computes from the other fields. *)
Definition expectedOutput (s : t) : Z :=
  if isEnabled s && (0 <? lengthCounter s)
  then masterVolume s
       * tableAt DUTY_LOOKUP (Z.shiftl (dutyMode s) 3 + dutyPos s)
  else 0.

(** The ranges of the fields the sample is computed from, and of the
    timer period. *)
Definition in_range (s : t) : Prop :=
  0 <= masterVolume s <= 15 /\ 0 <= envVolume s <= 15 /\
  0 <= envDecayRate s <= 15 /\ 0 <= dutyMode s <= 3 /\
  0 <= dutyPos s <= 7 /\ 0 <= timerPeriod s /\ 0 <= lengthCounter s.

(** A channel in the middle of a note. *)
Definition example : t :=
  mk true false false false false 5 3 9 9 2 20 20 7 0x1FD 3 9.

End Mmc5Square.
(* ================================================================== *)
(** ** The 6502 interpreter (class CPU) *)
(* ================================================================== *)

(** The collaborators of the CPU that are not among the source files
    (the PPU, the APU, the Zapper, the orchestrator's [catchUp]) and the
    cartridge mapper behind its interface.  [Env] is their joint state;
    an operation returns its result, the new state and the calls it made
    on the CPU.  A result of [None] is JavaScript's [undefined]. *)
Record Devices (Env : Type) := mkDevices {
  hasMapper : Env -> bool;                                  (* nes.mmap *)
  hasPapu : Env -> bool;                                    (* nes.papu *)
  catchUp : Env -> unit * Env * list effect;                (* nes.catchUp() *)
  ppu_readRegister : Z -> Env -> Z * Env * list effect;
  ppu_writeRegister : Z -> Z -> Env -> unit * Env * list effect;
  ppu_doDMA : Z -> list Z -> Env -> unit * Env * list effect; (* value, CPU RAM *)
  ppu_scanline : Env -> Z;
  ppu_cycle : Env -> Z;
  ppu_framebuffer : Env -> Z -> Z;                          (* pixel at an index *)
  zapper_x : Env -> Z;
  zapper_y : Env -> Z;
  zapper_fired : Env -> bool;
  papu_readReg : Z -> Env -> option Z * Env * list effect;
  papu_writeReg : Z -> Z -> Env -> unit * Env * list effect;
  mmap_cpuRead : Z -> Env -> option Z * Env * list effect;
  mmap_cpuWrite : Z -> Z -> Env -> unit * Env * list effect;
  mmap_onNmiVectorRead : Env -> unit * Env * list effect;   (* no-op when absent *)
  (* debugging hooks, called when present *)
  recordPpuTraceAccess : Z -> Z -> Z -> Env -> unit * Env * list effect;
  recordCpuInstruction : Z -> Z -> Env -> unit * Env * list effect
}.

Arguments hasMapper {Env}.
Arguments hasPapu {Env}.
Arguments catchUp {Env}.
Arguments ppu_readRegister {Env}.
Arguments ppu_writeRegister {Env}.
Arguments ppu_doDMA {Env}.
Arguments ppu_scanline {Env}.
Arguments ppu_cycle {Env}.
Arguments ppu_framebuffer {Env}.
Arguments zapper_x {Env}.
Arguments zapper_y {Env}.
Arguments zapper_fired {Env}.
Arguments papu_readReg {Env}.
Arguments papu_writeReg {Env}.
Arguments mmap_cpuRead {Env}.
Arguments mmap_cpuWrite {Env}.
Arguments mmap_onNmiVectorRead {Env}.
Arguments recordPpuTraceAccess {Env}.
Arguments recordCpuInstruction {Env}.

(** One transfer on the CPU bus. *)
Inductive access : Type :=
| BusRead (addr value : Z)
| BusWrite (addr value : Z).

Definition access_value (a : access) : Z :=
  match a with BusRead _ v => v | BusWrite _ v => v end.

Module CPU.

Section Machine.

Context {Env : Type}.

(** The fields of the CPU object, the two controllers of the console
    ([nes.controllers[1]], [nes.controllers[2]]) and the collaborators'
    state.  [busLog] is not a field of the program: it records every
    [cpuRead] and [cpuWrite], newest first, so that statements can speak
    of the transfers an instruction makes; nothing reads it. *)
Record t := mk {
  mem : list Z;   (* the first 2 KiB are the RAM *)
  cyclesToHalt : Z;
  irqRequested : bool;
  irqType : Z;
  REG_ACC : Z;
  REG_X : Z;
  REG_Y : Z;
  REG_SP : Z;
  REG_PC : Z;   (* address of the next instruction, minus one *)
  REG_PC_NEW : Z;
  REG_STATUS : Z;
  F_CARRY : Z;
  F_DECIMAL : Z;
  F_INTERRUPT : Z;
  F_INTERRUPT_NEW : Z;
  F_OVERFLOW : Z;
  F_SIGN : Z;
  F_ZERO : Z;   (* the last result: the Z flag is set when it is 0 *)
  F_NOTUSED : Z;
  F_BRK : Z;
  F_BRK_NEW : Z;
  cycleCount : Z;
  dataBus : Z;   (* the data-bus latch *)
  controller1Read : bool;
  controller2Read : bool;
  cycleOffset : Z;
  instructionCount : Z;
  inNMI : bool;
  nmiStartInstruction : Z;
  controller1 : Controller.t;   (* nes.controllers[1] *)
  controller2 : Controller.t;   (* nes.controllers[2] *)
  env : Env;   (* PPU, APU, mapper, Zapper *)
  busLog : list access   (* specification only *)
}.

Definition set_mem (v : list Z) (m : t) : t :=
  mk v (cyclesToHalt m) (irqRequested m) (irqType m) (REG_ACC m) (REG_X m)
    (REG_Y m) (REG_SP m) (REG_PC m) (REG_PC_NEW m) (REG_STATUS m)
    (F_CARRY m) (F_DECIMAL m) (F_INTERRUPT m) (F_INTERRUPT_NEW m)
    (F_OVERFLOW m) (F_SIGN m) (F_ZERO m) (F_NOTUSED m) (F_BRK m)
    (F_BRK_NEW m) (cycleCount m) (dataBus m) (controller1Read m)
    (controller2Read m) (cycleOffset m) (instructionCount m) (inNMI m)
    (nmiStartInstruction m) (controller1 m) (controller2 m) (env m)
    (busLog m).
Definition set_cyclesToHalt (v : Z) (m : t) : t :=
  mk (mem m) v (irqRequested m) (irqType m) (REG_ACC m) (REG_X m) (REG_Y m)
    (REG_SP m) (REG_PC m) (REG_PC_NEW m) (REG_STATUS m) (F_CARRY m)
    (F_DECIMAL m) (F_INTERRUPT m) (F_INTERRUPT_NEW m) (F_OVERFLOW m)
    (F_SIGN m) (F_ZERO m) (F_NOTUSED m) (F_BRK m) (F_BRK_NEW m)
    (cycleCount m) (dataBus m) (controller1Read m) (controller2Read m)
    (cycleOffset m) (instructionCount m) (inNMI m) (nmiStartInstruction m)
    (controller1 m) (controller2 m) (env m) (busLog m).
Definition set_irqRequested (v : bool) (m : t) : t :=
  mk (mem m) (cyclesToHalt m) v (irqType m) (REG_ACC m) (REG_X m) (REG_Y m)
    (REG_SP m) (REG_PC m) (REG_PC_NEW m) (REG_STATUS m) (F_CARRY m)
    (F_DECIMAL m) (F_INTERRUPT m) (F_INTERRUPT_NEW m) (F_OVERFLOW m)
    (F_SIGN m) (F_ZERO m) (F_NOTUSED m) (F_BRK m) (F_BRK_NEW m)
    (cycleCount m) (dataBus m) (controller1Read m) (controller2Read m)
    (cycleOffset m) (instructionCount m) (inNMI m) (nmiStartInstruction m)
    (controller1 m) (controller2 m) (env m) (busLog m).
Definition set_irqType (v : Z) (m : t) : t :=
  mk (mem m) (cyclesToHalt m) (irqRequested m) v (REG_ACC m) (REG_X m)
    (REG_Y m) (REG_SP m) (REG_PC m) (REG_PC_NEW m) (REG_STATUS m)
    (F_CARRY m) (F_DECIMAL m) (F_INTERRUPT m) (F_INTERRUPT_NEW m)
    (F_OVERFLOW m) (F_SIGN m) (F_ZERO m) (F_NOTUSED m) (F_BRK m)
    (F_BRK_NEW m) (cycleCount m) (dataBus m) (controller1Read m)
    (controller2Read m) (cycleOffset m) (instructionCount m) (inNMI m)
    (nmiStartInstruction m) (controller1 m) (controller2 m) (env m)
    (busLog m).
Definition set_REG_ACC (v : Z) (m : t) : t :=
  mk (mem m) (cyclesToHalt m) (irqRequested m) (irqType m) v (REG_X m)
    (REG_Y m) (REG_SP m) (REG_PC m) (REG_PC_NEW m) (REG_STATUS m)
    (F_CARRY m) (F_DECIMAL m) (F_INTERRUPT m) (F_INTERRUPT_NEW m)
    (F_OVERFLOW m) (F_SIGN m) (F_ZERO m) (F_NOTUSED m) (F_BRK m)
    (F_BRK_NEW m) (cycleCount m) (dataBus m) (controller1Read m)
    (controller2Read m) (cycleOffset m) (instructionCount m) (inNMI m)
    (nmiStartInstruction m) (controller1 m) (controller2 m) (env m)
    (busLog m).
Definition set_REG_X (v : Z) (m : t) : t :=
  mk (mem m) (cyclesToHalt m) (irqRequested m) (irqType m) (REG_ACC m) v
    (REG_Y m) (REG_SP m) (REG_PC m) (REG_PC_NEW m) (REG_STATUS m)
    (F_CARRY m) (F_DECIMAL m) (F_INTERRUPT m) (F_INTERRUPT_NEW m)
    (F_OVERFLOW m) (F_SIGN m) (F_ZERO m) (F_NOTUSED m) (F_BRK m)
    (F_BRK_NEW m) (cycleCount m) (dataBus m) (controller1Read m)
    (controller2Read m) (cycleOffset m) (instructionCount m) (inNMI m)
    (nmiStartInstruction m) (controller1 m) (controller2 m) (env m)
    (busLog m).
Definition set_REG_Y (v : Z) (m : t) : t :=
  mk (mem m) (cyclesToHalt m) (irqRequested m) (irqType m) (REG_ACC m)
    (REG_X m) v (REG_SP m) (REG_PC m) (REG_PC_NEW m) (REG_STATUS m)
    (F_CARRY m) (F_DECIMAL m) (F_INTERRUPT m) (F_INTERRUPT_NEW m)
    (F_OVERFLOW m) (F_SIGN m) (F_ZERO m) (F_NOTUSED m) (F_BRK m)
    (F_BRK_NEW m) (cycleCount m) (dataBus m) (controller1Read m)
    (controller2Read m) (cycleOffset m) (instructionCount m) (inNMI m)
    (nmiStartInstruction m) (controller1 m) (controller2 m) (env m)
    (busLog m).
Definition set_REG_SP (v : Z) (m : t) : t :=
  mk (mem m) (cyclesToHalt m) (irqRequested m) (irqType m) (REG_ACC m)
    (REG_X m) (REG_Y m) v (REG_PC m) (REG_PC_NEW m) (REG_STATUS m)
    (F_CARRY m) (F_DECIMAL m) (F_INTERRUPT m) (F_INTERRUPT_NEW m)
    (F_OVERFLOW m) (F_SIGN m) (F_ZERO m) (F_NOTUSED m) (F_BRK m)
    (F_BRK_NEW m) (cycleCount m) (dataBus m) (controller1Read m)
    (controller2Read m) (cycleOffset m) (instructionCount m) (inNMI m)
    (nmiStartInstruction m) (controller1 m) (controller2 m) (env m)
    (busLog m).
Definition set_REG_PC (v : Z) (m : t) : t :=
  mk (mem m) (cyclesToHalt m) (irqRequested m) (irqType m) (REG_ACC m)
    (REG_X m) (REG_Y m) (REG_SP m) v (REG_PC_NEW m) (REG_STATUS m)
    (F_CARRY m) (F_DECIMAL m) (F_INTERRUPT m) (F_INTERRUPT_NEW m)
    (F_OVERFLOW m) (F_SIGN m) (F_ZERO m) (F_NOTUSED m) (F_BRK m)
    (F_BRK_NEW m) (cycleCount m) (dataBus m) (controller1Read m)
    (controller2Read m) (cycleOffset m) (instructionCount m) (inNMI m)
    (nmiStartInstruction m) (controller1 m) (controller2 m) (env m)
    (busLog m).
Definition set_REG_PC_NEW (v : Z) (m : t) : t :=
  mk (mem m) (cyclesToHalt m) (irqRequested m) (irqType m) (REG_ACC m)
    (REG_X m) (REG_Y m) (REG_SP m) (REG_PC m) v (REG_STATUS m) (F_CARRY m)
    (F_DECIMAL m) (F_INTERRUPT m) (F_INTERRUPT_NEW m) (F_OVERFLOW m)
    (F_SIGN m) (F_ZERO m) (F_NOTUSED m) (F_BRK m) (F_BRK_NEW m)
    (cycleCount m) (dataBus m) (controller1Read m) (controller2Read m)
    (cycleOffset m) (instructionCount m) (inNMI m) (nmiStartInstruction m)
    (controller1 m) (controller2 m) (env m) (busLog m).
Definition set_REG_STATUS (v : Z) (m : t) : t :=
  mk (mem m) (cyclesToHalt m) (irqRequested m) (irqType m) (REG_ACC m)
    (REG_X m) (REG_Y m) (REG_SP m) (REG_PC m) (REG_PC_NEW m) v (F_CARRY m)
    (F_DECIMAL m) (F_INTERRUPT m) (F_INTERRUPT_NEW m) (F_OVERFLOW m)
    (F_SIGN m) (F_ZERO m) (F_NOTUSED m) (F_BRK m) (F_BRK_NEW m)
    (cycleCount m) (dataBus m) (controller1Read m) (controller2Read m)
    (cycleOffset m) (instructionCount m) (inNMI m) (nmiStartInstruction m)
    (controller1 m) (controller2 m) (env m) (busLog m).
Definition set_F_CARRY (v : Z) (m : t) : t :=
  mk (mem m) (cyclesToHalt m) (irqRequested m) (irqType m) (REG_ACC m)
    (REG_X m) (REG_Y m) (REG_SP m) (REG_PC m) (REG_PC_NEW m) (REG_STATUS m)
    v (F_DECIMAL m) (F_INTERRUPT m) (F_INTERRUPT_NEW m) (F_OVERFLOW m)
    (F_SIGN m) (F_ZERO m) (F_NOTUSED m) (F_BRK m) (F_BRK_NEW m)
    (cycleCount m) (dataBus m) (controller1Read m) (controller2Read m)
    (cycleOffset m) (instructionCount m) (inNMI m) (nmiStartInstruction m)
    (controller1 m) (controller2 m) (env m) (busLog m).
Definition set_F_DECIMAL (v : Z) (m : t) : t :=
  mk (mem m) (cyclesToHalt m) (irqRequested m) (irqType m) (REG_ACC m)
    (REG_X m) (REG_Y m) (REG_SP m) (REG_PC m) (REG_PC_NEW m) (REG_STATUS m)
    (F_CARRY m) v (F_INTERRUPT m) (F_INTERRUPT_NEW m) (F_OVERFLOW m)
    (F_SIGN m) (F_ZERO m) (F_NOTUSED m) (F_BRK m) (F_BRK_NEW m)
    (cycleCount m) (dataBus m) (controller1Read m) (controller2Read m)
    (cycleOffset m) (instructionCount m) (inNMI m) (nmiStartInstruction m)
    (controller1 m) (controller2 m) (env m) (busLog m).
Definition set_F_INTERRUPT (v : Z) (m : t) : t :=
  mk (mem m) (cyclesToHalt m) (irqRequested m) (irqType m) (REG_ACC m)
    (REG_X m) (REG_Y m) (REG_SP m) (REG_PC m) (REG_PC_NEW m) (REG_STATUS m)
    (F_CARRY m) (F_DECIMAL m) v (F_INTERRUPT_NEW m) (F_OVERFLOW m)
    (F_SIGN m) (F_ZERO m) (F_NOTUSED m) (F_BRK m) (F_BRK_NEW m)
    (cycleCount m) (dataBus m) (controller1Read m) (controller2Read m)
    (cycleOffset m) (instructionCount m) (inNMI m) (nmiStartInstruction m)
    (controller1 m) (controller2 m) (env m) (busLog m).
Definition set_F_INTERRUPT_NEW (v : Z) (m : t) : t :=
  mk (mem m) (cyclesToHalt m) (irqRequested m) (irqType m) (REG_ACC m)
    (REG_X m) (REG_Y m) (REG_SP m) (REG_PC m) (REG_PC_NEW m) (REG_STATUS m)
    (F_CARRY m) (F_DECIMAL m) (F_INTERRUPT m) v (F_OVERFLOW m) (F_SIGN m)
    (F_ZERO m) (F_NOTUSED m) (F_BRK m) (F_BRK_NEW m) (cycleCount m)
    (dataBus m) (controller1Read m) (controller2Read m) (cycleOffset m)
    (instructionCount m) (inNMI m) (nmiStartInstruction m) (controller1 m)
    (controller2 m) (env m) (busLog m).
Definition set_F_OVERFLOW (v : Z) (m : t) : t :=
  mk (mem m) (cyclesToHalt m) (irqRequested m) (irqType m) (REG_ACC m)
    (REG_X m) (REG_Y m) (REG_SP m) (REG_PC m) (REG_PC_NEW m) (REG_STATUS m)
    (F_CARRY m) (F_DECIMAL m) (F_INTERRUPT m) (F_INTERRUPT_NEW m) v
    (F_SIGN m) (F_ZERO m) (F_NOTUSED m) (F_BRK m) (F_BRK_NEW m)
    (cycleCount m) (dataBus m) (controller1Read m) (controller2Read m)
    (cycleOffset m) (instructionCount m) (inNMI m) (nmiStartInstruction m)
    (controller1 m) (controller2 m) (env m) (busLog m).
Definition set_F_SIGN (v : Z) (m : t) : t :=
  mk (mem m) (cyclesToHalt m) (irqRequested m) (irqType m) (REG_ACC m)
    (REG_X m) (REG_Y m) (REG_SP m) (REG_PC m) (REG_PC_NEW m) (REG_STATUS m)
    (F_CARRY m) (F_DECIMAL m) (F_INTERRUPT m) (F_INTERRUPT_NEW m)
    (F_OVERFLOW m) v (F_ZERO m) (F_NOTUSED m) (F_BRK m) (F_BRK_NEW m)
    (cycleCount m) (dataBus m) (controller1Read m) (controller2Read m)
    (cycleOffset m) (instructionCount m) (inNMI m) (nmiStartInstruction m)
    (controller1 m) (controller2 m) (env m) (busLog m).
Definition set_F_ZERO (v : Z) (m : t) : t :=
  mk (mem m) (cyclesToHalt m) (irqRequested m) (irqType m) (REG_ACC m)
    (REG_X m) (REG_Y m) (REG_SP m) (REG_PC m) (REG_PC_NEW m) (REG_STATUS m)
    (F_CARRY m) (F_DECIMAL m) (F_INTERRUPT m) (F_INTERRUPT_NEW m)
    (F_OVERFLOW m) (F_SIGN m) v (F_NOTUSED m) (F_BRK m) (F_BRK_NEW m)
    (cycleCount m) (dataBus m) (controller1Read m) (controller2Read m)
    (cycleOffset m) (instructionCount m) (inNMI m) (nmiStartInstruction m)
    (controller1 m) (controller2 m) (env m) (busLog m).
Definition set_F_NOTUSED (v : Z) (m : t) : t :=
  mk (mem m) (cyclesToHalt m) (irqRequested m) (irqType m) (REG_ACC m)
    (REG_X m) (REG_Y m) (REG_SP m) (REG_PC m) (REG_PC_NEW m) (REG_STATUS m)
    (F_CARRY m) (F_DECIMAL m) (F_INTERRUPT m) (F_INTERRUPT_NEW m)
    (F_OVERFLOW m) (F_SIGN m) (F_ZERO m) v (F_BRK m) (F_BRK_NEW m)
    (cycleCount m) (dataBus m) (controller1Read m) (controller2Read m)
    (cycleOffset m) (instructionCount m) (inNMI m) (nmiStartInstruction m)
    (controller1 m) (controller2 m) (env m) (busLog m).
Definition set_F_BRK (v : Z) (m : t) : t :=
  mk (mem m) (cyclesToHalt m) (irqRequested m) (irqType m) (REG_ACC m)
    (REG_X m) (REG_Y m) (REG_SP m) (REG_PC m) (REG_PC_NEW m) (REG_STATUS m)
    (F_CARRY m) (F_DECIMAL m) (F_INTERRUPT m) (F_INTERRUPT_NEW m)
    (F_OVERFLOW m) (F_SIGN m) (F_ZERO m) (F_NOTUSED m) v (F_BRK_NEW m)
    (cycleCount m) (dataBus m) (controller1Read m) (controller2Read m)
    (cycleOffset m) (instructionCount m) (inNMI m) (nmiStartInstruction m)
    (controller1 m) (controller2 m) (env m) (busLog m).
Definition set_F_BRK_NEW (v : Z) (m : t) : t :=
  mk (mem m) (cyclesToHalt m) (irqRequested m) (irqType m) (REG_ACC m)
    (REG_X m) (REG_Y m) (REG_SP m) (REG_PC m) (REG_PC_NEW m) (REG_STATUS m)
    (F_CARRY m) (F_DECIMAL m) (F_INTERRUPT m) (F_INTERRUPT_NEW m)
    (F_OVERFLOW m) (F_SIGN m) (F_ZERO m) (F_NOTUSED m) (F_BRK m) v
    (cycleCount m) (dataBus m) (controller1Read m) (controller2Read m)
    (cycleOffset m) (instructionCount m) (inNMI m) (nmiStartInstruction m)
    (controller1 m) (controller2 m) (env m) (busLog m).
Definition set_cycleCount (v : Z) (m : t) : t :=
  mk (mem m) (cyclesToHalt m) (irqRequested m) (irqType m) (REG_ACC m)
    (REG_X m) (REG_Y m) (REG_SP m) (REG_PC m) (REG_PC_NEW m) (REG_STATUS m)
    (F_CARRY m) (F_DECIMAL m) (F_INTERRUPT m) (F_INTERRUPT_NEW m)
    (F_OVERFLOW m) (F_SIGN m) (F_ZERO m) (F_NOTUSED m) (F_BRK m)
    (F_BRK_NEW m) v (dataBus m) (controller1Read m) (controller2Read m)
    (cycleOffset m) (instructionCount m) (inNMI m) (nmiStartInstruction m)
    (controller1 m) (controller2 m) (env m) (busLog m).
Definition set_dataBus (v : Z) (m : t) : t :=
  mk (mem m) (cyclesToHalt m) (irqRequested m) (irqType m) (REG_ACC m)
    (REG_X m) (REG_Y m) (REG_SP m) (REG_PC m) (REG_PC_NEW m) (REG_STATUS m)
    (F_CARRY m) (F_DECIMAL m) (F_INTERRUPT m) (F_INTERRUPT_NEW m)
    (F_OVERFLOW m) (F_SIGN m) (F_ZERO m) (F_NOTUSED m) (F_BRK m)
    (F_BRK_NEW m) (cycleCount m) v (controller1Read m) (controller2Read m)
    (cycleOffset m) (instructionCount m) (inNMI m) (nmiStartInstruction m)
    (controller1 m) (controller2 m) (env m) (busLog m).
Definition set_controller1Read (v : bool) (m : t) : t :=
  mk (mem m) (cyclesToHalt m) (irqRequested m) (irqType m) (REG_ACC m)
    (REG_X m) (REG_Y m) (REG_SP m) (REG_PC m) (REG_PC_NEW m) (REG_STATUS m)
    (F_CARRY m) (F_DECIMAL m) (F_INTERRUPT m) (F_INTERRUPT_NEW m)
    (F_OVERFLOW m) (F_SIGN m) (F_ZERO m) (F_NOTUSED m) (F_BRK m)
    (F_BRK_NEW m) (cycleCount m) (dataBus m) v (controller2Read m)
    (cycleOffset m) (instructionCount m) (inNMI m) (nmiStartInstruction m)
    (controller1 m) (controller2 m) (env m) (busLog m).
Definition set_controller2Read (v : bool) (m : t) : t :=
  mk (mem m) (cyclesToHalt m) (irqRequested m) (irqType m) (REG_ACC m)
    (REG_X m) (REG_Y m) (REG_SP m) (REG_PC m) (REG_PC_NEW m) (REG_STATUS m)
    (F_CARRY m) (F_DECIMAL m) (F_INTERRUPT m) (F_INTERRUPT_NEW m)
    (F_OVERFLOW m) (F_SIGN m) (F_ZERO m) (F_NOTUSED m) (F_BRK m)
    (F_BRK_NEW m) (cycleCount m) (dataBus m) (controller1Read m) v
    (cycleOffset m) (instructionCount m) (inNMI m) (nmiStartInstruction m)
    (controller1 m) (controller2 m) (env m) (busLog m).
Definition set_cycleOffset (v : Z) (m : t) : t :=
  mk (mem m) (cyclesToHalt m) (irqRequested m) (irqType m) (REG_ACC m)
    (REG_X m) (REG_Y m) (REG_SP m) (REG_PC m) (REG_PC_NEW m) (REG_STATUS m)
    (F_CARRY m) (F_DECIMAL m) (F_INTERRUPT m) (F_INTERRUPT_NEW m)
    (F_OVERFLOW m) (F_SIGN m) (F_ZERO m) (F_NOTUSED m) (F_BRK m)
    (F_BRK_NEW m) (cycleCount m) (dataBus m) (controller1Read m)
    (controller2Read m) v (instructionCount m) (inNMI m)
    (nmiStartInstruction m) (controller1 m) (controller2 m) (env m)
    (busLog m).
Definition set_instructionCount (v : Z) (m : t) : t :=
  mk (mem m) (cyclesToHalt m) (irqRequested m) (irqType m) (REG_ACC m)
    (REG_X m) (REG_Y m) (REG_SP m) (REG_PC m) (REG_PC_NEW m) (REG_STATUS m)
    (F_CARRY m) (F_DECIMAL m) (F_INTERRUPT m) (F_INTERRUPT_NEW m)
    (F_OVERFLOW m) (F_SIGN m) (F_ZERO m) (F_NOTUSED m) (F_BRK m)
    (F_BRK_NEW m) (cycleCount m) (dataBus m) (controller1Read m)
    (controller2Read m) (cycleOffset m) v (inNMI m) (nmiStartInstruction m)
    (controller1 m) (controller2 m) (env m) (busLog m).
Definition set_inNMI (v : bool) (m : t) : t :=
  mk (mem m) (cyclesToHalt m) (irqRequested m) (irqType m) (REG_ACC m)
    (REG_X m) (REG_Y m) (REG_SP m) (REG_PC m) (REG_PC_NEW m) (REG_STATUS m)
    (F_CARRY m) (F_DECIMAL m) (F_INTERRUPT m) (F_INTERRUPT_NEW m)
    (F_OVERFLOW m) (F_SIGN m) (F_ZERO m) (F_NOTUSED m) (F_BRK m)
    (F_BRK_NEW m) (cycleCount m) (dataBus m) (controller1Read m)
    (controller2Read m) (cycleOffset m) (instructionCount m) v
    (nmiStartInstruction m) (controller1 m) (controller2 m) (env m)
    (busLog m).
Definition set_nmiStartInstruction (v : Z) (m : t) : t :=
  mk (mem m) (cyclesToHalt m) (irqRequested m) (irqType m) (REG_ACC m)
    (REG_X m) (REG_Y m) (REG_SP m) (REG_PC m) (REG_PC_NEW m) (REG_STATUS m)
    (F_CARRY m) (F_DECIMAL m) (F_INTERRUPT m) (F_INTERRUPT_NEW m)
    (F_OVERFLOW m) (F_SIGN m) (F_ZERO m) (F_NOTUSED m) (F_BRK m)
    (F_BRK_NEW m) (cycleCount m) (dataBus m) (controller1Read m)
    (controller2Read m) (cycleOffset m) (instructionCount m) (inNMI m) v
    (controller1 m) (controller2 m) (env m) (busLog m).
Definition set_controller1 (v : Controller.t) (m : t) : t :=
  mk (mem m) (cyclesToHalt m) (irqRequested m) (irqType m) (REG_ACC m)
    (REG_X m) (REG_Y m) (REG_SP m) (REG_PC m) (REG_PC_NEW m) (REG_STATUS m)
    (F_CARRY m) (F_DECIMAL m) (F_INTERRUPT m) (F_INTERRUPT_NEW m)
    (F_OVERFLOW m) (F_SIGN m) (F_ZERO m) (F_NOTUSED m) (F_BRK m)
    (F_BRK_NEW m) (cycleCount m) (dataBus m) (controller1Read m)
    (controller2Read m) (cycleOffset m) (instructionCount m) (inNMI m)
    (nmiStartInstruction m) v (controller2 m) (env m) (busLog m).
Definition set_controller2 (v : Controller.t) (m : t) : t :=
  mk (mem m) (cyclesToHalt m) (irqRequested m) (irqType m) (REG_ACC m)
    (REG_X m) (REG_Y m) (REG_SP m) (REG_PC m) (REG_PC_NEW m) (REG_STATUS m)
    (F_CARRY m) (F_DECIMAL m) (F_INTERRUPT m) (F_INTERRUPT_NEW m)
    (F_OVERFLOW m) (F_SIGN m) (F_ZERO m) (F_NOTUSED m) (F_BRK m)
    (F_BRK_NEW m) (cycleCount m) (dataBus m) (controller1Read m)
    (controller2Read m) (cycleOffset m) (instructionCount m) (inNMI m)
    (nmiStartInstruction m) (controller1 m) v (env m) (busLog m).
Definition set_env (v : Env) (m : t) : t :=
  mk (mem m) (cyclesToHalt m) (irqRequested m) (irqType m) (REG_ACC m)
    (REG_X m) (REG_Y m) (REG_SP m) (REG_PC m) (REG_PC_NEW m) (REG_STATUS m)
    (F_CARRY m) (F_DECIMAL m) (F_INTERRUPT m) (F_INTERRUPT_NEW m)
    (F_OVERFLOW m) (F_SIGN m) (F_ZERO m) (F_NOTUSED m) (F_BRK m)
    (F_BRK_NEW m) (cycleCount m) (dataBus m) (controller1Read m)
    (controller2Read m) (cycleOffset m) (instructionCount m) (inNMI m)
    (nmiStartInstruction m) (controller1 m) (controller2 m) v (busLog m).
Definition set_busLog (v : list access) (m : t) : t :=
  mk (mem m) (cyclesToHalt m) (irqRequested m) (irqType m) (REG_ACC m)
    (REG_X m) (REG_Y m) (REG_SP m) (REG_PC m) (REG_PC_NEW m) (REG_STATUS m)
    (F_CARRY m) (F_DECIMAL m) (F_INTERRUPT m) (F_INTERRUPT_NEW m)
    (F_OVERFLOW m) (F_SIGN m) (F_ZERO m) (F_NOTUSED m) (F_BRK m)
    (F_BRK_NEW m) (cycleCount m) (dataBus m) (controller1Read m)
    (controller2Read m) (cycleOffset m) (instructionCount m) (inNMI m)
    (nmiStartInstruction m) (controller1 m) (controller2 m) (env m) v.

(** *** The state monad of the interpreter *)

Definition M (A : Type) : Type := t -> A * t.

Definition ret {A} (a : A) : M A := fun m => (a, m).

Definition bind {A B} (c : M A) (k : A -> M B) : M B :=
  fun m => let '(a, m') := c m in k a m'.

Definition gets {A} (f : t -> A) : M A := fun m => (f m, m).

Definition assign {A} (setter : A -> t -> t) (v : A) : M unit :=
  fun m => (tt, setter v m).

Definition when (b : bool) (c : M unit) : M unit := if b then c else ret tt.

(** A function of the machine that the collaborators cannot change:
    they act on their own state and, through [requestIrq], [clearIrq]
    and [haltCycles], on the interrupt latch and the halt counter. *)
Definition device_proof {A : Type} (f : t -> A) : Prop :=
  (forall v m, f (set_env v m) = f m) /\
  (forall v m, f (set_irqRequested v m) = f m) /\
  (forall v m, f (set_irqType v m) = f m) /\
  (forall v m, f (set_cyclesToHalt v m) = f m).

(** Two machines that differ at most in the registers, the flags and
    the counters of the interpreter, and in whether a request is
    pending. *)
Definition same_bus (m m' : t) : Prop :=
  mem m' = mem m /\
  dataBus m' = dataBus m /\
  busLog m' = busLog m /\
  controller1 m' = controller1 m /\
  controller2 m' = controller2 m /\
  controller1Read m' = controller1Read m /\
  controller2Read m' = controller2Read m /\
  env m' = env m /\
  irqType m' = irqType m /\
  cyclesToHalt m' = cyclesToHalt m.

(** A function of the machine that no bus transfer can change: it
    depends neither on what the collaborators can reach nor on the RAM,
    the latch, the log, the controllers and their read marks. *)
Definition bus_proof {A : Type} (f : t -> A) : Prop :=
  device_proof f /\
  (forall v m, f (set_dataBus v m) = f m) /\
  (forall v m, f (set_busLog v m) = f m) /\
  (forall v m, f (set_mem v m) = f m) /\
  (forall v m, f (set_controller1 v m) = f m) /\
  (forall v m, f (set_controller2 v m) = f m) /\
  (forall v m, f (set_controller1Read v m) = f m) /\
  (forall v m, f (set_controller2Read v m) = f m).

(** [hoare P c Q]: from a machine where [P] holds, [c] ends in a machine
    where [Q] holds. *)
Definition hoare {A : Type} (P : t -> Prop) (c : M A) (Q : t -> Prop) : Prop :=
  forall m, P m -> Q (snd (c m)).

End Machine.

Arguments t : clear implicits.
Arguments M : clear implicits.

Declare Scope cpu_scope.
Delimit Scope cpu_scope with cpu.
Notation "'let*' x ':=' c 'in' k" := (bind c (fun x => k))
  (at level 10, x name, c at level 200, k at level 200) : cpu_scope.
Notation "c ';;' k" := (bind c (fun _ => k))
  (at level 100, k at level 200, right associativity) : cpu_scope.
Notation "f '::=' v" := (assign f v) (at level 90, v at level 85) : cpu_scope.

Section Interpreter.

Context {Env : Type} (D : Devices Env).

Local Open Scope cpu_scope.

Local Abbreviation M := (M Env).
Local Abbreviation t := (t Env).

(** *** Interrupt requests *)

Definition requestIrq (type : Z) (m : t) : t :=
  if irqRequested m && (type =? IRQ_NORMAL) then m
  else set_irqType type (set_irqRequested true m).

Definition clearIrq (type : Z) (m : t) : t :=
  if irqRequested m && (irqType m =? type)
  then set_irqRequested false m
  else m.

Definition haltCycles (cycles : Z) (m : t) : t :=
  set_cyclesToHalt (cyclesToHalt m + cycles) m.

(** A call a collaborator makes on the CPU. *)
Definition apply_effect (m : t) (e : effect) : t :=
  match e with
  | RequestIrq type => requestIrq type m
  | ClearIrq type => clearIrq type m
  | HaltCycles n => haltCycles n m
  | SetMirroring _ => m
  end.

(** Run an operation of a collaborator. *)
Definition dev {A} (op : Env -> A * Env * list effect) : M A :=
  fun m =>
    let '(a, env', calls) := op (env m) in
    (a, fold_left apply_effect calls (set_env env' m)).

(** *** Memory mapping *)

(** The Zapper's light sensor, as [cpuRead] computes it for $4017. *)
Definition lightDetected (e : Env) : bool :=
  let radius := 8 in
  if (ppu_scanline D e <? 240) && (Z.abs (ppu_scanline D e - zapper_y D e) <=? radius)
  then
    let currentX := ppu_cycle D e - 2 in
    if (0 <=? currentX) && (currentX <? 256)
       && (Z.abs (currentX - zapper_x D e) <=? radius)
    then
      let pixel := ppu_framebuffer D e (ppu_scanline D e * 256 + currentX) in
      let r := Z.land (Z.shiftr pixel 16) 0xFF in
      let g := Z.land (Z.shiftr pixel 8) 0xFF in
      let b := Z.land pixel 0xFF in
      500 <? r + g + b
    else false
  else false.

(** The value [cpuRead] finds for [addr], before it latches it. *)
Definition readSource (addr : Z) : M Z :=
  if addr <? 0x2000 then
    gets (fun m => JS.getNum (mem m) (Z.land addr 0x7FF))
  else if addr <? 0x4000 then
    let reg := Z.land addr 0x0007 in
    dev (catchUp D) ;;
    dev (ppu_readRegister D reg)
  else if addr <? 0x4020 then
    if addr =? 0x4016 then
      let* c := gets controller1 in
      let '(value, c') := Controller.read c in
      set_controller1 ::= c' ;;
      set_controller1Read ::= true ;;
      ret value
    else if addr =? 0x4017 then
      dev (catchUp D) ;;
      let* c := gets controller2 in
      let '(ret0, c') := Controller.read c in
      set_controller2 ::= c' ;;
      set_controller2Read ::= true ;;
      let* e := gets env in
      let ret1 := if negb (lightDetected e) then Z.lor ret0 0x08 else ret0 in
      let ret2 := if negb (zapper_fired D e) then Z.lor ret1 0x10 else ret1 in
      ret ret2
    else
      let* e := gets env in
      if hasPapu D e then
        let* value := dev (papu_readReg D addr) in
        match value with
        | Some v => ret v
        | None => gets dataBus
        end
      else gets dataBus
  else
    let* value := dev (mmap_cpuRead D addr) in
    match value with
    | Some v => ret v
    | None => gets dataBus
    end.

Definition cpuRead (addr : Z) : M Z :=
  let* value := readSource addr in
  set_dataBus ::= value ;;
  let* log := gets busLog in
  set_busLog ::= BusRead addr value :: log ;;
  ret value.

Definition cpuRead16bit (addr : Z) : M Z :=
  let* e := gets env in
  when ((addr =? 0xFFFA) && hasMapper D e) (dev (mmap_onNmiVectorRead D)) ;;
  let* lo := cpuRead addr in
  let* hi := cpuRead (addr + 1) in
  ret (Z.lor lo (Z.shiftl hi 8)).

(** Where [cpuWrite] sends [val], after it has latched it. *)
Definition writeTarget (addr val : Z) : M unit :=
  if addr <? 0x2000 then
    let* ram := gets mem in
    set_mem ::= JS.store8 ram (Z.land addr 0x7FF) val
  else if addr <? 0x4000 then
    let reg := Z.land addr 0x0007 in
    dev (catchUp D) ;;
    dev (ppu_writeRegister D reg val)
  else if addr <? 0x4020 then
    if addr =? 0x4014 then
      dev (catchUp D) ;;
      let* ram := gets mem in
      dev (ppu_doDMA D val ram)
    else if addr =? 0x4016 then
      let* c1 := gets controller1 in
      set_controller1 ::= Controller.strobe val c1 ;;
      let* c2 := gets controller2 in
      set_controller2 ::= Controller.strobe val c2
    else
      let* e := gets env in
      when (hasPapu D e) (dev (papu_writeReg D addr val))
  else
    dev (catchUp D) ;;
    dev (mmap_cpuWrite D addr val).

Definition cpuWrite (addr val : Z) : M unit :=
  set_dataBus ::= val ;;
  let* log := gets busLog in
  set_busLog ::= BusWrite addr val :: log ;;
  let* pc := gets REG_PC in
  when (addr =? 0x4014) (dev (recordPpuTraceAccess D addr val pc)) ;;
  writeTarget addr val.

(** *** Stack and status *)

Definition push (value : Z) : M unit :=
  let* sp := gets REG_SP in
  cpuWrite (Z.lor 0x100 sp) value ;;
  let* sp' := gets REG_SP in
  set_REG_SP ::= Z.land (sp' - 1) 0xff.

Definition pull : M Z :=
  let* sp := gets REG_SP in
  set_REG_SP ::= Z.land (sp + 1) 0xff ;;
  let* sp' := gets REG_SP in
  cpuRead (Z.lor 0x100 sp').

(** The status byte with [brk] in bit 4. *)
Definition statusByte (brk : Z) (m : t) : Z :=
  let zeroFlag := if F_ZERO m =? 0 then 1 else 0 in
  Z.lor (Z.lor (Z.lor (Z.lor (Z.lor (Z.lor (Z.lor
    (F_CARRY m)
    (Z.shiftl zeroFlag 1))
    (Z.shiftl (F_INTERRUPT m) 2))
    (Z.shiftl (F_DECIMAL m) 3))
    (Z.shiftl brk 4))
    (Z.shiftl (F_NOTUSED m) 5))
    (Z.shiftl (F_OVERFLOW m) 6))
    (Z.shiftl (F_SIGN m) 7).

Definition getStatus (m : t) : Z := statusByte (F_BRK m) m.

Definition setStatus (st : Z) : M unit :=
  set_F_CARRY ::= Z.land st 1 ;;
  set_F_ZERO ::= (if Z.land (Z.shiftr st 1) 1 =? 0 then 1 else 0) ;;
  set_F_INTERRUPT ::= Z.land (Z.shiftr st 2) 1 ;;
  set_F_DECIMAL ::= Z.land (Z.shiftr st 3) 1 ;;
  set_F_BRK ::= Z.land (Z.shiftr st 4) 1 ;;
  set_F_NOTUSED ::= 1 ;;
  set_F_OVERFLOW ::= Z.land (Z.shiftr st 6) 1 ;;
  set_F_SIGN ::= Z.land (Z.shiftr st 7) 1.

Definition reset : M unit :=
  set_cycleCount ::= 0 ;;
  set_dataBus ::= 0 ;;
  set_controller1Read ::= false ;;
  set_controller2Read ::= false ;;
  set_REG_ACC ::= 0 ;;
  set_REG_X ::= 0 ;;
  set_REG_Y ::= 0 ;;
  set_REG_SP ::= 0xFD ;;
  set_REG_PC ::= 0x8000 - 1 ;;
  set_REG_PC_NEW ::= 0x8000 - 1 ;;
  set_REG_STATUS ::= 0x24 ;;
  setStatus 0x24 ;;
  let* brk := gets F_BRK in
  set_F_BRK_NEW ::= brk ;;
  let* i := gets F_INTERRUPT in
  set_F_INTERRUPT_NEW ::= i ;;
  set_cyclesToHalt ::= 0 ;;
  set_cycleOffset ::= 0 ;;
  set_irqRequested ::= true ;;
  set_irqType ::= IRQ_RESET ;;
  set_instructionCount ::= 0.

(** *** Interrupt sequences *)

Definition doNonMaskableInterrupt (status : Z) : M unit :=
  let* nmiVector := cpuRead16bit 0xfffa in
  let* pcNew := gets REG_PC_NEW in
  let pcToPush := Z.land (pcNew + 1) 0xFFFF in
  push (Z.land (Z.shiftr pcToPush 8) 0xff) ;;
  push (Z.land pcToPush 0xff) ;;
  push status ;;
  set_REG_PC_NEW ::= nmiVector - 1 ;;
  set_inNMI ::= true ;;
  set_F_INTERRUPT_NEW ::= 1 ;;
  let* n := gets instructionCount in
  set_nmiStartInstruction ::= n.

Definition doResetInterrupt : M unit :=
  let* lo := cpuRead 0xFFFC in
  let* hi := cpuRead 0xFFFD in
  let vec := Z.lor lo (Z.shiftl hi 8) in
  set_REG_PC_NEW ::= vec - 1.

Definition doIrq (status : Z) : M unit :=
  let* pcNew := gets REG_PC_NEW in
  let pcToPush := Z.land (pcNew + 1) 0xFFFF in
  push (Z.land (Z.shiftr pcToPush 8) 0xff) ;;
  push (Z.land pcToPush 0xff) ;;
  push status ;;
  set_F_INTERRUPT_NEW ::= 1 ;;
  set_F_BRK_NEW ::= 0 ;;
  let* vec := cpuRead16bit 0xfffe in
  set_REG_PC_NEW ::= vec - 1.

(** The first block of [emulate()]: the pending interrupt, if any. *)
Definition dispatchInterrupt : M unit :=
  let* requested := gets irqRequested in
  when requested (
    let* temp := gets (statusByte 0) in
    let* pc := gets REG_PC in
    set_REG_PC_NEW ::= pc ;;
    let* fi := gets F_INTERRUPT in
    set_F_INTERRUPT_NEW ::= fi ;;
    let* type := gets irqType in
    match type with
    | 0 => when (fi =? 0) (doIrq temp)
    | 1 => doNonMaskableInterrupt temp
    | 2 => doResetInterrupt
    | _ => ret tt
    end ;;
    let* pcNew := gets REG_PC_NEW in
    set_REG_PC ::= pcNew ;;
    let* fiNew := gets F_INTERRUPT_NEW in
    set_F_INTERRUPT ::= fiNew ;;
    let* brkNew := gets F_BRK_NEW in
    set_F_BRK ::= brkNew ;;
    let* type' := gets irqType in
    when (negb (type' =? 0)) (set_irqRequested ::= false)
  ).

(** *** The opcode table ([buildOpData]) *)

Definition ZP : Z := 0.
Definition REL : Z := 1.
Definition IMP : Z := 2.
Definition ABS : Z := 3.
Definition ACC : Z := 4.
Definition IMM : Z := 5.
Definition ZPX : Z := 6.
Definition ZPY : Z := 7.
Definition ABSX : Z := 8.
Definition ABSY : Z := 9.
Definition PRE : Z := 10.
Definition POST : Z := 11.
Definition IND : Z := 12.

Definition packOp (inst addr size cycles : Z) : Z :=
  Z.lor (Z.lor (Z.lor (Z.land inst 0xff)
    (Z.shiftl (Z.land addr 0xff) 8))
    (Z.shiftl (Z.land size 0xff) 16))
    (Z.shiftl (Z.land cycles 0xff) 24).

Definition setOp (opdata : list Z) (e : Z * Z * Z * Z * Z) : list Z :=
  let '(op, inst, addr, size, cycles) := e in
  <[Z.to_nat op := packOp inst addr size cycles]> opdata.

(** The [setOp] calls of [buildOpData], in the order of the source. *)
Definition opcodeEntries : list (Z * Z * Z * Z * Z) :=
  [ (0x69, 0, IMM, 2, 2); (0x65, 0, ZP, 2, 3); (0x75, 0, ZPX, 2, 4);
    (0x6d, 0, ABS, 3, 4); (0x7d, 0, ABSX, 3, 4); (0x79, 0, ABSY, 3, 4);
    (0x61, 0, PRE, 2, 6); (0x71, 0, POST, 2, 5); (0x29, 1, IMM, 2, 2);
    (0x25, 1, ZP, 2, 3); (0x35, 1, ZPX, 2, 4); (0x2d, 1, ABS, 3, 4);
    (0x3d, 1, ABSX, 3, 4); (0x39, 1, ABSY, 3, 4); (0x21, 1, PRE, 2, 6);
    (0x31, 1, POST, 2, 5); (0x0a, 2, ACC, 1, 2); (0x06, 2, ZP, 2, 5);
    (0x16, 2, ZPX, 2, 6); (0x0e, 2, ABS, 3, 6); (0x1e, 2, ABSX, 3, 7);
    (0x90, 3, REL, 2, 2); (0xb0, 4, REL, 2, 2); (0xf0, 5, REL, 2, 2);
    (0x24, 6, ZP, 2, 3); (0x2c, 6, ABS, 3, 4); (0x30, 7, REL, 2, 2);
    (0xd0, 8, REL, 2, 2); (0x10, 9, REL, 2, 2); (0x00, 10, IMP, 1, 7);
    (0x50, 11, REL, 2, 2); (0x70, 12, REL, 2, 2); (0x18, 13, IMP, 1, 2);
    (0xd8, 14, IMP, 1, 2); (0x58, 15, IMP, 1, 2); (0xb8, 16, IMP, 1, 2);
    (0xc9, 17, IMM, 2, 2); (0xc5, 17, ZP, 2, 3); (0xd5, 17, ZPX, 2, 4);
    (0xcd, 17, ABS, 3, 4); (0xdd, 17, ABSX, 3, 4); (0xd9, 17, ABSY, 3, 4);
    (0xc1, 17, PRE, 2, 6); (0xd1, 17, POST, 2, 5); (0xe0, 18, IMM, 2, 2);
    (0xe4, 18, ZP, 2, 3); (0xec, 18, ABS, 3, 4); (0xc0, 19, IMM, 2, 2);
    (0xc4, 19, ZP, 2, 3); (0xcc, 19, ABS, 3, 4); (0xc6, 20, ZP, 2, 5);
    (0xd6, 20, ZPX, 2, 6); (0xce, 20, ABS, 3, 6); (0xde, 20, ABSX, 3, 7);
    (0xca, 21, IMP, 1, 2); (0x88, 22, IMP, 1, 2); (0x49, 23, IMM, 2, 2);
    (0x45, 23, ZP, 2, 3); (0x55, 23, ZPX, 2, 4); (0x4d, 23, ABS, 3, 4);
    (0x5d, 23, ABSX, 3, 4); (0x59, 23, ABSY, 3, 4); (0x41, 23, PRE, 2, 6);
    (0x51, 23, POST, 2, 5); (0xe6, 24, ZP, 2, 5); (0xf6, 24, ZPX, 2, 6);
    (0xee, 24, ABS, 3, 6); (0xfe, 24, ABSX, 3, 7); (0xe8, 25, IMP, 1, 2);
    (0xc8, 26, IMP, 1, 2); (0x4c, 27, ABS, 3, 3); (0x6c, 27, IND, 3, 5);
    (0x20, 28, ABS, 3, 6); (0xa9, 29, IMM, 2, 2); (0xa5, 29, ZP, 2, 3);
    (0xb5, 29, ZPX, 2, 4); (0xad, 29, ABS, 3, 4); (0xbd, 29, ABSX, 3, 4);
    (0xb9, 29, ABSY, 3, 4); (0xa1, 29, PRE, 2, 6); (0xb1, 29, POST, 2, 5);
    (0xa2, 30, IMM, 2, 2); (0xa6, 30, ZP, 2, 3); (0xb6, 30, ZPY, 2, 4);
    (0xae, 30, ABS, 3, 4); (0xbe, 30, ABSY, 3, 4); (0xa0, 31, IMM, 2, 2);
    (0xa4, 31, ZP, 2, 3); (0xb4, 31, ZPX, 2, 4); (0xac, 31, ABS, 3, 4);
    (0xbc, 31, ABSX, 3, 4); (0x4a, 32, ACC, 1, 2); (0x46, 32, ZP, 2, 5);
    (0x56, 32, ZPX, 2, 6); (0x4e, 32, ABS, 3, 6); (0x5e, 32, ABSX, 3, 7);
    (0x1a, 33, IMP, 1, 2); (0x3a, 33, IMP, 1, 2); (0x5a, 33, IMP, 1, 2);
    (0x7a, 33, IMP, 1, 2); (0xda, 33, IMP, 1, 2); (0xea, 33, IMP, 1, 2);
    (0xfa, 33, IMP, 1, 2); (0x09, 34, IMM, 2, 2); (0x05, 34, ZP, 2, 3);
    (0x15, 34, ZPX, 2, 4); (0x0d, 34, ABS, 3, 4); (0x1d, 34, ABSX, 3, 4);
    (0x19, 34, ABSY, 3, 4); (0x01, 34, PRE, 2, 6); (0x11, 34, POST, 2, 5);
    (0x48, 35, IMP, 1, 3); (0x08, 36, IMP, 1, 3); (0x68, 37, IMP, 1, 4);
    (0x28, 38, IMP, 1, 4); (0x2a, 39, ACC, 1, 2); (0x26, 39, ZP, 2, 5);
    (0x36, 39, ZPX, 2, 6); (0x2e, 39, ABS, 3, 6); (0x3e, 39, ABSX, 3, 7);
    (0x6a, 40, ACC, 1, 2); (0x66, 40, ZP, 2, 5); (0x76, 40, ZPX, 2, 6);
    (0x6e, 40, ABS, 3, 6); (0x7e, 40, ABSX, 3, 7); (0x40, 41, IMP, 1, 6);
    (0x60, 42, IMP, 1, 6); (0xe9, 43, IMM, 2, 2); (0xe5, 43, ZP, 2, 3);
    (0xf5, 43, ZPX, 2, 4); (0xed, 43, ABS, 3, 4); (0xfd, 43, ABSX, 3, 4);
    (0xf9, 43, ABSY, 3, 4); (0xe1, 43, PRE, 2, 6); (0xf1, 43, POST, 2, 5);
    (0x38, 44, IMP, 1, 2); (0xf8, 45, IMP, 1, 2); (0x78, 46, IMP, 1, 2);
    (0x85, 47, ZP, 2, 3); (0x95, 47, ZPX, 2, 4); (0x8d, 47, ABS, 3, 4);
    (0x9d, 47, ABSX, 3, 5); (0x99, 47, ABSY, 3, 5); (0x81, 47, PRE, 2, 6);
    (0x91, 47, POST, 2, 6); (0x86, 48, ZP, 2, 3); (0x96, 48, ZPY, 2, 4);
    (0x8e, 48, ABS, 3, 4); (0x84, 49, ZP, 2, 3); (0x94, 49, ZPX, 2, 4);
    (0x8c, 49, ABS, 3, 4); (0xaa, 50, IMP, 1, 2); (0xa8, 51, IMP, 1, 2);
    (0xba, 52, IMP, 1, 2); (0x8a, 53, IMP, 1, 2); (0x9a, 54, IMP, 1, 2);
    (0x98, 55, IMP, 1, 2); (0x4b, 56, IMM, 2, 2); (0x0b, 56, IMM, 2, 2);
    (0x2b, 56, IMM, 2, 2); (0x6b, 56, IMM, 2, 2); (0xcb, 56, IMM, 2, 2);
    (0xa3, 57, PRE, 2, 6); (0xa7, 57, ZP, 2, 3); (0xaf, 57, ABS, 3, 4);
    (0xb3, 57, POST, 2, 5); (0xb7, 57, ZPY, 2, 4); (0xbf, 57, ABSY, 3, 4);
    (0x83, 58, PRE, 2, 6); (0x87, 58, ZP, 2, 3); (0x8f, 58, ABS, 3, 4);
    (0x97, 58, ZPY, 2, 4); (0xc3, 59, PRE, 2, 8); (0xc7, 59, ZP, 2, 5);
    (0xcf, 59, ABS, 3, 6); (0xd3, 59, POST, 2, 8); (0xd7, 59, ZPX, 2, 6);
    (0xdb, 59, ABSY, 3, 7); (0xdf, 59, ABSX, 3, 7); (0xe3, 60, PRE, 2, 8);
    (0xe7, 60, ZP, 2, 5); (0xef, 60, ABS, 3, 6); (0xf3, 60, POST, 2, 8);
    (0xf7, 60, ZPX, 2, 6); (0xfb, 60, ABSY, 3, 7); (0xff, 60, ABSX, 3, 7);
    (0x23, 61, PRE, 2, 8); (0x27, 61, ZP, 2, 5); (0x2f, 61, ABS, 3, 6);
    (0x33, 61, POST, 2, 8); (0x37, 61, ZPX, 2, 6); (0x3b, 61, ABSY, 3, 7);
    (0x3f, 61, ABSX, 3, 7); (0x63, 62, PRE, 2, 8); (0x67, 62, ZP, 2, 5);
    (0x6f, 62, ABS, 3, 6); (0x73, 62, POST, 2, 8); (0x77, 62, ZPX, 2, 6);
    (0x7b, 62, ABSY, 3, 7); (0x7f, 62, ABSX, 3, 7); (0x03, 63, PRE, 2, 8);
    (0x07, 63, ZP, 2, 5); (0x0f, 63, ABS, 3, 6); (0x13, 63, POST, 2, 8);
    (0x17, 63, ZPX, 2, 6); (0x1b, 63, ABSY, 3, 7); (0x1f, 63, ABSX, 3, 7);
    (0x43, 64, PRE, 2, 8); (0x47, 64, ZP, 2, 5); (0x4f, 64, ABS, 3, 6);
    (0x53, 64, POST, 2, 8); (0x57, 64, ZPX, 2, 6); (0x5b, 64, ABSY, 3, 7);
    (0x5f, 64, ABSX, 3, 7); (0x80, 68, IMM, 2, 2); (0x82, 68, IMM, 2, 2);
    (0x89, 68, IMM, 2, 2); (0xc2, 68, IMM, 2, 2); (0xe2, 68, IMM, 2, 2);
    (0x0c, 69, ABSX, 3, 4); (0x1c, 69, ABSX, 3, 4); (0x3c, 69, ABSX, 3, 4);
    (0x5c, 69, ABSX, 3, 4); (0x7c, 69, ABSX, 3, 4); (0xdc, 69, ABSX, 3, 4);
    (0xfc, 69, ABSX, 3, 4); (0x04, 69, ZP, 2, 3); (0x44, 69, ZP, 2, 3);
    (0x64, 69, ZP, 2, 3); (0x14, 69, ZPX, 2, 4); (0x34, 69, ZPX, 2, 4);
    (0x54, 69, ZPX, 2, 4); (0x74, 69, ZPX, 2, 4); (0xd4, 69, ZPX, 2, 4);
    (0xf4, 69, ZPX, 2, 4) ].

(** [opdata.fill(0xff)], the [setOp] calls, then NOP (implied, 1 byte,
    2 cycles) for every opcode left at [0xff]. *)
Definition buildOpData : list Z :=
  let filled := fold_left setOp opcodeEntries (replicate 256 0xff) in
  List.map (fun x => if x =? 0xff then packOp 33 IMP 1 2 else x) filled.

Definition OPDATA : list Z := Eval vm_compute in buildOpData.

(** [OPDATA[opcode]] used as a number: [undefined] counts as 0 in the
    shifts and masks that decode it. *)
Definition opInfo (opcode : Z) : Z := JS.getNum OPDATA opcode.

Definition instructionTypeOf (opinf : Z) : Z := Z.land opinf 0xff.
Definition addrModeOf (opinf : Z) : Z := Z.land (Z.shiftr opinf 8) 0xff.
Definition opSizeOf (opinf : Z) : Z := Z.land (Z.shiftr opinf 16) 0xff.
Definition baseCyclesOf (opinf : Z) : Z := Z.shiftr opinf 24.

(** ADC, AND, CMP, EOR, LDA, LDX, LDY, ORA, SBC, LAX. *)
Definition readInstructionsWithPenalty : list Z :=
  [0; 1; 17; 23; 29; 30; 31; 34; 43; 60].

Definition hasPenalty (instructionType : Z) : bool :=
  existsb (Z.eqb instructionType) readInstructionsWithPenalty.

(** The instructions whose case in [emulate()] writes memory: the
    stores STA, STX, STY, SAX and the read-modify-write instructions
    ASL, DEC, INC, LSR, ROL, ROR, DCP, ISC, RLA, RRA, SLO, SRE. *)
Definition storeAndRmwInstructions : list Z :=
  [47; 48; 49; 61; 2; 20; 24; 32; 39; 40; 62; 63; 64; 65; 66; 67].

(** *** Operand address ([switch (addrMode)]) *)

(** [(addr & 0xff00) !== ((addr + index) & 0xff00)]. *)
Definition pageCrossed (addr index : Z) : bool :=
  negb (Z.land addr 0xff00 =? Z.land (addr + index) 0xff00).

(** [(addr & 0xff00) | ((addr + index) & 0xff)]: the old page with the
    low byte of the sum, the address before the high byte is fixed up. *)
Definition preFixupAddress (addr index : Z) : Z :=
  Z.lor (Z.land addr 0xff00) (Z.land (addr + index) 0xff).

(** The indexed address and the page-cross cycles, with the dummy read
    when a page is crossed. *)
Definition indexed (addr index : Z) : M (Z * Z) :=
  if pageCrossed addr index then
    cpuRead (preFixupAddress addr index) ;;
    ret (addr + index, 1)
  else ret (addr + index, 0).

(** Returns [addr] (before [addr &= 0xffff]) and [pageCrossCycles]. *)
Definition resolveAddress (addrMode opaddr : Z) : M (Z * Z) :=
  match addrMode with
  | 0 => let* a := cpuRead (opaddr + 1) in ret (a, 0)
  | 1 =>
      let* rel := cpuRead (opaddr + 1) in
      let* pc := gets REG_PC in
      let base := Z.land (pc + 1) 0xFFFF in
      ret (base + (if rel <? 0x80 then rel else rel - 256), 0)
  | 2 => ret (0, 0)
  | 3 => let* a := cpuRead16bit (opaddr + 1) in ret (a, 0)
  | 4 => let* a := gets REG_ACC in ret (a, 0)
  | 5 => let* a := gets REG_PC in ret (a, 0)
  | 6 =>
      let* a := cpuRead (opaddr + 1) in
      let* x := gets REG_X in
      ret (Z.land (a + x) 0xff, 0)
  | 7 =>
      let* a := cpuRead (opaddr + 1) in
      let* y := gets REG_Y in
      ret (Z.land (a + y) 0xff, 0)
  | 8 =>
      let* a := cpuRead16bit (opaddr + 1) in
      let* x := gets REG_X in
      indexed a x
  | 9 =>
      let* a := cpuRead16bit (opaddr + 1) in
      let* y := gets REG_Y in
      indexed a y
  | 10 =>
      let* b := cpuRead (opaddr + 1) in
      let* x := gets REG_X in
      let ptr := Z.land (b + x) 0xff in
      let* lo := cpuRead ptr in
      let* hi := cpuRead (Z.land (ptr + 1) 0xff) in
      ret (Z.lor lo (Z.shiftl hi 8), 0)
  | 11 =>
      let* ptr := cpuRead (opaddr + 1) in
      let* lo := cpuRead ptr in
      let* hi := cpuRead (Z.land (ptr + 1) 0xff) in
      let* y := gets REG_Y in
      indexed (Z.lor lo (Z.shiftl hi 8)) y
  | 12 =>
      let* a := cpuRead16bit (opaddr + 1) in
      let lo := a in
      let hi := Z.lor (Z.land a 0xff00) (Z.land (a + 1) 0xff) in
      let* l := cpuRead lo in
      let* h := cpuRead hi in
      ret (Z.lor l (Z.shiftl h 8), 0)
  | _ => ret (0, 0)
  end.

(** *** Instructions ([switch (instructionType)]) *)

Local Infix ".&" := Z.land (at level 40, left associativity).
Local Infix ".|" := Z.lor (at level 50, left associativity).
Local Infix ".^" := Z.lxor (at level 50, left associativity).
Local Infix ">>" := Z.shiftr (at level 33, left associativity).
Local Infix "<<" := Z.shiftl (at level 33, left associativity).

Definition b2i (b : bool) : Z := if b then 1 else 0.

(** [F_SIGN = (v >> 7) & 1; F_ZERO = v]. *)
Definition setSignZero (v : Z) : M unit :=
  set_F_SIGN ::= (v >> 7) .& 1 ;;
  set_F_ZERO ::= v.

(** The body shared by the eight branch instructions; returns
    [branchCycles]. *)
Definition branch (taken : bool) (addr : Z) : M Z :=
  if taken then
    let* pc := gets REG_PC in
    set_REG_PC ::= addr - 1 ;;
    ret (if negb ((pc + 1) .& 0xff00 =? addr .& 0xff00) then 2 else 1)
  else ret 0.

(** The arithmetic of ADC, also the second half of RRA. *)
Definition addWithCarry (val : Z) : M unit :=
  let* a := gets REG_ACC in
  let* c := gets F_CARRY in
  let temp := a + val + c in
  set_F_OVERFLOW ::=
    b2i (((a .^ val) .& 0x80 =? 0) && negb ((a .^ temp) .& 0x80 =? 0)) ;;
  set_F_CARRY ::= b2i (255 <? temp) ;;
  set_F_SIGN ::= (temp >> 7) .& 1 ;;
  set_F_ZERO ::= temp .& 0xff ;;
  set_REG_ACC ::= temp .& 0xff.

(** The arithmetic of SBC, also the second half of ISC. *)
Definition subWithCarry (val : Z) : M unit :=
  let* a := gets REG_ACC in
  let* c := gets F_CARRY in
  let temp := a - val - (1 - c) in
  set_F_SIGN ::= (temp >> 7) .& 1 ;;
  set_F_ZERO ::= temp .& 0xff ;;
  set_F_OVERFLOW ::=
    b2i (negb ((a .^ temp) .& 0x80 =? 0) && negb ((a .^ val) .& 0x80 =? 0)) ;;
  set_F_CARRY ::= b2i (negb (temp <? 0)) ;;
  set_REG_ACC ::= temp .& 0xff.

(** The flags of a comparison whose difference is [temp]. *)
Definition compareFlags (temp : Z) : M unit :=
  set_F_CARRY ::= b2i (0 <=? temp) ;;
  set_F_SIGN ::= (temp >> 7) .& 1 ;;
  set_F_ZERO ::= temp .& 0xff.

(** Returns [branchCycles]. *)
Definition execute (instructionType addrMode addr : Z) : M Z :=
  match instructionType with
  | 0 => (* ADC *)
      let* val := cpuRead addr in addWithCarry val ;; ret 0
  | 1 => (* AND *)
      let* a := gets REG_ACC in
      let* val := cpuRead addr in
      set_REG_ACC ::= a .& val ;;
      setSignZero (a .& val) ;; ret 0
  | 2 => (* ASL *)
      (if addrMode =? 4 then
         let* a := gets REG_ACC in
         set_F_CARRY ::= (a >> 7) .& 1 ;;
         set_REG_ACC ::= (a << 1) .& 0xff ;;
         setSignZero ((a << 1) .& 0xff)
       else
         let* temp := cpuRead addr in
         cpuWrite addr temp ;;
         set_F_CARRY ::= (temp >> 7) .& 1 ;;
         let temp' := (temp << 1) .& 0xff in
         setSignZero temp' ;;
         cpuWrite addr temp') ;;
      ret 0
  | 3 => let* c := gets F_CARRY in branch (c =? 0) addr            (* BCC *)
  | 4 => let* c := gets F_CARRY in branch (c =? 1) addr            (* BCS *)
  | 5 => let* z := gets F_ZERO in branch (z =? 0) addr             (* BEQ *)
  | 6 => (* BIT *)
      let* temp := cpuRead addr in
      set_F_SIGN ::= (temp >> 7) .& 1 ;;
      set_F_OVERFLOW ::= (temp >> 6) .& 1 ;;
      let* a := gets REG_ACC in
      set_F_ZERO ::= temp .& a ;;
      ret 0
  | 7 => let* s := gets F_SIGN in branch (s =? 1) addr             (* BMI *)
  | 8 => let* z := gets F_ZERO in branch (negb (z =? 0)) addr      (* BNE *)
  | 9 => let* s := gets F_SIGN in branch (s =? 0) addr             (* BPL *)
  | 10 => (* BRK *)
      let* pc := gets REG_PC in
      set_REG_PC ::= pc + 2 ;;
      push (((pc + 2) >> 8) .& 0xff) ;;
      push ((pc + 2) .& 0xff) ;;
      set_F_BRK ::= 1 ;;
      let* st := gets getStatus in
      push st ;;
      set_F_INTERRUPT ::= 1 ;;
      let* vec := cpuRead16bit 0xfffe in
      set_REG_PC ::= vec - 1 ;;
      ret 0
  | 11 => let* v := gets F_OVERFLOW in branch (v =? 0) addr        (* BVC *)
  | 12 => let* v := gets F_OVERFLOW in branch (v =? 1) addr        (* BVS *)
  | 13 => set_F_CARRY ::= 0 ;; ret 0                          (* CLC *)
  | 14 => set_F_DECIMAL ::= 0 ;; ret 0                        (* CLD *)
  | 15 => set_F_INTERRUPT ::= 0 ;; ret 0                      (* CLI *)
  | 16 => set_F_OVERFLOW ::= 0 ;; ret 0                       (* CLV *)
  | 17 => (* CMP *)
      let* a := gets REG_ACC in
      let* val := cpuRead addr in
      compareFlags (a - val) ;; ret 0
  | 18 => (* CPX *)
      let* x := gets REG_X in
      let* val := cpuRead addr in
      compareFlags (x - val) ;; ret 0
  | 19 => (* CPY *)
      let* y := gets REG_Y in
      let* val := cpuRead addr in
      compareFlags (y - val) ;; ret 0
  | 20 => (* DEC *)
      let* val := cpuRead addr in
      cpuWrite addr val ;;
      let temp := (val - 1) .& 0xff in
      setSignZero temp ;;
      cpuWrite addr temp ;; ret 0
  | 21 => (* DEX *)
      let* x := gets REG_X in
      set_REG_X ::= (x - 1) .& 0xff ;;
      setSignZero ((x - 1) .& 0xff) ;; ret 0
  | 22 => (* DEY *)
      let* y := gets REG_Y in
      set_REG_Y ::= (y - 1) .& 0xff ;;
      setSignZero ((y - 1) .& 0xff) ;; ret 0
  | 23 => (* EOR *)
      let* val := cpuRead addr in
      let* a := gets REG_ACC in
      set_REG_ACC ::= (val .^ a) .& 0xff ;;
      setSignZero ((val .^ a) .& 0xff) ;; ret 0
  | 24 => (* INC *)
      let* val := cpuRead addr in
      cpuWrite addr val ;;
      let temp := (val + 1) .& 0xff in
      setSignZero temp ;;
      cpuWrite addr temp ;; ret 0
  | 25 => (* INX *)
      let* x := gets REG_X in
      set_REG_X ::= (x + 1) .& 0xff ;;
      setSignZero ((x + 1) .& 0xff) ;; ret 0
  | 26 => (* INY *)
      let* y := gets REG_Y in
      set_REG_Y ::= (y + 1) .& 0xff ;;
      setSignZero ((y + 1) .& 0xff) ;; ret 0
  | 27 => set_REG_PC ::= addr - 1 ;; ret 0                    (* JMP *)
  | 28 => (* JSR *)
      let* pcToPush := gets REG_PC in
      push ((pcToPush >> 8) .& 0xff) ;;
      push (pcToPush .& 0xff) ;;
      set_REG_PC ::= addr - 1 ;; ret 0
  | 29 => (* LDA *)
      let* val := cpuRead addr in
      set_REG_ACC ::= val ;;
      setSignZero val ;; ret 0
  | 30 => (* LDX *)
      let* val := cpuRead addr in
      set_REG_X ::= val ;;
      setSignZero val ;; ret 0
  | 31 => (* LDY *)
      let* val := cpuRead addr in
      set_REG_Y ::= val ;;
      setSignZero val ;; ret 0
  | 32 => (* LSR *)
      let* temp :=
        (if addrMode =? 4 then
           let* a := gets REG_ACC in
           set_F_CARRY ::= a .& 1 ;;
           set_REG_ACC ::= a >> 1 ;;
           ret (a >> 1)
         else
           let* temp := cpuRead addr in
           cpuWrite addr temp ;;
           set_F_CARRY ::= temp .& 1 ;;
           cpuWrite addr (temp >> 1) ;;
           ret (temp >> 1)) in
      set_F_SIGN ::= 0 ;;
      set_F_ZERO ::= temp ;; ret 0
  | 33 => ret 0                                               (* NOP *)
  | 34 => (* ORA *)
      let* val := cpuRead addr in
      let* a := gets REG_ACC in
      set_REG_ACC ::= (val .| a) .& 0xff ;;
      setSignZero ((val .| a) .& 0xff) ;; ret 0
  | 35 => let* a := gets REG_ACC in push a ;; ret 0                (* PHA *)
  | 36 => let* st := gets getStatus in push (st .| 0x10) ;; ret 0  (* PHP *)
  | 37 => (* PLA *)
      let* val := pull in
      set_REG_ACC ::= val ;;
      setSignZero val ;; ret 0
  | 38 => let* st := pull in setStatus st ;; ret 0                 (* PLP *)
  | 39 => (* ROL *)
      let* temp :=
        (if addrMode =? 4 then
           let* a := gets REG_ACC in
           let* add := gets F_CARRY in
           set_F_CARRY ::= (a >> 7) .& 1 ;;
           let temp := ((a << 1) .& 0xff) + add in
           set_REG_ACC ::= temp ;;
           ret temp
         else
           let* temp := cpuRead addr in
           cpuWrite addr temp ;;
           let* add := gets F_CARRY in
           set_F_CARRY ::= (temp >> 7) .& 1 ;;
           let temp' := ((temp << 1) .& 0xff) + add in
           cpuWrite addr temp' ;;
           ret temp') in
      setSignZero temp ;; ret 0
  | 40 => (* ROR *)
      let* temp :=
        (if addrMode =? 4 then
           let* c := gets F_CARRY in
           let add := c << 7 in
           let* a := gets REG_ACC in
           set_F_CARRY ::= a .& 1 ;;
           let temp := (a >> 1) + add in
           set_REG_ACC ::= temp ;;
           ret temp
         else
           let* temp := cpuRead addr in
           cpuWrite addr temp ;;
           let* c := gets F_CARRY in
           let add := c << 7 in
           set_F_CARRY ::= temp .& 1 ;;
           let temp' := (temp >> 1) + add in
           cpuWrite addr temp' ;;
           ret temp') in
      setSignZero temp ;; ret 0
  | 41 => (* RTI *)
      let* st := pull in
      setStatus st ;;
      let* lo := pull in
      set_REG_PC ::= lo ;;
      let* hi := pull in
      set_REG_PC ::= lo + (hi << 8) ;;
      set_inNMI ::= false ;;
      set_REG_PC ::= lo + (hi << 8) - 1 ;; ret 0
  | 42 => (* RTS *)
      let* lo := pull in
      let* hi := pull in
      set_REG_PC ::= lo .| (hi << 8) ;; ret 0
  | 43 => (* SBC *)
      let* val := cpuRead addr in subWithCarry val ;; ret 0
  | 44 => set_F_CARRY ::= 1 ;; ret 0                          (* SEC *)
  | 45 => set_F_DECIMAL ::= 1 ;; ret 0                        (* SED *)
  | 46 => set_F_INTERRUPT ::= 1 ;; ret 0                      (* SEI *)
  | 47 => let* a := gets REG_ACC in cpuWrite addr a ;; ret 0       (* STA *)
  | 48 => let* x := gets REG_X in cpuWrite addr x ;; ret 0         (* STX *)
  | 49 => let* y := gets REG_Y in cpuWrite addr y ;; ret 0         (* STY *)
  | 50 => (* TAX *)
      let* a := gets REG_ACC in set_REG_X ::= a ;; setSignZero a ;; ret 0
  | 51 => (* TAY *)
      let* a := gets REG_ACC in set_REG_Y ::= a ;; setSignZero a ;; ret 0
  | 52 => (* TSX *)
      let* sp := gets REG_SP in
      set_REG_X ::= sp .& 0xff ;;
      set_F_SIGN ::= (sp >> 7) .& 1 ;;
      set_F_ZERO ::= sp .& 0xff ;; ret 0
  | 53 => (* TXA *)
      let* x := gets REG_X in set_REG_ACC ::= x ;; setSignZero x ;; ret 0
  | 54 => let* x := gets REG_X in set_REG_SP ::= x .& 0xff ;; ret 0 (* TXS *)
  | 55 => (* TYA *)
      let* y := gets REG_Y in set_REG_ACC ::= y ;; setSignZero y ;; ret 0
  (* the unofficial instructions *)
  | 56 =>
      let* a := gets REG_ACC in
      let* val := cpuRead addr in
      let temp := a .& val in
      set_F_CARRY ::= temp .& 1 ;;
      set_F_ZERO ::= temp >> 1 ;;
      set_REG_ACC ::= temp >> 1 ;;
      set_F_SIGN ::= 0 ;; ret 0
  | 57 =>
      let* a := gets REG_ACC in
      let* val := cpuRead addr in
      set_F_ZERO ::= a .& val ;;
      set_REG_ACC ::= a .& val ;;
      set_F_SIGN ::= ((a .& val) >> 7) .& 1 ;;
      set_F_CARRY ::= ((a .& val) >> 7) .& 1 ;; ret 0
  | 58 =>
      let* a := gets REG_ACC in
      let* val := cpuRead addr in
      let temp := a .& val in
      let* c := gets F_CARRY in
      set_F_ZERO ::= (temp >> 1) + (c << 7) ;;
      set_REG_ACC ::= (temp >> 1) + (c << 7) ;;
      set_F_SIGN ::= c ;;
      set_F_CARRY ::= (temp >> 7) .& 1 ;;
      set_F_OVERFLOW ::= ((temp >> 7) .^ (temp >> 6)) .& 1 ;; ret 0
  | 59 =>
      let* val := cpuRead addr in
      let* x := gets REG_X in
      let* a := gets REG_ACC in
      let temp := (x .& a) - val in
      set_F_SIGN ::= (temp >> 7) .& 1 ;;
      set_F_ZERO ::= temp .& 0xff ;;
      set_F_OVERFLOW ::=
        b2i (negb ((x .^ temp) .& 0x80 =? 0) && negb ((x .^ val) .& 0x80 =? 0)) ;;
      set_F_CARRY ::= b2i (negb (temp <? 0)) ;;
      set_REG_X ::= temp .& 0xff ;; ret 0
  | 60 => (* LAX *)
      let* val := cpuRead addr in
      set_F_ZERO ::= val ;;
      set_REG_X ::= val ;;
      set_REG_ACC ::= val ;;
      set_F_SIGN ::= (val >> 7) .& 1 ;; ret 0
  | 61 => (* SAX *)
      let* a := gets REG_ACC in
      let* x := gets REG_X in
      cpuWrite addr (a .& x) ;; ret 0
  | 62 => (* DCP *)
      let* val := cpuRead addr in
      cpuWrite addr val ;;
      let temp := (val - 1) .& 0xff in
      cpuWrite addr temp ;;
      let* a := gets REG_ACC in
      compareFlags (a - temp) ;; ret 0
  | 63 => (* ISC *)
      let* val := cpuRead addr in
      cpuWrite addr val ;;
      let temp := (val + 1) .& 0xff in
      cpuWrite addr temp ;;
      subWithCarry temp ;; ret 0
  | 64 => (* RLA *)
      let* val := cpuRead addr in
      cpuWrite addr val ;;
      let* add := gets F_CARRY in
      set_F_CARRY ::= (val >> 7) .& 1 ;;
      let temp := ((val << 1) .& 0xff) + add in
      cpuWrite addr temp ;;
      let* a := gets REG_ACC in
      set_REG_ACC ::= a .& temp ;;
      setSignZero (a .& temp) ;; ret 0
  | 65 => (* RRA *)
      let* val := cpuRead addr in
      cpuWrite addr val ;;
      let* c := gets F_CARRY in
      let add := c << 7 in
      set_F_CARRY ::= val .& 1 ;;
      let temp := (val >> 1) + add in
      cpuWrite addr temp ;;
      addWithCarry temp ;; ret 0
  | 66 => (* SLO *)
      let* val := cpuRead addr in
      cpuWrite addr val ;;
      set_F_CARRY ::= (val >> 7) .& 1 ;;
      let temp := (val << 1) .& 0xff in
      cpuWrite addr temp ;;
      let* a := gets REG_ACC in
      set_REG_ACC ::= a .| temp ;;
      setSignZero (a .| temp) ;; ret 0
  | 67 => (* SRE *)
      let* val := cpuRead addr in
      cpuWrite addr val ;;
      set_F_CARRY ::= val .& 1 ;;
      let temp := val >> 1 in
      cpuWrite addr temp ;;
      let* a := gets REG_ACC in
      set_REG_ACC ::= a .^ temp ;;
      setSignZero (a .^ temp) ;; ret 0
  | 69 => cpuRead addr ;; ret 0
  | 68 => ret 0
  | _ => ret 0
  end.

(** *** One instruction *)

Definition stepControllers : M unit :=
  let* read1 := gets controller1Read in
  when read1 (
    let* c := gets controller1 in
    set_controller1 ::= Controller.clock c ;;
    set_controller1Read ::= false) ;;
  let* read2 := gets controller2Read in
  when read2 (
    let* c := gets controller2 in
    set_controller2 ::= Controller.clock c ;;
    set_controller2Read ::= false).

(** [emulate()] from the opcode fetch on. *)
Definition fetchExecute : M Z :=
  let* e := gets env in
  if negb (hasMapper D e) then ret 32
  else
    let* pc := gets REG_PC in
    let opaddr := (pc + 1) .& 0xffff in
    let* opcode := cpuRead opaddr in
    let opinf := opInfo opcode in
    dev (recordCpuInstruction D opaddr opcode) ;;
    let opSize := opSizeOf opinf in
    let cycleCount := baseCyclesOf opinf in
    let addrMode := addrModeOf opinf in
    set_cycleOffset ::= cycleCount - 1 ;;
    let* pc' := gets REG_PC in
    set_REG_PC ::= (pc' + opSize) .& 0xffff ;;
    let* resolved := resolveAddress addrMode opaddr in
    let '(addr0, pageCrossCycles) := resolved in
    let addr := addr0 .& 0xffff in
    let instructionType := instructionTypeOf opinf in
    when (negb (pageCrossCycles =? 0) && hasPenalty instructionType) (
      let* offset := gets cycleOffset in
      set_cycleOffset ::= offset + 1) ;;
    let* branchCycles := execute instructionType addrMode addr in
    let cycleCount1 :=
      if hasPenalty instructionType
      then cycleCount + pageCrossCycles else cycleCount in
    let cycleCount2 := cycleCount1 + branchCycles in
    let* total := gets CPU.cycleCount in
    set_cycleCount ::= total + cycleCount2 ;;
    stepControllers ;;
    let* n := gets instructionCount in
    set_instructionCount ::= n + 1 ;;
    ret cycleCount2.

Definition emulate : M Z := dispatchInterrupt ;; fetchExecute.

Definition step : M Z :=
  let* halt := gets cyclesToHalt in
  if 0 <? halt then
    set_cyclesToHalt ::= halt - 1 ;;
    let* total := gets CPU.cycleCount in
    set_cycleCount ::= total + 1 ;;
    ret 1
  else emulate.


End Interpreter.

End CPU.

(* ================================================================== *)
(** ** Concrete cartridges and machines, for the examples *)
(* ================================================================== *)

(** A 32 KiB program of [0xEA] bytes (NOP) with a [0xFE] at $8000. *)
Definition example_prg : list Z := 0xFE :: replicate (Z.to_nat 0x7FFF) 0xEA.

Definition example_cart : Cartridge := {|
  prgData := example_prg;
  prgBankCount := 4;
  get8kPrgBankCount := 4;
  get16kPrgBankCount := 2;
  get32kPrgBankCount := 1;
  get1kChrBankCount := 32;
  get8kChrBankCount := 4;
  fourScreen := false;
  HORIZONTAL_MIRRORING := 1;
  VERTICAL_MIRRORING := 0;
  getMirroringType := 0
|}.

Definition example_nrom : Mapper000.t :=
  Mapper000.mk (replicate (Z.to_nat 0x2000) 0) [0; 0x2000; 0x4000; 0x6000] example_cart.

Definition example_cnrom : Mapper003.t :=
  fst (Mapper003.reset (Mapper003.mk 0 [0; 0; 0; 0] [0; 0; 0; 0; 0; 0; 0; 0] example_cart)).

Definition example_mmc3 : Mapper004.t :=
  Mapper004.updateBanks
    (Mapper004.mk [0; 2; 4; 5; 6; 7; 0; 1] [0; 0; 0; 0] [0; 0; 0; 0; 0; 0; 0; 0]
       (replicate (Z.to_nat 0x2000) 0) 0 0 0 true 5 8 false true false example_cart).

(** A console whose cartridge is an NROM board, with an inert PPU and no
    APU: every collaborator other than the mapper does nothing. *)
Definition nromDevices : Devices Mapper000.t := {|
  hasMapper := fun _ => true;
  hasPapu := fun _ => false;
  catchUp := fun e => (tt, e, []);
  ppu_readRegister := fun _ e => (0, e, []);
  ppu_writeRegister := fun _ _ e => (tt, e, []);
  ppu_doDMA := fun _ _ e => (tt, e, [HaltCycles 513]);
  ppu_scanline := fun _ => 0;
  ppu_cycle := fun _ => 0;
  ppu_framebuffer := fun _ _ => 0;
  zapper_x := fun _ => 0;
  zapper_y := fun _ => 0;
  zapper_fired := fun _ => false;
  papu_readReg := fun _ e => (None, e, []);
  papu_writeReg := fun _ _ e => (tt, e, []);
  mmap_cpuRead := fun a e => (Mapper000.cpuRead a e, e, []);
  mmap_cpuWrite := fun a v e => (tt, Mapper000.cpuWrite a v e, []);
  mmap_onNmiVectorRead := fun e => (tt, e, []);
  recordPpuTraceAccess := fun _ _ _ e => (tt, e, []);
  recordCpuInstruction := fun _ _ e => (tt, e, [])
|}.

(** The same console with an MMC3 board; the mapper's calls on the CPU
    are passed on. *)
Definition mmc3Devices : Devices Mapper004.t := {|
  hasMapper := fun _ => true;
  hasPapu := fun _ => false;
  catchUp := fun e => (tt, e, []);
  ppu_readRegister := fun _ e => (0, e, []);
  ppu_writeRegister := fun _ _ e => (tt, e, []);
  ppu_doDMA := fun _ _ e => (tt, e, [HaltCycles 513]);
  ppu_scanline := fun _ => 0;
  ppu_cycle := fun _ => 0;
  ppu_framebuffer := fun _ _ => 0;
  zapper_x := fun _ => 0;
  zapper_y := fun _ => 0;
  zapper_fired := fun _ => false;
  papu_readReg := fun _ e => (None, e, []);
  papu_writeReg := fun _ _ e => (tt, e, []);
  mmap_cpuRead := fun a e => (Mapper004.cpuRead a e, e, []);
  mmap_cpuWrite := fun a v e =>
    let '(e', calls) := Mapper004.cpuWrite a v e in (tt, e', calls);
  mmap_onNmiVectorRead := fun e => (tt, e, []);
  recordPpuTraceAccess := fun _ _ _ e => (tt, e, []);
  recordCpuInstruction := fun _ _ e => (tt, e, [])
|}.

(** The CPU as its constructor leaves it (RAM pattern [all_zero]), with
    two fresh controllers. *)
Definition powerOn {Env : Type} (e : Env) : CPU.t Env :=
  snd (CPU.reset
         (CPU.mk (replicate (Z.to_nat 0x10000) 0) 0 false 0
            0 0 0 0 0 0 0
            0 0 0 0 0 0 0 0 0 0
            0 0 false false 0 0 false 0
            Controller.init Controller.init e [])).

(** A 32 KiB program: at $8000 [LDA $80FF,X], then [STA $80FF,X], then
    [INC $80FF,X]; NOPs elsewhere; the vectors are NMI = $9000,
    RESET = $8000, IRQ = $A000. *)
Definition program_prg : list Z :=
  [0xBD; 0xFF; 0x80; 0x9D; 0xFF; 0x80; 0xFE; 0xFF; 0x80]
  ++ replicate (Z.to_nat (0x7FFA - 9)) 0xEA
  ++ [0x00; 0x90; 0x00; 0x80; 0x00; 0xA0].

Definition program_cart : Cartridge := {|
  prgData := program_prg;
  prgBankCount := 4;
  get8kPrgBankCount := 4;
  get16kPrgBankCount := 2;
  get32kPrgBankCount := 1;
  get1kChrBankCount := 8;
  get8kChrBankCount := 1;
  fourScreen := false;
  HORIZONTAL_MIRRORING := 1;
  VERTICAL_MIRRORING := 0;
  getMirroringType := 0
|}.

Definition program_nrom : Mapper000.t :=
  Mapper000.mk (replicate (Z.to_nat 0x2000) 0) [0; 0x2000; 0x4000; 0x6000]
    program_cart.

(** The console after power-on with the program above, X = 1. *)
Definition program_machine : CPU.t Mapper000.t :=
  CPU.set_REG_X 1 (powerOn program_nrom).

(* ================================================================== *)
(** ** The controller ports and the bus, as one instruction sees them *)
(* ================================================================== *)

(** The two ports: [false] is controller 1 at $4016, [true] is
    controller 2 at $4017. *)
Definition portAddress (second : bool) : Z :=
  if second then 0x4017 else 0x4016.

Definition portController {Env : Type} (second : bool) (m : CPU.t Env)
  : Controller.t :=
  if second then CPU.controller2 m else CPU.controller1 m.

(** The mark [cpuRead] leaves for [stepControllers]. *)
Definition portWasRead {Env : Type} (second : bool) (m : CPU.t Env) : bool :=
  if second then CPU.controller2Read m else CPU.controller1Read m.

Definition portPosition {Env : Type} (second : bool) (m : CPU.t Env) : Z :=
  Controller.shiftRegister (portController second m).

(** The part of a port's byte that comes from the controller: at $4017
    [cpuRead] ORs the Zapper's light sensor and trigger into bits 3
    and 4. *)
Definition controllerBits (second : bool) (v : Z) : Z :=
  if second then Z.land v 0xE7 else v.

(** The transfers of a log at the port, and the strobe writes. *)
Definition readsOf (second : bool) (log : list access) (v : Z) : Prop :=
  In (BusRead (portAddress second) v) log.

Definition strobeFree (log : list access) : Prop :=
  forall v, ~ In (BusWrite 0x4016 v) log.

(** What holds of a port while an instruction that started in [m0]
    runs: the transfers so far are [new]; the position has not moved
    up; the mark is set only if the port was read; and until the strobe
    is written the controller is the one of [m0] and every read of the
    port returned its byte. *)
Definition port_running {Env : Type} (second : bool) (m0 m : CPU.t Env) : Prop :=
  exists new,
    CPU.busLog m = new ++ CPU.busLog m0 /\
    portPosition second m <= portPosition second m0 /\
    (portWasRead second m = true -> exists v, readsOf second new v) /\
    (strobeFree new ->
     portController second m = portController second m0 /\
     forall v, readsOf second new v ->
       controllerBits second v = fst (Controller.read (portController second m0))).

(** What holds of a port when the instruction is over. *)
Definition port_done {Env : Type} (second : bool) (m0 m : CPU.t Env) : Prop :=
  exists new,
    CPU.busLog m = new ++ CPU.busLog m0 /\
    portPosition second m <= portPosition second m0 + 1 /\
    ((forall v, ~ readsOf second new v) ->
     portPosition second m <= portPosition second m0) /\
    (strobeFree new ->
     forall v, readsOf second new v ->
       controllerBits second v = fst (Controller.read (portController second m0))).

(** The data-bus latch holds the value of the newest transfer of the
    log, if there is one. *)
Definition latch_follows_log {Env : Type} (m : CPU.t Env) : Prop :=
  forall x rest, CPU.busLog m = x :: rest -> CPU.dataBus m = access_value x.

(** A 32 KiB program: [LDA $4016] at $8000, NOPs elsewhere, the vectors
    as in [program_prg]. *)
Definition pad_prg : list Z :=
  [0xAD; 0x16; 0x40]
  ++ replicate (Z.to_nat (0x7FFA - 3)) 0xEA
  ++ [0x00; 0x90; 0x00; 0x80; 0x00; 0xA0].

Definition pad_nrom : Mapper000.t :=
  Mapper000.mk (replicate (Z.to_nat 0x2000) 0) [0; 0x2000; 0x4000; 0x6000]
    {| prgData := pad_prg;
       prgBankCount := 4;
       get8kPrgBankCount := 4;
       get16kPrgBankCount := 2;
       get32kPrgBankCount := 1;
       get1kChrBankCount := 8;
       get8kChrBankCount := 1;
       fourScreen := false;
       HORIZONTAL_MIRRORING := 1;
       VERTICAL_MIRRORING := 0;
       getMirroringType := 0 |}.

(** The console after power-on with that program. *)
Definition pad_machine : CPU.t Mapper000.t := powerOn pad_nrom.

(** A 32 KiB program: at $8000 the bytes [BF FF 80] (the opcode of
    [LAX $80FF,Y]), then [FF FF 80] (the opcode of [ISC $80FF,X]); NOPs
    elsewhere, the vectors as in [program_prg]. *)
Definition unofficial_prg : list Z :=
  [0xBF; 0xFF; 0x80; 0xFF; 0xFF; 0x80]
  ++ replicate (Z.to_nat (0x7FFA - 6)) 0xEA
  ++ [0x00; 0x90; 0x00; 0x80; 0x00; 0xA0].

Definition unofficial_nrom : Mapper000.t :=
  Mapper000.mk (replicate (Z.to_nat 0x2000) 0) [0; 0x2000; 0x4000; 0x6000]
    {| prgData := unofficial_prg;
       prgBankCount := 4;
       get8kPrgBankCount := 4;
       get16kPrgBankCount := 2;
       get32kPrgBankCount := 1;
       get1kChrBankCount := 8;
       get8kChrBankCount := 1;
       fourScreen := false;
       HORIZONTAL_MIRRORING := 1;
       VERTICAL_MIRRORING := 0;
       getMirroringType := 0 |}.

(** The console after power-on with that program, X = Y = 1. *)
Definition unofficial_machine : CPU.t Mapper000.t :=
  CPU.set_REG_X 1 (CPU.set_REG_Y 1 (powerOn unofficial_nrom)).

(* ================================================================== *)
(** ** Tactics *)
(* ================================================================== *)

(** Projections of the machine applied to its setters. *)
Ltac cpu_fields :=
  cbn [
    fst snd CPU.mem CPU.cyclesToHalt CPU.irqRequested CPU.irqType
    CPU.REG_ACC CPU.REG_X CPU.REG_Y CPU.REG_SP CPU.REG_PC CPU.REG_PC_NEW
    CPU.REG_STATUS CPU.F_CARRY CPU.F_DECIMAL CPU.F_INTERRUPT
    CPU.F_INTERRUPT_NEW CPU.F_OVERFLOW CPU.F_SIGN CPU.F_ZERO
    CPU.F_NOTUSED CPU.F_BRK CPU.F_BRK_NEW CPU.cycleCount CPU.dataBus
    CPU.controller1Read CPU.controller2Read CPU.cycleOffset
    CPU.instructionCount CPU.inNMI CPU.nmiStartInstruction
    CPU.controller1 CPU.controller2 CPU.env CPU.busLog CPU.set_mem
    CPU.set_cyclesToHalt CPU.set_irqRequested CPU.set_irqType
    CPU.set_REG_ACC CPU.set_REG_X CPU.set_REG_Y CPU.set_REG_SP
    CPU.set_REG_PC CPU.set_REG_PC_NEW CPU.set_REG_STATUS CPU.set_F_CARRY
    CPU.set_F_DECIMAL CPU.set_F_INTERRUPT CPU.set_F_INTERRUPT_NEW
    CPU.set_F_OVERFLOW CPU.set_F_SIGN CPU.set_F_ZERO CPU.set_F_NOTUSED
    CPU.set_F_BRK CPU.set_F_BRK_NEW CPU.set_cycleCount CPU.set_dataBus
    CPU.set_controller1Read CPU.set_controller2Read CPU.set_cycleOffset
    CPU.set_instructionCount CPU.set_inNMI CPU.set_nmiStartInstruction
    CPU.set_controller1 CPU.set_controller2 CPU.set_env CPU.set_busLog ].

Ltac cpu_fields_in H :=
  cbn [
    fst snd CPU.mem CPU.cyclesToHalt CPU.irqRequested CPU.irqType
    CPU.REG_ACC CPU.REG_X CPU.REG_Y CPU.REG_SP CPU.REG_PC CPU.REG_PC_NEW
    CPU.REG_STATUS CPU.F_CARRY CPU.F_DECIMAL CPU.F_INTERRUPT
    CPU.F_INTERRUPT_NEW CPU.F_OVERFLOW CPU.F_SIGN CPU.F_ZERO
    CPU.F_NOTUSED CPU.F_BRK CPU.F_BRK_NEW CPU.cycleCount CPU.dataBus
    CPU.controller1Read CPU.controller2Read CPU.cycleOffset
    CPU.instructionCount CPU.inNMI CPU.nmiStartInstruction
    CPU.controller1 CPU.controller2 CPU.env CPU.busLog CPU.set_mem
    CPU.set_cyclesToHalt CPU.set_irqRequested CPU.set_irqType
    CPU.set_REG_ACC CPU.set_REG_X CPU.set_REG_Y CPU.set_REG_SP
    CPU.set_REG_PC CPU.set_REG_PC_NEW CPU.set_REG_STATUS CPU.set_F_CARRY
    CPU.set_F_DECIMAL CPU.set_F_INTERRUPT CPU.set_F_INTERRUPT_NEW
    CPU.set_F_OVERFLOW CPU.set_F_SIGN CPU.set_F_ZERO CPU.set_F_NOTUSED
    CPU.set_F_BRK CPU.set_F_BRK_NEW CPU.set_cycleCount CPU.set_dataBus
    CPU.set_controller1Read CPU.set_controller2Read CPU.set_cycleOffset
    CPU.set_instructionCount CPU.set_inNMI CPU.set_nmiStartInstruction
    CPU.set_controller1 CPU.set_controller2 CPU.set_env CPU.set_busLog ] in H.

(* ================================================================== *)
(** ** Vocabulary of the statements about the interpreter *)
(* ================================================================== *)

(** The instructions that set the program counter themselves: the eight
    branches, BRK, JMP, JSR, RTI and RTS, by their numbers in
    [execute]. *)
Definition jumpInstructions : list Z :=
  [3; 4; 5; 7; 8; 9; 11; 12; 10; 27; 28; 41; 42].

Definition isJump (instructionType : Z) : bool :=
  existsb (Z.eqb instructionType) jumpInstructions.

(** The flags that are kept as one bit each hold 0 or 1 ([F_ZERO] holds
    the last result instead). *)
Definition isBit (x : Z) : Prop := x = 0 \/ x = 1.

Definition flagsAreBits {Env : Type} (m : CPU.t Env) : Prop :=
  isBit (CPU.F_CARRY m) /\ isBit (CPU.F_INTERRUPT m) /\
  isBit (CPU.F_DECIMAL m) /\ isBit (CPU.F_NOTUSED m) /\
  isBit (CPU.F_OVERFLOW m) /\ isBit (CPU.F_SIGN m).

(** A byte read as a two's-complement number. *)
Definition signed8 (x : Z) : Z := if x <? 128 then x else x - 256.


(** The size of an instruction as its addressing mode demands it: the
    opcode, plus two operand bytes for the absolute and the indirect
    modes, none for implied and accumulator, one otherwise. *)
Definition sizeOfMode (mode : Z) : Z :=
  if (mode =? CPU.IMP) || (mode =? CPU.ACC) then 1
  else if (mode =? CPU.ABS) || (mode =? CPU.ABSX) || (mode =? CPU.ABSY)
          || (mode =? CPU.IND) then 3
  else 2.

(** The direction opposite to a direction button, [-1] for the other
    buttons. *)
Definition oppositeButton (b : Z) : Z :=
  match b with
  | 4 => 5
  | 5 => 4
  | 6 => 7
  | 7 => 6
  | _ => -1
  end.

(** The opcodes of the eight branches: BPL, BMI, BVC, BVS, BCC, BCS,
    BNE, BEQ. *)
Definition branchOpcodes : list Z :=
  [0x10; 0x30; 0x50; 0x70; 0x90; 0xB0; 0xD0; 0xF0].

(** The condition of each branch on the flags of the 6502; the zero
    flag is set when [F_ZERO] holds 0. *)
Definition branchTaken {Env : Type} (opcode : Z) (m : CPU.t Env) : bool :=
  match opcode with
  | 0x10 => CPU.F_SIGN m =? 0
  | 0x30 => CPU.F_SIGN m =? 1
  | 0x50 => CPU.F_OVERFLOW m =? 0
  | 0x70 => CPU.F_OVERFLOW m =? 1
  | 0x90 => CPU.F_CARRY m =? 0
  | 0xB0 => CPU.F_CARRY m =? 1
  | 0xD0 => negb (CPU.F_ZERO m =? 0)
  | 0xF0 => CPU.F_ZERO m =? 0
  | _ => false
  end.

(** A 32 KiB program: [BNE] with offset $80 at $8000, NOPs elsewhere,
    the vectors as in [program_prg]. *)
Definition branch_prg : list Z :=
  [0xD0; 0x80]
  ++ replicate (Z.to_nat (0x7FFA - 2)) 0xEA
  ++ [0x00; 0x90; 0x00; 0x80; 0x00; 0xA0].

Definition branch_nrom : Mapper000.t :=
  Mapper000.mk (replicate (Z.to_nat 0x2000) 0) [0; 0x2000; 0x4000; 0x6000]
    {| prgData := branch_prg;
       prgBankCount := 4;
       get8kPrgBankCount := 4;
       get16kPrgBankCount := 2;
       get32kPrgBankCount := 1;
       get1kChrBankCount := 8;
       get8kChrBankCount := 1;
       fourScreen := false;
       HORIZONTAL_MIRRORING := 1;
       VERTICAL_MIRRORING := 0;
       getMirroringType := 0 |}.

(** The console with that program, after power-on and the reset
    sequence: about to fetch at $8000. *)
Definition branch_machine : CPU.t Mapper000.t :=
  snd (CPU.dispatchInterrupt nromDevices (powerOn branch_nrom)).
(* ================================================================== *)
(** ** Vocabulary for the statements about the MMC3 family *)
(* ================================================================== *)

(** The PRG slots of an MMC3 hold the offsets of banks inside the ROM,
    the last slot that of the last bank. *)
Definition prg_window (c : Cartridge) (m : Mapper004.t) : Prop :=
  Mapper004.cart m = c /\
  exists b0 b1 b2,
    Mapper004.prgOffsets m
    = [b0 * 0x2000; b1 * 0x2000; b2 * 0x2000;
       (get8kPrgBankCount c - 1) * 0x2000] /\
    0 <= b0 < get8kPrgBankCount c /\
    0 <= b1 < get8kPrgBankCount c /\
    0 <= b2 < get8kPrgBankCount c.

(** What [Mapper206.reset] establishes, relative to the state [m0] it
    was called in. *)
Definition dxrom_fixed (m0 m : Mapper004.t) : Prop :=
  Mapper004.prgMode m = 0 /\ Mapper004.chrMode m = 0 /\
  Mapper004.prgRamEnabled m = false /\
  Mapper004.prgRamWriteProtect m = true /\
  Mapper004.prgRam m = Mapper004.prgRam m0 /\
  Mapper004.irqEnabled m = Mapper004.irqEnabled m0 /\
  Mapper004.irqCounter m = Mapper004.irqCounter m0 /\
  Mapper004.irqLatch m = Mapper004.irqLatch m0 /\
  Mapper004.irqReload m = Mapper004.irqReload m0.

(** The PRG offset in block [b] of MMC3 offset [off]: the block's
    128 KiB, then the low four bits of the 8 KiB bank number. *)
Definition prgInBlock (b off : Z) : Z :=
  b * 0x20000 + (off / 0x2000) mod 16 * 0x2000.

(** The CHR offset in block [b] of MMC3 offset [off]: the block's
    128 KiB, then the low seven bits of the 1 KiB bank number. *)
Definition chrInBlock (b off : Z) : Z :=
  b * 0x20000 + (off / 0x400) mod 128 * 0x400.
(* ================================================================== *)
(** ** Vocabulary and an example for the statements about the VRC4 *)
(* ================================================================== *)

(** The two wirings of the chip's A0 and A1: VRC4b, VRC4d. *)
Definition vrc4_pins (m : Mapper025.t) : Prop :=
  (Mapper025.pinA0 m = 1 /\ Mapper025.pinA1 m = 2) \/
  (Mapper025.pinA0 m = 2 /\ Mapper025.pinA1 m = 1).

(** The rounds the scanline loop of the VRC4 makes when it is entered
    with prescaler [q]: none while [q] is positive, else one and one
    more for every full 341 below zero. *)
Definition scanlineRounds (q : Z) : Z :=
  if 0 <? q then 0 else (- q) / 341 + 1.

(** A VRC4d with the IRQ enabled in scanline mode, the counter at $FE
    and the latch at $FD. *)
Definition example_vrc4 : Mapper025.t :=
  Mapper025.mk [0; 0] [0; 0; 0; 0; 0; 0; 0; 0] 0 0 0xFD 0xFE true false 0 341
    2 1 (replicate (Z.to_nat 0x2000) 0) (Mapper025.mkRomConstants 0 1 2 3).
(* ================================================================== *)
(** * Part II: statements and proofs *)
(* ================================================================== *)

(** ** Facts about the JavaScript operators *)

Lemma toInt32_small x : - 2 ^ 31 <= x < 2 ^ 31 -> JS.toInt32 x = x.
Proof.
  intros H. unfold JS.toInt32.
  destruct (Z_lt_le_dec x 0) as [Hneg | Hpos].
  - replace (x mod 2 ^ 32) with (x + 2 ^ 32).
    + destruct (Z.ltb_spec (x + 2 ^ 32) (2 ^ 31)); lia.
    + apply Z.mod_unique with (q := -1); lia.
  - rewrite Z.mod_small by lia.
    destruct (Z.ltb_spec x (2 ^ 31)); lia.
Qed.

Lemma toInt32_testbit x k :
  0 <= k < 32 -> Z.testbit (JS.toInt32 x) k = Z.testbit x k.
Proof.
  intros Hk. unfold JS.toInt32.
  destruct (Z.ltb_spec (x mod 2 ^ 32) (2 ^ 31)).
  - apply Z.mod_pow2_bits_low. lia.
  - rewrite <- (Z.mod_pow2_bits_low (x mod 2 ^ 32 - 2 ^ 32) 32 k) by lia.
    replace (x mod 2 ^ 32 - 2 ^ 32) with (x mod 2 ^ 32 + (-1) * 2 ^ 32) by lia.
    rewrite Z.mod_add by lia.
    rewrite Z.mod_mod by lia.
    apply Z.mod_pow2_bits_low. lia.
Qed.

Lemma toInt32_byte x : 0 <= x < 256 -> JS.toInt32 x = x.
Proof. intros H. apply toInt32_small. lia. Qed.

(** The lowest bit of a number, as [x & 1] computes it. *)
Lemma band_1 x : JS.band x 1 = Z.b2z (Z.testbit x 0).
Proof.
  unfold JS.band. change (JS.toInt32 1) with (Z.ones 1).
  rewrite Z.land_ones by lia. change (2 ^ 1) with 2.
  rewrite <- Z.bit0_mod, toInt32_testbit by lia. reflexivity.
Qed.

Lemma b2z_range b : 0 <= Z.b2z b < 2.
Proof. destruct b; simpl; lia. Qed.

Lemma bor_0x40_bit b : JS.bor 0x40 (Z.b2z b) = 0x40 + Z.b2z b.
Proof. destruct b; reflexivity. Qed.

Lemma Zrange_In n z : 0 <= z < Z.of_nat n -> In z (Zrange n).
Proof.
  intros H. unfold Zrange. apply in_map_iff.
  exists (Z.to_nat z). split; [lia |]. apply in_seq. lia.
Qed.

Lemma forallb_Zrange n (f : Z -> bool) :
  forallb f (Zrange n) = true ->
  forall z, 0 <= z < Z.of_nat n -> f z = true.
Proof.
  intros H z Hz. rewrite forallb_forall in H. apply H, Zrange_In, Hz.
Qed.

(** Reading back the element just stored in a [Uint8Array]. *)
Lemma get_store8_eq arr i v :
  0 <= i < Z.of_nat (length arr) ->
  JS.get (JS.store8 arr i v) i = Some (v mod 256).
Proof.
  intros Hi. unfold JS.get, JS.store8, JS.toUint8.
  destruct (Z.ltb_spec i 0); [lia |].
  apply list_lookup_insert_eq. lia.
Qed.

Lemma get_store32_eq arr i v :
  0 <= i < Z.of_nat (length arr) ->
  JS.get (JS.store32 arr i v) i = Some (v mod 2 ^ 32).
Proof.
  intros Hi. unfold JS.get, JS.store32, JS.toUint32.
  destruct (Z.ltb_spec i 0); [lia |].
  apply list_lookup_insert_eq. lia.
Qed.

Lemma get_store32_ne arr i j v :
  i <> j -> JS.get (JS.store32 arr i v) j = JS.get arr j.
Proof.
  intros Hne. unfold JS.get, JS.store32.
  destruct (Z.ltb_spec j 0); [reflexivity |].
  destruct (Z.ltb_spec i 0); [reflexivity |].
  apply list_lookup_insert_ne. lia.
Qed.

(* ================================================================== *)
(** ** Controller *)
(* ================================================================== *)

Section ControllerFacts.

Import Controller.

Lemma read_value c : fst (read c) = 0x40 + Z.b2z (serial_bit c).
Proof.
  unfold read, serial_bit. cbn [fst].
  destruct (strobeByte c =? 1).
  - rewrite band_1. apply bor_0x40_bit.
  - destruct (shiftRegister c <? 8).
    + rewrite band_1. apply bor_0x40_bit.
    + reflexivity.
Qed.

Lemma read_keeps_state c : snd (read c) = c.
Proof. reflexivity. Qed.

Lemma sar_testbit0 s k :
  0 <= k < 32 -> Z.testbit (JS.sar s k) 0 = Z.testbit s k.
Proof.
  intros Hk. unfold JS.sar. rewrite Z.mod_small by lia.
  rewrite Z.shiftr_spec by lia. rewrite Z.add_0_l.
  apply toInt32_testbit. lia.
Qed.

Lemma clock_fields c :
  currentState (clock c) = currentState c /\
  strobedState (clock c) = strobedState c /\
  strobeByte (clock c) = strobeByte c.
Proof. unfold clock. destruct (_ && _); auto. Qed.

Lemma after_clocks_low c k :
  strobeByte c = 0 -> shiftRegister c = 0 ->
  let c' := after_clocks k c in
  currentState c' = currentState c /\
  strobedState c' = strobedState c /\
  strobeByte c' = 0 /\
  shiftRegister c' = Z.min (Z.of_nat k) 8.
Proof.
  intros Hs Hr. induction k as [| k IH].
  - simpl. rewrite Hr. repeat split; auto.
  - cbn zeta in *. unfold after_clocks in *. rewrite Nat.iter_succ.
    destruct IH as (IH1 & IH2 & IH3 & IH4).
    pose proof (clock_fields (Nat.iter k clock c)) as (C1 & C2 & C3).
    repeat split; try congruence.
    generalize dependent (Nat.iter k clock c). intros x IH1 IH2 IH3 IH4 _ _ _.
    unfold clock. rewrite IH3, IH4. rewrite Z.eqb_refl. cbn [andb].
    destruct (Z.ltb_spec (Z.min (Z.of_nat k) 8) 8); cbn [shiftRegister]; lia.
Qed.

Lemma after_clocks_high c k :
  strobeByte c = 1 -> after_clocks k c = c.
Proof.
  intros Hs. induction k as [| k IH]; [reflexivity |].
  unfold after_clocks in *. rewrite Nat.iter_succ, IH.
  unfold clock at 1. rewrite Hs. reflexivity.
Qed.

Lemma strobe_falling_edge c d1 d0 :
  Z.testbit d1 0 = true -> Z.testbit d0 0 = false ->
  let c' := strobe d0 (strobe d1 c) in
  currentState c' = currentState c /\
  strobedState c' = currentState c /\
  strobeByte c' = 0 /\
  shiftRegister c' = 0.
Proof.
  intros H1 H0. unfold strobe. rewrite !band_1, H1, H0.
  cbn [currentState strobedState strobeByte shiftRegister Z.b2z].
  change (1 =? 1) with true. change (0 =? 0) with true.
  change (1 =? 0) with false. rewrite andb_false_r. cbn [andb].
  cbn [currentState strobedState strobeByte shiftRegister].
  repeat split.
Qed.

(** C4.  After a 1-to-0 edge of the strobe bit, the reads made by the
    next eight instructions that read the port return bit 0 .. bit 7 of
    the button state latched at the edge, each with $40 ORed in; every
    later read returns $41.  Every read, in every state, has bit 6 set.
    While the strobe bit is 1 a read returns the live state of button A
    and the clock does not move the controller. *)
Theorem strobe_latches_and_reads_shift_out (c : Controller.t) (d1 d0 : Z) :
  Z.testbit d1 0 = true ->
  Z.testbit d0 0 = false ->
  let latched := currentState c in
  let c' := strobe d0 (strobe d1 c) in
  strobedState c' = latched /\
  (forall k, (k < 8)%nat ->
     nth_read k c' = 0x40 + Z.b2z (Z.testbit latched (Z.of_nat k))) /\
  (forall k, (8 <= k)%nat -> nth_read k c' = 0x41) /\
  (forall h : Controller.t, Z.testbit (fst (read h)) 6 = true) /\
  strobeByte (strobe d1 c) = 1 /\
  (forall h : Controller.t,
     strobeByte h = 1 ->
     fst (read h) = 0x40 + Z.b2z (Z.testbit (currentState h) 0) /\
     clock h = h).
Proof.
  intros H1 H0 latched c'.
  destruct (strobe_falling_edge c d1 d0 H1 H0) as (E1 & E2 & E3 & E4).
  fold c' in E1, E2, E3, E4.
  split; [exact E2 |].
  split; [| split; [| split; [| split]]].
  - intros k Hk. unfold nth_read.
    destruct (after_clocks_low c' k E3 E4) as (A1 & A2 & A3 & A4).
    rewrite read_value. unfold serial_bit. rewrite A3, A4, A2, E2.
    change (0 =? 1) with false. cbn iota.
    rewrite Z.min_l by lia.
    destruct (Z.ltb_spec (Z.of_nat k) 8); [| lia].
    rewrite sar_testbit0 by lia. reflexivity.
  - intros k Hk. unfold nth_read.
    destruct (after_clocks_low c' k E3 E4) as (A1 & A2 & A3 & A4).
    rewrite read_value. unfold serial_bit. rewrite A3, A4.
    change (0 =? 1) with false. cbn iota.
    rewrite Z.min_r by lia. reflexivity.
  - intros h. rewrite read_value.
    destruct (serial_bit h); reflexivity.
  - unfold strobe. cbn [strobeByte]. rewrite band_1, H1. reflexivity.
  - intros h Hh. split.
    + rewrite read_value. unfold serial_bit. rewrite Hh. reflexivity.
    + unfold clock. rewrite Hh. reflexivity.
Qed.

(** Only A held, strobe written 1 then 0: the reads are $41, seven times
    $40, then $41 for ever (scenario 6 of the specification). *)
Lemma strobe_latches_and_reads_shift_out_witness :
  let c := buttonDown BUTTON_A init in
  Z.testbit 1 0 = true /\ Z.testbit 0 0 = false /\
  List.map (fun k => nth_read k (strobe 0 (strobe 1 c))) (seq 0 10)
  = [0x41; 0x40; 0x40; 0x40; 0x40; 0x40; 0x40; 0x40; 0x41; 0x41].
Proof.
  pose proof (strobe_latches_and_reads_shift_out
                (buttonDown BUTTON_A init) 1 0 eq_refl eq_refl) as H.
  cbv zeta in H. destruct H as (_ & Hlow & Hhigh & _).
  cbv zeta. split; [reflexivity | split; [reflexivity |]].
  cbn [List.map seq].
  rewrite !Hlow by lia. rewrite !Hhigh by lia. reflexivity.
Defined.

(** *** Opposite directions *)

Lemma all_inputs_keep :
  forallb (fun s => forallb (fun b => down_keeps s b && up_keeps s b) (Zrange 8))
          (Zrange 256) = true.
Proof. vm_compute. reflexivity. Qed.

Lemma apply_input_inv c i :
  is_button (button_of i) -> inv c -> inv (apply_input c i).
Proof.
  intros Hb [Hr Hx]. unfold is_button in Hb.
  assert (Hs : 0 <= currentState c < Z.of_nat 256).
  { unfold byte_ok in Hr. apply andb_true_iff in Hr as [? ?]. lia. }
  pose proof (forallb_Zrange _ _ all_inputs_keep _ Hs) as Hall. cbv beta in Hall.
  assert (Hb' : 0 <= button_of i < Z.of_nat 8) by lia.
  pose proof (forallb_Zrange _ _ Hall _ Hb') as Hk. cbv beta in Hk.
  apply andb_true_iff in Hk as [Hd Hu].
  unfold inv. destruct i as [b | b]; cbn [apply_input button_of] in *.
  - unfold down_keeps in Hd. cbv zeta in Hd. rewrite Hx in Hd. cbn [negb orb] in Hd.
    apply andb_true_iff in Hd. exact Hd.
  - unfold up_keeps in Hu. cbv zeta in Hu. rewrite Hx in Hu. cbn [negb orb] in Hu.
    apply andb_true_iff in Hu. exact Hu.
Qed.

Lemma run_inputs_inv evs : forall c,
  Forall (fun i => is_button (button_of i)) evs ->
  inv c -> inv (run_inputs c evs).
Proof.
  induction evs as [| i evs IH]; intros c Hall Hc; [exact Hc |].
  inversion Hall as [| ? ? Hi Hrest]; subst.
  unfold run_inputs. cbn [fold_left].
  apply IH; [exact Hrest |]. apply apply_input_inv; assumption.
Qed.

(** C9.  Whatever buttons of the pad are pressed and released, starting
    from the controller as constructed, the current state never has Up
    and Down both set, nor Left and Right. *)
Theorem opposite_directions_never_both_held (evs : list Controller.input) :
  Forall (fun i => is_button (button_of i)) evs ->
  let s := currentState (run_inputs init evs) in
  Z.testbit s 4 && Z.testbit s 5 = false /\
  Z.testbit s 6 && Z.testbit s 7 = false.
Proof.
  intros Hall s.
  assert (Hinit : inv init) by (split; reflexivity).
  destruct (run_inputs_inv evs init Hall Hinit) as [_ Hx].
  fold s in Hx. unfold exclusive in Hx.
  apply andb_true_iff in Hx as [Hud Hlr].
  apply negb_true_iff in Hud. apply negb_true_iff in Hlr. auto.
Qed.

Lemma opposite_directions_never_both_held_witness :
  let evs := [Down BUTTON_UP; Down BUTTON_DOWN; Down BUTTON_LEFT;
              Down BUTTON_RIGHT; Up BUTTON_RIGHT; Down BUTTON_UP] in
  let s := currentState (run_inputs init evs) in
  Z.testbit s 4 && Z.testbit s 5 = false /\
  Z.testbit s 6 && Z.testbit s 7 = false.
Proof.
  apply (opposite_directions_never_both_held
           [Down BUTTON_UP; Down BUTTON_DOWN; Down BUTTON_LEFT;
            Down BUTTON_RIGHT; Up BUTTON_RIGHT; Down BUTTON_UP]).
  repeat (apply List.Forall_cons; [cbv; split; [discriminate | reflexivity] |]).
  apply List.Forall_nil.
Defined.

End ControllerFacts.

(* ================================================================== *)
(** ** MMC3: the scanline counter *)
(* ================================================================== *)

(** C1.  On a rising edge of A12: when the counter is zero or the reload
    flag is set, the counter is loaded from the latch and the flag is
    cleared; otherwise the counter is decremented.  The mapper requests
    a CPU IRQ exactly when the counter was 1, was decremented (no
    reload) and IRQs are enabled; it makes no other call, and the edge
    touches no other register. *)
Theorem mmc3_clock_reloads_or_decrements_and_fires_on_1_to_0 (m : Mapper004.t) :
  let m' := fst (Mapper004.clockScanline m) in
  let calls := snd (Mapper004.clockScanline m) in
  let reload := (Mapper004.irqCounter m =? 0) || Mapper004.irqReload m in
  Mapper004.irqCounter m' =
    (if reload then Mapper004.irqLatch m else Mapper004.irqCounter m - 1) /\
  Mapper004.irqReload m' = false /\
  calls =
    (if negb reload && (Mapper004.irqCounter m =? 1) && Mapper004.irqEnabled m
     then [RequestIrq IRQ_NORMAL] else []) /\
  Mapper004.irqLatch m' = Mapper004.irqLatch m /\
  Mapper004.irqEnabled m' = Mapper004.irqEnabled m /\
  Mapper004.reg m' = Mapper004.reg m /\
  Mapper004.bankSelect m' = Mapper004.bankSelect m /\
  Mapper004.prgOffsets m' = Mapper004.prgOffsets m /\
  Mapper004.chrOffsets m' = Mapper004.chrOffsets m /\
  Mapper004.prgRam m' = Mapper004.prgRam m.
Proof.
  cbv zeta. unfold Mapper004.clockScanline.
  destruct (Z.eqb_spec (Mapper004.irqCounter m) 0) as [H0 | H0];
    cbn [orb].
  - cbn. repeat split.
  - destruct (Mapper004.irqReload m) eqn:Hr.
    + cbn. repeat split.
    + cbn [negb andb Mapper004.set_irqCounter Mapper004.irqCounter
           Mapper004.irqEnabled].
      destruct (Z.eqb_spec (Mapper004.irqCounter m - 1) 0) as [H1 | H1];
        destruct (Z.eqb_spec (Mapper004.irqCounter m) 1) as [H2 | H2];
        try lia; cbn [andb];
        destruct (Mapper004.irqEnabled m) eqn:He; cbn; rewrite ?Hr, ?He;
        repeat split.
Qed.

(** The register writes of the IRQ unit ($C000 latch, $C001 reload,
    $E000 disable and acknowledge, $E001 enable). *)
Lemma mmc3_irq_registers (m : Mapper004.t) (d : Z) :
  Mapper004.irqLatch (fst (Mapper004.cpuWrite 0xC000 d m)) = d /\
  Mapper004.irqReload (fst (Mapper004.cpuWrite 0xC001 d m)) = true /\
  Mapper004.irqEnabled (fst (Mapper004.cpuWrite 0xE000 d m)) = false /\
  snd (Mapper004.cpuWrite 0xE000 d m) = [ClearIrq IRQ_NORMAL] /\
  Mapper004.irqEnabled (fst (Mapper004.cpuWrite 0xE001 d m)) = true.
Proof. repeat split. Qed.

Lemma mmc3_clock_with_reload_set (m : Mapper004.t) :
  Mapper004.irqReload m = true ->
  Mapper004.clockScanline m =
    (Mapper004.set_irqReload false
       (Mapper004.set_irqCounter (Mapper004.irqLatch m) m), []).
Proof.
  intros H. unfold Mapper004.clockScanline. rewrite H, orb_true_r. reflexivity.
Qed.

(** Scenario 4 of the specification: latch $10, enable, reload; the
    seventeenth rising edge, and none before it, requests the IRQ. *)
Lemma mmc3_irq_after_17_edges (m : Mapper004.t) :
  let m0 := fst (Mapper004.cpuWrites [(0xC000, 0x10); (0xE001, 0); (0xC001, 0)] m) in
  snd (Mapper004.clockScanlines 16 m0) = [] /\
  snd (Mapper004.clockScanlines 17 m0) = [RequestIrq IRQ_NORMAL].
Proof.
  cbv zeta. destruct m.
  split; cbn [Mapper004.clockScanlines];
    rewrite mmc3_clock_with_reload_set by reflexivity;
    vm_compute; reflexivity.
Qed.

(* ================================================================== *)
(** ** MMC3: soft reset *)
(* ================================================================== *)

Lemma shl13_bank n :
  0 <= n < 2 ^ 18 -> JS.toUint32 (JS.shl n 13) = n * 0x2000.
Proof.
  intros H. unfold JS.shl, JS.toUint32.
  rewrite (toInt32_small n) by lia.
  change (13 mod 32) with 13. rewrite Z.shiftl_mul_pow2 by lia.
  change (2 ^ 13) with 0x2000.
  rewrite toInt32_small by lia.
  apply Z.mod_small. lia.
Qed.

(** C8.  A soft reset keeps the eight bank registers, the bank-select
    index, the PRG and CHR mode bits, the IRQ counter, latch, reload and
    enable flags (and the PRG-RAM, its enable and protect bits and the
    CHR page offsets); of the PRG slots only the last one is written,
    with the offset of the last 8 KiB bank. *)
Theorem mmc3_reset_keeps_registers (m : Mapper004.t) :
  Z.of_nat (length (Mapper004.prgOffsets m)) = 4 ->
  1 <= get8kPrgBankCount (Mapper004.cart m) <= 2 ^ 18 ->
  let m' := Mapper004.reset m in
  Mapper004.reg m' = Mapper004.reg m /\
  Mapper004.bankSelect m' = Mapper004.bankSelect m /\
  Mapper004.prgMode m' = Mapper004.prgMode m /\
  Mapper004.chrMode m' = Mapper004.chrMode m /\
  Mapper004.irqCounter m' = Mapper004.irqCounter m /\
  Mapper004.irqLatch m' = Mapper004.irqLatch m /\
  Mapper004.irqReload m' = Mapper004.irqReload m /\
  Mapper004.irqEnabled m' = Mapper004.irqEnabled m /\
  Mapper004.prgRam m' = Mapper004.prgRam m /\
  Mapper004.prgRamEnabled m' = Mapper004.prgRamEnabled m /\
  Mapper004.prgRamWriteProtect m' = Mapper004.prgRamWriteProtect m /\
  Mapper004.chrOffsets m' = Mapper004.chrOffsets m /\
  Mapper004.cart m' = Mapper004.cart m /\
  (forall slot, slot <> 3 ->
     JS.get (Mapper004.prgOffsets m') slot = JS.get (Mapper004.prgOffsets m) slot) /\
  JS.get (Mapper004.prgOffsets m') 3 =
    Some ((get8kPrgBankCount (Mapper004.cart m) - 1) * 0x2000).
Proof.
  intros Hlen Hcount. cbv zeta. unfold Mapper004.reset.
  cbn [Mapper004.set_prgOffsets Mapper004.reg Mapper004.bankSelect
       Mapper004.prgMode Mapper004.chrMode Mapper004.irqCounter
       Mapper004.irqLatch Mapper004.irqReload Mapper004.irqEnabled
       Mapper004.prgRam Mapper004.prgRamEnabled Mapper004.prgRamWriteProtect
       Mapper004.chrOffsets Mapper004.cart Mapper004.prgOffsets].
  repeat (split; [reflexivity |]).
  split.
  - intros slot Hs. apply get_store32_ne. congruence.
  - rewrite get_store32_eq by lia.
    fold (JS.toUint32 (JS.shl (get8kPrgBankCount (Mapper004.cart m) - 1) 13)).
    rewrite shl13_bank by lia. reflexivity.
Qed.

(* ================================================================== *)
(** ** PRG-RAM round trip on NROM and MMC3 *)
(* ================================================================== *)

(** C6.  On NROM, and on MMC3 with PRG-RAM enabled and not
    write-protected, a byte written to an address of $6000-$7FFF is the
    byte read back from that address (the PRG-RAM array covering the
    8 KiB window). *)
Theorem prg_ram_write_then_read (a b : Z) :
  0x6000 <= a < 0x8000 ->
  0 <= b < 256 ->
  (forall m : Mapper000.t,
     length (Mapper000.prgRam m) = 0x2000%nat ->
     Mapper000.cpuRead a (Mapper000.cpuWrite a b m) = Some b) /\
  (forall m : Mapper004.t,
     length (Mapper004.prgRam m) = 0x2000%nat ->
     Mapper004.prgRamEnabled m = true ->
     Mapper004.prgRamWriteProtect m = false ->
     Mapper004.cpuRead a (fst (Mapper004.cpuWrite a b m)) = Some b).
Proof.
  intros Ha Hb.
  assert (Hwin : (0x6000 <=? a) && (a <? 0x8000) = true).
  { apply andb_true_iff. split; [apply Z.leb_le | apply Z.ltb_lt]; lia. }
  split.
  - intros m Hlen. unfold Mapper000.cpuRead, Mapper000.cpuWrite.
    rewrite Hwin. cbn [Mapper000.prgRam].
    rewrite get_store8_eq by (rewrite Hlen; lia).
    rewrite Z.mod_small by lia. reflexivity.
  - intros m Hlen Hen Hwp. unfold Mapper004.cpuRead, Mapper004.cpuWrite.
    rewrite Hwin, Hen, Hwp. cbn [andb negb fst].
    cbn [Mapper004.set_prgRam Mapper004.prgRamEnabled Mapper004.prgRam].
    rewrite Hen. cbn [negb].
    rewrite get_store8_eq by (rewrite Hlen; lia).
    rewrite Z.mod_small by lia. reflexivity.
Qed.

Lemma prg_ram_write_then_read_witness :
  Mapper000.cpuRead 0x6123 (Mapper000.cpuWrite 0x6123 0xAB example_nrom)
    = Some 0xAB /\
  Mapper004.cpuRead 0x7FFF (fst (Mapper004.cpuWrite 0x7FFF 0xAB example_mmc3))
    = Some 0xAB.
Proof.
  assert (Ha : 0x6000 <= 0x6123 < 0x8000) by lia.
  assert (Ha' : 0x6000 <= 0x7FFF < 0x8000) by lia.
  assert (Hb : 0 <= 0xAB < 256) by lia.
  destruct (prg_ram_write_then_read 0x6123 0xAB Ha Hb) as [Hnrom _].
  destruct (prg_ram_write_then_read 0x7FFF 0xAB Ha' Hb) as [_ Hmmc3].
  split.
  - apply Hnrom. vm_compute. reflexivity.
  - apply Hmmc3; vm_compute; reflexivity.
Defined.

Lemma mmc3_reset_keeps_registers_witness :
  Mapper004.irqCounter (Mapper004.reset example_mmc3) = 5 /\
  Mapper004.irqLatch (Mapper004.reset example_mmc3) = 8 /\
  JS.get (Mapper004.prgOffsets (Mapper004.reset example_mmc3)) 3 = Some 0x6000.
Proof.
  pose proof (mmc3_reset_keeps_registers example_mmc3) as H.
  cbv zeta in H.
  destruct H as (_ & _ & _ & _ & Hc & Hl & _ & _ & _ & _ & _ & _ & _ & _ & Hlast).
  - reflexivity.
  - cbn. lia.
  - rewrite Hc, Hl, Hlast. repeat split.
Defined.

(* ================================================================== *)
(** ** CNROM: bank select with bus conflict *)
(* ================================================================== *)

Lemma band_small x y :
  0 <= x < 2 ^ 31 -> 0 <= y < 2 ^ 31 -> JS.band x y = Z.land x y.
Proof.
  intros Hx Hy. unfold JS.band. rewrite !toInt32_small by lia. reflexivity.
Qed.

Lemma land_byte_range x y : 0 <= x < 256 -> 0 <= Z.land x y < 256.
Proof.
  intros Hx.
  replace (Z.land x y) with (Z.land x y mod 2 ^ 8).
  - apply Z.mod_pos_bound. lia.
  - rewrite <- (Z.land_ones _ 8) by lia.
    rewrite <- Z.land_assoc, (Z.land_comm y), Z.land_assoc.
    rewrite Z.land_ones by lia. rewrite (Z.mod_small x) by (change (2 ^ 8) with 256; lia).
    reflexivity.
Qed.

Lemma prg_map_32k_idempotent c b pm :
  MapperBase.switch32kPrgBank c b (MapperBase.switch32kPrgBank c b pm)
  = MapperBase.switch32kPrgBank c b pm.
Proof.
  unfold MapperBase.switch32kPrgBank.
  destruct pm as [| p0 [| p1 [| p2 [| p3 rest]]]]; reflexivity.
Qed.

Lemma prg_map_16k_idempotent c b pm :
  let f pm := MapperBase.switch16kPrgBank c b false
                (MapperBase.switch16kPrgBank c b true pm) in
  f (f pm) = f pm.
Proof.
  cbv zeta. unfold MapperBase.switch16kPrgBank.
  destruct pm as [| p0 [| p1 [| p2 [| p3 rest]]]]; reflexivity.
Qed.

Lemma cnrom_updateBanks_settled m : Mapper003.settled (Mapper003.updateBanks m).
Proof.
  unfold Mapper003.settled, Mapper003.updateBanks.
  cbn [Mapper003.prgPagesMap Mapper003.cart Mapper003.chrBank Mapper003.chrPagesMap].
  destruct (0 <? get32kPrgBankCount (Mapper003.cart m)).
  - symmetry. apply prg_map_32k_idempotent.
  - symmetry. apply (prg_map_16k_idempotent (Mapper003.cart m) 0).
Qed.

(** [reset()] and every write leave the PRG page map settled. *)
Lemma cnrom_settled_after_reset m : Mapper003.settled (fst (Mapper003.reset m)).
Proof. apply cnrom_updateBanks_settled. Qed.

Lemma cnrom_settled_after_write a v m :
  Mapper003.settled m -> Mapper003.settled (Mapper003.cpuWrite a v m).
Proof.
  intros H. unfold Mapper003.cpuWrite.
  destruct (0x8000 <=? a); [apply cnrom_updateBanks_settled | exact H].
Qed.

(** C7.  A CPU write of [v] at [a >= $8000], where the PRG-ROM byte
    mapped at [a] is [r], selects 8 KiB CHR bank [(v AND r) AND 3]: the
    bank register holds it and the CHR page map is that bank's eight
    pages.  The write leaves the cartridge and the PRG page map as they
    are, so every PRG read returns what it returned before. *)
Theorem cnrom_write_selects_chr_bank_with_bus_conflict
    (m : Mapper003.t) (a v r : Z) :
  0x8000 <= a <= 0xFFFF ->
  0 <= v < 256 ->
  0 <= r < 256 ->
  Mapper003.cpuRead a m = Some r ->
  Mapper003.settled m ->
  let m' := Mapper003.cpuWrite a v m in
  let bank := Z.land (Z.land v r) 3 in
  Mapper003.chrBank m' = bank /\
  Mapper003.chrPagesMap m' = MapperBase.chrPagesOf8k (Mapper003.cart m) bank /\
  Mapper003.prgPagesMap m' = Mapper003.prgPagesMap m /\
  Mapper003.cart m' = Mapper003.cart m /\
  (forall x, Mapper003.cpuRead x m' = Mapper003.cpuRead x m).
Proof.
  intros Ha Hv Hr Hread Hset. cbv zeta.
  assert (Hge : (0x8000 <=? a) = true) by (apply Z.leb_le; lia).
  unfold Mapper003.cpuRead in Hread. rewrite Hge in Hread.
  assert (Hbank : JS.band (JS.band v r) 3 = Z.land (Z.land v r) 3).
  { rewrite (band_small v r) by lia.
    pose proof (land_byte_range v r Hv).
    apply band_small; lia. }
  assert (Hprg : Mapper003.prgPagesMap (Mapper003.cpuWrite a v m)
                 = Mapper003.prgPagesMap m).
  { unfold Mapper003.cpuWrite. rewrite Hge.
    etransitivity; [| symmetry; exact Hset]. reflexivity. }
  assert (Hcart : Mapper003.cart (Mapper003.cpuWrite a v m) = Mapper003.cart m).
  { unfold Mapper003.cpuWrite. rewrite Hge. reflexivity. }
  repeat split.
  - unfold Mapper003.cpuWrite. rewrite Hge, Hread. cbn [default].
    cbn [Mapper003.updateBanks Mapper003.chrBank]. exact Hbank.
  - unfold Mapper003.cpuWrite. rewrite Hge, Hread. cbn [default].
    cbn [Mapper003.updateBanks Mapper003.chrPagesMap Mapper003.chrBank
         Mapper003.cart].
    unfold MapperBase.switch8kChrBank, id. rewrite Hbank. reflexivity.
  - exact Hprg.
  - exact Hcart.
  - intros x. unfold Mapper003.cpuRead, Mapper003.romAt.
    rewrite Hprg, Hcart. reflexivity.
Qed.

(** At $8000 the example ROM holds $FE: writing $03 selects bank 2. *)
Lemma cnrom_write_selects_chr_bank_with_bus_conflict_witness :
  Mapper003.chrBank (Mapper003.cpuWrite 0x8000 0x03 example_cnrom) = 2 /\
  Mapper003.prgPagesMap (Mapper003.cpuWrite 0x8000 0x03 example_cnrom)
    = [0; 0x2000; 0x4000; 0x6000].
Proof.
  pose proof (cnrom_write_selects_chr_bank_with_bus_conflict
                example_cnrom 0x8000 0x03 0xFE) as H.
  cbv zeta in H.
  destruct H as (Hb & _ & Hp & _).
  - lia.
  - lia.
  - lia.
  - reflexivity.
  - apply cnrom_settled_after_reset.
  - rewrite Hb, Hp. split; reflexivity.
Defined.

(* ================================================================== *)
(** ** The interpreter: running the monad, and what a bus transfer
       leaves alone *)
(* ================================================================== *)

Section CpuRun.

Context {Env : Type} (D : Devices Env).

Local Abbreviation t := (CPU.t Env).
Local Abbreviation M := (CPU.M Env).

Lemma bind_run {A B} (c : M A) (k : A -> M B) (m : t) :
  CPU.bind c k m = k (fst (c m)) (snd (c m)).
Proof. unfold CPU.bind. destruct (c m). reflexivity. Qed.

Lemma ret_run {A} (a : A) (m : t) : CPU.ret a m = (a, m).
Proof. reflexivity. Qed.

Lemma gets_run {A} (f : t -> A) (m : t) : CPU.gets f m = (f m, m).
Proof. reflexivity. Qed.

Lemma assign_run {A} (s : A -> t -> t) (v : A) (m : t) :
  CPU.assign s v m = (tt, s v m).
Proof. reflexivity. Qed.

Lemma when_run (b : bool) (c : M unit) (m : t) :
  CPU.when b c m = if b then c m else (tt, m).
Proof. destruct b; reflexivity. Qed.

Lemma dev_run {A} (op : Env -> A * Env * list effect) (m : t) :
  CPU.dev op m =
  (fst (fst (op (CPU.env m))),
   fold_left CPU.apply_effect (snd (op (CPU.env m)))
     (CPU.set_env (snd (fst (op (CPU.env m)))) m)).
Proof. unfold CPU.dev. destruct (op (CPU.env m)) as [[a e] calls]. reflexivity. Qed.

Lemma apply_effect_frame {A} (f : t -> A) :
  CPU.device_proof f -> forall e m, f (CPU.apply_effect m e) = f m.
Proof.
  intros (He & Hr & Ht & Hh) e m.
  destruct e as [ty | ty | n | mode]; cbn [CPU.apply_effect].
  - unfold CPU.requestIrq. destruct (_ && _); [reflexivity |].
    rewrite Ht, Hr. reflexivity.
  - unfold CPU.clearIrq. destruct (_ && _); [apply Hr | reflexivity].
  - apply Hh.
  - reflexivity.
Qed.

Lemma effects_frame {A} (f : t -> A) :
  CPU.device_proof f ->
  forall calls m, f (fold_left CPU.apply_effect calls m) = f m.
Proof.
  intros Hf calls. induction calls as [| e calls IH]; intros m; [reflexivity |].
  cbn [fold_left]. rewrite IH. apply apply_effect_frame, Hf.
Qed.

Lemma dev_frame {A B} (f : t -> A) (op : Env -> B * Env * list effect) (m : t) :
  CPU.device_proof f -> f (snd (CPU.dev op m)) = f m.
Proof.
  intros Hf. rewrite dev_run. cbn [snd].
  rewrite effects_frame by exact Hf. apply Hf.
Qed.

End CpuRun.

(** Turn a monadic program applied to a state into the projections of
    its steps. *)
Ltac run_step :=
  first
    [ rewrite bind_run
    | rewrite when_run
    | rewrite ret_run
    | rewrite gets_run
    | rewrite assign_run
    | progress cbv beta
    | progress cpu_fields ].

Ltac run := repeat run_step.

(** The same, leaving the setters folded. *)
Ltac run_step0 :=
  first
    [ rewrite bind_run
    | rewrite when_run
    | rewrite ret_run
    | rewrite gets_run
    | rewrite assign_run
    | progress cbv beta
    | progress cbn [fst snd] ].

Ltac run0 := repeat run_step0.

(** Goals [f (snd (op m)) = f m] where [op] is made of operations of the
    collaborators and of updates of fields other than [f]. *)
Ltac frame_cases :=
  repeat first
    [ run_step
    | rewrite dev_run
    | rewrite effects_frame by (repeat split)
    | match goal with
      | |- context [if ?c then _ else _] => destruct c
      | |- context [match ?c with Some _ => _ | None => _ end] => destruct c
      end ];
  try reflexivity.

Section CpuBus.

Context {Env : Type} (D : Devices Env).

Local Abbreviation t := (CPU.t Env).

Lemma readSource_dataBus a (m : t) :
  CPU.dataBus (snd (CPU.readSource D a m)) = CPU.dataBus m.
Proof. unfold CPU.readSource, Controller.read. frame_cases. Qed.

Lemma readSource_busLog a (m : t) :
  CPU.busLog (snd (CPU.readSource D a m)) = CPU.busLog m.
Proof. unfold CPU.readSource, Controller.read. frame_cases. Qed.

Lemma writeTarget_dataBus a v (m : t) :
  CPU.dataBus (snd (CPU.writeTarget D a v m)) = CPU.dataBus m.
Proof. unfold CPU.writeTarget. frame_cases. Qed.

Lemma writeTarget_busLog a v (m : t) :
  CPU.busLog (snd (CPU.writeTarget D a v m)) = CPU.busLog m.
Proof. unfold CPU.writeTarget. frame_cases. Qed.

(** What a bus transfer leaves alone. *)
Lemma cpuRead_frame {A} (f : t -> A) a (m : t) :
  CPU.bus_proof f -> f (snd (CPU.cpuRead D a m)) = f m.
Proof.
  intros (Hd & Hdb & Hlog & Hmem & Hc1 & Hc2 & Hr1 & Hr2).
  pose proof Hd as (He & _).
  unfold CPU.cpuRead, CPU.readSource, Controller.read.
  repeat first
    [ run_step0
    | rewrite dev_run
    | rewrite effects_frame by exact Hd
    | rewrite Hdb | rewrite Hlog | rewrite Hc1 | rewrite Hc2
    | rewrite Hr1 | rewrite Hr2 | rewrite He
    | match goal with
      | |- context [if ?c then _ else _] => destruct c
      | |- context [match ?c with Some _ => _ | None => _ end] => destruct c
      end ];
  reflexivity.
Qed.

Lemma cpuWrite_frame {A} (f : t -> A) a v (m : t) :
  CPU.bus_proof f -> f (snd (CPU.cpuWrite D a v m)) = f m.
Proof.
  intros (Hd & Hdb & Hlog & Hmem & Hc1 & Hc2 & Hr1 & Hr2).
  pose proof Hd as (He & _).
  unfold CPU.cpuWrite, CPU.writeTarget.
  repeat first
    [ run_step0
    | rewrite dev_run
    | rewrite effects_frame by exact Hd
    | rewrite Hdb | rewrite Hlog | rewrite Hc1 | rewrite Hc2
    | rewrite Hmem | rewrite He
    | match goal with
      | |- context [if ?c then _ else _] => destruct c
      end ];
  reflexivity.
Qed.

Lemma cpuRead_latch a (m : t) :
  CPU.dataBus (snd (CPU.cpuRead D a m)) = fst (CPU.cpuRead D a m).
Proof. unfold CPU.cpuRead. run. reflexivity. Qed.

Lemma cpuRead_busLog a (m : t) :
  CPU.busLog (snd (CPU.cpuRead D a m))
  = BusRead a (fst (CPU.cpuRead D a m)) :: CPU.busLog m.
Proof. unfold CPU.cpuRead. run. rewrite readSource_busLog. reflexivity. Qed.

Lemma cpuWrite_latch a v (m : t) :
  CPU.dataBus (snd (CPU.cpuWrite D a v m)) = v.
Proof.
  unfold CPU.cpuWrite. run. rewrite writeTarget_dataBus.
  destruct (a =? 0x4014); run; [rewrite dev_frame by (repeat split) |];
    reflexivity.
Qed.

Lemma cpuWrite_busLog a v (m : t) :
  CPU.busLog (snd (CPU.cpuWrite D a v m)) = BusWrite a v :: CPU.busLog m.
Proof.
  unfold CPU.cpuWrite. run. rewrite writeTarget_busLog.
  destruct (a =? 0x4014); run; [rewrite dev_frame by (repeat split) |];
    reflexivity.
Qed.

Lemma cpuRead_open_bus_cartridge a (m : t) :
  0x4020 <= a ->
  fst (fst (mmap_cpuRead D a (CPU.env m))) = None ->
  fst (CPU.cpuRead D a m) = CPU.dataBus m.
Proof.
  intros Ha Hnone. unfold CPU.cpuRead, CPU.readSource.
  destruct (Z.ltb_spec a 0x2000); [lia |].
  destruct (Z.ltb_spec a 0x4000); [lia |].
  destruct (Z.ltb_spec a 0x4020); [lia |].
  run. rewrite dev_run. cbn [fst snd]. rewrite Hnone. run.
  rewrite (effects_frame CPU.dataBus) by (repeat split). reflexivity.
Qed.

Lemma cpuRead_open_bus_io a (m : t) :
  0x4000 <= a < 0x4020 -> a <> 0x4016 -> a <> 0x4017 ->
  hasPapu D (CPU.env m) = false \/
  fst (fst (papu_readReg D a (CPU.env m))) = None ->
  fst (CPU.cpuRead D a m) = CPU.dataBus m.
Proof.
  intros Ha H16 H17 Hapu. unfold CPU.cpuRead, CPU.readSource.
  destruct (Z.ltb_spec a 0x2000); [lia |].
  destruct (Z.ltb_spec a 0x4000); [lia |].
  destruct (Z.ltb_spec a 0x4020); [| lia].
  destruct (Z.eqb_spec a 0x4016); [lia |].
  destruct (Z.eqb_spec a 0x4017); [lia |].
  run. destruct (hasPapu D (CPU.env m)) eqn:Hp.
  - destruct Hapu as [Hno | Hnone]; [discriminate |].
    run. rewrite dev_run. cbn [fst snd]. rewrite Hnone. run.
    rewrite (effects_frame CPU.dataBus) by (repeat split). reflexivity.
  - run. reflexivity.
Qed.

(** C5.  After a [cpuRead] the data-bus latch holds the value returned,
    after a [cpuWrite] the value written, and the transfer is the newest
    entry of the bus log; a read in the cartridge range for which the
    mapper yields no value, and a read of an I/O register other than the
    two controller ports for which there is no APU or the APU yields no
    value, return the latch as it was. *)
Theorem data_bus_latch_follows_every_transfer (addr val : Z) (m : CPU.t Env) :
  CPU.dataBus (snd (CPU.cpuRead D addr m)) = fst (CPU.cpuRead D addr m) /\
  CPU.busLog (snd (CPU.cpuRead D addr m))
    = BusRead addr (fst (CPU.cpuRead D addr m)) :: CPU.busLog m /\
  CPU.dataBus (snd (CPU.cpuWrite D addr val m)) = val /\
  CPU.busLog (snd (CPU.cpuWrite D addr val m))
    = BusWrite addr val :: CPU.busLog m /\
  (0x4020 <= addr ->
   fst (fst (mmap_cpuRead D addr (CPU.env m))) = None ->
   fst (CPU.cpuRead D addr m) = CPU.dataBus m) /\
  (0x4000 <= addr < 0x4020 -> addr <> 0x4016 -> addr <> 0x4017 ->
   hasPapu D (CPU.env m) = false \/
   fst (fst (papu_readReg D addr (CPU.env m))) = None ->
   fst (CPU.cpuRead D addr m) = CPU.dataBus m).
Proof.
  split; [apply cpuRead_latch |].
  split; [apply cpuRead_busLog |].
  split; [apply cpuWrite_latch |].
  split; [apply cpuWrite_busLog |].
  split; [apply cpuRead_open_bus_cartridge | apply cpuRead_open_bus_io].
Qed.

End CpuBus.

(* ================================================================== *)
(** ** The pending-interrupt latch *)
(* ================================================================== *)

Section InterruptLatch.

Context {Env : Type}.

(** [requestIrq] never lets an IRQ replace a pending request, and lets
    an NMI or a RESET replace whatever is pending. *)
Lemma requestIrq_latch (type : Z) (m : CPU.t Env) :
  let m' := CPU.requestIrq type m in
  CPU.irqRequested m' = true /\
  CPU.irqType m' =
    (if CPU.irqRequested m && (type =? IRQ_NORMAL) then CPU.irqType m else type).
Proof.
  cbv zeta. unfold CPU.requestIrq.
  destruct (CPU.irqRequested m) eqn:Hr; destruct (type =? IRQ_NORMAL);
    cbn [andb]; cpu_fields; auto.
Qed.

(** [clearIrq] withdraws the pending request when it is of the given
    kind, and does nothing otherwise. *)
Lemma clearIrq_latch (type : Z) (m : CPU.t Env) :
  let m' := CPU.clearIrq type m in
  CPU.irqType m' = CPU.irqType m /\
  CPU.irqRequested m' =
    CPU.irqRequested m && negb (CPU.irqType m =? type).
Proof.
  cbv zeta. unfold CPU.clearIrq.
  destruct (CPU.irqRequested m) eqn:Hr; destruct (CPU.irqType m =? type);
    cbn [andb negb]; cpu_fields; auto.
Qed.

(** An NMI that arrives while an IRQ is pending takes the IRQ's place in
    the latch; a RESET that is pending is replaced by an NMI as well. *)
Lemma nmi_request_replaces_pending_request (m : CPU.t Env) :
  CPU.irqType (CPU.requestIrq IRQ_NMI (CPU.requestIrq IRQ_NORMAL m))
    = IRQ_NMI /\
  CPU.irqType (CPU.requestIrq IRQ_NMI (CPU.requestIrq IRQ_RESET m))
    = IRQ_NMI.
Proof.
  split.
  - destruct (requestIrq_latch IRQ_NMI (CPU.requestIrq IRQ_NORMAL m)) as [_ H].
    rewrite H. change (IRQ_NMI =? IRQ_NORMAL) with false.
    rewrite andb_false_r. reflexivity.
  - destruct (requestIrq_latch IRQ_NMI (CPU.requestIrq IRQ_RESET m)) as [_ H].
    rewrite H. change (IRQ_NMI =? IRQ_NORMAL) with false.
    rewrite andb_false_r. reflexivity.
Qed.

End InterruptLatch.

(** C2, at the failing input.  The console has run its RESET sequence
    and one instruction; nothing is pending and the I flag is set.  A
    device requests an IRQ, then the PPU requests an NMI before the next
    instruction boundary.  The boundary acknowledges the NMI (the
    handler at $9000 runs), and after it no request is pending: the IRQ
    was neither serviced nor cleared by its device, yet it is gone.  An
    IRQ that is requested alone stays pending over the same boundary,
    masked or serviced (the handler at $A000 runs). *)
Theorem pending_irq_is_lost_when_nmi_arrives :
  let m0 := snd (CPU.emulate nromDevices program_machine) in
  let irq := CPU.requestIrq IRQ_NORMAL m0 in
  let both := CPU.requestIrq IRQ_NMI irq in
  let after := snd (CPU.emulate nromDevices both) in
  let unmasked := CPU.set_F_INTERRUPT 0 irq in
  CPU.irqRequested m0 = false /\
  (CPU.irqRequested irq, CPU.irqType irq) = (true, IRQ_NORMAL) /\
  (CPU.irqRequested both, CPU.irqType both) = (true, IRQ_NMI) /\
  CPU.REG_PC after = 0x9000 /\
  CPU.irqRequested after = false /\
  CPU.irqRequested (snd (CPU.emulate nromDevices irq)) = true /\
  CPU.REG_PC (snd (CPU.emulate nromDevices unmasked)) = 0xA000 /\
  CPU.irqRequested (snd (CPU.emulate nromDevices unmasked)) = true.
Proof. vm_compute. repeat split. Qed.

(* ================================================================== *)
(** ** Page-cross penalty *)
(* ================================================================== *)

Section PageCross.

Context {Env : Type} (D : Devices Env).

Local Abbreviation t := (CPU.t Env).

Lemma cpuRead16bit_frame {A} (f : t -> A) a (m : t) :
  CPU.bus_proof f -> f (snd (CPU.cpuRead16bit D a m)) = f m.
Proof.
  intros Hf. pose proof Hf as (Hd & _).
  unfold CPU.cpuRead16bit. run0.
  rewrite !cpuRead_frame by exact Hf.
  destruct (_ && _); run0; [apply dev_frame, Hd | reflexivity].
Qed.

Lemma cpuRead16bit_spec a (m : t) :
  exists lo hi,
    fst (CPU.cpuRead16bit D a m) = Z.lor lo (Z.shiftl hi 8) /\
    CPU.busLog (snd (CPU.cpuRead16bit D a m))
      = BusRead (a + 1) hi :: BusRead a lo :: CPU.busLog m.
Proof.
  unfold CPU.cpuRead16bit. run0.
  do 2 eexists. split; [reflexivity |].
  rewrite !cpuRead_busLog. do 2 f_equal.
  destruct (_ && _); run0; [| reflexivity].
  apply (dev_frame CPU.busLog). repeat split.
Qed.

Lemma indexed_frame {A} (f : t -> A) base index (m : t) :
  CPU.bus_proof f -> f (snd (CPU.indexed D base index m)) = f m.
Proof.
  intros Hf. unfold CPU.indexed.
  destruct (CPU.pageCrossed base index); run0; [| reflexivity].
  apply cpuRead_frame, Hf.
Qed.

Lemma indexed_spec base index (m : t) :
  fst (CPU.indexed D base index m)
    = (base + index, if CPU.pageCrossed base index then 1 else 0) /\
  (if CPU.pageCrossed base index
   then exists dummy,
          CPU.busLog (snd (CPU.indexed D base index m))
          = BusRead (CPU.preFixupAddress base index) dummy :: CPU.busLog m
   else CPU.busLog (snd (CPU.indexed D base index m)) = CPU.busLog m).
Proof.
  unfold CPU.indexed.
  destruct (CPU.pageCrossed base index); run0.
  - split; [reflexivity |]. eexists. apply cpuRead_busLog.
  - split; reflexivity.
Qed.

Lemma resolveAddress_indexed mode opaddr (m : t) :
  In mode [CPU.ABSX; CPU.ABSY; CPU.POST] ->
  exists a_lo lo a_hi hi older,
    let base := Z.lor lo (Z.shiftl hi 8) in
    let index := if mode =? CPU.ABSX then CPU.REG_X m else CPU.REG_Y m in
    (if mode =? CPU.POST
     then exists ptr,
            older = BusRead (opaddr + 1) ptr :: CPU.busLog m /\
            a_lo = ptr /\ a_hi = Z.land (ptr + 1) 0xff
     else older = CPU.busLog m /\ a_lo = opaddr + 1 /\ a_hi = opaddr + 1 + 1) /\
    fst (CPU.resolveAddress D mode opaddr m)
      = (base + index, if CPU.pageCrossed base index then 1 else 0) /\
    (if CPU.pageCrossed base index
     then exists dummy,
            CPU.busLog (snd (CPU.resolveAddress D mode opaddr m))
            = BusRead (CPU.preFixupAddress base index) dummy
              :: BusRead a_hi hi :: BusRead a_lo lo :: older
     else CPU.busLog (snd (CPU.resolveAddress D mode opaddr m))
          = BusRead a_hi hi :: BusRead a_lo lo :: older).
Proof.
  intros Hmode.
  assert (Hcases : mode = CPU.ABSX \/ mode = CPU.ABSY \/ mode = CPU.POST).
  { cbn [In] in Hmode. intuition. }
  destruct Hcases as [-> | [-> | ->]].
  - (* Absolute,X *)
    destruct (cpuRead16bit_spec (opaddr + 1) m) as (lo & hi & Hv & Hlog).
    exists (opaddr + 1), lo, (opaddr + 1 + 1), hi, (CPU.busLog m).
    cbv zeta. change (CPU.ABSX =? CPU.POST) with false.
    change (CPU.ABSX =? CPU.ABSX) with true. cbv iota.
    split; [auto |].
    change (CPU.resolveAddress D CPU.ABSX opaddr m)
      with (CPU.bind (CPU.cpuRead16bit D (opaddr + 1))
              (fun a => CPU.bind (CPU.gets CPU.REG_X)
                          (fun x => CPU.indexed D a x)) m).
    run0. rewrite Hv.
    rewrite (cpuRead16bit_frame CPU.REG_X) by (repeat split).
    destruct (indexed_spec (Z.lor lo (Z.shiftl hi 8)) (CPU.REG_X m)
                (snd (CPU.cpuRead16bit D (opaddr + 1) m))) as [Hr Hl].
    split; [exact Hr |].
    destruct (CPU.pageCrossed _ _).
    + destruct Hl as [dummy Hl]. exists dummy. rewrite Hl, Hlog. reflexivity.
    + rewrite Hl, Hlog. reflexivity.
  - (* Absolute,Y *)
    destruct (cpuRead16bit_spec (opaddr + 1) m) as (lo & hi & Hv & Hlog).
    exists (opaddr + 1), lo, (opaddr + 1 + 1), hi, (CPU.busLog m).
    cbv zeta. change (CPU.ABSY =? CPU.POST) with false.
    change (CPU.ABSY =? CPU.ABSX) with false. cbv iota.
    split; [auto |].
    change (CPU.resolveAddress D CPU.ABSY opaddr m)
      with (CPU.bind (CPU.cpuRead16bit D (opaddr + 1))
              (fun a => CPU.bind (CPU.gets CPU.REG_Y)
                          (fun y => CPU.indexed D a y)) m).
    run0. rewrite Hv.
    rewrite (cpuRead16bit_frame CPU.REG_Y) by (repeat split).
    destruct (indexed_spec (Z.lor lo (Z.shiftl hi 8)) (CPU.REG_Y m)
                (snd (CPU.cpuRead16bit D (opaddr + 1) m))) as [Hr Hl].
    split; [exact Hr |].
    destruct (CPU.pageCrossed _ _).
    + destruct Hl as [dummy Hl]. exists dummy. rewrite Hl, Hlog. reflexivity.
    + rewrite Hl, Hlog. reflexivity.
  - (* (d),Y *)
    change (CPU.resolveAddress D CPU.POST opaddr m)
      with (CPU.bind (CPU.cpuRead D (opaddr + 1))
              (fun ptr => CPU.bind (CPU.cpuRead D ptr)
                (fun lo => CPU.bind (CPU.cpuRead D (Z.land (ptr + 1) 0xff))
                  (fun hi => CPU.bind (CPU.gets CPU.REG_Y)
                    (fun y => CPU.indexed D (Z.lor lo (Z.shiftl hi 8)) y)))) m).
    run0.
    set (r0 := CPU.cpuRead D (opaddr + 1) m).
    set (r1 := CPU.cpuRead D (fst r0) (snd r0)).
    set (r2 := CPU.cpuRead D (Z.land (fst r0 + 1) 0xff) (snd r1)).
    exists (fst r0), (fst r1), (Z.land (fst r0 + 1) 0xff), (fst r2),
      (BusRead (opaddr + 1) (fst r0) :: CPU.busLog m).
    cbv zeta. change (CPU.POST =? CPU.POST) with true.
    change (CPU.POST =? CPU.ABSX) with false. cbv iota.
    split; [exists (fst r0); auto |].
    assert (HY : CPU.REG_Y (snd r2) = CPU.REG_Y m).
    { unfold r2, r1, r0. rewrite !(cpuRead_frame D CPU.REG_Y) by (repeat split).
      reflexivity. }
    assert (Hlog : CPU.busLog (snd r2)
                   = BusRead (Z.land (fst r0 + 1) 0xff) (fst r2)
                     :: BusRead (fst r0) (fst r1)
                     :: BusRead (opaddr + 1) (fst r0) :: CPU.busLog m).
    { unfold r2. rewrite cpuRead_busLog. fold r2. f_equal.
      unfold r1. rewrite cpuRead_busLog. fold r1. f_equal.
      unfold r0. apply cpuRead_busLog. }
    rewrite HY.
    destruct (indexed_spec (Z.lor (fst r1) (Z.shiftl (fst r2) 8)) (CPU.REG_Y m)
                (snd r2)) as [Hr Hl].
    split; [exact Hr |].
    destruct (CPU.pageCrossed _ _).
    + destruct Hl as [dummy Hl]. exists dummy. rewrite Hl, Hlog. reflexivity.
    + rewrite Hl, Hlog. reflexivity.
Qed.

(** The ten read instructions make one transfer, the read of their
    operand, and take no branch cycles. *)
Lemma execute_read type mode addr (m : t) :
  In type CPU.readInstructionsWithPenalty ->
  fst (CPU.execute D type mode addr m) = 0 /\
  CPU.busLog (snd (CPU.execute D type mode addr m))
    = BusRead addr (fst (CPU.cpuRead D addr m)) :: CPU.busLog m.
Proof.
  intros Hin. cbn [In CPU.readInstructionsWithPenalty] in Hin.
  repeat (destruct Hin as [<- | Hin]; [
    cbv beta iota delta [CPU.execute CPU.addWithCarry CPU.subWithCarry
                         CPU.setSignZero CPU.compareFlags];
    run; rewrite cpuRead_busLog; split; reflexivity |]).
  contradiction.
Qed.

(** The stores and the read-modify-write instructions take no branch
    cycles. *)
Lemma execute_store_rmw type mode addr (m : t) :
  In type CPU.storeAndRmwInstructions ->
  fst (CPU.execute D type mode addr m) = 0.
Proof.
  intros Hin. cbn [In CPU.storeAndRmwInstructions] in Hin.
  repeat (destruct Hin as [<- | Hin]; [
    cbv beta iota delta [CPU.execute CPU.addWithCarry CPU.subWithCarry
                         CPU.setSignZero CPU.compareFlags];
    try destruct (mode =? 4); run; reflexivity |]).
  contradiction.
Qed.

Lemma stepControllers_busLog (m : t) :
  CPU.busLog (snd (CPU.stepControllers m)) = CPU.busLog m.
Proof.
  unfold CPU.stepControllers. run.
  destruct (CPU.controller1Read m); run;
    destruct (CPU.controller2Read m); run; reflexivity.
Qed.

Lemma fetchExecute_shape (m0 : t) opcode m1 :
  hasMapper D (CPU.env m0) = true ->
  CPU.cpuRead D (Z.land (CPU.REG_PC m0 + 1) 0xffff) m0 = (opcode, m1) ->
  let opaddr := Z.land (CPU.REG_PC m0 + 1) 0xffff in
  let opinf := CPU.opInfo opcode in
  let type := CPU.instructionTypeOf opinf in
  let mode := CPU.addrModeOf opinf in
  exists ma mb,
    CPU.busLog ma = CPU.busLog m1 /\
    CPU.REG_X ma = CPU.REG_X m1 /\
    CPU.REG_Y ma = CPU.REG_Y m1 /\
    CPU.busLog mb = CPU.busLog (snd (CPU.resolveAddress D mode opaddr ma)) /\
    let resolved := fst (CPU.resolveAddress D mode opaddr ma) in
    let addr := Z.land (fst resolved) 0xffff in
    fst (CPU.fetchExecute D m0)
      = (if CPU.hasPenalty type
         then CPU.baseCyclesOf opinf + snd resolved
         else CPU.baseCyclesOf opinf)
        + fst (CPU.execute D type mode addr mb) /\
    CPU.busLog (snd (CPU.fetchExecute D m0))
      = CPU.busLog (snd (CPU.execute D type mode addr mb)).
Proof.
  intros Hmap Hfetch. cbv zeta.
  unfold CPU.fetchExecute.
  rewrite bind_run, gets_run. cbn [fst snd]. rewrite Hmap. cbn [negb].
  rewrite bind_run, gets_run. cbn [fst snd].
  rewrite bind_run, Hfetch. cbn [fst snd].
  rewrite bind_run.
  set (m2 := snd (CPU.dev (recordCpuInstruction D (Z.land (CPU.REG_PC m0 + 1) 65535) opcode) m1)).
  run0.
  set (ma := CPU.set_REG_PC _ _).
  exists ma.
  destruct (CPU.resolveAddress D _ _ ma) as [[addr0 pcc] mr] eqn:Hres.
  cbn [fst snd].
  rewrite bind_run. set (mb := snd (CPU.when _ _ mr)). exists mb.
  assert (Hm2 : forall A (f : t -> A), CPU.device_proof f -> f m2 = f m1).
  { intros A f Hf. unfold m2. apply dev_frame, Hf. }
  split; [unfold ma; cpu_fields; apply Hm2; repeat split |].
  split; [unfold ma; cpu_fields; apply Hm2; repeat split |].
  split; [unfold ma; cpu_fields; apply Hm2; repeat split |].
  split.
  { unfold mb. rewrite when_run. destruct (_ && _); run; reflexivity. }
  run0. split; [reflexivity |].
  cpu_fields. rewrite stepControllers_busLog. cpu_fields. reflexivity.
Qed.

Lemma hasPenalty_read type :
  In type CPU.readInstructionsWithPenalty -> CPU.hasPenalty type = true.
Proof.
  intros Hin. cbn [In CPU.readInstructionsWithPenalty] in Hin.
  repeat (destruct Hin as [<- | Hin]; [reflexivity |]). contradiction.
Qed.

Lemma hasPenalty_store_rmw type :
  In type CPU.storeAndRmwInstructions -> CPU.hasPenalty type = false.
Proof.
  intros Hin. cbn [In CPU.storeAndRmwInstructions] in Hin.
  repeat (destruct Hin as [<- | Hin]; [reflexivity |]). contradiction.
Qed.

(** Let an instruction be fetched at an instruction boundary (after
    the pending interrupt, if any, has been dispatched).  If the opcode
    table gives it one of the instruction numbers of
    [readInstructionsWithPenalty] (those [execute] runs as ADC, AND,
    CMP, EOR, LDA, LDX, LDY, ORA, SBC, LAX) in Absolute,X, Absolute,Y or
    (d),Y mode, its transfers after the operand bytes are:
    when the index carries into the high byte, a dummy read at the old
    page with the new low byte, then the read of the operand, and the
    instruction takes its base cycles plus one; otherwise the read of
    the operand alone, in its base cycles.  An instruction that the
    table gives the number of a store or of a read-modify-write takes
    exactly its base cycles in every mode. *)
Theorem page_cross_costs_one_cycle_for_reads_only
    (m : CPU.t Env) (opcode : Z) (m1 : CPU.t Env) :
  let m0 := snd (CPU.dispatchInterrupt D m) in
  let opaddr := Z.land (CPU.REG_PC m0 + 1) 0xffff in
  hasMapper D (CPU.env m0) = true ->
  CPU.cpuRead D opaddr m0 = (opcode, m1) ->
  let opinf := CPU.opInfo opcode in
  let type := CPU.instructionTypeOf opinf in
  let mode := CPU.addrModeOf opinf in
  let cycles := fst (CPU.emulate D m) in
  let log := CPU.busLog (snd (CPU.emulate D m)) in
  (In type CPU.readInstructionsWithPenalty ->
   In mode [CPU.ABSX; CPU.ABSY; CPU.POST] ->
   exists a_lo lo a_hi hi value older,
     let base := Z.lor lo (Z.shiftl hi 8) in
     let index := if mode =? CPU.ABSX then CPU.REG_X m0 else CPU.REG_Y m0 in
     let target := Z.land (base + index) 0xffff in
     (if mode =? CPU.POST
      then exists ptr,
             older = BusRead (opaddr + 1) ptr :: BusRead opaddr opcode
                       :: CPU.busLog m0 /\
             a_lo = ptr /\ a_hi = Z.land (ptr + 1) 0xff
      else older = BusRead opaddr opcode :: CPU.busLog m0 /\
           a_lo = opaddr + 1 /\ a_hi = opaddr + 2) /\
     (if CPU.pageCrossed base index
      then cycles = CPU.baseCyclesOf opinf + 1 /\
           exists dummy,
             log = BusRead target value
                   :: BusRead (CPU.preFixupAddress base index) dummy
                   :: BusRead a_hi hi :: BusRead a_lo lo :: older
      else cycles = CPU.baseCyclesOf opinf /\
           log = BusRead target value
                 :: BusRead a_hi hi :: BusRead a_lo lo :: older)) /\
  (In type CPU.storeAndRmwInstructions ->
   cycles = CPU.baseCyclesOf opinf).
Proof.
  intros m0 opaddr Hmap Hfetch opinf type mode cycles log.
  assert (Hem : CPU.emulate D m = CPU.fetchExecute D m0).
  { unfold CPU.emulate. rewrite bind_run. reflexivity. }
  destruct (fetchExecute_shape m0 opcode m1 Hmap Hfetch)
    as (ma & mb & Hla & Hxa & Hya & Hlb & Hc & Hl).
  cbv zeta in Hlb, Hc, Hl. fold opaddr opinf in Hlb, Hc, Hl.
  fold type mode in Hlb, Hc, Hl.
  assert (Hl1 : CPU.busLog m1 = BusRead opaddr opcode :: CPU.busLog m0).
  { pose proof (cpuRead_busLog D opaddr m0) as H. rewrite Hfetch in H. exact H. }
  assert (Hx1 : CPU.REG_X m1 = CPU.REG_X m0).
  { pose proof (cpuRead_frame D CPU.REG_X opaddr m0) as H.
    rewrite Hfetch in H. apply H. repeat split. }
  assert (Hy1 : CPU.REG_Y m1 = CPU.REG_Y m0).
  { pose proof (cpuRead_frame D CPU.REG_Y opaddr m0) as H.
    rewrite Hfetch in H. apply H. repeat split. }
  unfold cycles, log. rewrite Hem, Hc, Hl. clear Hc Hl.
  split.
  - intros Hty Hmode.
    rewrite (hasPenalty_read type Hty).
    destruct (resolveAddress_indexed mode opaddr ma Hmode)
      as (a_lo & lo & a_hi & hi & older & Hop & Hres & Hlog).
    cbv zeta in Hop, Hres, Hlog.
    rewrite Hxa, Hx1, Hya, Hy1 in Hres, Hlog.
    rewrite Hla, Hl1 in Hop.
    rewrite Hres. cbn [fst snd].
    set (base := Z.lor lo (Z.shiftl hi 8)) in *.
    set (index := if mode =? CPU.ABSX then CPU.REG_X m0 else CPU.REG_Y m0) in *.
    destruct (execute_read type mode (Z.land (base + index) 0xffff) mb Hty)
      as [Hb He].
    rewrite Hb, He, Hlb.
    exists a_lo, lo, a_hi, hi,
      (fst (CPU.cpuRead D (Z.land (base + index) 0xffff) mb)), older.
    cbv zeta. fold base index.
    split.
    + destruct (mode =? CPU.POST).
      * exact Hop.
      * destruct Hop as (Ho & Hlo & Hhi). repeat split; [exact Ho | exact Hlo | lia].
    + destruct (CPU.pageCrossed base index).
      * split; [lia |]. destruct Hlog as [dummy Hlog].
        exists dummy. rewrite Hlog. reflexivity.
      * split; [lia |]. rewrite Hlog. reflexivity.
  - intros Hty.
    rewrite (hasPenalty_store_rmw type Hty).
    rewrite execute_store_rmw by exact Hty. lia.
Qed.

End PageCross.

(** [LDA $80FF,X] with X = 1 crosses into page $81 and takes 4 + 1
    cycles; [STA $80FF,X], which follows it, takes its 5 base cycles. *)
Lemma page_cross_costs_one_cycle_for_reads_only_witness :
  fst (CPU.emulate nromDevices program_machine) = 5 /\
  fst (CPU.emulate nromDevices (snd (CPU.emulate nromDevices program_machine)))
    = 5.
Proof.
  split.
  - set (m0 := snd (CPU.dispatchInterrupt nromDevices program_machine)).
    set (fetch := CPU.cpuRead nromDevices (Z.land (CPU.REG_PC m0 + 1) 0xffff) m0).
    assert (Hfetch : fetch = (0xBD, snd fetch)).
    { apply injective_projections; [vm_compute; reflexivity | reflexivity]. }
    pose proof (page_cross_costs_one_cycle_for_reads_only nromDevices
                  program_machine 0xBD (snd fetch) eq_refl Hfetch) as H.
    cbv zeta in H. destruct H as [Hread _].
    assert (Htype : In (CPU.instructionTypeOf (CPU.opInfo 0xBD))
                      CPU.readInstructionsWithPenalty)
      by (vm_compute; auto 20).
    assert (Hmode : In (CPU.addrModeOf (CPU.opInfo 0xBD))
                      [CPU.ABSX; CPU.ABSY; CPU.POST])
      by (vm_compute; auto).
    destruct (Hread Htype Hmode)
      as (a_lo & lo & a_hi & hi & value & older & Hop & Hcase).
    change (CPU.addrModeOf (CPU.opInfo 0xBD) =? CPU.POST) with false in Hop.
    destruct Hop as (Hold & _).
    destruct (CPU.pageCrossed _ _).
    + destruct Hcase as [Hc _]. exact Hc.
    + destruct Hcase as [_ Hlog]. exfalso.
      apply (f_equal (@length access)) in Hlog.
      rewrite Hold in Hlog. vm_compute in Hlog. discriminate Hlog.
  - set (m := snd (CPU.emulate nromDevices program_machine)).
    set (m0 := snd (CPU.dispatchInterrupt nromDevices m)).
    set (fetch := CPU.cpuRead nromDevices (Z.land (CPU.REG_PC m0 + 1) 0xffff) m0).
    assert (Hfetch : fetch = (0x9D, snd fetch)).
    { apply injective_projections; [vm_compute; reflexivity | reflexivity]. }
    pose proof (page_cross_costs_one_cycle_for_reads_only nromDevices
                  m 0x9D (snd fetch) eq_refl Hfetch) as H.
    cbv zeta in H. destruct H as [_ Hstore].
    apply Hstore. vm_compute. auto 20.
Defined.

(** C3, at the failing input.  [execute] runs LAX under number 60, and
    60 is in [readInstructionsWithPenalty]; but the opcode table gives
    the six LAX opcodes number 57, and 60 to the seven ISC opcodes.  So
    the bytes [BF FF 80] with Y = 1, the opcode of [LAX $80FF,Y] across
    a page, make the dummy read at $8000 and then take the 4 base cycles
    and no more (and leave X alone); and the bytes [FF FF 80] with
    X = 1, the opcode of the read-modify-write [ISC $80FF,X], take
    7 + 1 cycles (and load A and X, writing nothing). *)
Theorem lax_opcode_misses_the_page_cross_cycle :
  let decode op :=
    (CPU.instructionTypeOf (CPU.opInfo op), CPU.addrModeOf (CPU.opInfo op),
     CPU.baseCyclesOf (CPU.opInfo op)) in
  let opcodes_of type :=
    List.filter (fun op => CPU.instructionTypeOf (CPU.opInfo op) =? type)
      (Zrange 256) in
  let first := CPU.emulate nromDevices unofficial_machine in
  let second := CPU.emulate nromDevices (snd first) in
  decode 0xBF = (57, CPU.ABSY, 4) /\
  decode 0xFF = (60, CPU.ABSX, 7) /\
  opcodes_of 57 = [0xA3; 0xA7; 0xAF; 0xB3; 0xB7; 0xBF] /\
  opcodes_of 60 = [0xE3; 0xE7; 0xEF; 0xF3; 0xF7; 0xFB; 0xFF] /\
  CPU.hasPenalty 57 = false /\
  CPU.hasPenalty 60 = true /\
  CPU.pageCrossed 0x80FF 1 = true /\
  fst first = 4 /\
  CPU.busLog (snd first)
  = [BusRead 0x8100 0xEA; BusRead 0x8000 0xBF;
     BusRead 0x8002 0x80; BusRead 0x8001 0xFF; BusRead 0x8000 0xBF;
     BusRead 0xFFFD 0x80; BusRead 0xFFFC 0x00] /\
  (CPU.REG_ACC (snd first), CPU.REG_X (snd first)) = (0, 1) /\
  fst second = 8 /\
  CPU.busLog (snd second)
  = [BusRead 0x8100 0xEA; BusRead 0x8000 0xBF;
     BusRead 0x8005 0x80; BusRead 0x8004 0xFF; BusRead 0x8003 0xFF]
    ++ CPU.busLog (snd first) /\
  (CPU.REG_ACC (snd second), CPU.REG_X (snd second)) = (0xEA, 0xEA).
Proof. vm_compute. repeat split. Qed.
(* ================================================================== *)
(** ** What one instruction does to the controllers *)
(* ================================================================== *)

Section Hoare.

Context {Env : Type}.

Local Abbreviation t := (CPU.t Env).
Local Abbreviation M := (CPU.M Env).

Lemma hoare_bind {A B} (P Q R : t -> Prop) (c : M A) (k : A -> M B) :
  CPU.hoare P c Q -> (forall a, CPU.hoare Q (k a) R) ->
  CPU.hoare P (CPU.bind c k) R.
Proof.
  intros Hc Hk m Hm. rewrite bind_run. apply Hk, Hc, Hm.
Qed.

Lemma hoare_ret {A} (P : t -> Prop) (a : A) : CPU.hoare P (CPU.ret a) P.
Proof. intros m Hm. exact Hm. Qed.

Lemma hoare_gets {A} (P : t -> Prop) (f : t -> A) : CPU.hoare P (CPU.gets f) P.
Proof. intros m Hm. exact Hm. Qed.

Lemma hoare_when (P : t -> Prop) (b : bool) (c : M unit) :
  CPU.hoare P c P -> CPU.hoare P (CPU.when b c) P.
Proof. intros Hc. destruct b; [exact Hc | apply hoare_ret]. Qed.

Lemma hoare_assign {A} (P : t -> Prop) (s : A -> t -> t) (v : A) :
  (forall m m', CPU.same_bus m m' -> P m -> P m') ->
  (forall m, CPU.same_bus m (s v m)) ->
  CPU.hoare P (CPU.assign s v) P.
Proof. intros HP Hs m Hm. exact (HP m _ (Hs m) Hm). Qed.

End Hoare.

(** One step of a proof of [CPU.hoare Inv c Inv] for a piece [c] of the
    interpreter, given that bus transfers ([Hread], [Hwrite]), the
    collaborators ([Hdev]) and register updates ([Hregs]) keep [Inv]. *)
Ltac hoare_step Inv Hread Hwrite Hdev Hregs :=
  match goal with
  | |- CPU.hoare Inv (CPU.bind _ _) _ => apply (hoare_bind Inv Inv); [| intros ?]
  | |- CPU.hoare Inv (CPU.ret _) Inv => apply hoare_ret
  | |- CPU.hoare Inv (CPU.gets _) Inv => apply hoare_gets
  | |- CPU.hoare Inv (CPU.when _ _) Inv => apply hoare_when
  | |- CPU.hoare Inv (CPU.assign _ _) Inv =>
      apply (hoare_assign Inv _ _ Hregs); intros ?; repeat split
  | |- CPU.hoare Inv (CPU.cpuRead _ _) Inv => apply Hread
  | |- CPU.hoare Inv (CPU.cpuWrite _ _ _) Inv => apply Hwrite
  | |- CPU.hoare Inv (CPU.dev _) Inv => apply Hdev
  | |- CPU.hoare Inv (if ?c then _ else _) _ => destruct c
  | |- CPU.hoare Inv (match ?c with _ => _ end) _ => destruct c
  end.

Section InstructionInvariant.

Context {Env : Type} (D : Devices Env).

Local Abbreviation t := (CPU.t Env).

Variables Inv Post : t -> Prop.

Hypothesis Inv_read : forall a, CPU.hoare Inv (CPU.cpuRead D a) Inv.
Hypothesis Inv_write : forall a v, CPU.hoare Inv (CPU.cpuWrite D a v) Inv.
Hypothesis Inv_dev :
  forall A (op : Env -> A * Env * list effect), CPU.hoare Inv (CPU.dev op) Inv.
Hypothesis Inv_regs : forall m m', CPU.same_bus m m' -> Inv m -> Inv m'.
Hypothesis Post_clock : CPU.hoare Inv CPU.stepControllers Post.
Hypothesis Post_regs : forall m m', CPU.same_bus m m' -> Post m -> Post m'.
Hypothesis Post_idle : forall m, Inv m -> Post m.

Ltac keep := repeat hoare_step Inv Inv_read Inv_write Inv_dev Inv_regs.

Lemma inv_push v : CPU.hoare Inv (CPU.push D v) Inv.
Proof. unfold CPU.push. keep. Qed.

Lemma inv_pull : CPU.hoare Inv (CPU.pull D) Inv.
Proof. unfold CPU.pull. keep. Qed.

Lemma inv_cpuRead16bit a : CPU.hoare Inv (CPU.cpuRead16bit D a) Inv.
Proof. unfold CPU.cpuRead16bit. keep. Qed.

Lemma inv_setStatus st : CPU.hoare Inv (CPU.setStatus st) Inv.
Proof. unfold CPU.setStatus. keep. Qed.

Lemma inv_setSignZero v : CPU.hoare Inv (CPU.setSignZero v) Inv.
Proof. unfold CPU.setSignZero. keep. Qed.

Lemma inv_addWithCarry v : CPU.hoare Inv (CPU.addWithCarry v) Inv.
Proof. unfold CPU.addWithCarry. keep. Qed.

Lemma inv_subWithCarry v : CPU.hoare Inv (CPU.subWithCarry v) Inv.
Proof. unfold CPU.subWithCarry. keep. Qed.

Lemma inv_compareFlags v : CPU.hoare Inv (CPU.compareFlags v) Inv.
Proof. unfold CPU.compareFlags. keep. Qed.

Lemma inv_branch b a : CPU.hoare Inv (CPU.branch b a) Inv.
Proof. unfold CPU.branch. keep. Qed.

Ltac keep_step :=
  first
    [ match goal with
      | |- CPU.hoare Inv (CPU.push _ _) Inv => apply inv_push
      | |- CPU.hoare Inv (CPU.pull _) Inv => apply inv_pull
      | |- CPU.hoare Inv (CPU.cpuRead16bit _ _) Inv => apply inv_cpuRead16bit
      | |- CPU.hoare Inv (CPU.setStatus _) Inv => apply inv_setStatus
      | |- CPU.hoare Inv (CPU.setSignZero _) Inv => apply inv_setSignZero
      | |- CPU.hoare Inv (CPU.addWithCarry _) Inv => apply inv_addWithCarry
      | |- CPU.hoare Inv (CPU.subWithCarry _) Inv => apply inv_subWithCarry
      | |- CPU.hoare Inv (CPU.compareFlags _) Inv => apply inv_compareFlags
      | |- CPU.hoare Inv (CPU.branch _ _) Inv => apply inv_branch
      end
    | hoare_step Inv Inv_read Inv_write Inv_dev Inv_regs ].

Lemma inv_resolveAddress mode opaddr :
  CPU.hoare Inv (CPU.resolveAddress D mode opaddr) Inv.
Proof. unfold CPU.resolveAddress, CPU.indexed. repeat keep_step. Qed.

Lemma inv_execute type mode addr :
  CPU.hoare Inv (CPU.execute D type mode addr) Inv.
Proof. unfold CPU.execute. repeat keep_step. Qed.

Lemma inv_doIrq st : CPU.hoare Inv (CPU.doIrq D st) Inv.
Proof. unfold CPU.doIrq. repeat keep_step. Qed.

Lemma inv_doNonMaskableInterrupt st :
  CPU.hoare Inv (CPU.doNonMaskableInterrupt D st) Inv.
Proof. unfold CPU.doNonMaskableInterrupt. repeat keep_step. Qed.

Lemma inv_doResetInterrupt : CPU.hoare Inv (CPU.doResetInterrupt D) Inv.
Proof. unfold CPU.doResetInterrupt. repeat keep_step. Qed.

Lemma inv_dispatchInterrupt : CPU.hoare Inv (CPU.dispatchInterrupt D) Inv.
Proof.
  unfold CPU.dispatchInterrupt.
  repeat first
    [ match goal with
      | |- CPU.hoare Inv (CPU.doIrq _ _) Inv => apply inv_doIrq
      | |- CPU.hoare Inv (CPU.doNonMaskableInterrupt _ _) Inv =>
          apply inv_doNonMaskableInterrupt
      | |- CPU.hoare Inv (CPU.doResetInterrupt _) Inv =>
          apply inv_doResetInterrupt
      end
    | keep_step ].
Qed.

(** From the opcode fetch to the clocking of the controllers. *)
Lemma post_fetchExecute : CPU.hoare Inv (CPU.fetchExecute D) Post.
Proof.
  unfold CPU.fetchExecute.
  repeat first
    [ match goal with
      | |- CPU.hoare Inv (CPU.execute _ _ _ _) Inv => apply inv_execute
      | |- CPU.hoare Inv (CPU.resolveAddress _ _ _) Inv =>
          apply inv_resolveAddress
      | |- CPU.hoare Inv CPU.stepControllers Post => exact Post_clock
      | |- CPU.hoare Inv (CPU.ret _) Post => intros m Hm; apply Post_idle, Hm
      | |- CPU.hoare Inv (CPU.bind CPU.stepControllers _) Post =>
          apply (hoare_bind Inv Post); [| intros ?]
      | |- CPU.hoare Post (CPU.bind _ _) Post =>
          apply (hoare_bind Post Post); [| intros ?]
      | |- CPU.hoare Post (CPU.gets _) Post => apply hoare_gets
      | |- CPU.hoare Post (CPU.ret _) Post => apply hoare_ret
      | |- CPU.hoare Post (CPU.assign _ _) Post =>
          apply (hoare_assign Post _ _ Post_regs); intros ?; repeat split
      end
    | keep_step ].
Qed.

Lemma post_emulate : CPU.hoare Inv (CPU.emulate D) Post.
Proof.
  unfold CPU.emulate. apply (hoare_bind Inv Inv).
  - apply inv_dispatchInterrupt.
  - intros _. apply post_fetchExecute.
Qed.

End InstructionInvariant.

Section ControllerPorts.

Context {Env : Type} (D : Devices Env).

Local Abbreviation t := (CPU.t Env).

(** A read of any address leaves both controllers as they are. *)
Lemma cpuRead_controller second a (m : t) :
  portController second (snd (CPU.cpuRead D a m)) = portController second m.
Proof.
  unfold portController, CPU.cpuRead, CPU.readSource, Controller.read.
  destruct second; frame_cases.
Qed.

(** It marks a port only when the address is the port's. *)
Lemma cpuRead_mark_other second a (m : t) :
  a <> portAddress second ->
  portWasRead second (snd (CPU.cpuRead D a m)) = portWasRead second m.
Proof.
  intros Ha. apply Z.eqb_neq in Ha.
  unfold portWasRead, CPU.cpuRead, CPU.readSource, Controller.read.
  destruct second; cbn [portAddress] in Ha; rewrite Ha; frame_cases.
Qed.

Lemma cpuRead_mark second a (m : t) :
  portWasRead second (snd (CPU.cpuRead D a m)) = true ->
  a = portAddress second \/ portWasRead second m = true.
Proof.
  intros H. destruct (Z.eq_dec a (portAddress second)) as [Ha | Ha];
    [left; exact Ha | right].
  rewrite cpuRead_mark_other in H by exact Ha. exact H.
Qed.

(** The byte read at a port is the controller's, the Zapper's bits
    apart. *)
Lemma cpuRead_port_byte second (m : t) :
  controllerBits second (fst (CPU.cpuRead D (portAddress second) m))
  = fst (Controller.read (portController second m)).
Proof.
  unfold controllerBits, portAddress, portController.
  destruct second.
  - unfold CPU.cpuRead, CPU.readSource.
    change (0x4017 <? 0x2000) with false. change (0x4017 <? 0x4000) with false.
    change (0x4017 <? 0x4020) with true. change (0x4017 =? 0x4016) with false.
    change (0x4017 =? 0x4017) with true. cbv iota.
    run0.
    rewrite (dev_frame CPU.controller2) by (repeat split).
    destruct (Controller.read (CPU.controller2 m)) as [v c'] eqn:Hr.
    pose proof (read_value (CPU.controller2 m)) as Hv. rewrite Hr in Hv.
    cbn [fst] in Hv. run0. cbn [fst]. subst v.
    destruct (Controller.serial_bit _), (negb _), (negb _); reflexivity.
  - unfold CPU.cpuRead, CPU.readSource.
    change (0x4016 <? 0x2000) with false. change (0x4016 <? 0x4000) with false.
    change (0x4016 <? 0x4020) with true. change (0x4016 =? 0x4016) with true.
    cbv iota. run0.
    destruct (Controller.read (CPU.controller1 m)) as [v c'] eqn:Hr.
    run0. reflexivity.
Qed.

(** A write strobes both controllers when its address is $4016, and
    leaves them alone otherwise; it never touches the marks. *)
Lemma cpuWrite_controller second a v (m : t) :
  portController second (snd (CPU.cpuWrite D a v m))
  = if a =? 0x4016 then Controller.strobe v (portController second m)
    else portController second m.
Proof.
  unfold portController, CPU.cpuWrite, CPU.writeTarget.
  destruct (Z.eqb_spec a 0x4016) as [-> | Ha].
  - change (0x4016 <? 0x2000) with false. change (0x4016 <? 0x4000) with false.
    change (0x4016 <? 0x4020) with true. change (0x4016 =? 0x4014) with false.
    cbv iota. destruct second; run; reflexivity.
  - destruct second; frame_cases.
Qed.

Lemma cpuWrite_mark second a v (m : t) :
  portWasRead second (snd (CPU.cpuWrite D a v m)) = portWasRead second m.
Proof.
  unfold portWasRead, CPU.cpuWrite, CPU.writeTarget.
  destruct second; frame_cases.
Qed.

Lemma strobe_position v c :
  Controller.shiftRegister (Controller.strobe v c) = Controller.shiftRegister c
  \/ Controller.shiftRegister (Controller.strobe v c) = 0.
Proof.
  unfold Controller.strobe. destruct (_ && _); cbn; auto.
Qed.

Lemma clock_position c :
  Controller.shiftRegister (Controller.clock c) <= Controller.shiftRegister c + 1.
Proof.
  unfold Controller.clock. destruct (_ && _); cbn; lia.
Qed.

Lemma stepControllers_controller second (m : t) :
  portController second (snd (CPU.stepControllers m))
  = if portWasRead second m then Controller.clock (portController second m)
    else portController second m.
Proof.
  unfold portController, portWasRead, CPU.stepControllers. run.
  destruct second, (CPU.controller1Read m); run;
    destruct (CPU.controller2Read m); run; reflexivity.
Qed.

(** *** The port while an instruction runs *)

Section Running.

Variable second : bool.
Variable m0 : t.
Hypothesis position_ok : 0 <= portPosition second m0.

Lemma running_start : portWasRead second m0 = false -> port_running second m0 m0.
Proof.
  intros Hmark. exists []. split; [reflexivity |]. split; [lia |].
  split; [rewrite Hmark; discriminate |].
  intros _. split; [reflexivity |]. intros v [].
Qed.

Lemma running_read a : CPU.hoare (port_running second m0) (CPU.cpuRead D a)
                         (port_running second m0).
Proof.
  intros m (new & Hlog & Hpos & Hmark & Hsame).
  exists (BusRead a (fst (CPU.cpuRead D a m)) :: new).
  unfold portPosition in *. rewrite cpuRead_busLog, cpuRead_controller, Hlog.
  split; [reflexivity |]. split; [exact Hpos |]. split.
  - intros H. apply cpuRead_mark in H. destruct H as [-> | H].
    + eexists. left. reflexivity.
    + destruct (Hmark H) as [v Hv]. exists v. right. exact Hv.
  - intros Hfree.
    assert (Hfree' : strobeFree new).
    { intros v Hv. apply (Hfree v). right. exact Hv. }
    destruct (Hsame Hfree') as [Hc Hreads]. split; [exact Hc |].
    intros v [Hv | Hv]; [| apply Hreads, Hv].
    injection Hv as Ha Hval. subst a v.
    rewrite cpuRead_port_byte, Hc. reflexivity.
Qed.

Lemma running_write a v : CPU.hoare (port_running second m0) (CPU.cpuWrite D a v)
                            (port_running second m0).
Proof.
  intros m (new & Hlog & Hpos & Hmark & Hsame).
  exists (BusWrite a v :: new).
  unfold portPosition in *.
  rewrite cpuWrite_busLog, cpuWrite_controller, cpuWrite_mark, Hlog.
  split; [reflexivity |]. split; [| split].
  - destruct (a =? 0x4016); [| exact Hpos].
    destruct (strobe_position v (portController second m)) as [-> | ->]; lia.
  - intros H. destruct (Hmark H) as [w Hw]. exists w. right. exact Hw.
  - intros Hfree.
    assert (Hfree' : strobeFree new).
    { intros w Hw. apply (Hfree w). right. exact Hw. }
    destruct (Hsame Hfree') as [Hc Hreads].
    destruct (Z.eqb_spec a 0x4016) as [-> | Ha].
    + exfalso. apply (Hfree v). left. reflexivity.
    + split; [exact Hc |].
      intros w [Hw | Hw]; [discriminate Hw | apply Hreads, Hw].
Qed.

Lemma running_same (m m' : t) :
  CPU.busLog m' = CPU.busLog m ->
  portController second m' = portController second m ->
  portWasRead second m' = portWasRead second m ->
  port_running second m0 m -> port_running second m0 m'.
Proof.
  intros Hl Hc Hr (new & Hlog & Hpos & Hmark & Hsame).
  exists new. unfold portPosition in *. rewrite Hl, Hc, Hr. auto.
Qed.

Lemma running_regs (m m' : t) :
  CPU.same_bus m m' -> port_running second m0 m -> port_running second m0 m'.
Proof.
  intros (_ & _ & Hl & Hc1 & Hc2 & Hr1 & Hr2 & _).
  apply running_same; [exact Hl | |]; destruct second; assumption.
Qed.

Lemma running_dev A (op : Env -> A * Env * list effect) :
  CPU.hoare (port_running second m0) (CPU.dev op) (port_running second m0).
Proof.
  intros m. unfold portController, portWasRead.
  apply running_same; [| destruct second ..]; apply dev_frame; repeat split.
Qed.

Lemma done_regs (m m' : t) :
  CPU.same_bus m m' -> port_done second m0 m -> port_done second m0 m'.
Proof.
  intros (_ & _ & Hl & Hc1 & Hc2 & _) (new & Hlog & Hpos & Hnone & Hsame).
  assert (Hc : portController second m' = portController second m)
    by (destruct second; assumption).
  exists new. unfold portPosition in *. rewrite Hl, Hc. auto.
Qed.

Lemma done_idle (m : t) : port_running second m0 m -> port_done second m0 m.
Proof.
  intros (new & Hlog & Hpos & Hmark & Hsame). exists new.
  split; [exact Hlog |]. split; [lia |]. split; [intros _; exact Hpos |].
  intros Hfree. apply (Hsame Hfree).
Qed.

Lemma done_clock :
  CPU.hoare (port_running second m0) CPU.stepControllers (port_done second m0).
Proof.
  intros m (new & Hlog & Hpos & Hmark & Hsame). exists new.
  unfold portPosition in *.
  rewrite stepControllers_busLog, stepControllers_controller.
  split; [exact Hlog |].
  pose proof (clock_position (portController second m)) as Hclock.
  split; [destruct (portWasRead second m); lia |]. split.
  - intros Hnone. destruct (portWasRead second m); [| exact Hpos].
    destruct (Hmark eq_refl) as [v Hv]. destruct (Hnone v Hv).
  - intros Hfree. apply (Hsame Hfree).
Qed.

Lemma emulate_port :
  portWasRead second m0 = false -> port_done second m0 (snd (CPU.emulate D m0)).
Proof.
  intros Hmark.
  apply (post_emulate D (port_running second m0) (port_done second m0)
           running_read running_write running_dev running_regs
           done_clock done_regs done_idle).
  apply running_start, Hmark.
Qed.

End Running.

End ControllerPorts.

(** C10. A controller read leaves the controller, and so the serial
    position, as it was: two consecutive reads of a port return the
    same byte (the same controller bits at $4017, where the Zapper
    supplies bits 3 and 4).  And over one instruction that starts with
    the port's read mark clear, the position goes up by at most one, and
    not at all when the instruction did not read the port; unless the
    instruction writes the strobe, every read of the port within it
    returns the byte of the controller as the instruction found it. *)
Theorem controller_read_is_pure_and_position_advances_once_per_instruction
  {Env : Type} (D : Devices Env) (second : bool) (m : CPU.t Env) :
  portWasRead second m = false ->
  0 <= portPosition second m ->
  (forall c, snd (Controller.read c) = c) /\
  (forall m1 : CPU.t Env,
     let first_read := CPU.cpuRead D (portAddress second) m1 in
     let second_read := CPU.cpuRead D (portAddress second) (snd first_read) in
     portController second (snd first_read) = portController second m1 /\
     controllerBits second (fst second_read)
     = controllerBits second (fst first_read)) /\
  exists new,
    CPU.busLog (snd (CPU.emulate D m)) = new ++ CPU.busLog m /\
    portPosition second (snd (CPU.emulate D m)) <= portPosition second m + 1 /\
    ((forall v, ~ readsOf second new v) ->
     portPosition second (snd (CPU.emulate D m)) <= portPosition second m) /\
    (strobeFree new ->
     forall v, readsOf second new v ->
       controllerBits second v = fst (Controller.read (portController second m))).
Proof.
  intros Hmark Hpos. split; [intros c; reflexivity |]. split.
  - intros m1. cbv zeta. split; [apply cpuRead_controller |].
    rewrite !cpuRead_port_byte, cpuRead_controller. reflexivity.
  - exact (emulate_port D second m Hpos Hmark).
Qed.

Lemma controller_read_is_pure_and_position_advances_once_per_instruction_witness :
  portPosition false (snd (CPU.emulate nromDevices pad_machine))
  <= portPosition false pad_machine + 1.
Proof.
  assert (Hmark : portWasRead false pad_machine = false)
    by (vm_compute; reflexivity).
  assert (Hpos : 0 <= portPosition false pad_machine)
    by (vm_compute; discriminate).
  destruct (controller_read_is_pure_and_position_advances_once_per_instruction
              nromDevices false pad_machine Hmark Hpos)
    as (_ & _ & new & _ & Hle & _).
  exact Hle.
Defined.

(** The first instruction of [pad_machine], after the reset sequence, is
    [LDA $4016]: it reads $40, and moves the position of controller 1,
    and of controller 1 only, by one.  The next one is a NOP and moves
    neither. *)
Lemma pad_read_clocks_controller_1_once :
  let m1 := snd (CPU.emulate nromDevices pad_machine) in
  let m2 := snd (CPU.emulate nromDevices m1) in
  In (BusRead 0x4016 0x40) (CPU.busLog m1) /\
  CPU.REG_ACC m1 = 0x40 /\
  portPosition false pad_machine = 0 /\
  portPosition false m1 = 1 /\
  portPosition true m1 = 0 /\
  portWasRead false m1 = false /\
  portPosition false m2 = 1 /\
  portPosition true m2 = 0.
Proof. vm_compute. repeat split. left. reflexivity. Qed.

(** The marks are clear after a reset and after the controllers have
    been clocked, that is, at the start of every instruction. *)
Lemma marks_clear_between_instructions {Env : Type} (second : bool) (m : CPU.t Env) :
  portWasRead second (snd (CPU.reset m)) = false /\
  portWasRead second (snd (CPU.stepControllers m)) = false.
Proof.
  split.
  - unfold portWasRead, CPU.reset, CPU.setStatus. destruct second; run; reflexivity.
  - unfold portWasRead, CPU.stepControllers. run.
    destruct second, (CPU.controller1Read m) eqn:H1; run;
      destruct (CPU.controller2Read m) eqn:H2; run; auto.
Qed.

(* ================================================================== *)
(** ** The data-bus latch over one instruction *)
(* ================================================================== *)

Section LatchInvariant.

Context {Env : Type} (D : Devices Env).

Local Abbreviation t := (CPU.t Env).

Lemma latch_same (m m' : t) :
  CPU.busLog m' = CPU.busLog m -> CPU.dataBus m' = CPU.dataBus m ->
  latch_follows_log m -> latch_follows_log m'.
Proof. intros Hl Hd H x rest. rewrite Hl, Hd. apply H. Qed.

Lemma latch_regs (m m' : t) :
  CPU.same_bus m m' -> latch_follows_log m -> latch_follows_log m'.
Proof. intros (_ & Hd & Hl & _). apply latch_same; assumption. Qed.

Lemma stepControllers_dataBus (m : t) :
  CPU.dataBus (snd (CPU.stepControllers m)) = CPU.dataBus m.
Proof.
  unfold CPU.stepControllers. run.
  destruct (CPU.controller1Read m); run;
    destruct (CPU.controller2Read m); run; reflexivity.
Qed.

(** Whatever interrupt sequence and instruction [emulate] runs, the
    latch still holds the value of the newest transfer afterwards. *)
Lemma emulate_keeps_latch_on_newest_transfer :
  CPU.hoare latch_follows_log (CPU.emulate D) latch_follows_log.
Proof.
  apply (post_emulate D latch_follows_log latch_follows_log).
  - intros a m _ x rest. rewrite cpuRead_busLog, cpuRead_latch.
    intros [= <- _]. reflexivity.
  - intros a v m _ x rest. rewrite cpuWrite_busLog, cpuWrite_latch.
    intros [= <- _]. reflexivity.
  - intros A op m. apply latch_same; apply dev_frame; repeat split.
  - exact latch_regs.
  - intros m. apply latch_same;
      [apply stepControllers_busLog | apply stepControllers_dataBus].
  - exact latch_regs.
  - auto.
Qed.

End LatchInvariant.

Lemma emulate_keeps_latch_on_newest_transfer_witness :
  CPU.dataBus (snd (CPU.emulate nromDevices pad_machine)) = 0x40.
Proof.
  assert (Hstart : latch_follows_log pad_machine).
  { intros x rest H. vm_compute in H. discriminate H. }
  pose proof (emulate_keeps_latch_on_newest_transfer
                nromDevices pad_machine Hstart) as H.
  apply (H (BusRead 0x4016 0x40)
           (tl (CPU.busLog (snd (CPU.emulate nromDevices pad_machine))))).
  vm_compute. reflexivity.
Defined.
(* ================================================================== *)
(** ** The CPU: internal RAM, the stack and the status byte *)
(* ================================================================== *)

Section CpuMemory.

Context {Env : Type} (D : Devices Env).

Local Abbreviation t := (CPU.t Env).

(** A read below $2000 is a read of the internal RAM and changes
    neither the RAM nor a register. *)
Lemma cpuRead_ram a (m : t) :
  a < 0x2000 ->
  fst (CPU.cpuRead D a m) = JS.getNum (CPU.mem m) (Z.land a 0x7FF) /\
  CPU.mem (snd (CPU.cpuRead D a m)) = CPU.mem m /\
  CPU.REG_SP (snd (CPU.cpuRead D a m)) = CPU.REG_SP m /\
  CPU.env (snd (CPU.cpuRead D a m)) = CPU.env m.
Proof.
  intros Ha. unfold CPU.cpuRead, CPU.readSource.
  destruct (Z.ltb_spec a 0x2000); [| lia]. run. auto.
Qed.

(** A write below $2000 stores the low byte in the internal RAM and
    calls no collaborator. *)
Lemma cpuWrite_ram a v (m : t) :
  a < 0x2000 ->
  CPU.mem (snd (CPU.cpuWrite D a v m)) = JS.store8 (CPU.mem m) (Z.land a 0x7FF) v /\
  CPU.REG_SP (snd (CPU.cpuWrite D a v m)) = CPU.REG_SP m /\
  CPU.REG_PC (snd (CPU.cpuWrite D a v m)) = CPU.REG_PC m /\
  CPU.env (snd (CPU.cpuWrite D a v m)) = CPU.env m.
Proof.
  intros Ha. unfold CPU.cpuWrite, CPU.writeTarget.
  destruct (Z.ltb_spec a 0x2000); [| lia].
  destruct (Z.eqb_spec a 0x4014); [lia |]. run. auto.
Qed.

Lemma land_0x7FF_range a : 0 <= Z.land a 0x7FF < 0x800.
Proof.
  change 0x7FF with (Z.ones 11). rewrite Z.land_ones by lia.
  apply Z.mod_pos_bound. lia.
Qed.

Lemma getNum_store8_eq arr i v :
  0 <= i < Z.of_nat (length arr) ->
  JS.getNum (JS.store8 arr i v) i = v mod 256.
Proof.
  intros Hi. unfold JS.getNum. rewrite get_store8_eq by exact Hi. reflexivity.
Qed.

Lemma getNum_store8_ne arr i j v :
  i <> j -> JS.getNum (JS.store8 arr i v) j = JS.getNum arr j.
Proof.
  intros Hne. unfold JS.getNum, JS.get, JS.store8.
  destruct (Z.ltb_spec j 0); [reflexivity |].
  destruct (Z.ltb_spec i 0); [reflexivity |].
  rewrite list_lookup_insert_ne by lia. reflexivity.
Qed.

(** The 2 KiB of internal RAM are seen four times below $2000: a byte
    written at one address is read back, reduced to eight bits, at
    every address with the same low eleven bits, and a write changes
    what no other RAM address reads. *)
Theorem ram_write_is_read_back_at_every_mirror (a a' v : Z) (m : t) :
  a < 0x2000 -> a' < 0x2000 ->
  0x800 <= Z.of_nat (length (CPU.mem m)) ->
  fst (CPU.cpuRead D a' (snd (CPU.cpuWrite D a v m)))
  = if Z.land a' 0x7FF =? Z.land a 0x7FF
    then v mod 256
    else fst (CPU.cpuRead D a' m).
Proof.
  intros Ha Ha' Hlen.
  destruct (cpuWrite_ram a v m Ha) as (Hmem & _).
  destruct (cpuRead_ram a' (snd (CPU.cpuWrite D a v m)) Ha') as (-> & _).
  destruct (cpuRead_ram a' m Ha') as (-> & _).
  rewrite Hmem. pose proof (land_0x7FF_range a).
  destruct (Z.eqb_spec (Z.land a' 0x7FF) (Z.land a 0x7FF)) as [-> | Hne].
  - apply getNum_store8_eq. lia.
  - apply getNum_store8_ne. congruence.
Qed.

End CpuMemory.

Lemma ram_write_is_read_back_at_every_mirror_witness :
  fst (CPU.cpuRead nromDevices 0x1803
         (snd (CPU.cpuWrite nromDevices 0x0003 0x1AB program_machine)))
  = 0xAB.
Proof.
  assert (Ha : 0x0003 < 0x2000) by lia.
  assert (Ha' : 0x1803 < 0x2000) by lia.
  assert (Hlen : 0x800 <= Z.of_nat (length (CPU.mem program_machine)))
    by (vm_compute; discriminate).
  exact (ram_write_is_read_back_at_every_mirror nromDevices
           0x0003 0x1803 0x1AB program_machine Ha Ha' Hlen).
Defined.

Section CpuStack.

Context {Env : Type} (D : Devices Env).

Local Abbreviation t := (CPU.t Env).

Lemma stack_address sp :
  0 <= sp < 256 ->
  Z.lor 0x100 sp = 0x100 + sp /\ Z.land (Z.lor 0x100 sp) 0x7FF = 0x100 + sp.
Proof.
  intros H.
  assert (Hcheck : forallb (fun s => (Z.lor 0x100 s =? 0x100 + s)
                             && (Z.land (Z.lor 0x100 s) 0x7FF =? 0x100 + s))
                     (Zrange 256) = true) by (vm_compute; reflexivity).
  pose proof (forallb_Zrange _ _ Hcheck sp H) as Hsp. cbv beta in Hsp.
  apply andb_prop in Hsp. destruct Hsp as [H1 H2].
  split; apply Z.eqb_eq; assumption.
Qed.

(** [push]: one write into page 1 at the stack pointer, which then
    moves down modulo 256. *)
Lemma push_spec v (m : t) :
  0 <= CPU.REG_SP m < 256 ->
  let m' := snd (CPU.push D v m) in
  CPU.mem m' = JS.store8 (CPU.mem m) (0x100 + CPU.REG_SP m) v /\
  CPU.REG_SP m' = (CPU.REG_SP m - 1) mod 256 /\
  CPU.REG_PC m' = CPU.REG_PC m /\
  CPU.env m' = CPU.env m.
Proof.
  intros Hsp. cbv zeta. unfold CPU.push. run.
  destruct (stack_address _ Hsp) as [Hor Hland].
  assert (Hlt : Z.lor 0x100 (CPU.REG_SP m) < 0x2000) by lia.
  destruct (cpuWrite_ram D _ v m Hlt) as (Hmem & Hsp' & Hpc & Henv).
  rewrite Hmem, Hsp', Hpc, Henv, Hland.
  change 0xff with (Z.ones 8). rewrite Z.land_ones by lia. auto.
Qed.

(** [pull]: the stack pointer moves up modulo 256, then one read from
    page 1. *)
Lemma pull_spec (m : t) :
  0 <= CPU.REG_SP m < 256 ->
  let sp' := (CPU.REG_SP m + 1) mod 256 in
  fst (CPU.pull D m) = JS.getNum (CPU.mem m) (0x100 + sp') /\
  CPU.mem (snd (CPU.pull D m)) = CPU.mem m /\
  CPU.REG_SP (snd (CPU.pull D m)) = sp' /\
  CPU.env (snd (CPU.pull D m)) = CPU.env m.
Proof.
  intros Hsp. cbv zeta. unfold CPU.pull. run.
  change 0xff with (Z.ones 8). rewrite Z.land_ones by lia.
  change (2 ^ 8) with 256.
  assert (Hsp' : 0 <= (CPU.REG_SP m + 1) mod 256 < 256)
    by (apply Z.mod_pos_bound; lia).
  destruct (stack_address _ Hsp') as [Hor Hland].
  set (m1 := CPU.set_REG_SP _ m).
  assert (Hlt : Z.lor 0x100 ((CPU.REG_SP m + 1) mod 256) < 0x2000) by lia.
  destruct (cpuRead_ram D _ m1 Hlt) as (Hv & Hmem & Hsp1 & Henv).
  rewrite Hv, Hmem, Hsp1, Henv, Hland. auto.
Qed.

(** The stack lives in page 1 and wraps inside it: a [pull] right after
    a [push] returns the byte pushed (its low eight bits) and leaves
    the stack pointer where it was, wherever the pointer stood, also at
    $00 where the push wraps to $FF. *)
Theorem pull_returns_the_byte_pushed (v : Z) (m : t) :
  0 <= CPU.REG_SP m < 256 ->
  0x800 <= Z.of_nat (length (CPU.mem m)) ->
  let pushed := snd (CPU.push D v m) in
  CPU.REG_SP pushed = (CPU.REG_SP m - 1) mod 256 /\
  fst (CPU.pull D pushed) = v mod 256 /\
  CPU.REG_SP (snd (CPU.pull D pushed)) = CPU.REG_SP m.
Proof.
  intros Hsp Hlen. cbv zeta.
  destruct (push_spec v m Hsp) as (Hmem & Hsp1 & _).
  assert (Hsp1' : 0 <= CPU.REG_SP (snd (CPU.push D v m)) < 256).
  { rewrite Hsp1. apply Z.mod_pos_bound. lia. }
  destruct (pull_spec _ Hsp1') as (Hv & _ & Hsp2 & _).
  assert (Hback : (CPU.REG_SP (snd (CPU.push D v m)) + 1) mod 256 = CPU.REG_SP m).
  { rewrite Hsp1. rewrite Zplus_mod_idemp_l.
    replace (CPU.REG_SP m - 1 + 1) with (CPU.REG_SP m) by lia.
    apply Z.mod_small, Hsp. }
  split; [exact Hsp1 |]. split.
  - rewrite Hv, Hback, Hmem. apply getNum_store8_eq. lia.
  - rewrite Hsp2. exact Hback.
Qed.

End CpuStack.

Lemma pull_returns_the_byte_pushed_witness :
  let m := CPU.set_REG_SP 0 program_machine in
  CPU.REG_SP (snd (CPU.push nromDevices 0x5A m)) = 0xFF /\
  fst (CPU.pull nromDevices (snd (CPU.push nromDevices 0x5A m))) = 0x5A /\
  CPU.REG_SP (snd (CPU.pull nromDevices (snd (CPU.push nromDevices 0x5A m)))) = 0.
Proof.
  cbv zeta.
  assert (Hsp : 0 <= CPU.REG_SP (CPU.set_REG_SP 0 program_machine) < 256)
    by (cbn; lia).
  assert (Hlen : 0x800 <= Z.of_nat (length (CPU.mem (CPU.set_REG_SP 0 program_machine))))
    by (vm_compute; discriminate).
  exact (pull_returns_the_byte_pushed nromDevices 0x5A
           (CPU.set_REG_SP 0 program_machine) Hsp Hlen).
Defined.

Section CpuStatus.

Context {Env : Type}.

Local Abbreviation t := (CPU.t Env).

Lemma setStatus_flags st (m : t) :
  let m' := snd (CPU.setStatus st m) in
  CPU.F_CARRY m' = Z.land st 1 /\
  CPU.F_ZERO m' = (if Z.land (Z.shiftr st 1) 1 =? 0 then 1 else 0) /\
  CPU.F_INTERRUPT m' = Z.land (Z.shiftr st 2) 1 /\
  CPU.F_DECIMAL m' = Z.land (Z.shiftr st 3) 1 /\
  CPU.F_BRK m' = Z.land (Z.shiftr st 4) 1 /\
  CPU.F_NOTUSED m' = 1 /\
  CPU.F_OVERFLOW m' = Z.land (Z.shiftr st 6) 1 /\
  CPU.F_SIGN m' = Z.land (Z.shiftr st 7) 1.
Proof. cbv zeta. unfold CPU.setStatus. run. repeat split. Qed.

(** The bit [k] of [st], for [k] below 8, is the bit of its low byte. *)
Lemma status_bit_of_low_byte st k :
  0 <= k < 8 ->
  Z.land (Z.shiftr st k) 1 = Z.land (Z.shiftr (st mod 256) k) 1.
Proof.
  intros Hk. change 1 with (Z.ones 1). rewrite !Z.land_ones by lia.
  change (2 ^ 1) with 2. rewrite <- !Z.bit0_mod.
  rewrite !Z.shiftr_spec by lia. rewrite !Z.add_0_l.
  change 256 with (2 ^ 8). rewrite Z.mod_pow2_bits_low by lia. reflexivity.
Qed.

(** [getStatus] after [setStatus] returns the byte that was set, with
    bit 5 forced to 1: the seven flags are stored one by one ([F_ZERO]
    inverted) and packed again without loss. *)
Theorem status_byte_round_trip (st : Z) (m : t) :
  CPU.getStatus (snd (CPU.setStatus st m)) = Z.lor (st mod 256) 0x20.
Proof.
  unfold CPU.getStatus, CPU.statusByte.
  destruct (setStatus_flags st m) as (-> & -> & -> & -> & -> & -> & -> & ->).
  change (Z.land st 1) with (Z.land (Z.shiftr st 0) 1).
  rewrite (status_bit_of_low_byte st 0), (status_bit_of_low_byte st 1),
    (status_bit_of_low_byte st 2), (status_bit_of_low_byte st 3),
    (status_bit_of_low_byte st 4), (status_bit_of_low_byte st 6),
    (status_bit_of_low_byte st 7) by lia.
  assert (Hb : 0 <= st mod 256 < 256) by (apply Z.mod_pos_bound; lia).
  generalize dependent (st mod 256). intros b Hb.
  assert (Hcheck :
    forallb (fun b =>
      Z.lor (Z.lor (Z.lor (Z.lor (Z.lor (Z.lor (Z.lor
        (Z.land (Z.shiftr b 0) 1)
        (Z.shiftl (if (if Z.land (Z.shiftr b 1) 1 =? 0 then 1 else 0) =? 0
                   then 1 else 0) 1))
        (Z.shiftl (Z.land (Z.shiftr b 2) 1) 2))
        (Z.shiftl (Z.land (Z.shiftr b 3) 1) 3))
        (Z.shiftl (Z.land (Z.shiftr b 4) 1) 4))
        (Z.shiftl 1 5))
        (Z.shiftl (Z.land (Z.shiftr b 6) 1) 6))
        (Z.shiftl (Z.land (Z.shiftr b 7) 1) 7)
      =? Z.lor b 0x20) (Zrange 256) = true) by (vm_compute; reflexivity).
  apply Z.eqb_eq. exact (forallb_Zrange _ _ Hcheck b Hb).
Qed.

End CpuStatus.

Section CpuStall.

Context {Env : Type} (D : Devices Env).

Local Abbreviation t := (CPU.t Env).

Lemma step_stalled (m : t) :
  0 < CPU.cyclesToHalt m ->
  CPU.step D m
  = (1, CPU.set_cycleCount (CPU.cycleCount m + 1)
          (CPU.set_cyclesToHalt (CPU.cyclesToHalt m - 1) m)).
Proof.
  intros H. unfold CPU.step. rewrite bind_run, gets_run. cbn [fst snd].
  destruct (Z.ltb_spec 0 (CPU.cyclesToHalt m)); [| lia].
  run. reflexivity.
Qed.

(** While cycles are left to halt (the stall a DMA asks for through
    [haltCycles]), [step] runs no instruction: each call returns 1,
    takes one cycle off the stall and adds one to the cycle count, and
    touches neither the bus, the registers, the pending interrupt nor
    the collaborators.  A stall of [n] cycles lasts exactly [n] calls. *)
Theorem stall_lasts_one_step_per_cycle (k : nat) (m : t) :
  Z.of_nat k <= CPU.cyclesToHalt m ->
  let m' := Nat.iter k (fun x => snd (CPU.step D x)) m in
  CPU.cyclesToHalt m' = CPU.cyclesToHalt m - Z.of_nat k /\
  CPU.cycleCount m' = CPU.cycleCount m + Z.of_nat k /\
  CPU.busLog m' = CPU.busLog m /\
  CPU.mem m' = CPU.mem m /\
  CPU.env m' = CPU.env m /\
  (CPU.REG_PC m', CPU.REG_SP m', CPU.REG_ACC m', CPU.REG_X m', CPU.REG_Y m')
  = (CPU.REG_PC m, CPU.REG_SP m, CPU.REG_ACC m, CPU.REG_X m, CPU.REG_Y m) /\
  (CPU.irqRequested m', CPU.irqType m') = (CPU.irqRequested m, CPU.irqType m) /\
  (Z.of_nat k < CPU.cyclesToHalt m -> fst (CPU.step D m') = 1).
Proof.
  cbv zeta. induction k as [| k IH]; intros Hk.
  - change (Nat.iter 0 (fun x => snd (CPU.step D x)) m) with m.
    change (Z.of_nat 0) with 0 in *. rewrite Z.sub_0_r, Z.add_0_r.
    do 7 (split; [reflexivity |]).
    intros H. rewrite step_stalled by lia. reflexivity.
  - rewrite Nat.iter_succ.
    destruct IH as (Hh & Hc & Hl & Hm & He & Hr & Hi & H1); [lia |].
    set (x := Nat.iter k (fun x => snd (CPU.step D x)) m) in *.
    rewrite step_stalled by lia. cpu_fields.
    rewrite Hh, Hc, Hl, Hm, He. injection Hr as -> -> -> -> ->.
    injection Hi as -> ->.
    split; [lia |]. split; [lia |]. do 5 (split; [reflexivity |]).
    intros H. rewrite step_stalled; [reflexivity |]. cpu_fields. lia.
Qed.

End CpuStall.

Lemma stall_lasts_one_step_per_cycle_witness :
  CPU.cyclesToHalt
    (Nat.iter 3 (fun x => snd (CPU.step nromDevices x))
       (CPU.haltCycles 513 program_machine)) = 510.
Proof.
  assert (H : Z.of_nat 3 <= CPU.cyclesToHalt (CPU.haltCycles 513 program_machine))
    by (vm_compute; discriminate).
  destruct (stall_lasts_one_step_per_cycle nromDevices 3
              (CPU.haltCycles 513 program_machine) H) as (Hh & _).
  rewrite Hh. vm_compute. reflexivity.
Defined.
(* ================================================================== *)
(** ** The CPU: what an instruction does to PC and SP *)
(* ================================================================== *)

(** A proof of [CPU.hoare I c I] that walks through [c] down to the bus
    transfers, the calls of collaborators and the register updates:
    [Hread], [Hwrite] and [Hdev] say that those keep [I], and
    [assign_tac] proves it of a register update. *)
Ltac hoare_walk_step Hread Hwrite Hdev assign_tac :=
  match goal with
  | |- CPU.hoare ?I (CPU.bind _ _) _ => apply (hoare_bind I I); [| intros ?]
  | |- CPU.hoare _ (CPU.ret _) _ => apply hoare_ret
  | |- CPU.hoare _ (CPU.gets _) _ => apply hoare_gets
  | |- CPU.hoare _ (CPU.when _ _) _ => apply hoare_when
  | |- CPU.hoare _ (CPU.assign _ _) _ => assign_tac
  | |- CPU.hoare _ (CPU.cpuRead _ _) _ => apply Hread
  | |- CPU.hoare _ (CPU.cpuWrite _ _ _) _ => apply Hwrite
  | |- CPU.hoare _ (CPU.dev _) _ => apply Hdev
  | |- CPU.hoare _ (CPU.push _ _) _ => unfold CPU.push
  | |- CPU.hoare _ (CPU.pull _) _ => unfold CPU.pull
  | |- CPU.hoare _ (CPU.cpuRead16bit _ _) _ => unfold CPU.cpuRead16bit
  | |- CPU.hoare _ (CPU.setStatus _) _ => unfold CPU.setStatus
  | |- CPU.hoare _ (CPU.setSignZero _) _ => unfold CPU.setSignZero
  | |- CPU.hoare _ (CPU.addWithCarry _) _ => unfold CPU.addWithCarry
  | |- CPU.hoare _ (CPU.subWithCarry _) _ => unfold CPU.subWithCarry
  | |- CPU.hoare _ (CPU.compareFlags _) _ => unfold CPU.compareFlags
  | |- CPU.hoare _ (CPU.branch _ _) _ => unfold CPU.branch
  | |- CPU.hoare _ (CPU.indexed _ _ _) _ => unfold CPU.indexed
  | |- CPU.hoare _ (CPU.resolveAddress _ _ _) _ => unfold CPU.resolveAddress
  | |- CPU.hoare _ (CPU.doIrq _ _) _ => unfold CPU.doIrq
  | |- CPU.hoare _ (CPU.doNonMaskableInterrupt _ _) _ =>
      unfold CPU.doNonMaskableInterrupt
  | |- CPU.hoare _ (CPU.doResetInterrupt _) _ => unfold CPU.doResetInterrupt
  | |- CPU.hoare _ CPU.stepControllers _ => unfold CPU.stepControllers
  | |- CPU.hoare _ (CPU.execute _ _ _ _) _ => unfold CPU.execute
  | |- CPU.hoare _ (CPU.dispatchInterrupt _) _ => unfold CPU.dispatchInterrupt
  | |- CPU.hoare _ (CPU.fetchExecute _) _ => unfold CPU.fetchExecute
  | |- CPU.hoare _ (CPU.emulate _) _ => unfold CPU.emulate
  | |- CPU.hoare _ (CPU.step _) _ => unfold CPU.step
  | |- CPU.hoare _ (if ?c then _ else _) _ => destruct c
  | |- CPU.hoare _ (match ?c with _ => _ end) _ => destruct c
  end.

Ltac hoare_walk Hread Hwrite Hdev assign_tac :=
  repeat hoare_walk_step Hread Hwrite Hdev assign_tac.

Section CpuRegisters.

Context {Env : Type} (D : Devices Env).

Local Abbreviation t := (CPU.t Env).

(** A property of a register that no bus transfer changes is kept by
    every bus transfer and by every call of a collaborator. *)
Lemma hoare_read_frame {A} (f : t -> A) (P : A -> Prop) a :
  CPU.bus_proof f ->
  CPU.hoare (fun m => P (f m)) (CPU.cpuRead D a) (fun m => P (f m)).
Proof. intros Hf m Hm. rewrite cpuRead_frame by exact Hf. exact Hm. Qed.

Lemma hoare_write_frame {A} (f : t -> A) (P : A -> Prop) a v :
  CPU.bus_proof f ->
  CPU.hoare (fun m => P (f m)) (CPU.cpuWrite D a v) (fun m => P (f m)).
Proof. intros Hf m Hm. rewrite cpuWrite_frame by exact Hf. exact Hm. Qed.

Lemma hoare_dev_frame {A B} (f : t -> A) (P : A -> Prop)
    (op : Env -> B * Env * list effect) :
  CPU.bus_proof f ->
  CPU.hoare (fun m => P (f m)) (CPU.dev op) (fun m => P (f m)).
Proof.
  intros [Hf _] m Hm. rewrite dev_frame by exact Hf. exact Hm.
Qed.

Lemma bus_proof_REG_PC : CPU.bus_proof (@CPU.REG_PC Env).
Proof. repeat split. Qed.

Lemma bus_proof_REG_SP : CPU.bus_proof (@CPU.REG_SP Env).
Proof. repeat split. Qed.

(** *** The program counter *)

Lemma execute_keeps_pc type mode addr pc :
  isJump type = false ->
  CPU.hoare (fun m => CPU.REG_PC m = pc) (CPU.execute D type mode addr)
    (fun m => CPU.REG_PC m = pc).
Proof.
  intros Hty.
  pose proof (fun a => hoare_read_frame CPU.REG_PC (fun x => x = pc) a
                         bus_proof_REG_PC) as Hread.
  pose proof (fun a v => hoare_write_frame CPU.REG_PC (fun x => x = pc) a v
                           bus_proof_REG_PC) as Hwrite.
  pose proof (fun B op => @hoare_dev_frame _ B CPU.REG_PC (fun x => x = pc) op
                            bus_proof_REG_PC) as Hdev.
  cbv beta in Hread, Hwrite, Hdev.
  unfold CPU.execute.
  repeat match goal with
         | |- CPU.hoare _ (match ?x with _ => _ end) _ => destruct x
         end.
  all: try (vm_compute in Hty; discriminate Hty).
  all: hoare_walk Hread Hwrite Hdev ltac:(intros ? Hm; exact Hm).
Qed.

Lemma resolveAddress_keeps_pc mode opaddr pc :
  CPU.hoare (fun m => CPU.REG_PC m = pc) (CPU.resolveAddress D mode opaddr)
    (fun m => CPU.REG_PC m = pc).
Proof.
  pose proof (fun a => hoare_read_frame CPU.REG_PC (fun x => x = pc) a
                         bus_proof_REG_PC) as Hread.
  pose proof (fun a v => hoare_write_frame CPU.REG_PC (fun x => x = pc) a v
                           bus_proof_REG_PC) as Hwrite.
  pose proof (fun B op => @hoare_dev_frame _ B CPU.REG_PC (fun x => x = pc) op
                            bus_proof_REG_PC) as Hdev.
  cbv beta in Hread, Hwrite, Hdev.
  hoare_walk Hread Hwrite Hdev ltac:(intros ? Hm; exact Hm).
Qed.


(** Without a pending interrupt to dispatch, an instruction that is
    neither a branch nor BRK, JMP, JSR, RTI or RTS leaves the program
    counter advanced by exactly the size the opcode table gives it,
    modulo 2^16. *)
Theorem plain_instruction_advances_pc_by_its_size (m : t) :
  hasMapper D (CPU.env m) = true ->
  let opaddr := Z.land (CPU.REG_PC m + 1) 0xffff in
  let opinf := CPU.opInfo (fst (CPU.cpuRead D opaddr m)) in
  isJump (CPU.instructionTypeOf opinf) = false ->
  CPU.REG_PC (snd (CPU.fetchExecute D m))
  = Z.land (CPU.REG_PC m + CPU.opSizeOf opinf) 0xffff.
Proof.
  intros Hmap opaddr opinf Hty.
  unfold CPU.fetchExecute.
  rewrite bind_run, gets_run. cbn [fst snd]. rewrite Hmap. cbn [negb].
  rewrite bind_run, gets_run. cbn [fst snd].
  rewrite bind_run. fold opaddr. fold opinf.
  set (m1 := snd (CPU.cpuRead D opaddr m)).
  rewrite bind_run.
  set (m2 := snd (CPU.dev _ m1)).
  rewrite bind_run, assign_run. cbn [fst snd].
  rewrite bind_run, gets_run. cbn [fst snd].
  rewrite bind_run, assign_run. cbn [fst snd].
  assert (Hpc2 : CPU.REG_PC m2 = CPU.REG_PC m).
  { unfold m2. rewrite dev_frame by (repeat split).
    unfold m1. apply cpuRead_frame, bus_proof_REG_PC. }
  cpu_fields. rewrite Hpc2.
  set (target := Z.land (CPU.REG_PC m + CPU.opSizeOf opinf) 0xffff).
  match goal with
  | |- CPU.REG_PC (snd (?c ?m4)) = _ =>
      assert (Hrest : CPU.hoare (fun x => CPU.REG_PC x = target) c
                        (fun x => CPU.REG_PC x = target));
      [| apply (Hrest m4); reflexivity]
  end.
  pose proof (fun a => hoare_read_frame CPU.REG_PC (fun x => x = target) a
                         bus_proof_REG_PC) as Hread.
  pose proof (fun a v => hoare_write_frame CPU.REG_PC (fun x => x = target) a v
                           bus_proof_REG_PC) as Hwrite.
  pose proof (fun B op => @hoare_dev_frame _ B CPU.REG_PC (fun x => x = target) op
                            bus_proof_REG_PC) as Hdev.
  cbv beta in Hread, Hwrite, Hdev.
  repeat first
    [ match goal with
      | |- CPU.hoare _ (CPU.execute _ _ _ _) _ =>
          apply execute_keeps_pc; exact Hty
      | |- CPU.hoare _ (CPU.resolveAddress _ _ _) _ =>
          apply resolveAddress_keeps_pc
      end
    | hoare_walk_step Hread Hwrite Hdev ltac:(intros ? Hm; exact Hm) ].
Qed.

(** *** The stack pointer *)

Lemma land_0xff_range x : 0 <= Z.land x 0xff < 256.
Proof.
  change 0xff with (Z.ones 8). rewrite Z.land_ones by lia.
  apply Z.mod_pos_bound. lia.
Qed.

Ltac sp_update :=
  let Hm := fresh "Hm" in
  intros ? Hm;
  first [ exact Hm
        | cbn [CPU.REG_SP CPU.set_REG_SP fst snd CPU.assign];
          apply land_0xff_range ].

Lemma step_keeps_sp_a_byte :
  CPU.hoare (fun m => 0 <= CPU.REG_SP m < 256) (CPU.step D)
    (fun m => 0 <= CPU.REG_SP m < 256).
Proof.
  pose proof (fun a => hoare_read_frame CPU.REG_SP (fun x => 0 <= x < 256) a
                         bus_proof_REG_SP) as Hread.
  pose proof (fun a v => hoare_write_frame CPU.REG_SP (fun x => 0 <= x < 256) a v
                           bus_proof_REG_SP) as Hwrite.
  pose proof (fun B op => @hoare_dev_frame _ B CPU.REG_SP (fun x => 0 <= x < 256) op
                            bus_proof_REG_SP) as Hdev.
  cbv beta in Hread, Hwrite, Hdev.
  hoare_walk Hread Hwrite Hdev sp_update.
Qed.

(** Whatever the program does, the stack pointer stays within 0..255:
    every update of it (push, pull, TXS) is reduced to eight bits, so
    from the reset value $FD on, the stack never leaves page 1. *)
Theorem stack_pointer_stays_a_byte (k : nat) (m : t) :
  0 <= CPU.REG_SP m < 256 ->
  0 <= CPU.REG_SP (Nat.iter k (fun x => snd (CPU.step D x)) m) < 256.
Proof.
  intros Hm. induction k as [| k IH]; [exact Hm |].
  rewrite Nat.iter_succ. exact (step_keeps_sp_a_byte _ IH).
Qed.

End CpuRegisters.

Lemma plain_instruction_advances_pc_by_its_size_witness :
  CPU.REG_PC (snd (CPU.fetchExecute nromDevices
                     (snd (CPU.dispatchInterrupt nromDevices program_machine))))
  = 0x8002.
Proof.
  set (m := snd (CPU.dispatchInterrupt nromDevices program_machine)).
  assert (Hmap : hasMapper nromDevices (CPU.env m) = true) by reflexivity.
  assert (Hty : isJump (CPU.instructionTypeOf
                          (CPU.opInfo (fst (CPU.cpuRead nromDevices
                             (Z.land (CPU.REG_PC m + 1) 0xffff) m)))) = false)
    by (vm_compute; reflexivity).
  rewrite (plain_instruction_advances_pc_by_its_size nromDevices m Hmap Hty).
  vm_compute. reflexivity.
Defined.

Lemma stack_pointer_stays_a_byte_witness :
  0 <= CPU.REG_SP (Nat.iter 4 (fun x => snd (CPU.step nromDevices x))
                     program_machine) < 256.
Proof.
  apply (stack_pointer_stays_a_byte nromDevices 4 program_machine).
  vm_compute. split; [discriminate | reflexivity].
Defined.
(* ================================================================== *)
(** ** The CPU: subroutine calls and interrupt returns *)
(* ================================================================== *)

Section CpuCalls.

Context {Env : Type} (D : Devices Env).

Local Abbreviation t := (CPU.t Env).

Lemma lor_of_two_bytes lo hi :
  0 <= lo < 256 -> 0 <= hi < 256 ->
  Z.lor lo (Z.shiftl hi 8) = lo + hi * 256.
Proof.
  intros Hlo Hhi.
  assert (Hcheck :
    forallb (fun lo =>
      forallb (fun hi => Z.lor lo (Z.shiftl hi 8) =? lo + hi * 256)
        (Zrange 256)) (Zrange 256) = true) by (vm_compute; reflexivity).
  pose proof (forallb_Zrange _ _ Hcheck lo Hlo) as H1. cbv beta in H1.
  apply Z.eqb_eq. exact (forallb_Zrange _ _ H1 hi Hhi).
Qed.

Lemma word_of_its_bytes pc :
  0 <= pc < 0x10000 ->
  Z.lor (Z.land pc 0xff mod 256)
        (Z.shiftl (Z.land (Z.shiftr pc 8) 0xff mod 256) 8) = pc /\
  Z.land pc 0xff mod 256 + Z.shiftl (Z.land (Z.shiftr pc 8) 0xff mod 256) 8 = pc.
Proof.
  intros H.
  change 0xff with (Z.ones 8). rewrite !Z.land_ones by lia.
  rewrite Z.shiftr_div_pow2 by lia. change (2 ^ 8) with 256.
  rewrite !Z.mod_mod by lia.
  assert (Hhi : 0 <= pc / 256 < 256).
  { split; [apply Z.div_pos; lia | apply Z.div_lt_upper_bound; lia]. }
  rewrite (Z.mod_small (pc / 256)) by exact Hhi.
  assert (Hlo : 0 <= pc mod 256 < 256) by (apply Z.mod_pos_bound; lia).
  rewrite lor_of_two_bytes by assumption.
  rewrite Z.shiftl_mul_pow2 by lia. change (2 ^ 8) with 256.
  pose proof (Z.div_mod pc 256). lia.
Qed.

(** Two pushes in a row: where the bytes go. *)
Lemma push_push_spec hi lo (m : t) :
  0 <= CPU.REG_SP m < 256 ->
  0x800 <= Z.of_nat (length (CPU.mem m)) ->
  let sp := CPU.REG_SP m in
  let m' := snd (CPU.push D lo (snd (CPU.push D hi m))) in
  CPU.REG_SP m' = (sp - 2) mod 256 /\
  JS.getNum (CPU.mem m') (0x100 + sp) = hi mod 256 /\
  JS.getNum (CPU.mem m') (0x100 + (sp - 1) mod 256) = lo mod 256 /\
  Z.of_nat (length (CPU.mem m')) = Z.of_nat (length (CPU.mem m)) /\
  CPU.REG_PC m' = CPU.REG_PC m.
Proof.
  intros Hsp Hlen. cbv zeta.
  destruct (push_spec D hi m Hsp) as (Hmem1 & Hsp1 & Hpc1 & _).
  assert (Hsp1' : 0 <= CPU.REG_SP (snd (CPU.push D hi m)) < 256).
  { rewrite Hsp1. apply Z.mod_pos_bound. lia. }
  destruct (push_spec D lo _ Hsp1') as (Hmem2 & Hsp2 & Hpc2 & _).
  rewrite Hmem2, Hsp2, Hpc2, Hmem1, Hsp1, Hpc1.
  assert (Hb : 0 <= (CPU.REG_SP m - 1) mod 256 < 256)
    by (apply Z.mod_pos_bound; lia).
  assert (Hne : (CPU.REG_SP m - 1) mod 256 <> CPU.REG_SP m).
  { destruct (Z.eq_dec (CPU.REG_SP m) 0) as [-> | Hnz]; [discriminate |].
    rewrite Z.mod_small by lia. lia. }
  assert (Hlen1 : length (JS.store8 (CPU.mem m) (0x100 + CPU.REG_SP m) hi)
                  = length (CPU.mem m)).
  { unfold JS.store8. destruct (_ <? 0); [reflexivity |].
    apply length_insert. }
  split.
  - rewrite Zminus_mod_idemp_l. f_equal. lia.
  - split.
    + rewrite getNum_store8_ne by lia. apply getNum_store8_eq. lia.
    + split; [apply getNum_store8_eq; rewrite Hlen1; lia |].
      split; [| reflexivity].
      unfold JS.store8 at 1. destruct (_ <? 0); [rewrite Hlen1; reflexivity |].
      rewrite length_insert, Hlen1. reflexivity.
Qed.

(** Two pulls in a row: what they return. *)
Lemma pull_pull_spec (m : t) :
  0 <= CPU.REG_SP m < 256 ->
  let sp := CPU.REG_SP m in
  let first := CPU.pull D m in
  let second := CPU.pull D (snd first) in
  fst first = JS.getNum (CPU.mem m) (0x100 + (sp + 1) mod 256) /\
  fst second = JS.getNum (CPU.mem m) (0x100 + (sp + 2) mod 256) /\
  CPU.REG_SP (snd second) = (sp + 2) mod 256 /\
  CPU.mem (snd second) = CPU.mem m.
Proof.
  intros Hsp. cbv zeta.
  destruct (pull_spec D m Hsp) as (Hv1 & Hmem1 & Hsp1 & _).
  assert (Hsp1' : 0 <= CPU.REG_SP (snd (CPU.pull D m)) < 256).
  { rewrite Hsp1. apply Z.mod_pos_bound. lia. }
  destruct (pull_spec D _ Hsp1') as (Hv2 & Hmem2 & Hsp2 & _).
  rewrite Hv1, Hv2, Hsp2, Hmem2, Hmem1, Hsp1.
  rewrite Zplus_mod_idemp_l.
  replace (CPU.REG_SP m + 1 + 1) with (CPU.REG_SP m + 2) by lia. auto.
Qed.

(** JSR pushes the program counter (which then points at the last byte
    of the JSR) high byte first; RTS pulls it back.  So an RTS that
    finds the stack as the JSR left it (the subroutine balanced its
    pushes and pulls and left those two bytes alone) restores the
    program counter and the stack pointer, and the next fetch is the
    instruction after the JSR. *)
Theorem rts_returns_to_the_jsr (mode addr mode' addr' : Z) (m body : t) :
  0 <= CPU.REG_SP m < 256 ->
  0x800 <= Z.of_nat (length (CPU.mem m)) ->
  0 <= CPU.REG_PC m < 0x10000 ->
  let called := snd (CPU.execute D 28 mode addr m) in
  CPU.mem body = CPU.mem called ->
  CPU.REG_SP body = CPU.REG_SP called ->
  let returned := snd (CPU.execute D 42 mode' addr' body) in
  CPU.REG_PC called = addr - 1 /\
  CPU.REG_SP called = (CPU.REG_SP m - 2) mod 256 /\
  CPU.REG_PC returned = CPU.REG_PC m /\
  CPU.REG_SP returned = CPU.REG_SP m.
Proof.
  intros Hsp Hlen Hpc called Hmem Hspb returned.
  destruct (push_push_spec (Z.land (Z.shiftr (CPU.REG_PC m) 8) 0xff)
              (Z.land (CPU.REG_PC m) 0xff) m Hsp Hlen)
    as (Hsp2 & Hhi & Hlo & _ & _).
  cbv zeta in Hsp2, Hhi, Hlo.
  assert (Hcalled :
    called = CPU.set_REG_PC (addr - 1)
               (snd (CPU.push D (Z.land (CPU.REG_PC m) 0xff)
                  (snd (CPU.push D (Z.land (Z.shiftr (CPU.REG_PC m) 8) 0xff) m))))).
  { unfold called, CPU.execute. run0. reflexivity. }
  assert (Hcsp : CPU.REG_SP called = (CPU.REG_SP m - 2) mod 256).
  { rewrite Hcalled. cpu_fields. exact Hsp2. }
  assert (Hbsp : 0 <= CPU.REG_SP body < 256).
  { rewrite Hspb, Hcsp. apply Z.mod_pos_bound. lia. }
  destruct (pull_pull_spec body Hbsp) as (Hv1 & Hv2 & Hsp3 & _).
  cbv zeta in Hv1, Hv2, Hsp3.
  assert (Hup1 : (CPU.REG_SP body + 1) mod 256 = (CPU.REG_SP m - 1) mod 256).
  { rewrite Hspb, Hcsp, Zplus_mod_idemp_l. f_equal. lia. }
  assert (Hup2 : (CPU.REG_SP body + 2) mod 256 = CPU.REG_SP m).
  { rewrite Hspb, Hcsp, Zplus_mod_idemp_l.
    replace (CPU.REG_SP m - 2 + 2) with (CPU.REG_SP m) by lia.
    apply Z.mod_small, Hsp. }
  rewrite Hup1 in Hv1. rewrite Hup2 in Hv2, Hsp3.
  rewrite Hmem, Hcalled in Hv1, Hv2. cpu_fields_in Hv1. cpu_fields_in Hv2.
  rewrite Hlo in Hv1. rewrite Hhi in Hv2.
  split; [rewrite Hcalled; reflexivity |]. split; [exact Hcsp |].
  unfold returned, CPU.execute. run0. cpu_fields.
  rewrite Hv1, Hv2, Hsp3.
  split; [apply word_of_its_bytes, Hpc | reflexivity].
Qed.

End CpuCalls.

Lemma rts_returns_to_the_jsr_witness :
  let m := CPU.set_REG_PC 0x8002 program_machine in
  let called := snd (CPU.execute nromDevices 28 CPU.ABS 0x9000 m) in
  let returned := snd (CPU.execute nromDevices 42 CPU.IMP 0 called) in
  CPU.REG_PC returned = 0x8002 /\ CPU.REG_SP returned = 0xFD.
Proof.
  cbv zeta.
  set (m := CPU.set_REG_PC 0x8002 program_machine).
  assert (Hsp : 0 <= CPU.REG_SP m < 256)
    by (vm_compute; split; [discriminate | reflexivity]).
  assert (Hlen : 0x800 <= Z.of_nat (length (CPU.mem m)))
    by (vm_compute; discriminate).
  assert (Hpc : 0 <= CPU.REG_PC m < 0x10000)
    by (vm_compute; split; [discriminate | reflexivity]).
  destruct (rts_returns_to_the_jsr nromDevices CPU.ABS 0x9000 CPU.IMP 0 m
              (snd (CPU.execute nromDevices 28 CPU.ABS 0x9000 m))
              Hsp Hlen Hpc eq_refl eq_refl) as (_ & _ & Hpc' & Hsp').
  split; [exact Hpc' | exact Hsp'].
Defined.

Section CpuInterruptReturn.

Context {Env : Type} (D : Devices Env).

Local Abbreviation t := (CPU.t Env).

(** No read changes the internal RAM. *)
Lemma cpuRead_mem a (m : t) : CPU.mem (snd (CPU.cpuRead D a m)) = CPU.mem m.
Proof. unfold CPU.cpuRead, CPU.readSource, Controller.read. frame_cases. Qed.

Lemma cpuRead16bit_stack a (m : t) :
  CPU.mem (snd (CPU.cpuRead16bit D a m)) = CPU.mem m /\
  CPU.REG_SP (snd (CPU.cpuRead16bit D a m)) = CPU.REG_SP m.
Proof.
  unfold CPU.cpuRead16bit. run.
  rewrite !cpuRead_mem, !(cpuRead_frame D CPU.REG_SP) by apply bus_proof_REG_SP.
  destruct (_ && _); run.
  - rewrite !dev_frame by (repeat split). auto.
  - auto.
Qed.

(** Three pushes in a row. *)
Lemma push3_spec a b c (m : t) :
  0 <= CPU.REG_SP m < 256 ->
  0x800 <= Z.of_nat (length (CPU.mem m)) ->
  let sp := CPU.REG_SP m in
  let m' := snd (CPU.push D c (snd (CPU.push D b (snd (CPU.push D a m))))) in
  CPU.REG_SP m' = (sp - 3) mod 256 /\
  JS.getNum (CPU.mem m') (0x100 + (sp - 2) mod 256) = c mod 256 /\
  JS.getNum (CPU.mem m') (0x100 + (sp - 1) mod 256) = b mod 256 /\
  JS.getNum (CPU.mem m') (0x100 + sp) = a mod 256.
Proof.
  intros Hsp Hlen. cbv zeta.
  destruct (push_push_spec D a b m Hsp Hlen) as (Hsp2 & Ha & Hb & Hlen2 & _).
  cbv zeta in Hsp2, Ha, Hb, Hlen2.
  set (m2 := snd (CPU.push D b (snd (CPU.push D a m)))) in *.
  assert (Hsp2' : 0 <= CPU.REG_SP m2 < 256).
  { rewrite Hsp2. apply Z.mod_pos_bound. lia. }
  destruct (push_spec D c m2 Hsp2') as (Hmem3 & Hsp3 & _).
  rewrite Hmem3, Hsp3, Hsp2.
  assert (H1 : 0 <= (CPU.REG_SP m - 1) mod 256 < 256)
    by (apply Z.mod_pos_bound; lia).
  assert (H2 : 0 <= (CPU.REG_SP m - 2) mod 256 < 256)
    by (apply Z.mod_pos_bound; lia).
  assert (Hne1 : (CPU.REG_SP m - 2) mod 256 <> (CPU.REG_SP m - 1) mod 256).
  { destruct (Z.eq_dec (CPU.REG_SP m) 0) as [-> | ?]; [discriminate |].
    destruct (Z.eq_dec (CPU.REG_SP m) 1) as [-> | ?]; [discriminate |].
    rewrite !Z.mod_small by lia. lia. }
  assert (Hne0 : (CPU.REG_SP m - 2) mod 256 <> CPU.REG_SP m).
  { destruct (Z.eq_dec (CPU.REG_SP m) 0) as [-> | ?]; [discriminate |].
    destruct (Z.eq_dec (CPU.REG_SP m) 1) as [-> | ?]; [discriminate |].
    rewrite !Z.mod_small by lia. lia. }
  split; [rewrite Zminus_mod_idemp_l; f_equal; lia |].
  split; [apply getNum_store8_eq; lia |].
  split; [rewrite getNum_store8_ne by lia; exact Hb |].
  rewrite getNum_store8_ne by lia. exact Ha.
Qed.

(** Three pulls in a row. *)
Lemma pull3_spec (m : t) :
  0 <= CPU.REG_SP m < 256 ->
  let sp := CPU.REG_SP m in
  let first := CPU.pull D m in
  JS.getNum (CPU.mem m) (0x100 + (sp + 1) mod 256) = fst first /\
  CPU.mem (snd first) = CPU.mem m /\
  CPU.REG_SP (snd first) = (sp + 1) mod 256.
Proof.
  intros Hsp. cbv zeta. destruct (pull_spec D m Hsp) as (-> & -> & -> & _). auto.
Qed.

(** What a pull leaves alone. *)
Lemma pull_frame {A} (f : t -> A) (m : t) :
  CPU.bus_proof f -> (forall v x, f (CPU.set_REG_SP v x) = f x) ->
  f (snd (CPU.pull D m)) = f m.
Proof.
  intros Hf Hsp. unfold CPU.pull. run0.
  rewrite cpuRead_frame by exact Hf. apply Hsp.
Qed.

(** The status byte: each flag that is a bit sits in its place. *)
Lemma statusByte_bits brk (m : t) :
  flagsAreBits m -> isBit brk ->
  let st := CPU.statusByte brk m mod 256 in
  Z.land st 1 = CPU.F_CARRY m /\
  ((if Z.land (Z.shiftr st 1) 1 =? 0 then 1 else 0) =? 0)
  = (CPU.F_ZERO m =? 0) /\
  Z.land (Z.shiftr st 2) 1 = CPU.F_INTERRUPT m /\
  Z.land (Z.shiftr st 3) 1 = CPU.F_DECIMAL m /\
  Z.land (Z.shiftr st 4) 1 = brk /\
  Z.land (Z.shiftr st 6) 1 = CPU.F_OVERFLOW m /\
  Z.land (Z.shiftr st 7) 1 = CPU.F_SIGN m.
Proof.
  intros (Hc & Hi & Hd & Hn & Hv & Hs) Hb. cbv zeta. unfold CPU.statusByte.
  destruct (CPU.F_ZERO m =? 0);
    destruct Hc as [-> | ->], Hi as [-> | ->], Hd as [-> | ->],
      Hn as [-> | ->], Hv as [-> | ->], Hs as [-> | ->], Hb as [-> | ->];
    vm_compute; repeat split.
Qed.


(** The NMI sequence of [emulate]: the vector is read, then the address
    of the next instruction and the status byte (B clear) are pushed. *)
Lemma nmi_entry (m : t) :
  CPU.irqRequested m = true -> CPU.irqType m = IRQ_NMI ->
  exists m0,
    CPU.mem m0 = CPU.mem m /\ CPU.REG_SP m0 = CPU.REG_SP m /\
    let pc := Z.land (CPU.REG_PC m + 1) 0xFFFF in
    let pushed := snd (CPU.push D (CPU.statusByte 0 m)
                    (snd (CPU.push D (Z.land pc 0xff)
                       (snd (CPU.push D (Z.land (Z.shiftr pc 8) 0xff) m0))))) in
    CPU.mem (snd (CPU.dispatchInterrupt D m)) = CPU.mem pushed /\
    CPU.REG_SP (snd (CPU.dispatchInterrupt D m)) = CPU.REG_SP pushed /\
    CPU.F_INTERRUPT (snd (CPU.dispatchInterrupt D m)) = 1.
Proof.
  intros Hreq Hty. unfold CPU.dispatchInterrupt.
  rewrite bind_run, gets_run. cbn [fst snd]. rewrite Hreq, when_run.
  rewrite bind_run, gets_run. cbn [fst snd].
  rewrite bind_run, gets_run. cbn [fst snd].
  rewrite bind_run, assign_run. cbn [fst snd].
  rewrite bind_run, gets_run. cbn [fst snd].
  rewrite bind_run, assign_run. cbn [fst snd].
  rewrite bind_run, gets_run. cbn [fst snd]. cpu_fields. rewrite Hty.
  change IRQ_NMI with 1. cbv iota.
  set (ma := CPU.set_F_INTERRUPT_NEW _ _).
  exists (snd (CPU.cpuRead16bit D 0xfffa ma)).
  destruct (cpuRead16bit_stack 0xfffa ma) as [Hmem Hsp].
  split; [exact Hmem |]. split; [exact Hsp |]. cbv zeta.
  rewrite bind_run.
  set (mN := snd (CPU.doNonMaskableInterrupt D (CPU.statusByte 0 m) ma)).
  assert (HpcNew : CPU.REG_PC_NEW (snd (CPU.cpuRead16bit D 0xfffa ma))
                   = CPU.REG_PC m).
  { rewrite (cpuRead16bit_frame D CPU.REG_PC_NEW) by (repeat split).
    reflexivity. }
  assert (Hnmi :
    CPU.mem mN
    = CPU.mem (snd (CPU.push D (CPU.statusByte 0 m)
        (snd (CPU.push D (Z.land (Z.land (CPU.REG_PC m + 1) 0xFFFF) 0xff)
           (snd (CPU.push D
              (Z.land (Z.shiftr (Z.land (CPU.REG_PC m + 1) 0xFFFF) 8) 0xff)
              (snd (CPU.cpuRead16bit D 0xfffa ma)))))))) /\
    CPU.REG_SP mN
    = CPU.REG_SP (snd (CPU.push D (CPU.statusByte 0 m)
        (snd (CPU.push D (Z.land (Z.land (CPU.REG_PC m + 1) 0xFFFF) 0xff)
           (snd (CPU.push D
              (Z.land (Z.shiftr (Z.land (CPU.REG_PC m + 1) 0xFFFF) 8) 0xff)
              (snd (CPU.cpuRead16bit D 0xfffa ma)))))))) /\
    CPU.F_INTERRUPT_NEW mN = 1).
  { unfold mN, CPU.doNonMaskableInterrupt. run. rewrite HpcNew. auto. }
  destruct Hnmi as (Hm1 & Hs1 & Hi1).
  run0. destruct (negb _); run; auto.
Qed.

(** An NMI taken at an instruction boundary pushes the address of the
    next instruction and the flags; an RTI that finds the stack as the
    NMI sequence left it (the handler balanced its pushes and pulls)
    puts the program counter, the stack pointer and the flags back as
    they were before the interrupt, the I flag included. *)
Theorem rti_undoes_the_nmi_sequence (mode addr : Z) (m handler : t) :
  CPU.irqRequested m = true -> CPU.irqType m = IRQ_NMI ->
  0 <= CPU.REG_SP m < 256 ->
  0x800 <= Z.of_nat (length (CPU.mem m)) ->
  -1 <= CPU.REG_PC m < 0xFFFF ->
  flagsAreBits m ->
  let entered := snd (CPU.dispatchInterrupt D m) in
  CPU.mem handler = CPU.mem entered ->
  CPU.REG_SP handler = CPU.REG_SP entered ->
  let returned := snd (CPU.execute D 41 mode addr handler) in
  CPU.REG_SP entered = (CPU.REG_SP m - 3) mod 256 /\
  CPU.F_INTERRUPT entered = 1 /\
  CPU.REG_PC returned = CPU.REG_PC m /\
  CPU.REG_SP returned = CPU.REG_SP m /\
  CPU.F_CARRY returned = CPU.F_CARRY m /\
  (CPU.F_ZERO returned =? 0) = (CPU.F_ZERO m =? 0) /\
  CPU.F_INTERRUPT returned = CPU.F_INTERRUPT m /\
  CPU.F_DECIMAL returned = CPU.F_DECIMAL m /\
  CPU.F_OVERFLOW returned = CPU.F_OVERFLOW m /\
  CPU.F_SIGN returned = CPU.F_SIGN m.
Proof.
  intros Hreq Hty Hsp Hlen Hpc Hflags entered Hmem Hsph returned.
  destruct (nmi_entry m Hreq Hty) as (m0 & Hm0 & Hs0 & Hentry).
  cbv zeta in Hentry. fold entered in Hentry.
  destruct Hentry as (Hemem & Hesp & Hei).
  set (pc := Z.land (CPU.REG_PC m + 1) 0xFFFF) in *.
  assert (Hpc' : pc = CPU.REG_PC m + 1).
  { unfold pc. change 0xFFFF with (Z.ones 16). rewrite Z.land_ones by lia.
    apply Z.mod_small. lia. }
  assert (Hsp0 : 0 <= CPU.REG_SP m0 < 256) by (rewrite Hs0; exact Hsp).
  assert (Hlen0 : 0x800 <= Z.of_nat (length (CPU.mem m0)))
    by (rewrite Hm0; exact Hlen).
  destruct (push3_spec (Z.land (Z.shiftr pc 8) 0xff) (Z.land pc 0xff)
              (CPU.statusByte 0 m) m0 Hsp0 Hlen0) as (Hp3 & Hst & Hlo & Hhi).
  cbv zeta in Hp3, Hst, Hlo, Hhi.
  rewrite <- Hemem in Hst, Hlo, Hhi. rewrite <- Hesp in Hp3.
  rewrite Hs0 in Hp3, Hst, Hlo, Hhi.
  assert (Hhsp : 0 <= CPU.REG_SP handler < 256).
  { rewrite Hsph, Hp3. apply Z.mod_pos_bound. lia. }
  (* the three pulls of RTI *)
  assert (Hbyte : forall x, 0 <= (x + 1) mod 256 < 256)
    by (intros x; apply Z.mod_pos_bound; lia).
  destruct (pull_spec D handler Hhsp) as (Hv1 & Hm1 & Hs1 & _).
  cbv zeta in Hv1, Hs1.
  set (r1 := CPU.pull D handler) in *.
  set (h1 := snd (CPU.setStatus (fst r1) (snd r1))).
  assert (Hh1 : CPU.mem h1 = CPU.mem handler
                /\ CPU.REG_SP h1 = (CPU.REG_SP handler + 1) mod 256).
  { unfold h1, CPU.setStatus. run. auto. }
  destruct Hh1 as [Hh1m Hh1s].
  assert (Hh1b : 0 <= CPU.REG_SP h1 < 256) by (rewrite Hh1s; apply Hbyte).
  destruct (pull_spec D h1 Hh1b) as (Hv2 & Hm2 & Hs2 & _).
  cbv zeta in Hv2, Hs2.
  set (r2 := CPU.pull D h1) in *.
  set (h2 := CPU.set_REG_PC (fst r2) (snd r2)).
  assert (Hh2b : 0 <= CPU.REG_SP h2 < 256).
  { unfold h2. cpu_fields. rewrite Hs2. apply Hbyte. }
  destruct (pull_spec D h2 Hh2b) as (Hv3 & Hm3 & Hs3 & _).
  cbv zeta in Hv3, Hs3. unfold h2 in Hv3, Hs3 at 2. cpu_fields_in Hv3.
  cpu_fields_in Hs3. fold h2 in Hv3, Hs3.
  set (r3 := CPU.pull D h2) in *.
  assert (Hu1 : (CPU.REG_SP handler + 1) mod 256 = (CPU.REG_SP m - 2) mod 256).
  { rewrite Hsph, Hp3, Zplus_mod_idemp_l. f_equal. lia. }
  assert (Hu2 : (CPU.REG_SP h1 + 1) mod 256 = (CPU.REG_SP m - 1) mod 256).
  { rewrite Hh1s, Hu1, Zplus_mod_idemp_l. f_equal. lia. }
  assert (Hu3 : (CPU.REG_SP (snd r2) + 1) mod 256 = CPU.REG_SP m).
  { rewrite Hs2, Hu2, Zplus_mod_idemp_l.
    replace (CPU.REG_SP m - 1 + 1) with (CPU.REG_SP m) by lia.
    apply Z.mod_small, Hsp. }
  rewrite Hu1, Hmem, Hst in Hv1.
  rewrite Hu2, Hh1m, Hmem, Hlo in Hv2.
  rewrite Hu3, Hm2, Hh1m, Hmem, Hhi in Hv3. rewrite Hu3 in Hs3.
  assert (Hb0 : isBit 0) by (left; reflexivity).
  destruct (statusByte_bits 0 m Hflags Hb0)
    as (Fc & Fz & Fi & Fd & _ & Fv & Fs).
  cbv zeta in Fc, Fz, Fi, Fd, Fv, Fs.
  destruct (setStatus_flags (fst r1) (snd r1))
    as (Sc & Sz & Si & Sd & _ & _ & Sv & Ss).
  cbv zeta in Sc, Sz, Si, Sd, Sv, Ss. fold h1 in Sc, Sz, Si, Sd, Sv, Ss.
  rewrite Hv1 in Sc, Sz, Si, Sd, Sv, Ss.
  assert (Hflag : forall f : t -> Z,
            CPU.bus_proof f -> (forall v x, f (CPU.set_REG_SP v x) = f x) ->
            (forall v x, f (CPU.set_REG_PC v x) = f x) ->
            f (snd r3) = f h1).
  { intros f Hf Hfs Hfp. unfold r3. rewrite pull_frame by assumption.
    unfold h2. rewrite Hfp. unfold r2. apply pull_frame; assumption. }
  split; [exact Hp3 |]. split; [exact Hei |].
  unfold returned, CPU.execute. run0. fold r1. fold h1. fold r2. fold h2.
  fold r3. cpu_fields.
  rewrite Hv2, Hv3, Hs3.
  rewrite !Hflag by (repeat split).
  rewrite Sc, Sz, Si, Sd, Sv, Ss, Fc, Fz, Fi, Fd, Fv, Fs.
  destruct (word_of_its_bytes pc) as [_ Hword]; [lia |].
  rewrite Hword. repeat split. lia.
Qed.

End CpuInterruptReturn.

Lemma rti_undoes_the_nmi_sequence_witness :
  let m := CPU.requestIrq IRQ_NMI
             (snd (CPU.emulate nromDevices program_machine)) in
  let entered := snd (CPU.dispatchInterrupt nromDevices m) in
  let returned := snd (CPU.execute nromDevices 41 CPU.IMP 0 entered) in
  CPU.REG_PC returned = CPU.REG_PC m /\
  CPU.REG_SP returned = CPU.REG_SP m /\
  CPU.F_INTERRUPT returned = CPU.F_INTERRUPT m.
Proof.
  cbv zeta.
  set (m := CPU.requestIrq IRQ_NMI
              (snd (CPU.emulate nromDevices program_machine))).
  assert (Hreq : CPU.irqRequested m = true) by (vm_compute; reflexivity).
  assert (Hty : CPU.irqType m = IRQ_NMI) by (vm_compute; reflexivity).
  assert (Hsp : 0 <= CPU.REG_SP m < 256)
    by (vm_compute; split; [discriminate | reflexivity]).
  assert (Hlen : 0x800 <= Z.of_nat (length (CPU.mem m)))
    by (vm_compute; discriminate).
  assert (Hpc : -1 <= CPU.REG_PC m < 0xFFFF)
    by (vm_compute; split; [discriminate | reflexivity]).
  assert (Hflags : flagsAreBits m).
  { unfold flagsAreBits, isBit. vm_compute.
    repeat split; first [left; reflexivity | right; reflexivity]. }
  destruct (rti_undoes_the_nmi_sequence nromDevices CPU.IMP 0 m
              (snd (CPU.dispatchInterrupt nromDevices m))
              Hreq Hty Hsp Hlen Hpc Hflags eq_refl eq_refl)
    as (_ & _ & Hpc' & Hsp' & _ & _ & Hi & _).
  split; [exact Hpc' |]. split; [exact Hsp' | exact Hi].
Defined.
(* ================================================================== *)
(** ** The CPU: addition, subtraction and comparison *)
(* ================================================================== *)

Section CpuArithmetic.

Context {Env : Type} (D : Devices Env).

Local Abbreviation t := (CPU.t Env).

Lemma bit_cases c : isBit c -> 0 <= c < 2.
Proof. intros [-> | ->]; lia. Qed.

(** ADC on bytes: the accumulator takes the low eight bits of
    A + M + C, the carry is the ninth bit, the overflow flag says that
    the sum of the operands read as signed bytes is outside -128..127,
    the sign flag is bit 7 of the result and [F_ZERO] holds the result
    (the zero flag is set when it is 0). *)
Theorem adc_adds_and_sets_the_flags (mode addr : Z) (m : t) :
  let val := fst (CPU.cpuRead D addr m) in
  0 <= CPU.REG_ACC m < 256 -> 0 <= val < 256 -> isBit (CPU.F_CARRY m) ->
  let sum := CPU.REG_ACC m + val + CPU.F_CARRY m in
  let signed := signed8 (CPU.REG_ACC m) + signed8 val + CPU.F_CARRY m in
  let m' := snd (CPU.execute D 0 mode addr m) in
  CPU.REG_ACC m' = sum mod 256 /\
  CPU.F_CARRY m' = (if 256 <=? sum then 1 else 0) /\
  CPU.F_OVERFLOW m' = (if (signed <? -128) || (127 <? signed) then 1 else 0) /\
  CPU.F_SIGN m' = (if 128 <=? sum mod 256 then 1 else 0) /\
  CPU.F_ZERO m' = sum mod 256.
Proof.
  intros val Ha Hv Hc. cbv zeta. unfold CPU.execute, CPU.addWithCarry. run.
  fold val.
  rewrite !(cpuRead_frame D CPU.REG_ACC), !(cpuRead_frame D CPU.F_CARRY)
    by (repeat split).
  apply bit_cases in Hc.
  generalize dependent (CPU.F_CARRY m). generalize dependent (CPU.REG_ACC m).
  generalize dependent val. clear. intros v Hv a Ha c Hc.
  assert (Hcheck :
    forallb (fun a => forallb (fun v => forallb (fun c =>
      let sum := a + v + c in
      let signed := signed8 a + signed8 v + c in
      (Z.land sum 0xff =? sum mod 256)
      && (CPU.b2i (255 <? sum) =? (if 256 <=? sum then 1 else 0))
      && (CPU.b2i ((Z.land (Z.lxor a v) 0x80 =? 0)
                   && negb (Z.land (Z.lxor a sum) 0x80 =? 0))
          =? (if (signed <? -128) || (127 <? signed) then 1 else 0))
      && (Z.land (Z.shiftr sum 7) 1 =? (if 128 <=? sum mod 256 then 1 else 0)))
      (Zrange 2)) (Zrange 256)) (Zrange 256) = true)
    by (vm_compute; reflexivity).
  pose proof (forallb_Zrange _ _ Hcheck a Ha) as H1. cbv beta in H1.
  pose proof (forallb_Zrange _ _ H1 v Hv) as H2. cbv beta in H2.
  pose proof (forallb_Zrange _ _ H2 c Hc) as H3. cbv beta zeta in H3.
  apply andb_prop in H3. destruct H3 as [H3 Hs].
  apply andb_prop in H3. destruct H3 as [H3 Ho].
  apply andb_prop in H3. destruct H3 as [Hr Hcy].
  apply Z.eqb_eq in Hs, Ho, Hr, Hcy.
  rewrite Hr. auto.
Qed.

(** SBC on bytes: the accumulator takes the low eight bits of
    A - M - (1 - C), the carry is set when there was no borrow, and the
    overflow flag says that the difference of the operands read as
    signed bytes is outside -128..127. *)
Theorem sbc_subtracts_and_sets_the_flags (mode addr : Z) (m : t) :
  let val := fst (CPU.cpuRead D addr m) in
  0 <= CPU.REG_ACC m < 256 -> 0 <= val < 256 -> isBit (CPU.F_CARRY m) ->
  let diff := CPU.REG_ACC m - val - (1 - CPU.F_CARRY m) in
  let signed := signed8 (CPU.REG_ACC m) - signed8 val - (1 - CPU.F_CARRY m) in
  let m' := snd (CPU.execute D 43 mode addr m) in
  CPU.REG_ACC m' = diff mod 256 /\
  CPU.F_CARRY m' = (if 0 <=? diff then 1 else 0) /\
  CPU.F_OVERFLOW m' = (if (signed <? -128) || (127 <? signed) then 1 else 0) /\
  CPU.F_SIGN m' = (if 128 <=? diff mod 256 then 1 else 0) /\
  CPU.F_ZERO m' = diff mod 256.
Proof.
  intros val Ha Hv Hc. cbv zeta. unfold CPU.execute, CPU.subWithCarry. run.
  fold val.
  rewrite !(cpuRead_frame D CPU.REG_ACC), !(cpuRead_frame D CPU.F_CARRY)
    by (repeat split).
  apply bit_cases in Hc.
  generalize dependent (CPU.F_CARRY m). generalize dependent (CPU.REG_ACC m).
  generalize dependent val. clear. intros v Hv a Ha c Hc.
  assert (Hcheck :
    forallb (fun a => forallb (fun v => forallb (fun c =>
      let diff := a - v - (1 - c) in
      let signed := signed8 a - signed8 v - (1 - c) in
      (Z.land diff 0xff =? diff mod 256)
      && (CPU.b2i (negb (diff <? 0)) =? (if 0 <=? diff then 1 else 0))
      && (CPU.b2i (negb (Z.land (Z.lxor a diff) 0x80 =? 0)
                   && negb (Z.land (Z.lxor a v) 0x80 =? 0))
          =? (if (signed <? -128) || (127 <? signed) then 1 else 0))
      && (Z.land (Z.shiftr diff 7) 1 =? (if 128 <=? diff mod 256 then 1 else 0)))
      (Zrange 2)) (Zrange 256)) (Zrange 256) = true)
    by (vm_compute; reflexivity).
  pose proof (forallb_Zrange _ _ Hcheck a Ha) as H1. cbv beta in H1.
  pose proof (forallb_Zrange _ _ H1 v Hv) as H2. cbv beta in H2.
  pose proof (forallb_Zrange _ _ H2 c Hc) as H3. cbv beta zeta in H3.
  apply andb_prop in H3. destruct H3 as [H3 Hs].
  apply andb_prop in H3. destruct H3 as [H3 Ho].
  apply andb_prop in H3. destruct H3 as [Hr Hcy].
  apply Z.eqb_eq in Hs, Ho, Hr, Hcy.
  rewrite Hr. auto.
Qed.

(** CMP, CPX and CPY on bytes: the register is compared with the
    operand without being changed; the carry is set when the register
    is at least the operand, the zero flag ([F_ZERO] = 0) when they are
    equal, and the sign flag is bit 7 of the difference. *)
Theorem compare_orders_register_and_operand (type mode addr : Z) (m : t) :
  In type [17; 18; 19] ->
  let reg (x : t) :=
    if type =? 17 then CPU.REG_ACC x
    else if type =? 18 then CPU.REG_X x else CPU.REG_Y x in
  let val := fst (CPU.cpuRead D addr m) in
  0 <= reg m < 256 -> 0 <= val < 256 ->
  let m' := snd (CPU.execute D type mode addr m) in
  reg m' = reg m /\
  CPU.F_CARRY m' = (if val <=? reg m then 1 else 0) /\
  (CPU.F_ZERO m' =? 0) = (reg m =? val) /\
  CPU.F_SIGN m' = (if 128 <=? (reg m - val) mod 256 then 1 else 0).
Proof.
  intros Hty reg val Hr Hv. cbv zeta.
  assert (Hcheck :
    forallb (fun r => forallb (fun v =>
      (CPU.b2i (0 <=? r - v) =? (if v <=? r then 1 else 0))
      && Bool.eqb (Z.land (r - v) 0xff =? 0) (r =? v)
      && (Z.land (Z.shiftr (r - v) 7) 1
          =? (if 128 <=? (r - v) mod 256 then 1 else 0)))
      (Zrange 256)) (Zrange 256) = true)
    by (vm_compute; reflexivity).
  pose proof (forallb_Zrange _ _ Hcheck (reg m) Hr) as H1. cbv beta in H1.
  pose proof (forallb_Zrange _ _ H1 val Hv) as H2. cbv beta in H2.
  apply andb_prop in H2. destruct H2 as [H2 Hs].
  apply andb_prop in H2. destruct H2 as [Hc Hz].
  apply Z.eqb_eq in Hc, Hs. apply Bool.eqb_prop in Hz.
  clear Hcheck H1.
  destruct Hty as [<- | [<- | [<- | []]]]; subst reg; cbn [Z.eqb Pos.eqb] in *;
    unfold CPU.execute, CPU.compareFlags; run; fold val;
    rewrite ?(cpuRead_frame D CPU.REG_ACC), ?(cpuRead_frame D CPU.REG_X),
      ?(cpuRead_frame D CPU.REG_Y) by (repeat split);
    auto.
Qed.

End CpuArithmetic.

Lemma adc_adds_and_sets_the_flags_witness :
  let m := CPU.set_REG_ACC 0x50 program_machine in
  let m' := snd (CPU.execute nromDevices 0 CPU.ABS 0x8000 m) in
  CPU.REG_ACC m' = 0x0D /\ CPU.F_CARRY m' = 1 /\ CPU.F_OVERFLOW m' = 0.
Proof.
  cbv zeta. set (m := CPU.set_REG_ACC 0x50 program_machine).
  assert (Ha : 0 <= CPU.REG_ACC m < 256)
    by (vm_compute; split; [discriminate | reflexivity]).
  assert (Hv : 0 <= fst (CPU.cpuRead nromDevices 0x8000 m) < 256)
    by (vm_compute; split; [discriminate | reflexivity]).
  assert (Hc : isBit (CPU.F_CARRY m)) by (left; vm_compute; reflexivity).
  destruct (adc_adds_and_sets_the_flags nromDevices CPU.ABS 0x8000 m Ha Hv Hc)
    as (H1 & H2 & H3 & _).
  rewrite H1, H2, H3. vm_compute. repeat split.
Defined.

Lemma sbc_subtracts_and_sets_the_flags_witness :
  let m := CPU.set_REG_ACC 0x50 program_machine in
  let m' := snd (CPU.execute nromDevices 43 CPU.ABS 0x8000 m) in
  CPU.REG_ACC m' = 0x92 /\ CPU.F_CARRY m' = 0 /\ CPU.F_OVERFLOW m' = 1.
Proof.
  cbv zeta. set (m := CPU.set_REG_ACC 0x50 program_machine).
  assert (Ha : 0 <= CPU.REG_ACC m < 256)
    by (vm_compute; split; [discriminate | reflexivity]).
  assert (Hv : 0 <= fst (CPU.cpuRead nromDevices 0x8000 m) < 256)
    by (vm_compute; split; [discriminate | reflexivity]).
  assert (Hc : isBit (CPU.F_CARRY m)) by (left; vm_compute; reflexivity).
  destruct (sbc_subtracts_and_sets_the_flags nromDevices CPU.ABS 0x8000 m Ha Hv Hc)
    as (H1 & H2 & H3 & _).
  rewrite H1, H2, H3. vm_compute. repeat split.
Defined.

Lemma compare_orders_register_and_operand_witness :
  let m := CPU.set_REG_X 0xBD program_machine in
  let m' := snd (CPU.execute nromDevices 18 CPU.ABS 0x8000 m) in
  CPU.F_CARRY m' = 1 /\ (CPU.F_ZERO m' =? 0) = true.
Proof.
  cbv zeta. set (m := CPU.set_REG_X 0xBD program_machine).
  assert (Hty : In 18 [17; 18; 19]) by (right; left; reflexivity).
  assert (Hr : 0 <= CPU.REG_X m < 256)
    by (vm_compute; split; [discriminate | reflexivity]).
  assert (Hv : 0 <= fst (CPU.cpuRead nromDevices 0x8000 m) < 256)
    by (vm_compute; split; [discriminate | reflexivity]).
  destruct (compare_orders_register_and_operand nromDevices 18 CPU.ABS 0x8000 m
              Hty Hr Hv) as (_ & H2 & H3 & _).
  rewrite H2, H3. vm_compute. split; reflexivity.
Defined.
(* ================================================================== *)
(** ** The CPU: read-modify-write instructions on the bus *)
(* ================================================================== *)

Section CpuRmw.

Context {Env : Type} (D : Devices Env).

Local Abbreviation t := (CPU.t Env).


End CpuRmw.

(* ================================================================== *)
(** ** The opcode table *)
(* ================================================================== *)

(** Every opcode byte decodes to an instruction number that [execute]
    knows (0..69), an addressing mode that [emulate] knows (0..12), a
    base cycle count from 2 to 8, and the size its addressing mode
    demands, so that the operand bytes the mode reads are the bytes the
    program counter skips. *)
Theorem every_opcode_decodes_to_a_sized_instruction (opcode : Z) :
  0 <= opcode < 256 ->
  let opinf := CPU.opInfo opcode in
  0 <= CPU.instructionTypeOf opinf <= 69 /\
  0 <= CPU.addrModeOf opinf <= 12 /\
  2 <= CPU.baseCyclesOf opinf <= 8 /\
  CPU.opSizeOf opinf = sizeOfMode (CPU.addrModeOf opinf).
Proof.
  intros Hop. cbv zeta.
  assert (Hcheck :
    forallb (fun op =>
      let opinf := CPU.opInfo op in
      (0 <=? CPU.instructionTypeOf opinf) && (CPU.instructionTypeOf opinf <=? 69)
      && (0 <=? CPU.addrModeOf opinf) && (CPU.addrModeOf opinf <=? 12)
      && (2 <=? CPU.baseCyclesOf opinf) && (CPU.baseCyclesOf opinf <=? 8)
      && (CPU.opSizeOf opinf =? sizeOfMode (CPU.addrModeOf opinf)))
      (Zrange 256) = true) by (vm_compute; reflexivity).
  pose proof (forallb_Zrange _ _ Hcheck opcode Hop) as H. cbv beta zeta in H.
  repeat (apply andb_prop in H; let H' := fresh "H" in destruct H as [H H']).
  repeat match goal with
         | H : (_ <=? _) = true |- _ => apply Z.leb_le in H
         | H : (_ =? _) = true |- _ => apply Z.eqb_eq in H
         end.
  repeat split; assumption.
Qed.

Lemma every_opcode_decodes_to_a_sized_instruction_witness :
  let opinf := CPU.opInfo 0x6C in
  0 <= CPU.instructionTypeOf opinf <= 69 /\
  0 <= CPU.addrModeOf opinf <= 12 /\
  2 <= CPU.baseCyclesOf opinf <= 8 /\
  CPU.opSizeOf opinf = sizeOfMode (CPU.addrModeOf opinf).
Proof.
  apply (every_opcode_decodes_to_a_sized_instruction 0x6C). lia.
Defined.
(* ================================================================== *)
(** ** Controller: buttons and the latched snapshot *)
(* ================================================================== *)

Section ControllerButtons.

Import Controller.

Lemma apply_input_keeps_serial_state c i :
  strobedState (apply_input c i) = strobedState c /\
  strobeByte (apply_input c i) = strobeByte c /\
  shiftRegister (apply_input c i) = shiftRegister c.
Proof. destruct i; cbn; auto. Qed.

Lemma run_inputs_keeps_serial_state evs c :
  strobedState (run_inputs c evs) = strobedState c /\
  strobeByte (run_inputs c evs) = strobeByte c /\
  shiftRegister (run_inputs c evs) = shiftRegister c.
Proof.
  revert c. induction evs as [| i evs IH]; intros c; [auto |].
  unfold run_inputs in *. cbn [fold_left].
  destruct (IH (apply_input c i)) as (-> & -> & ->).
  apply apply_input_keeps_serial_state.
Qed.

Lemma clock_keeps_currentState c : currentState (clock c) = currentState c.
Proof. apply clock_fields. Qed.

Lemma after_clocks_serial_state k c c' :
  strobedState c' = strobedState c ->
  strobeByte c' = strobeByte c ->
  shiftRegister c' = shiftRegister c ->
  strobedState (after_clocks k c') = strobedState (after_clocks k c) /\
  strobeByte (after_clocks k c') = strobeByte (after_clocks k c) /\
  shiftRegister (after_clocks k c') = shiftRegister (after_clocks k c).
Proof.
  intros H1 H2 H3. induction k as [| k IH]; [auto |].
  unfold after_clocks in *. rewrite !Nat.iter_succ.
  destruct IH as (I1 & I2 & I3).
  generalize dependent (Nat.iter k clock c').
  generalize dependent (Nat.iter k clock c). intros x y I1 I2 I3.
  unfold clock. rewrite I2, I3.
  destruct (_ && _); cbn; auto.
Qed.

(** Once the strobe is low, the serial data is the snapshot: whatever
    buttons are pressed or released in the meantime (with whatever
    index), every later read of the port returns what it would have
    returned without them, until the next strobe. *)
Theorem button_events_do_not_reach_the_latched_reads
    (evs : list input) (k : nat) (c : t) :
  strobeByte c = 0 ->
  nth_read k (run_inputs c evs) = nth_read k c.
Proof.
  intros Hlow. unfold nth_read.
  destruct (run_inputs_keeps_serial_state evs c) as (H1 & H2 & H3).
  destruct (after_clocks_serial_state k c (run_inputs c evs) H1 H2 H3)
    as (A1 & A2 & A3).
  assert (Hs : strobeByte (after_clocks k c) = 0).
  { clear -Hlow. induction k as [| k IH]; [exact Hlow |].
    unfold after_clocks in *. rewrite Nat.iter_succ.
    destruct (clock_fields (Nat.iter k clock c)) as (_ & _ & ->). exact IH. }
  unfold read. cbn [fst]. rewrite A1, A2, A3, Hs. reflexivity.
Qed.

(** Pressing one of the eight buttons sets its bit, clears the bit of
    the opposite direction if it is a direction, and leaves the other
    bits of the byte alone; releasing it clears its bit and leaves the
    others alone. *)
Theorem button_press_and_release_touch_their_bits (b j : Z) (c : t) :
  is_button b -> 0 <= j < 8 ->
  0 <= currentState c < 256 ->
  Z.testbit (currentState (buttonDown b c)) j
  = (if j =? b then true
     else if j =? oppositeButton b then false
     else Z.testbit (currentState c) j) /\
  Z.testbit (currentState (buttonUp b c)) j
  = (if j =? b then false else Z.testbit (currentState c) j) /\
  0 <= currentState (buttonDown b c) < 256 /\
  0 <= currentState (buttonUp b c) < 256.
Proof.
  intros Hb Hj Hs. unfold is_button in Hb.
  assert (Hcheck :
    forallb (fun s => forallb (fun b => forallb (fun j =>
      let d := currentState (buttonDown b (mk s 0 0 0)) in
      let u := currentState (buttonUp b (mk s 0 0 0)) in
      Bool.eqb (Z.testbit d j)
        (if j =? b then true
         else if j =? oppositeButton b then false else Z.testbit s j)
      && Bool.eqb (Z.testbit u j) (if j =? b then false else Z.testbit s j)
      && byte_ok d && byte_ok u)
      (Zrange 8)) (Zrange 8)) (Zrange 256) = true)
    by (vm_compute; reflexivity).
  pose proof (forallb_Zrange _ _ Hcheck (currentState c) Hs) as H1.
  cbv beta in H1.
  pose proof (forallb_Zrange _ _ H1 b Hb) as H2. cbv beta in H2.
  pose proof (forallb_Zrange _ _ H2 j Hj) as H3. cbv beta zeta in H3.
  apply andb_prop in H3. destruct H3 as [H3 Hu].
  apply andb_prop in H3. destruct H3 as [H3 Hd].
  apply andb_prop in H3. destruct H3 as [Hdb Hub].
  apply Bool.eqb_prop in Hdb, Hub.
  unfold byte_ok in Hu, Hd.
  apply andb_prop in Hu. apply andb_prop in Hd.
  destruct Hu as [Hu1 Hu2]. destruct Hd as [Hd1 Hd2].
  apply Z.leb_le in Hu1, Hd1. apply Z.ltb_lt in Hu2, Hd2.
  change (currentState (buttonDown b c))
    with (currentState (buttonDown b (mk (currentState c) 0 0 0))).
  change (currentState (buttonUp b c))
    with (currentState (buttonUp b (mk (currentState c) 0 0 0))).
  auto.
Qed.

End ControllerButtons.

Lemma button_events_do_not_reach_the_latched_reads_witness :
  let c := Controller.strobe 0 (Controller.strobe 1
             (Controller.buttonDown Controller.BUTTON_B Controller.init)) in
  Controller.nth_read 1
    (Controller.run_inputs c [Controller.Up Controller.BUTTON_B;
                              Controller.Down Controller.BUTTON_A])
  = Controller.nth_read 1 c.
Proof.
  apply (button_events_do_not_reach_the_latched_reads
           [Controller.Up Controller.BUTTON_B; Controller.Down Controller.BUTTON_A]
           1).
  reflexivity.
Defined.

Lemma button_press_and_release_touch_their_bits_witness :
  let c := Controller.buttonDown Controller.BUTTON_DOWN Controller.init in
  Z.testbit (Controller.currentState (Controller.buttonDown 4 c)) 5 = false /\
  Z.testbit (Controller.currentState (Controller.buttonDown 4 c)) 4 = true.
Proof.
  cbv zeta.
  set (c := Controller.buttonDown Controller.BUTTON_DOWN Controller.init).
  assert (Hb : Controller.is_button 4) by (unfold Controller.is_button; lia).
  assert (Hs : 0 <= Controller.currentState c < 256)
    by (vm_compute; split; [discriminate | reflexivity]).
  assert (H5 : 0 <= 5 < 8) by lia.
  assert (H4 : 0 <= 4 < 8) by lia.
  destruct (button_press_and_release_touch_their_bits 4 5 c Hb H5 Hs) as (D5 & _).
  destruct (button_press_and_release_touch_their_bits 4 4 c Hb H4 Hs) as (D4 & _).
  rewrite D5, D4. split; reflexivity.
Defined.
(* ================================================================== *)
(** ** MMC3: the period of the scanline IRQ *)
(* ================================================================== *)

Section Mmc3IrqPeriod.

Import Mapper004.

Lemma clockScanlines_add (a b : nat) (m : t) :
  clockScanlines (a + b) m
  = (fst (clockScanlines b (fst (clockScanlines a m))),
     snd (clockScanlines a m)
     ++ snd (clockScanlines b (fst (clockScanlines a m)))).
Proof.
  revert m. induction a as [| a IH]; intros m.
  - cbn. destruct (clockScanlines b m). reflexivity.
  - cbn [Nat.add clockScanlines].
    destruct (clockScanline m) as [m1 e1]. rewrite IH.
    destruct (clockScanlines a m1) as [m2 e2]. cbn [fst snd].
    destruct (clockScanlines b m2) as [m3 e3]. cbn [fst snd].
    rewrite app_assoc. reflexivity.
Qed.

(** The counter counting down, away from zero: no call. *)
Lemma count_down (j : nat) (m : t) :
  irqReload m = false -> Z.of_nat j < irqCounter m ->
  let r := clockScanlines j m in
  snd r = [] /\
  irqCounter (fst r) = irqCounter m - Z.of_nat j /\
  irqReload (fst r) = false /\
  irqLatch (fst r) = irqLatch m /\
  irqEnabled (fst r) = irqEnabled m.
Proof.
  revert m. induction j as [| j IH]; intros m Hr Hc; cbv zeta.
  - cbn [clockScanlines fst snd]. change (Z.of_nat 0) with 0.
    repeat split; try reflexivity; try assumption; lia.
  - assert (Hstep : clockScanline m
                    = (set_irqCounter (irqCounter m - 1) m, [])).
    { unfold clockScanline.
      destruct (Z.eqb_spec (irqCounter m) 0) as [H0 | H0]; [lia |].
      rewrite Hr. cbn [orb irqCounter set_irqCounter irqEnabled].
      destruct (Z.eqb_spec (irqCounter m - 1) 0) as [H1 | H1]; [lia |].
      reflexivity. }
    cbn [clockScanlines]. rewrite Hstep.
    assert (Hc' : Z.of_nat j
                  < irqCounter (set_irqCounter (irqCounter m - 1) m))
      by (cbn [irqCounter set_irqCounter]; lia).
    specialize (IH (set_irqCounter (irqCounter m - 1) m) Hr Hc').
    cbv zeta in IH.
    cbn [irqReload set_irqCounter irqCounter irqLatch irqEnabled] in IH.
    destruct IH as (E & C & R & L & En).
    destruct (clockScanlines j _) as [m2 e2]. cbn [fst snd app] in *.
    subst e2. repeat split; try assumption. lia.
Qed.

(** One period: after a reload is due, with latch [n] at least 1 and
    the IRQ enabled, the first [n] clocks request nothing and clock
    [n + 1] requests the IRQ and leaves a reload due again. *)
Lemma one_period (n : nat) (m : t) :
  (1 <= n)%nat -> irqLatch m = Z.of_nat n -> irqEnabled m = true ->
  irqCounter m = 0 \/ irqReload m = true ->
  snd (clockScanlines n m) = [] /\
  let r := clockScanlines (S n) m in
  snd r = [RequestIrq IRQ_NORMAL] /\
  irqCounter (fst r) = 0 /\
  irqLatch (fst r) = Z.of_nat n /\
  irqEnabled (fst r) = true.
Proof.
  intros Hn Hl He Hdue.
  assert (Hfirst : clockScanline m
                   = (set_irqReload false (set_irqCounter (irqLatch m) m), [])).
  { unfold clockScanline. destruct Hdue as [-> | ->];
      [reflexivity | rewrite orb_true_r; reflexivity]. }
  set (m1 := set_irqReload false (set_irqCounter (irqLatch m) m)) in *.
  assert (H1 : irqReload m1 = false /\ irqCounter m1 = Z.of_nat n
               /\ irqLatch m1 = Z.of_nat n /\ irqEnabled m1 = true).
  { unfold m1. cbn. auto. }
  destruct H1 as (R1 & C1 & L1 & E1).
  destruct n as [| n]; [lia |].
  assert (Hdown : Z.of_nat n < irqCounter m1) by lia.
  destruct (count_down n m1 R1 Hdown) as (E & C & R & L & En).
  cbv zeta in E, C, R, L, En.
  split.
  - cbn [clockScanlines]. rewrite Hfirst.
    destruct (clockScanlines n m1) as [m2 e2]. cbn [fst snd] in *.
    subst e2. reflexivity.
  - cbv zeta.
    replace (S (S n)) with (1 + n + 1)%nat by lia.
    rewrite clockScanlines_add.
    assert (Hpre : clockScanlines (1 + n) m
                   = (fst (clockScanlines n m1), [])).
    { cbn [Nat.add clockScanlines]. rewrite Hfirst.
      destruct (clockScanlines n m1) as [m2 e2]. cbn [fst snd] in *.
      subst e2. reflexivity. }
    rewrite Hpre. cbn [fst snd app].
    set (m2 := fst (clockScanlines n m1)) in *.
    assert (C2 : irqCounter m2 = 1) by lia.
    cbn [clockScanlines]. unfold clockScanline.
    rewrite C2, R. cbn [Z.eqb Pos.eqb orb irqCounter set_irqCounter irqEnabled].
    change (1 - 1) with 0. rewrite En, E1. cbn [Z.eqb andb fst snd app].
    cbn [irqCounter irqLatch irqEnabled set_irqCounter].
    rewrite L, L1, En, E1. auto.
Qed.

(** With latch [n] of at least 1, the IRQ enabled and a reload due, the
    IRQ is requested once every [n + 1] rising edges of A12: [k] edges
    make [k / (n + 1)] requests and no other call.  With latch 0 the
    counter is reloaded with 0 on every edge and never decremented, so
    no IRQ is ever requested. *)
Theorem mmc3_irq_once_every_latch_plus_one_edges (n k : nat) (m : t) :
  irqLatch m = Z.of_nat n -> irqEnabled m = true ->
  irqCounter m = 0 \/ irqReload m = true ->
  snd (clockScanlines k m)
  = if (n =? 0)%nat then []
    else repeat (RequestIrq IRQ_NORMAL) (k / S n).
Proof.
  intros Hl He Hdue.
  destruct n as [| n]; cbn [Nat.eqb].
  - (* latch 0 *)
    revert m Hl He Hdue. induction k as [| k IH]; intros m Hl He Hdue;
      [reflexivity |].
    cbn [clockScanlines].
    assert (Hfirst : clockScanline m
                     = (set_irqReload false (set_irqCounter (irqLatch m) m), [])).
    { unfold clockScanline. destruct Hdue as [-> | ->];
        [reflexivity | rewrite orb_true_r; reflexivity]. }
    rewrite Hfirst.
    specialize (IH (set_irqReload false (set_irqCounter (irqLatch m) m))).
    cbn [irqLatch irqEnabled irqCounter irqReload set_irqReload set_irqCounter]
      in IH.
    assert (IH' := IH Hl He (or_introl Hl)). clear IH.
    destruct (clockScanlines k _) as [m2 e2]. cbn [fst snd app] in *.
    exact IH'.
  - (* latch n + 1 *)
    set (p := S (S n)).
    rewrite (Nat.div_mod_eq k p).
    set (q := (k / p)%nat). set (r := (k mod p)%nat).
    assert (Hr : (r < p)%nat) by (apply Nat.mod_upper_bound; discriminate).
    replace ((p * q + r) / p)%nat with q
      by (rewrite Nat.mul_comm, Nat.div_add_l by discriminate;
          rewrite (Nat.div_small r p) by exact Hr; lia).
    clearbody q r. revert m Hl He Hdue.
    induction q as [| q IH]; intros m Hl He Hdue.
    + rewrite Nat.mul_0_r, Nat.add_0_l. cbn [repeat].
      destruct (one_period (S n) m) as (Hquiet & _); try assumption; [lia |].
      (* fewer than a period: nothing *)
      assert (Hle : (r <= S n)%nat) by (unfold p in Hr; lia).
      replace (S n) with (r + (S n - r))%nat in Hquiet by lia.
      rewrite clockScanlines_add in Hquiet. cbn [snd] in Hquiet.
      apply app_eq_nil in Hquiet. apply Hquiet.
    + replace (p * S q + r)%nat with (p + (p * q + r))%nat by lia.
      rewrite clockScanlines_add. cbn [snd].
      destruct (one_period (S n) m) as (_ & Hfire); try assumption; [lia |].
      cbv zeta in Hfire. fold p in Hfire.
      destruct Hfire as (Hcall & Hc & Hl' & He').
      rewrite Hcall, IH by (auto). reflexivity.
Qed.

End Mmc3IrqPeriod.

Lemma mmc3_irq_once_every_latch_plus_one_edges_witness :
  snd (Mapper004.clockScanlines 10
         (fst (Mapper004.cpuWrites [(0xC000, 3); (0xE001, 0); (0xC001, 0)]
                 example_mmc3)))
  = [RequestIrq IRQ_NORMAL; RequestIrq IRQ_NORMAL].
Proof.
  set (m := fst (Mapper004.cpuWrites [(0xC000, 3); (0xE001, 0); (0xC001, 0)]
                   example_mmc3)).
  assert (Hl : Mapper004.irqLatch m = Z.of_nat 3) by reflexivity.
  assert (He : Mapper004.irqEnabled m = true) by reflexivity.
  assert (Hdue : Mapper004.irqCounter m = 0 \/ Mapper004.irqReload m = true)
    by (right; reflexivity).
  rewrite (mmc3_irq_once_every_latch_plus_one_edges 3 10 m Hl He Hdue).
  reflexivity.
Defined.
(* ================================================================== *)
(** ** MMC3: register decoding, PRG-RAM protection, the PRG window *)
(* ================================================================== *)

Lemma land_le_r a b : 0 <= b -> 0 <= Z.land a b <= b.
Proof.
  intros Hb. split; [apply Z.land_nonneg; right; exact Hb |].
  assert (H : Z.lor (Z.land a b) (Z.ldiff b a) = b).
  { apply Z.bits_inj'. intros n Hn.
    rewrite Z.lor_spec, Z.land_spec, Z.ldiff_spec.
    destruct (Z.testbit a n), (Z.testbit b n); reflexivity. }
  assert (H0 : Z.land (Z.land a b) (Z.ldiff b a) = 0).
  { apply Z.bits_inj'. intros n Hn.
    rewrite !Z.land_spec, Z.ldiff_spec, Z.bits_0.
    destruct (Z.testbit a n), (Z.testbit b n); reflexivity. }
  pose proof (Z.add_lor_land (Z.land a b) (Z.ldiff b a)) as Hadd.
  rewrite H, H0 in Hadd.
  assert (0 <= Z.ldiff b a) by (apply Z.ldiff_nonneg; left; exact Hb).
  lia.
Qed.

Lemma bit15_of_upper_half a : 0x8000 <= a <= 0xFFFF -> Z.testbit a 15 = true.
Proof.
  intros Ha. apply Z.testbit_true; [lia |].
  replace (a / 2 ^ 15) with 1; [reflexivity |].
  apply Z.div_unique with (r := a - 2 ^ 15); lia.
Qed.

Lemma upper_half_of_bit15 x : 0 <= x -> Z.testbit x 15 = true -> 0x8000 <= x.
Proof.
  intros Hx Hb. destruct (Z_lt_le_dec x 0x8000) as [Hlt | Hge]; [| exact Hge].
  apply Z.testbit_true in Hb; [| lia].
  rewrite Z.div_small in Hb by lia. discriminate.
Qed.

Lemma store32_0 v x l : JS.store32 (x :: l) 0 v = JS.toUint32 v :: l.
Proof. reflexivity. Qed.

Lemma store32_1 v x y l :
  JS.store32 (x :: y :: l) 1 v = x :: JS.toUint32 v :: l.
Proof. reflexivity. Qed.

Lemma store32_2 v x y z l :
  JS.store32 (x :: y :: z :: l) 2 v = x :: y :: JS.toUint32 v :: l.
Proof. reflexivity. Qed.

Lemma store32_3 v x y z w l :
  JS.store32 (x :: y :: z :: w :: l) 3 v = x :: y :: z :: JS.toUint32 v :: l.
Proof. reflexivity. Qed.

Section Mmc3Memory.

Import Mapper004.

(** The A12-A1 address lines do not reach the MMC3: a write in
    $8000-$FFFF acts as the write to the register that A15-A13 and A0
    select. *)
Theorem mmc3_registers_decode_only_a0_a13_a14 (a d : Z) (m : t) :
  0x8000 <= a <= 0xFFFF ->
  cpuWrite a d m = cpuWrite (Z.land a 0xE001) d m.
Proof.
  intros Ha.
  assert (Hhi : 0x8000 <= Z.land a 0xE001).
  { apply upper_half_of_bit15.
    - apply Z.land_nonneg. right. lia.
    - rewrite Z.land_spec, (bit15_of_upper_half a Ha). reflexivity. }
  assert (Hr : Z.land (Z.land a 0xE001) 1 = Z.land a 1)
    by (rewrite <- Z.land_assoc; reflexivity).
  assert (Hb : Z.land (Z.land a 0xE001) 0xE000 = Z.land a 0xE000)
    by (rewrite <- Z.land_assoc; reflexivity).
  unfold cpuWrite. rewrite Hr, Hb.
  destruct (Z.ltb_spec a 0x8000); [lia |].
  destruct (Z.ltb_spec (Z.land a 0xE001) 0x8000); [lia |].
  rewrite !andb_false_r. reflexivity.
Qed.

(** After a write of [d] to $A001: with bit 7 of [d] clear the window
    $6000-$7FFF reads as open bus (the high byte of the address); with
    bit 7 clear or bit 6 set a write into the window changes nothing and
    makes no call; with bit 7 set a read returns the byte of PRG-RAM. *)
Theorem mmc3_a001_gates_prg_ram (d x v : Z) (m : t) :
  0x6000 <= x < 0x8000 ->
  let m' := fst (cpuWrite 0xA001 d m) in
  (Z.land d 0x80 = 0 -> cpuRead x m' = Some (Z.land (Z.shiftr x 8) 0xFF)) /\
  (Z.land d 0x80 = 0 \/ Z.land d 0x40 <> 0 -> cpuWrite x v m' = (m', [])) /\
  (Z.land d 0x80 <> 0 -> cpuRead x m' = JS.get (prgRam m) (x - 0x6000)).
Proof.
  intros Hx. cbv zeta.
  assert (Hwin : (0x6000 <=? x) && (x <? 0x8000) = true).
  { apply andb_true_iff. split; [apply Z.leb_le | apply Z.ltb_lt]; lia. }
  change (fst (cpuWrite 0xA001 d m))
    with (set_prgRamWriteProtect (negb (Z.land d 0x40 =? 0))
            (set_prgRamEnabled (negb (Z.land d 0x80 =? 0)) m)).
  unfold cpuRead, cpuWrite. rewrite Hwin.
  cbn [prgRamEnabled prgRamWriteProtect set_prgRamWriteProtect
       set_prgRamEnabled prgRam].
  repeat split.
  - intros ->. reflexivity.
  - intros [-> | H6]; [reflexivity |].
    destruct (Z.eqb_spec (Z.land d 0x40) 0) as [E | _]; [contradiction |].
    cbn [negb andb]. rewrite andb_false_r. reflexivity.
  - intros H7.
    destruct (Z.eqb_spec (Z.land d 0x80) 0) as [E | _]; [contradiction |].
    reflexivity.
Qed.

Lemma masked_bank (r n : Z) :
  1 <= n <= 2 ^ 18 ->
  exists b, JS.toUint32 (JS.shl (JS.band r (n - 1)) 13) = b * 0x2000
            /\ 0 <= b < n.
Proof.
  intros Hn. exists (JS.band r (n - 1)).
  assert (Hb : 0 <= JS.band r (n - 1) <= n - 1).
  { unfold JS.band. rewrite (toInt32_small (n - 1)) by lia.
    apply land_le_r. lia. }
  split; [apply shl13_bank |]; lia.
Qed.

Lemma updateBanks_prg_window (m : t) :
  length (prgOffsets m) = 4%nat ->
  2 <= get8kPrgBankCount (cart m) <= 2 ^ 18 ->
  prg_window (cart m) (updateBanks m).
Proof.
  intros Hlen Hc. split; [reflexivity |].
  destruct (prgOffsets m) as [| p0 [| p1 [| p2 [| p3 [| p4 rest]]]]] eqn:Hp;
    try discriminate.
  set (n := get8kPrgBankCount (cart m)) in *.
  destruct (masked_bank (regAt m 6) n) as (b6 & E6 & R6); [lia |].
  destruct (masked_bank (regAt m 7) n) as (b7 & E7 & R7); [lia |].
  assert (El : JS.toUint32 (JS.shl (n - 1) 13) = (n - 1) * 0x2000)
    by (apply shl13_bank; lia).
  assert (Es : JS.toUint32 (JS.shl (n - 2) 13) = (n - 2) * 0x2000)
    by (apply shl13_bank; lia).
  assert (Hmask : (if 0 <? n then n - 1 else 0) = n - 1)
    by (destruct (Z.ltb_spec 0 n); lia).
  unfold updateBanks. cbv zeta.
  cbn [prgOffsets set_prgOffsets set_chrOffsets]. rewrite Hp. fold n.
  rewrite Hmask.
  destruct (prgMode m =? 0).
  - exists b6, b7, (n - 2).
    split; [| repeat split; lia].
    rewrite store32_0, store32_1, store32_2, store32_3, E6, E7, El, Es.
    reflexivity.
  - exists (n - 2), b7, b6.
    split; [| repeat split; lia].
    rewrite store32_0, store32_1, store32_2, store32_3, E6, E7, El, Es.
    reflexivity.
Qed.

Lemma cpuWrite_prg_window (c : Cartridge) (a d : Z) (m : t) :
  2 <= get8kPrgBankCount c <= 2 ^ 18 ->
  prg_window c m -> prg_window c (fst (cpuWrite a d m)).
Proof.
  intros Hc Hw.
  assert (Hkeep : forall m', cart m' = cart m -> prgOffsets m' = prgOffsets m ->
                             prg_window c m').
  { intros m' Hcart Hprg. destruct Hw as (Hcm & b0 & b1 & b2 & Hp & Hb).
    split; [congruence |]. exists b0, b1, b2. rewrite Hprg. auto. }
  assert (Hbank : forall m', cart m' = cart m -> prgOffsets m' = prgOffsets m ->
                             prg_window c (updateBanks m')).
  { intros m' Hcart Hprg. destruct Hw as (Hcm & b0 & b1 & b2 & Hp & Hb).
    rewrite <- Hcm, <- Hcart. apply updateBanks_prg_window.
    - rewrite Hprg, Hp. reflexivity.
    - rewrite Hcart, Hcm. exact Hc. }
  unfold cpuWrite.
  destruct ((0x6000 <=? a) && (a <? 0x8000)).
  { destruct (prgRamEnabled m && negb (prgRamWriteProtect m));
      apply Hkeep; reflexivity. }
  destruct (a <? 0x8000); [apply Hkeep; reflexivity |].
  destruct (Z.land a 0xE000) as [| p | p]; try (apply Hkeep; reflexivity).
  do 16 (destruct p as [p | p |]; try (apply Hkeep; reflexivity)).
  all: destruct (Z.land a 1 =? 0); cbn [fst];
    try (apply Hkeep; reflexivity); try (apply Hbank; reflexivity).
  all: destruct (fourScreen (cart m)); apply Hkeep; reflexivity.
Qed.

Lemma cpuWrites_prg_window (c : Cartridge) (ws : list (Z * Z)) (m : t) :
  2 <= get8kPrgBankCount c <= 2 ^ 18 ->
  prg_window c m -> prg_window c (fst (cpuWrites ws m)).
Proof.
  intros Hc. revert m. induction ws as [| [a d] ws IH]; intros m Hw.
  - exact Hw.
  - cbn [cpuWrites].
    pose proof (cpuWrite_prg_window c a d m Hc Hw) as H1.
    destruct (cpuWrite a d m) as [m1 e1]. cbn [fst] in H1.
    specialize (IH m1 H1).
    destruct (cpuWrites ws m1) as [m2 e2]. exact IH.
Qed.

Lemma slot_of_address a :
  0x8000 <= a <= 0xFFFF ->
  Z.land (Z.shiftr a 13) 0x03 = a / 0x2000 - 4 /\
  Z.land a 0x1FFF = a mod 0x2000 /\
  4 <= a / 0x2000 <= 7.
Proof.
  intros Ha.
  assert (Hq : 4 <= a / 0x2000 <= 7).
  { pose proof (Z.div_mod a 0x2000 ltac:(lia)).
    pose proof (Z.mod_pos_bound a 0x2000 ltac:(lia)). lia. }
  repeat split; try lia.
  - rewrite Z.shiftr_div_pow2 by lia. change (2 ^ 13) with 0x2000.
    change 0x03 with (Z.ones 2). rewrite Z.land_ones by lia.
    change (2 ^ 2) with 4.
    symmetry. apply Z.mod_unique with (q := 1); lia.
  - change 0x1FFF with (Z.ones 13). rewrite Z.land_ones by lia. reflexivity.
Qed.

(** Once [updateBanks] has run, whatever is written to the mapper
    afterwards, a CPU read in $8000-$FFFF returns a byte of the ROM:
    the byte at the read's offset inside some existing 8 KiB bank, and
    for $E000-$FFFF inside the last bank. *)
Theorem mmc3_prg_read_stays_in_rom_and_top_is_last_bank
    (ws : list (Z * Z)) (a : Z) (m : t) :
  length (prgOffsets m) = 4%nat ->
  2 <= get8kPrgBankCount (cart m) <= 2 ^ 18 ->
  Z.of_nat (length (prgData (cart m))) = get8kPrgBankCount (cart m) * 0x2000 ->
  0x8000 <= a <= 0xFFFF ->
  let m' := fst (cpuWrites ws (updateBanks m)) in
  exists bank byte,
    0 <= bank < get8kPrgBankCount (cart m) /\
    cpuRead a m' = Some byte /\
    JS.get (prgData (cart m)) (bank * 0x2000 + a mod 0x2000) = Some byte /\
    (0xE000 <= a -> bank = get8kPrgBankCount (cart m) - 1).
Proof.
  intros Hlen Hc Hrom Ha. cbv zeta.
  pose proof (cpuWrites_prg_window (cart m) ws (updateBanks m) Hc
                (updateBanks_prg_window m Hlen Hc)) as Hw.
  set (m' := fst (cpuWrites ws (updateBanks m))) in *.
  destruct Hw as (Hcart & b0 & b1 & b2 & Hp & H0 & H1 & H2).
  destruct (slot_of_address a Ha) as (Hslot & Hoff & Hq).
  set (n := get8kPrgBankCount (cart m)) in *.
  pose proof (Z.mod_pos_bound a 0x2000 ltac:(lia)) as Hm.
  assert (Hread : forall bank, 0 <= bank < n ->
            exists byte,
              JS.get (prgData (cart m)) (bank * 0x2000 + a mod 0x2000)
              = Some byte).
  { intros bank Hb. unfold JS.get.
    destruct (Z.ltb_spec (bank * 0x2000 + a mod 0x2000) 0); [lia |].
    apply lookup_lt_is_Some_2. nia. }
  assert (Hcpu : forall bank,
            JS.get (prgOffsets m') (a / 0x2000 - 4) = Some (bank * 0x2000) ->
            cpuRead a m'
            = JS.get (prgData (cart m)) (bank * 0x2000 + a mod 0x2000)).
  { intros bank Hget. unfold cpuRead.
    destruct (Z.ltb_spec a 0x8000); [lia |].
    rewrite andb_false_r.
    destruct (Z.leb_spec 0x8000 a); [| lia].
    rewrite Hslot, Hoff, Hget, Hcart. reflexivity. }
  assert (Hcases : a / 0x2000 = 4 \/ a / 0x2000 = 5 \/ a / 0x2000 = 6
                   \/ a / 0x2000 = 7) by lia.
  assert (Htop : 0xE000 <= a -> a / 0x2000 = 7).
  { intros Hge. assert (7 <= a / 0x2000)
      by (apply Z.div_le_lower_bound; lia). lia. }
  destruct Hcases as [E | [E | [E | E]]].
  - destruct (Hread b0 H0) as (byte & Hbyte).
    exists b0, byte. repeat split; try lia; try assumption.
    rewrite (Hcpu b0); [exact Hbyte | rewrite E, Hp; reflexivity].
  - destruct (Hread b1 H1) as (byte & Hbyte).
    exists b1, byte. repeat split; try lia; try assumption.
    rewrite (Hcpu b1); [exact Hbyte | rewrite E, Hp; reflexivity].
  - destruct (Hread b2 H2) as (byte & Hbyte).
    exists b2, byte. repeat split; try lia; try assumption.
    rewrite (Hcpu b2); [exact Hbyte | rewrite E, Hp; reflexivity].
  - destruct (Hread (n - 1) ltac:(lia)) as (byte & Hbyte).
    exists (n - 1), byte. repeat split; try lia; try assumption.
    rewrite (Hcpu (n - 1)); [exact Hbyte | rewrite E, Hp; reflexivity].
Qed.

End Mmc3Memory.

Lemma mmc3_registers_decode_only_a0_a13_a14_witness :
  Mapper004.cpuWrite 0xDFFF 0 example_mmc3
  = Mapper004.cpuWrite 0xC001 0 example_mmc3.
Proof.
  assert (Ha : 0x8000 <= 0xDFFF <= 0xFFFF) by lia.
  exact (mmc3_registers_decode_only_a0_a13_a14 0xDFFF 0 example_mmc3 Ha).
Defined.

Lemma mmc3_a001_gates_prg_ram_witness :
  Mapper004.cpuRead 0x6123 (fst (Mapper004.cpuWrite 0xA001 0x00 example_mmc3))
  = Some 0x61.
Proof.
  assert (Hx : 0x6000 <= 0x6123 < 0x8000) by lia.
  destruct (mmc3_a001_gates_prg_ram 0x00 0x6123 0 example_mmc3 Hx)
    as (Hopen & _ & _).
  apply Hopen. reflexivity.
Defined.

Lemma mmc3_prg_read_stays_in_rom_and_top_is_last_bank_witness :
  exists bank byte,
    0 <= bank < 4 /\
    Mapper004.cpuRead 0xFFFC
      (fst (Mapper004.cpuWrites [(0x8000, 0x46); (0x8001, 0xFF)]
              (Mapper004.updateBanks example_mmc3))) = Some byte /\
    JS.get (prgData example_cart) (bank * 0x2000 + 0xFFFC mod 0x2000)
    = Some byte /\
    (0xE000 <= 0xFFFC -> bank = 3).
Proof.
  assert (Hlen : length (Mapper004.prgOffsets example_mmc3) = 4%nat)
    by reflexivity.
  assert (Hc : 2 <= get8kPrgBankCount (Mapper004.cart example_mmc3) <= 2 ^ 18)
    by (split; discriminate).
  assert (Hrom : Z.of_nat (length (prgData (Mapper004.cart example_mmc3)))
                 = get8kPrgBankCount (Mapper004.cart example_mmc3) * 0x2000)
    by (vm_compute; reflexivity).
  assert (Ha : 0x8000 <= 0xFFFC <= 0xFFFF) by lia.
  exact (mmc3_prg_read_stays_in_rom_and_top_is_last_bank
           [(0x8000, 0x46); (0x8001, 0xFF)] 0xFFFC example_mmc3
           Hlen Hc Hrom Ha).
Defined.
(* ================================================================== *)
(** ** MMC6: the 1 KiB internal RAM and its control register *)
(* ================================================================== *)

Lemma get_store8_ne arr i j v :
  0 <= i -> 0 <= j -> i <> j -> JS.get (JS.store8 arr i v) j = JS.get arr j.
Proof.
  intros Hi Hj Hne. unfold JS.get, JS.store8.
  destruct (Z.ltb_spec j 0); [lia |].
  destruct (Z.ltb_spec i 0); [lia |].
  apply list_lookup_insert_ne. lia.
Qed.

Lemma land_0x3FF_range a : 0 <= Z.land a 0x3FF < 0x400.
Proof.
  change 0x3FF with (Z.ones 10). rewrite Z.land_ones by lia.
  apply Z.mod_pos_bound. lia.
Qed.

Lemma land_bit_of_mask x mask bit :
  Z.land x mask = mask -> Z.land mask bit = bit -> Z.land x bit = bit.
Proof.
  intros Hx Hm. rewrite <- Hm at 1. rewrite Z.land_assoc, Hx. exact Hm.
Qed.

Section Mmc6.

Import Mapper006.

Lemma window_7000 a :
  0x7000 <= a < 0x8000 -> (0x7000 <=? a) && (a <? 0x8000) = true.
Proof.
  intros H. apply andb_true_iff. split; [apply Z.leb_le | apply Z.ltb_lt]; lia.
Qed.

(** With all four enable bits of the RAM control register set (the
    power-on value $F0 has them), a byte written anywhere in
    $7000-$7FFF is read back at every address of that window that has
    the same low ten bits, and no other address of the window changes:
    the 1 KiB RAM is mirrored four times. *)
Theorem mmc6_ram_is_mirrored_every_1k (a a' v : Z) (m : t) :
  0x7000 <= a < 0x8000 ->
  0x7000 <= a' < 0x8000 ->
  length (Mapper004.prgRam (base m)) = 1024%nat ->
  Z.land (ramControl m) 0xF0 = 0xF0 ->
  cpuRead a' (fst (cpuWrite a v m))
  = if Z.land a' 0x3FF =? Z.land a 0x3FF then Some (v mod 256)
    else cpuRead a' m.
Proof.
  intros Ha Ha' Hlen Hrc.
  assert (H10 : Z.land (ramControl m) 0x10 = 0x10)
    by (apply (land_bit_of_mask _ 0xF0); [exact Hrc | reflexivity]).
  assert (H20 : Z.land (ramControl m) 0x20 = 0x20)
    by (apply (land_bit_of_mask _ 0xF0); [exact Hrc | reflexivity]).
  assert (H40 : Z.land (ramControl m) 0x40 = 0x40)
    by (apply (land_bit_of_mask _ 0xF0); [exact Hrc | reflexivity]).
  assert (H80 : Z.land (ramControl m) 0x80 = 0x80)
    by (apply (land_bit_of_mask _ 0xF0); [exact Hrc | reflexivity]).
  pose proof (land_0x3FF_range a) as Ho.
  pose proof (land_0x3FF_range a') as Ho'.
  assert (Hw : fst (cpuWrite a v m)
               = mk (Mapper004.set_prgRam
                       (JS.store8 (Mapper004.prgRam (base m))
                          (Z.land a 0x3FF) v) (base m))
                    (ramControl m)).
  { unfold cpuWrite. rewrite (window_7000 a Ha). cbv zeta.
    destruct (Z.land a 0x3FF <? 0x200); cbn [Z.eqb];
      rewrite ?H10, ?H20; reflexivity. }
  rewrite Hw. unfold cpuRead. rewrite (window_7000 a' Ha'). cbv zeta.
  cbn [ramControl base Mapper004.prgRam Mapper004.set_prgRam].
  assert (Hen : negb (Z.land (ramControl m)
                        (if (if Z.land a' 0x3FF <? 0x200 then 0 else 1) =? 0
                         then 0x40 else 0x80) =? 0) = true).
  { destruct (Z.land a' 0x3FF <? 0x200); cbn [Z.eqb];
      rewrite ?H40, ?H80; reflexivity. }
  rewrite Hen.
  destruct (Z.eqb_spec (Z.land a' 0x3FF) (Z.land a 0x3FF)) as [E | E].
  - rewrite E. apply get_store8_eq. rewrite Hlen. lia.
  - apply get_store8_ne; lia.
Qed.

Lemma a001_is_above_the_ram a :
  Z.land a 0xE001 = 0xA001 ->
  (0x7000 <=? a) && (a <? 0x8000) = false /\
  (0x6000 <=? a) && (a <? 0x7000) = false.
Proof.
  intros Hreg.
  assert (Hbit : Z.testbit a 15 = true).
  { assert (H : Z.testbit (Z.land a 0xE001) 15 = true)
      by (rewrite Hreg; reflexivity).
    rewrite Z.land_spec in H. apply andb_true_iff in H. apply H. }
  assert (Hout : ~ 0 <= a < 0x8000).
  { intros Hin. apply Z.testbit_true in Hbit; [| lia].
    rewrite Z.div_small in Hbit by lia. discriminate. }
  split; apply andb_false_iff.
  - destruct (Z.leb_spec 0x7000 a); [| left; reflexivity].
    destruct (Z.ltb_spec a 0x8000); [lia | right; reflexivity].
  - destruct (Z.leb_spec 0x6000 a); [| left; reflexivity].
    destruct (Z.ltb_spec a 0x7000); [lia | right; reflexivity].
Qed.

(** A write of [d] to $A001, or to any address that A15-A13 and A0
    decode to it, sets the RAM control register and stops there: the
    MMC3 state, with its RAM enable and write-protect bits, is not
    touched and no call is made.  Afterwards, in each 512-byte half of
    the RAM (the upper half has address bit 9 set), reads are open bus
    unless the half's read bit of [d] is set (bit 6 lower, bit 7 upper)
    and writes change nothing unless its write bit is set (bit 4 lower,
    bit 5 upper). *)
Theorem mmc6_a001_gates_each_half_of_the_ram (a d x v : Z) (m : t) :
  Z.land a 0xE001 = 0xA001 ->
  0x7000 <= x < 0x8000 ->
  let m' := fst (cpuWrite a d m) in
  let upper := 0x200 <=? Z.land x 0x3FF in
  cpuWrite a d m = (mk (base m) d, []) /\
  (Z.land d (if upper then 0x80 else 0x40) = 0 ->
   cpuRead x m' = Some (Z.land (Z.shiftr x 8) 0xFF)) /\
  (Z.land d (if upper then 0x80 else 0x40) <> 0 ->
   cpuRead x m' = JS.get (Mapper004.prgRam (base m)) (Z.land x 0x3FF)) /\
  (Z.land d (if upper then 0x20 else 0x10) = 0 ->
   cpuWrite x v m' = (m', [])).
Proof.
  intros Hreg Hx. cbv zeta.
  destruct (a001_is_above_the_ram a Hreg) as (H7 & H6).
  assert (Hw : cpuWrite a d m = (mk (base m) d, [])).
  { unfold cpuWrite. rewrite H7, H6, Hreg. reflexivity. }
  rewrite Hw. cbn [fst].
  split; [reflexivity |].
  unfold cpuRead, cpuWrite. rewrite (window_7000 x Hx). cbv zeta.
  cbn [ramControl base].
  destruct (Z.leb_spec 0x200 (Z.land x 0x3FF)) as [Hu | Hl];
    destruct (Z.ltb_spec (Z.land x 0x3FF) 0x200) as [Hl' | Hu'];
    try lia; cbn [Z.eqb].
  - repeat split.
    + intros ->. reflexivity.
    + intros H. destruct (Z.eqb_spec (Z.land d 0x80) 0); [contradiction |].
      reflexivity.
    + intros ->. reflexivity.
  - repeat split.
    + intros ->. reflexivity.
    + intros H. destruct (Z.eqb_spec (Z.land d 0x40) 0); [contradiction |].
      reflexivity.
    + intros ->. reflexivity.
Qed.

End Mmc6.

Lemma mmc6_ram_is_mirrored_every_1k_witness :
  Mapper006.cpuRead 0x7C05
    (fst (Mapper006.cpuWrite 0x7005 0x1AB
            (Mapper006.mk (Mapper004.set_prgRam (replicate 1024 0) example_mmc3)
               0xF0)))
  = Some 0xAB.
Proof.
  set (m := Mapper006.mk (Mapper004.set_prgRam (replicate 1024 0) example_mmc3)
              0xF0).
  assert (Ha : 0x7000 <= 0x7005 < 0x8000) by lia.
  assert (Ha' : 0x7000 <= 0x7C05 < 0x8000) by lia.
  assert (Hlen : length (Mapper004.prgRam (Mapper006.base m)) = 1024%nat)
    by reflexivity.
  assert (Hrc : Z.land (Mapper006.ramControl m) 0xF0 = 0xF0) by reflexivity.
  rewrite (mmc6_ram_is_mirrored_every_1k 0x7005 0x7C05 0x1AB m Ha Ha' Hlen Hrc).
  reflexivity.
Defined.

Lemma mmc6_a001_gates_each_half_of_the_ram_witness :
  let m := Mapper006.mk (Mapper004.set_prgRam (replicate 1024 0) example_mmc3)
             0xF0 in
  Mapper006.cpuWrite 0xBFFF 0x40 m = (Mapper006.mk (Mapper006.base m) 0x40, []) /\
  Mapper006.cpuRead 0x7200 (fst (Mapper006.cpuWrite 0xBFFF 0x40 m))
  = Some 0x72.
Proof.
  cbv zeta.
  set (m := Mapper006.mk (Mapper004.set_prgRam (replicate 1024 0) example_mmc3)
              0xF0).
  assert (Hx : 0x7000 <= 0x7200 < 0x8000) by lia.
  assert (Hreg : Z.land 0xBFFF 0xE001 = 0xA001) by reflexivity.
  destruct (mmc6_a001_gates_each_half_of_the_ram 0xBFFF 0x40 0x7200 0 m
              Hreg Hx) as (Hrc & Hopen & _).
  split; [exact Hrc | apply Hopen; reflexivity].
Defined.
(* ================================================================== *)
(** ** DxROM (mapper 206): the MMC3 subset *)
(* ================================================================== *)

Section DxRom.

Import Mapper004.

Lemma dxrom_reset_fixed m : dxrom_fixed m (Mapper206.reset m).
Proof. repeat split. Qed.

Lemma dxrom_write_fixed m0 a d m :
  dxrom_fixed m0 m ->
  dxrom_fixed m0 (fst (Mapper206.cpuWrite a d m)) /\
  snd (Mapper206.cpuWrite a d m) = [].
Proof.
  intros (Hp & Hc & He & Hw & Hr & I1 & I2 & I3 & I4).
  unfold Mapper206.cpuWrite.
  destruct ((0x8000 <=? a) && (a <=? 0x9FFF)).
  - destruct (Z.land a 1 =? 0); cbn [fst snd]; (split; [| reflexivity]).
    + unfold dxrom_fixed. cbn. repeat split; assumption.
    + unfold dxrom_fixed. cbn. repeat split; assumption.
  - cbn [fst snd]. split; [| reflexivity]. repeat split; assumption.
Qed.

(** After [reset], whatever is written to the mapper: no call is made
    (no mirroring change, no IRQ acknowledge), PRG and CHR mode stay 0,
    the IRQ registers and the PRG-RAM keep their contents, the RAM stays
    disabled, and a read in $6000-$7FFF is open bus. *)
Theorem dxrom_writes_never_leave_mode_0_or_reach_ram_irq_mirroring
    (ws : list (Z * Z)) (x : Z) (m : t) :
  0x6000 <= x < 0x8000 ->
  let r := Mapper206.cpuWrites ws (Mapper206.reset m) in
  snd r = [] /\
  prgMode (fst r) = 0 /\ chrMode (fst r) = 0 /\
  prgRamEnabled (fst r) = false /\ prgRamWriteProtect (fst r) = true /\
  prgRam (fst r) = prgRam m /\
  irqEnabled (fst r) = irqEnabled m /\ irqCounter (fst r) = irqCounter m /\
  irqLatch (fst r) = irqLatch m /\ irqReload (fst r) = irqReload m /\
  cpuRead x (fst r) = Some (Z.land (Z.shiftr x 8) 0xFF).
Proof.
  intros Hx. cbv zeta.
  assert (Hall : forall m1, dxrom_fixed m m1 ->
            dxrom_fixed m (fst (Mapper206.cpuWrites ws m1)) /\
            snd (Mapper206.cpuWrites ws m1) = []).
  { induction ws as [| [a d] ws IH]; intros m1 H1.
    - split; [exact H1 | reflexivity].
    - cbn [Mapper206.cpuWrites].
      destruct (dxrom_write_fixed m a d m1 H1) as (H2 & E2).
      destruct (Mapper206.cpuWrite a d m1) as [m2 e2]. cbn [fst snd] in *.
      destruct (IH m2 H2) as (H3 & E3).
      destruct (Mapper206.cpuWrites ws m2) as [m3 e3]. cbn [fst snd] in *.
      subst. split; [exact H3 | reflexivity]. }
  destruct (Hall (Mapper206.reset m) (dxrom_reset_fixed m)) as (Hfix & Hcalls).
  destruct Hfix as (Hp & Hc & He & Hw & Hr & I1 & I2 & I3 & I4).
  repeat (split; [assumption |]).
  unfold cpuRead.
  replace ((0x6000 <=? x) && (x <? 0x8000)) with true.
  - rewrite He. reflexivity.
  - symmetry. apply andb_true_iff.
    split; [apply Z.leb_le | apply Z.ltb_lt]; lia.
Qed.

End DxRom.

Lemma dxrom_writes_never_leave_mode_0_or_reach_ram_irq_mirroring_witness :
  let r := Mapper206.cpuWrites
             [(0x8000, 0xC6); (0x8001, 0xFF); (0xA000, 1); (0xA001, 0x80);
              (0xE001, 0); (0x6000, 0x55)]
             (Mapper206.reset example_mmc3) in
  snd r = [] /\
  Mapper004.prgMode (fst r) = 0 /\
  Mapper004.prgRamEnabled (fst r) = false /\
  Mapper004.irqEnabled (fst r) = true /\
  Mapper004.cpuRead 0x6000 (fst r) = Some 0x60.
Proof.
  cbv zeta.
  assert (Hx : 0x6000 <= 0x6000 < 0x8000) by lia.
  destruct (dxrom_writes_never_leave_mode_0_or_reach_ram_irq_mirroring
              [(0x8000, 0xC6); (0x8001, 0xFF); (0xA000, 1); (0xA001, 0x80);
               (0xE001, 0); (0x6000, 0x55)] 0x6000 example_mmc3 Hx)
    as (Hcalls & Hp & _ & He & _ & _ & Hi & _ & _ & _ & Hread).
  repeat split; assumption.
Defined.

(* ================================================================== *)
(** ** Mapper 047: the block register *)
(* ================================================================== *)

Lemma bank_bits_of_offset (off sh w : Z) :
  0 <= sh < 32 -> 0 <= w < 32 -> sh + w <= 32 ->
  JS.band (JS.shr off sh) (Z.ones w) = (off / 2 ^ sh) mod 2 ^ w.
Proof.
  intros Hsh Hw Hsum.
  unfold JS.band, JS.shr, JS.toUint32.
  rewrite (Z.mod_small sh 32) by lia.
  rewrite (toInt32_small (Z.ones w)).
  2:{ rewrite Z.ones_equiv.
      assert (2 ^ w <= 2 ^ 31) by (apply Z.pow_le_mono_r; lia).
      assert (0 < 2 ^ w) by (apply Z.pow_pos_nonneg; lia). lia. }
  rewrite <- (Z.land_ones _ w), <- (Z.shiftr_div_pow2 off sh) by lia.
  apply Z.bits_inj'. intros n Hn.
  rewrite !Z.land_spec, Z.shiftr_spec by lia.
  destruct (Z_lt_le_dec n w) as [Hlt | Hge].
  - rewrite toInt32_testbit by lia.
    rewrite Z.shiftr_spec by lia.
    rewrite Z.mod_pow2_bits_low by lia. reflexivity.
  - rewrite Z.ones_spec_high by lia. rewrite !andb_false_r. reflexivity.
Qed.

Lemma block_bank_offset (k b sh w : Z) :
  0 <= k < 2 ^ w -> isBit b -> 0 <= sh -> 0 <= w -> sh + w < 31 ->
  JS.toUint32 (JS.shl (JS.bor k (JS.shl b w)) sh)
  = b * 2 ^ (w + sh) + k * 2 ^ sh.
Proof.
  intros Hk Hb Hsh Hw Hsum.
  assert (Hpw : 0 < 2 ^ w) by (apply Z.pow_pos_nonneg; lia).
  assert (Hps : 0 < 2 ^ sh) by (apply Z.pow_pos_nonneg; lia).
  assert (Hw31 : 2 ^ w * 2 ^ sh <= 2 ^ 30).
  { rewrite <- Z.pow_add_r by lia. apply Z.pow_le_mono_r; lia. }
  assert (Hw30 : 2 ^ w <= 2 ^ 30) by nia.
  assert (Hblock : JS.shl b w = b * 2 ^ w).
  { unfold JS.shl. rewrite (Z.mod_small w 32) by lia.
    destruct Hb as [-> | ->].
    - change (JS.toInt32 0) with 0. rewrite Z.shiftl_0_l. reflexivity.
    - change (JS.toInt32 1) with 1. rewrite Z.shiftl_mul_pow2 by lia.
      apply toInt32_small. lia. }
  assert (Hor : JS.bor k (JS.shl b w) = k + b * 2 ^ w).
  { rewrite Hblock. unfold JS.bor.
    rewrite (toInt32_small k) by lia.
    rewrite (toInt32_small (b * 2 ^ w)) by (destruct Hb as [-> | ->]; lia).
    pose proof (Z.add_lor_land k (b * 2 ^ w)) as Hadd.
    replace (Z.land k (b * 2 ^ w)) with 0 in Hadd; [lia |].
    symmetry. apply Z.bits_inj'. intros n Hn.
    rewrite Z.land_spec, Z.bits_0.
    destruct (Z_lt_le_dec n w) as [Hlt | Hge].
    - rewrite Z.mul_pow2_bits_low by lia. apply andb_false_r.
    - destruct (Z.eq_dec k 0) as [-> | Hk0]; [rewrite Z.bits_0; reflexivity |].
      rewrite (Z.bits_above_log2 k n); [reflexivity | lia |].
      apply Z.lt_le_trans with w; [| lia].
      apply Z.log2_lt_pow2; lia. }
  rewrite Hor. unfold JS.shl, JS.toUint32.
  rewrite (Z.mod_small sh 32) by lia.
  assert (Hb01 : 0 <= b <= 1) by (destruct Hb as [-> | ->]; lia).
  assert (Hrange : 0 <= (k + b * 2 ^ w) * 2 ^ sh < 2 ^ 31) by nia.
  rewrite (toInt32_small (k + b * 2 ^ w)) by nia.
  rewrite Z.shiftl_mul_pow2 by lia.
  rewrite toInt32_small by lia.
  rewrite Z.mod_small by lia.
  rewrite Z.pow_add_r by lia. ring.
Qed.

Section Mapper47.

Import Mapper047.

Lemma updateBanks_in_block (m : t) :
  isBit (block m) ->
  let mmc3 := Mapper004.updateBanks (base m) in
  Mapper004.prgOffsets (base (updateBanks m))
  = List.map (prgInBlock (block m)) (Mapper004.prgOffsets mmc3) /\
  Mapper004.chrOffsets (base (updateBanks m))
  = List.map (chrInBlock (block m)) (Mapper004.chrOffsets mmc3) /\
  block (updateBanks m) = block m /\
  Mapper004.prgRam (base (updateBanks m)) = Mapper004.prgRam (base m).
Proof.
  intros Hb. cbv zeta. unfold updateBanks. cbv zeta.
  cbn [base block Mapper004.prgOffsets Mapper004.chrOffsets
       Mapper004.set_chrOffsets Mapper004.set_prgOffsets Mapper004.prgRam].
  repeat split.
  - apply List.map_ext. intros off. unfold prgInBlock.
    change 0x0F with (Z.ones 4).
    rewrite (bank_bits_of_offset off 13 4) by lia.
    pose proof (Z.mod_pos_bound (off / 2 ^ 13) (2 ^ 4) ltac:(lia)).
    rewrite (block_bank_offset _ (block m) 13 4) by (auto; lia).
    reflexivity.
  - apply List.map_ext. intros off. unfold chrInBlock.
    change 0x7F with (Z.ones 7).
    rewrite (bank_bits_of_offset off 10 7) by lia.
    pose proof (Z.mod_pos_bound (off / 2 ^ 10) (2 ^ 7) ltac:(lia)).
    rewrite (block_bank_offset _ (block m) 10 7) by (auto; lia).
    reflexivity.
Qed.

(** A write of [v] anywhere in $6000-$7FFF selects block [v AND 1] and
    touches no RAM: every PRG slot then points into that 128 KiB block
    of the ROM, at the MMC3 bank taken modulo 16, and every CHR slot
    into that 128 KiB block of CHR, at the MMC3 bank taken modulo 128. *)
Theorem m47_block_write_moves_every_slot_into_the_block (a v : Z) (m : t) :
  0x6000 <= a <= 0x7FFF ->
  let m' := fst (cpuWrite a v m) in
  let mmc3 := Mapper004.updateBanks (base m) in
  block m' = Z.land v 1 /\
  Mapper004.prgOffsets (base m')
  = List.map (prgInBlock (Z.land v 1)) (Mapper004.prgOffsets mmc3) /\
  Mapper004.chrOffsets (base m')
  = List.map (chrInBlock (Z.land v 1)) (Mapper004.chrOffsets mmc3) /\
  Mapper004.prgRam (base m') = Mapper004.prgRam (base m) /\
  snd (cpuWrite a v m) = [].
Proof.
  intros Ha. cbv zeta.
  assert (Hwin : (0x6000 <=? a) && (a <=? 0x7FFF) = true).
  { apply andb_true_iff. split; apply Z.leb_le; lia. }
  unfold cpuWrite. rewrite Hwin. cbn [fst snd].
  assert (Hbit : isBit (block (mk (base m) (Z.land v 1)))).
  { cbn [block]. change 1 with (Z.ones 1). rewrite Z.land_ones by lia.
    change (2 ^ 1) with 2.
    pose proof (Z.mod_pos_bound v 2 ltac:(lia)). unfold isBit. lia. }
  destruct (updateBanks_in_block (mk (base m) (Z.land v 1)) Hbit)
    as (Hprg & Hchr & Hblock & Hram).
  cbn [base block] in *.
  repeat split; assumption.
Qed.

End Mapper47.

Lemma m47_block_write_moves_every_slot_into_the_block_witness :
  Mapper004.prgOffsets
    (Mapper047.base
       (fst (Mapper047.cpuWrite 0x6000 0xFF (Mapper047.mk example_mmc3 0))))
  = [0x20000; 0x22000; 0x24000; 0x26000].
Proof.
  assert (Ha : 0x6000 <= 0x6000 <= 0x7FFF) by lia.
  destruct (m47_block_write_moves_every_slot_into_the_block
              0x6000 0xFF (Mapper047.mk example_mmc3 0) Ha)
    as (_ & Hprg & _).
  rewrite Hprg. reflexivity.
Defined.
(* ================================================================== *)
(** ** VRC4: the IRQ counter *)
(* ================================================================== *)

Section Vrc4Irq.

Import Mapper025.

Lemma set_prescaler_same (m : t) : set_prescaler (prescaler m) m = m.
Proof. destruct m. reflexivity. Qed.

Lemma clockIrqCounter_prescaler x (m : t) :
  clockIrqCounter (set_prescaler x m)
  = (set_prescaler x (fst (clockIrqCounter m)), snd (clockIrqCounter m)).
Proof.
  unfold clockIrqCounter. cbn [irqCounter irqLatch set_prescaler].
  destruct (irqCounter m =? 0xFF); reflexivity.
Qed.

Lemma cycleLoop_prescaler n x (m : t) :
  cycleLoop n (set_prescaler x m)
  = (set_prescaler x (fst (cycleLoop n m)), snd (cycleLoop n m)).
Proof.
  revert m. induction n as [| n IH]; intros m; [reflexivity |].
  cbn [cycleLoop]. rewrite clockIrqCounter_prescaler.
  destruct (clockIrqCounter m) as [m1 e1]. cbn [fst snd].
  rewrite IH. destruct (cycleLoop n m1) as [m2 e2]. reflexivity.
Qed.

Lemma cycleLoop_add (a b : nat) (m : t) :
  cycleLoop (a + b) m
  = (fst (cycleLoop b (fst (cycleLoop a m))),
     snd (cycleLoop a m) ++ snd (cycleLoop b (fst (cycleLoop a m)))).
Proof.
  revert m. induction a as [| a IH]; intros m.
  - cbn. destruct (cycleLoop b m). reflexivity.
  - cbn [Nat.add cycleLoop].
    destruct (clockIrqCounter m) as [m1 e1]. rewrite IH.
    destruct (cycleLoop a m1) as [m2 e2]. cbn [fst snd].
    destruct (cycleLoop b m2) as [m3 e3]. cbn [fst snd].
    rewrite app_assoc. reflexivity.
Qed.

Lemma clockIrqCounter_frame (m : t) :
  let m' := fst (clockIrqCounter m) in
  prescaler m' = prescaler m /\ irqEnabled m' = irqEnabled m /\
  irqMode m' = irqMode m /\ irqLatch m' = irqLatch m.
Proof.
  cbv zeta. unfold clockIrqCounter.
  destruct (irqCounter m =? 0xFF); repeat split.
Qed.

Lemma cycleLoop_frame n (m : t) :
  let m' := fst (cycleLoop n m) in
  prescaler m' = prescaler m /\ irqEnabled m' = irqEnabled m /\
  irqMode m' = irqMode m /\ irqLatch m' = irqLatch m.
Proof.
  revert m. induction n as [| n IH]; intros m; cbv zeta;
    [repeat split |].
  cbn [cycleLoop].
  destruct (clockIrqCounter_frame m) as (P1 & E1 & M1 & L1).
  destruct (clockIrqCounter m) as [m1 e1]. cbn [fst] in *.
  destruct (IH m1) as (P2 & E2 & M2 & L2).
  destruct (cycleLoop n m1) as [m2 e2]. cbn [fst] in *.
  repeat split; congruence.
Qed.

Lemma scanlineRounds_range q : 0 <= scanlineRounds q <= 1 - q \/
                               (0 < q /\ scanlineRounds q = 0).
Proof.
  unfold scanlineRounds. destruct (Z.ltb_spec 0 q); [right; lia |].
  left. Z.div_mod_to_equations. lia.
Qed.

Lemma scanlineRounds_step q :
  q <= 0 -> scanlineRounds q = 1 + scanlineRounds (q + 341).
Proof.
  intros Hq. unfold scanlineRounds.
  destruct (Z.ltb_spec 0 q); [lia |].
  destruct (Z.ltb_spec 0 (q + 341)); Z.div_mod_to_equations; lia.
Qed.

Lemma scanlineRounds_add q d :
  0 <= d ->
  scanlineRounds (q - d)
  = scanlineRounds q + scanlineRounds (q + 341 * scanlineRounds q - d).
Proof.
  intros Hd. unfold scanlineRounds.
  destruct (Z.ltb_spec 0 q).
  - rewrite Z.mul_0_r, Z.add_0_r. lia.
  - destruct (Z.ltb_spec 0 (q - d)); [lia |].
    destruct (Z.ltb_spec 0 (q + 341 * (- q / 341 + 1) - d));
      Z.div_mod_to_equations; lia.
Qed.

(** The scanline loop, given enough rounds, clocks the counter
    [scanlineRounds] times and leaves the prescaler positive. *)
Lemma scanlineLoop_spec (fuel : nat) (m : t) :
  scanlineRounds (prescaler m) <= Z.of_nat fuel ->
  let T := Z.to_nat (scanlineRounds (prescaler m)) in
  scanlineLoop fuel m
  = (set_prescaler (prescaler m + 341 * scanlineRounds (prescaler m))
       (fst (cycleLoop T m)),
     snd (cycleLoop T m)).
Proof.
  revert m. induction fuel as [| fuel IH]; intros m Hfuel; cbv zeta.
  - assert (H0 : scanlineRounds (prescaler m) = 0).
    { destruct (scanlineRounds_range (prescaler m)); lia. }
    rewrite H0. cbn [scanlineLoop Z.to_nat cycleLoop fst snd].
    rewrite Z.mul_0_r, Z.add_0_r, set_prescaler_same. reflexivity.
  - cbn [scanlineLoop].
    destruct (Z.leb_spec (prescaler m) 0) as [Hle | Hgt].
    + rewrite clockIrqCounter_prescaler.
      pose proof (scanlineRounds_step (prescaler m) Hle) as Hstep.
      pose proof (clockIrqCounter_frame m) as Hfr. cbv zeta in Hfr.
      destruct (clockIrqCounter m) as [m1 e1] eqn:Hc1. cbn [fst snd] in *.
      destruct Hfr as (P1 & _).
      assert (Hge : 0 <= scanlineRounds (prescaler m + 341)).
      { destruct (scanlineRounds_range (prescaler m + 341)); lia. }
      specialize (IH (set_prescaler (prescaler m + 341) m1)).
      cbn [prescaler set_prescaler] in IH. cbv zeta in IH.
      rewrite IH by lia.
      rewrite cycleLoop_prescaler. cbn [fst snd].
      rewrite Hstep.
      replace (Z.to_nat (1 + scanlineRounds (prescaler m + 341)))
        with (S (Z.to_nat (scanlineRounds (prescaler m + 341)))) by lia.
      cbn [cycleLoop]. rewrite Hc1.
      destruct (cycleLoop _ m1) as [m2 e2]. cbn [fst snd].
      f_equal. unfold set_prescaler. cbn. f_equal. lia.
    + assert (H0 : scanlineRounds (prescaler m) = 0).
      { unfold scanlineRounds. destruct (Z.ltb_spec 0 (prescaler m)); lia. }
      rewrite H0. cbn [Z.to_nat cycleLoop fst snd].
      rewrite Z.mul_0_r, Z.add_0_r, set_prescaler_same. reflexivity.
Qed.

(** [cpuClock] in scanline mode, in closed form. *)
Lemma cpuClock_scanline (c : Z) (m : t) :
  irqEnabled m = true -> irqMode m = 0 ->
  let q := prescaler m - c * 3 in
  let T := Z.to_nat (scanlineRounds q) in
  cpuClock c m
  = (set_prescaler (q + 341 * scanlineRounds q) (fst (cycleLoop T m)),
     snd (cycleLoop T m)).
Proof.
  intros He Hm. cbv zeta. unfold cpuClock. rewrite He, Hm.
  cbn [negb Z.eqb]. cbv zeta. cbn [prescaler set_prescaler].
  rewrite scanlineLoop_spec.
  - cbn [prescaler set_prescaler]. rewrite cycleLoop_prescaler.
    reflexivity.
  - cbn [prescaler set_prescaler].
    destruct (scanlineRounds_range (prescaler m - c * 3)); lia.
Qed.

(** The IRQ timing does not depend on how the CPU cycles are handed to
    [cpuClock]: one call with [a + b] cycles leaves the state, and
    requests the IRQs, of a call with [a] followed by a call with [b],
    in scanline mode as in cycle mode.  In scanline mode the prescaler
    is positive after every call: the loop ends by its own test. *)
Theorem vrc4_clock_does_not_depend_on_batching (a b : Z) (m : t) :
  0 <= a -> 0 <= b ->
  cpuClock (a + b) m
  = (fst (cpuClock b (fst (cpuClock a m))),
     snd (cpuClock a m) ++ snd (cpuClock b (fst (cpuClock a m)))) /\
  (irqEnabled m = true -> irqMode m = 0 ->
   0 < prescaler (fst (cpuClock a m))).
Proof.
  intros Ha Hb.
  destruct (irqEnabled m) eqn:He.
  2:{ split; [| discriminate].
      unfold cpuClock. rewrite He. cbn [negb fst snd]. rewrite He.
      reflexivity. }
  destruct (Z.eqb_spec (irqMode m) 0) as [Hm | Hm].
  - (* scanline mode *)
    set (q1 := prescaler m - a * 3).
    set (T1 := scanlineRounds q1).
    assert (HT1 : 0 <= T1).
    { unfold T1. destruct (scanlineRounds_range q1); lia. }
    pose proof (cpuClock_scanline a m He Hm) as H1. cbv zeta in H1.
    fold q1 T1 in H1.
    pose proof (cycleLoop_frame (Z.to_nat T1) m) as Hfr. cbv zeta in Hfr.
    destruct Hfr as (_ & E1 & M1 & _).
    set (ma := fst (cycleLoop (Z.to_nat T1) m)) in *.
    assert (Hpos : 0 < q1 + 341 * T1).
    { unfold T1, scanlineRounds. destruct (Z.ltb_spec 0 q1);
        Z.div_mod_to_equations; lia. }
    split.
    2:{ intros _ _. rewrite H1. cbn [fst prescaler set_prescaler].
        exact Hpos. }
    rewrite H1. cbn [fst snd].
    rewrite (cpuClock_scanline b (set_prescaler (q1 + 341 * T1) ma))
      by (cbn [irqEnabled irqMode set_prescaler]; congruence).
    rewrite (cpuClock_scanline (a + b) m He Hm).
    cbv zeta. cbn [prescaler set_prescaler].
    rewrite cycleLoop_prescaler. cbn [fst snd].
    replace (prescaler m - (a + b) * 3) with (q1 - b * 3) by (unfold q1; lia).
    rewrite (scanlineRounds_add q1 (b * 3)) by lia. fold T1.
    set (T2 := scanlineRounds (q1 + 341 * T1 - b * 3)).
    assert (HT2 : 0 <= T2).
    { unfold T2. destruct (scanlineRounds_range (q1 + 341 * T1 - b * 3)); lia. }
    rewrite Z2Nat.inj_add by lia.
    rewrite cycleLoop_add. fold ma. cbn [fst snd].
    f_equal. unfold set_prescaler. cbn. f_equal. lia.
  - (* cycle mode *)
    split; [| intros _ Hm0; contradiction].
    assert (Hmode : (irqMode m =? 0) = false) by (apply Z.eqb_neq; exact Hm).
    pose proof (cycleLoop_frame (Z.to_nat a) m) as Hfr. cbv zeta in Hfr.
    destruct Hfr as (_ & E1 & M1 & _).
    unfold cpuClock. rewrite He, Hmode. cbn [negb fst snd].
    rewrite E1, M1, He, Hmode. cbn [negb].
    rewrite Z2Nat.inj_add by lia. apply cycleLoop_add.
Qed.

(** The counter counting up, below $FF: no call. *)
Lemma count_up (j : nat) (m : t) :
  0 <= irqCounter m -> irqCounter m + Z.of_nat j <= 0xFF ->
  snd (cycleLoop j m) = [] /\
  irqCounter (fst (cycleLoop j m)) = irqCounter m + Z.of_nat j /\
  irqLatch (fst (cycleLoop j m)) = irqLatch m.
Proof.
  revert m. induction j as [| j IH]; intros m H0 Hc.
  - cbn. repeat split. lia.
  - assert (Hstep : clockIrqCounter m
                    = (set_irqCounter (irqCounter m + 1) m, [])).
    { unfold clockIrqCounter.
      destruct (Z.eqb_spec (irqCounter m) 0xFF); [lia | reflexivity]. }
    cbn [cycleLoop]. rewrite Hstep.
    destruct (IH (set_irqCounter (irqCounter m + 1) m)) as (E & C & L).
    + cbn [irqCounter set_irqCounter]. lia.
    + cbn [irqCounter set_irqCounter]. lia.
    + cbn [irqCounter irqLatch set_irqCounter] in *.
      destruct (cycleLoop j _) as [m2 e2]. cbn [fst snd app] in *.
      subst e2. repeat split; [lia | exact L].
Qed.

(** One period: from counter = latch = [L], the first [255 - L] clocks
    request nothing and clock [256 - L] requests the IRQ and reloads. *)
Lemma vrc4_one_period (m : t) :
  0 <= irqLatch m <= 0xFF -> irqCounter m = irqLatch m ->
  let P := Z.to_nat (256 - irqLatch m) in
  snd (cycleLoop (P - 1) m) = [] /\
  snd (cycleLoop P m) = [RequestIrq IRQ_NORMAL] /\
  irqCounter (fst (cycleLoop P m)) = irqLatch m /\
  irqLatch (fst (cycleLoop P m)) = irqLatch m.
Proof.
  intros HL Hc. cbv zeta.
  set (n := Z.to_nat (255 - irqLatch m)).
  replace (Z.to_nat (256 - irqLatch m)) with (n + 1)%nat by (unfold n; lia).
  replace (n + 1 - 1)%nat with n by lia.
  destruct (count_up n m) as (E & C & L); [lia | unfold n; lia |].
  split; [exact E |].
  rewrite cycleLoop_add. cbn [fst snd]. rewrite E.
  set (m1 := fst (cycleLoop n m)) in *.
  assert (C1 : irqCounter m1 = 0xFF) by (rewrite C; unfold n; lia).
  cbn [cycleLoop]. unfold clockIrqCounter. rewrite C1.
  cbn [Z.eqb Pos.eqb fst snd app irqCounter irqLatch set_irqCounter].
  rewrite L. repeat split.
Qed.

Lemma cycleLoop_periods (q r : nat) (m : t) :
  0 <= irqLatch m <= 0xFF -> irqCounter m = irqLatch m ->
  (r < Z.to_nat (256 - irqLatch m))%nat ->
  snd (cycleLoop (Z.to_nat (256 - irqLatch m) * q + r) m)
  = repeat (RequestIrq IRQ_NORMAL) q.
Proof.
  revert m. induction q as [| q IH]; intros m HL Hc Hr.
  - rewrite Nat.mul_0_r, Nat.add_0_l. cbn [repeat].
    destruct (vrc4_one_period m HL Hc) as (Hquiet & _).
    set (p := Z.to_nat (256 - irqLatch m)) in *.
    replace (p - 1)%nat with (r + (p - 1 - r))%nat in Hquiet by lia.
    rewrite cycleLoop_add in Hquiet. cbn [snd] in Hquiet.
    apply app_eq_nil in Hquiet. apply Hquiet.
  - destruct (vrc4_one_period m HL Hc) as (_ & Hcall & Hc' & Hl').
    set (p := Z.to_nat (256 - irqLatch m)) in *.
    replace (p * S q + r)%nat with (p + (p * q + r))%nat by lia.
    rewrite cycleLoop_add. cbn [snd]. rewrite Hcall.
    specialize (IH (fst (cycleLoop p m))).
    rewrite Hl' in IH. fold p in IH.
    rewrite IH by (auto; lia). reflexivity.
Qed.

Lemma cycleLoop_requests (k : nat) (m : t) :
  0 <= irqLatch m <= 0xFF -> irqCounter m = irqLatch m ->
  snd (cycleLoop k m)
  = repeat (RequestIrq IRQ_NORMAL) (k / Z.to_nat (256 - irqLatch m)).
Proof.
  intros HL Hc.
  set (p := Z.to_nat (256 - irqLatch m)).
  assert (Hp : p <> 0%nat) by (unfold p; lia).
  rewrite (Nat.div_mod_eq k p) at 1.
  apply cycleLoop_periods; try assumption.
  apply Nat.mod_upper_bound. exact Hp.
Qed.

Lemma nibbles_byte lo hi :
  0 <= Z.lor (Z.land lo 0x0F) (Z.shiftl (Z.land hi 0x0F) 4) <= 0xFF.
Proof.
  pose proof (land_le_r lo 0x0F ltac:(lia)) as Hlo.
  pose proof (land_le_r hi 0x0F ltac:(lia)) as Hhi.
  pose proof (Z.add_lor_land (Z.land lo 0x0F) (Z.shiftl (Z.land hi 0x0F) 4))
    as Hadd.
  rewrite Z.shiftl_mul_pow2 in * by lia. change (2 ^ 4) with 16 in *.
  assert (0 <= Z.land (Z.land lo 15) (Z.land hi 15 * 16))
    by (apply Z.land_nonneg; left; lia).
  assert (0 <= Z.lor (Z.land lo 15) (Z.land hi 15 * 16))
    by (apply Z.lor_nonneg; lia).
  lia.
Qed.

Lemma low_nibble_kept l lo :
  Z.land (Z.lor (Z.land l 0xF0) (Z.land lo 0x0F)) 0x0F = Z.land lo 0x0F.
Proof.
  rewrite Z.land_lor_distr_l, <- !Z.land_assoc.
  change (Z.land 0xF0 0x0F) with 0. change (Z.land 0x0F 0x0F) with 0x0F.
  rewrite Z.land_0_r. reflexivity.
Qed.

Lemma write_latch_low (v : Z) (m : t) :
  vrc4_pins m ->
  cpuWrite 0xF000 v m
  = (set_irqLatch (Z.lor (Z.land (irqLatch m) 0xF0) (Z.land v 0x0F)) m, []).
Proof.
  intros [[H0 H1] | [H0 H1]]; unfold cpuWrite, getRegisterAddress;
    rewrite H0, H1; reflexivity.
Qed.

Lemma write_latch_high (v : Z) (m : t) :
  vrc4_pins m ->
  cpuWrite (0xF000 + pinA0 m) v m
  = (set_irqLatch
       (Z.lor (Z.land (irqLatch m) 0x0F) (Z.shiftl (Z.land v 0x0F) 4)) m, []).
Proof.
  intros [[H0 H1] | [H0 H1]]; unfold cpuWrite, getRegisterAddress;
    rewrite H0, H1; reflexivity.
Qed.

Lemma write_control (v : Z) (m : t) :
  vrc4_pins m ->
  Z.land v 0x02 <> 0 ->
  cpuWrite (0xF000 + pinA1 m) v m
  = (set_prescaler 341
       (set_irqCounter (irqLatch m)
          (set_irqMode (if negb (Z.land v 0x04 =? 0) then 1 else 0)
             (set_irqEnabled true
                (set_irqEnabledAfterAck (negb (Z.land v 0x01 =? 0)) m)))),
     [ClearIrq IRQ_NORMAL]).
Proof.
  intros Hpins Hen.
  assert (Hb : negb (Z.land v 0x02 =? 0) = true)
    by (destruct (Z.eqb_spec (Z.land v 0x02) 0); [contradiction | reflexivity]).
  destruct Hpins as [[H0 H1] | [H0 H1]]; unfold cpuWrite, getRegisterAddress;
    rewrite H0, H1;
    change (0xF000 + 2) with 0xF002; change (0xF000 + 1) with 0xF001;
    cbn [Z.ltb Z.compare Pos.compare Pos.compare_cont Z.land Pos.land
         Z.eqb negb Z.lor Pos.lor Z.shiftl Pos.shiftl Pos.iter Z.of_N
         Pos.succ N.succ_pos Pos.Nsucc_double Pos.Ndouble];
    cbv zeta; cbn [irqEnabled set_irqMode set_irqEnabled];
    rewrite Hb; reflexivity.
Qed.

(** Programming the IRQ: the latch is written as two nibbles ($F000
    low, then the register the chip's A0 selects, high), then the
    control register (the one A1 selects) with the enable bit set.
    On the VRC4b A0 and A1 are the address lines A0 and A1, on the
    VRC4d they are swapped.  From then on the counter is clocked once a
    CPU cycle in cycle mode and once every 341 PPU cycles (three to a
    CPU cycle) in scanline mode, and the IRQ is requested every
    256 - latch clocks of the counter: [n] CPU cycles make
    clocks / (256 - latch) requests and no other call. *)
Theorem vrc4_irq_every_256_minus_latch_clocks (lo hi ctl n : Z) (m : t) :
  vrc4_pins m ->
  Z.land ctl 0x02 <> 0 ->
  0 <= n ->
  let latch := Z.lor (Z.land lo 0x0F) (Z.shiftl (Z.land hi 0x0F) 4) in
  let m' := fst (cpuWrites [(0xF000, lo); (0xF000 + pinA0 m, hi);
                            (0xF000 + pinA1 m, ctl)] m) in
  let clocks := if Z.land ctl 0x04 =? 0 then n * 3 / 341 else n in
  irqLatch m' = latch /\ irqCounter m' = latch /\
  snd (cpuClock n m')
  = repeat (RequestIrq IRQ_NORMAL) (Z.to_nat (clocks / (256 - latch))).
Proof.
  intros Hpins Hen Hn. cbv zeta.
  set (latch := Z.lor (Z.land lo 0x0F) (Z.shiftl (Z.land hi 0x0F) 4)).
  pose proof (nibbles_byte lo hi) as Hlatch. fold latch in Hlatch.
  set (mode := if negb (Z.land ctl 0x04 =? 0) then 1 else 0).
  assert (Hw : fst (cpuWrites [(0xF000, lo); (0xF000 + pinA0 m, hi);
                               (0xF000 + pinA1 m, ctl)] m)
               = set_prescaler 341
                   (set_irqCounter latch
                      (set_irqMode mode
                         (set_irqEnabled true
                            (set_irqEnabledAfterAck
                               (negb (Z.land ctl 0x01 =? 0))
                               (set_irqLatch latch m)))))).
  { assert (Hp1 : vrc4_pins (set_irqLatch
                     (Z.lor (Z.land (irqLatch m) 0xF0) (Z.land lo 0x0F)) m))
      by exact Hpins.
    cbn [cpuWrites].
    rewrite (write_latch_low lo m Hpins).
    change (pinA0 m) with (pinA0 (set_irqLatch
              (Z.lor (Z.land (irqLatch m) 0xF0) (Z.land lo 0x0F)) m)) at 1.
    rewrite (write_latch_high hi _ Hp1).
    cbn [irqLatch set_irqLatch]. rewrite low_nibble_kept. fold latch.
    change (set_irqLatch latch (set_irqLatch _ m)) with (set_irqLatch latch m).
    change (pinA1 m) with (pinA1 (set_irqLatch latch m)).
    rewrite (write_control ctl (set_irqLatch latch m) Hpins Hen).
    reflexivity. }
  rewrite Hw. clear Hw.
  set (m' := set_prescaler 341 _).
  assert (HL : irqLatch m' = latch) by reflexivity.
  assert (HC : irqCounter m' = latch) by reflexivity.
  assert (HE : irqEnabled m' = true) by reflexivity.
  assert (HM : irqMode m' = mode) by reflexivity.
  assert (HP : prescaler m' = 341) by reflexivity.
  split; [exact HL |]. split; [exact HC |].
  assert (Hdiv : forall k : nat,
            (k / Z.to_nat (256 - latch))%nat
            = Z.to_nat (Z.of_nat k / (256 - latch))).
  { intros k. rewrite <- (Nat2Z.id (k / _)), Nat2Z.inj_div, Z2Nat.id by lia.
    reflexivity. }
  unfold mode in HM.
  destruct (Z.eqb_spec (Z.land ctl 0x04) 0) as [H4 | H4]; cbn [negb] in HM.
  - (* scanline mode *)
    rewrite (cpuClock_scanline n m' HE HM). cbv zeta. cbn [snd].
    rewrite cycleLoop_requests by (rewrite ?HL, ?HC; auto; lia).
    rewrite HL, Hdiv, HP. f_equal. f_equal.
    assert (Hr : 0 <= scanlineRounds (341 - n * 3)).
    { destruct (scanlineRounds_range (341 - n * 3)); lia. }
    rewrite Z2Nat.id by exact Hr. f_equal.
    unfold scanlineRounds.
    destruct (Z.ltb_spec 0 (341 - n * 3)); Z.div_mod_to_equations; lia.
  - (* cycle mode *)
    unfold cpuClock. rewrite HE, HM. cbn [negb Z.eqb].
    rewrite cycleLoop_requests by (rewrite ?HL, ?HC; auto; lia).
    rewrite HL, Hdiv, Z2Nat.id by lia. reflexivity.
Qed.

(** *** The CHR bank registers *)

Lemma get_storeInt32_eq arr i v :
  0 <= i < Z.of_nat (length arr) ->
  JS.get (storeInt32 arr i v) i = Some (JS.toInt32 v).
Proof.
  intros Hi. unfold JS.get, storeInt32.
  destruct (Z.ltb_spec i 0); [lia |].
  apply list_lookup_insert_eq. lia.
Qed.

Lemma get_storeInt32_ne arr i j v :
  i <> j -> JS.get (storeInt32 arr i v) j = JS.get arr j.
Proof.
  intros Hne. unfold JS.get, storeInt32.
  destruct (Z.ltb_spec j 0); [reflexivity |].
  destruct (Z.ltb_spec i 0); [reflexivity |].
  apply list_lookup_insert_ne. lia.
Qed.

Lemma storeInt32_length arr i v : length (storeInt32 arr i v) = length arr.
Proof.
  unfold storeInt32. destruct (i <? 0); [reflexivity |].
  apply length_insert.
Qed.

Lemma writeChrReg_pins b i v (m : t) :
  pinA0 (writeChrReg b i v m) = pinA0 m /\
  pinA1 (writeChrReg b i v m) = pinA1 m.
Proof. unfold writeChrReg. destruct (negb _); split; reflexivity. Qed.

(** The address lines A15-A12 choose the pair of CHR registers, the
    chip's A1 the register of the pair and its A0 the nibble. *)
Lemma write_chr (k a1 a0 v : Z) (m : t) :
  vrc4_pins m -> 0 <= k < 4 -> 0 <= a1 < 2 -> 0 <= a0 < 2 ->
  cpuWrite (0xB000 + 0x1000 * k + a1 * pinA1 m + a0 * pinA0 m) v m
  = (writeChrReg (2 * k) (a0 + 2 * a1) v m, []).
Proof.
  intros Hpins Hk H1 H0.
  assert (Ek : k = 0 \/ k = 1 \/ k = 2 \/ k = 3) by lia.
  assert (E1 : a1 = 0 \/ a1 = 1) by lia.
  assert (E0 : a0 = 0 \/ a0 = 1) by lia.
  destruct Hpins as [[P0 P1] | [P0 P1]];
    destruct Ek as [-> | [-> | [-> | ->]]];
    destruct E1 as [-> | ->]; destruct E0 as [-> | ->];
    unfold cpuWrite, getRegisterAddress; rewrite P0, P1; reflexivity.
Qed.

(** A CHR bank register is written as two nibbles, the low one through
    the register address with the chip's A0 clear and the high one
    through the address with A0 set: after both writes the register
    holds the byte made of the two nibbles, whatever it held before;
    the other seven registers keep their values and no call is made on
    the CPU or the PPU. *)
Theorem vrc4_chr_register_is_written_as_two_nibbles
    (k sel lo hi : Z) (m : t) :
  vrc4_pins m -> length (chrRegs m) = 8%nat ->
  0 <= k < 4 -> 0 <= sel < 2 ->
  let address := 0xB000 + 0x1000 * k + sel * pinA1 m in
  let r := cpuWrites [(address, lo); (address + pinA0 m, hi)] m in
  let slot := 2 * k + sel in
  snd r = [] /\
  JS.get (chrRegs (fst r)) slot
  = Some (Z.lor (Z.land lo 0x0F) (Z.shiftl (Z.land hi 0x0F) 4)) /\
  (forall j, j <> slot -> JS.get (chrRegs (fst r)) j = JS.get (chrRegs m) j).
Proof.
  intros Hpins Hlen Hk Hsel. cbv zeta.
  set (address := 0xB000 + 0x1000 * k + sel * pinA1 m).
  set (slot := 2 * k + sel).
  assert (Hw1 : cpuWrite address lo m = (writeChrReg (2 * k) (0 + 2 * sel) lo m, [])).
  { rewrite <- (write_chr k sel 0 lo m Hpins Hk Hsel) by lia.
    f_equal. unfold address. lia. }
  set (m1 := writeChrReg (2 * k) (0 + 2 * sel) lo m) in *.
  destruct (writeChrReg_pins (2 * k) (0 + 2 * sel) lo m) as (Hp0 & Hp1).
  fold m1 in Hp0, Hp1.
  assert (Hpins1 : vrc4_pins m1)
    by (unfold vrc4_pins; rewrite Hp0, Hp1; exact Hpins).
  assert (Hw2 : cpuWrite (address + pinA0 m) hi m1
                = (writeChrReg (2 * k) (1 + 2 * sel) hi m1, [])).
  { rewrite <- (write_chr k sel 1 hi m1 Hpins1 Hk Hsel) by lia.
    f_equal. unfold address. rewrite Hp0, Hp1. lia. }
  cbn [cpuWrites]. rewrite Hw1, Hw2. cbn [fst snd app].
  split; [reflexivity |].
  assert (Esel : sel = 0 \/ sel = 1) by lia.
  assert (Hlow : Z.land (0 + 2 * sel) 0x01 = 0 /\
                 Z.land (1 + 2 * sel) 0x01 = 1 /\
                 Z.land (Z.shiftr (0 + 2 * sel) 1) 0x01 = sel /\
                 Z.land (Z.shiftr (1 + 2 * sel) 1) 0x01 = sel)
    by (destruct Esel as [-> | ->]; repeat split).
  destruct Hlow as (L0 & L1 & S0 & S1).
  set (old := JS.getNum (chrRegs m) slot).
  set (first := Z.lor (Z.land old 0xF0) (Z.land lo 0x0F)).
  assert (Hfirst : 0 <= first <= 0xFF).
  { unfold first.
    pose proof (land_le_r old 0xF0 ltac:(lia)).
    pose proof (land_le_r lo 0x0F ltac:(lia)).
    pose proof (Z.add_lor_land (Z.land old 0xF0) (Z.land lo 0x0F)).
    assert (0 <= Z.land (Z.land old 0xF0) (Z.land lo 0x0F))
      by (apply Z.land_nonneg; left; lia).
    assert (0 <= Z.lor (Z.land old 0xF0) (Z.land lo 0x0F))
      by (apply Z.lor_nonneg; lia).
    lia. }
  assert (Hm1 : chrRegs m1 = storeInt32 (chrRegs m) slot first).
  { unfold m1, writeChrReg. rewrite L0, S0. reflexivity. }
  assert (Hold1 : JS.getNum (chrRegs m1) slot = first).
  { unfold JS.getNum. rewrite Hm1, get_storeInt32_eq by (unfold slot; lia).
    apply toInt32_small. lia. }
  assert (Hm2 : chrRegs (writeChrReg (2 * k) (1 + 2 * sel) hi m1)
                = storeInt32 (chrRegs m1) slot
                    (Z.lor (Z.land lo 0x0F) (Z.shiftl (Z.land hi 0x0F) 4))).
  { unfold writeChrReg. rewrite L1, S1. fold slot.
    cbn [Z.eqb negb chrRegs set_chrRegs]. rewrite Hold1.
    unfold first. rewrite low_nibble_kept. reflexivity. }
  rewrite Hm2. split.
  - rewrite get_storeInt32_eq
      by (rewrite Hm1, storeInt32_length; unfold slot; lia).
    f_equal. apply toInt32_small.
    pose proof (nibbles_byte lo hi). lia.
  - intros j Hj. rewrite get_storeInt32_ne by congruence.
    rewrite Hm1. apply get_storeInt32_ne. congruence.
Qed.

End Vrc4Irq.

Lemma vrc4_clock_does_not_depend_on_batching_witness :
  Mapper025.cpuClock (100 + 200) example_vrc4
  = (fst (Mapper025.cpuClock 200 (fst (Mapper025.cpuClock 100 example_vrc4))),
     snd (Mapper025.cpuClock 100 example_vrc4)
     ++ snd (Mapper025.cpuClock 200
               (fst (Mapper025.cpuClock 100 example_vrc4)))).
Proof.
  assert (Ha : 0 <= 100) by lia.
  assert (Hb : 0 <= 200) by lia.
  destruct (vrc4_clock_does_not_depend_on_batching 100 200 example_vrc4 Ha Hb)
    as [Heq _].
  exact Heq.
Defined.

Lemma vrc4_irq_every_256_minus_latch_clocks_witness :
  snd (Mapper025.cpuClock 10
         (fst (Mapper025.cpuWrites
                 [(0xF000, 0x0C); (0xF002, 0x0F); (0xF001, 0x06)]
                 example_vrc4)))
  = [RequestIrq IRQ_NORMAL; RequestIrq IRQ_NORMAL].
Proof.
  assert (Hpins : vrc4_pins example_vrc4) by (right; split; reflexivity).
  assert (Hen : Z.land 0x06 0x02 <> 0) by discriminate.
  assert (Hn : 0 <= 10) by lia.
  destruct (vrc4_irq_every_256_minus_latch_clocks 0x0C 0x0F 0x06 10
              example_vrc4 Hpins Hen Hn) as (_ & _ & Hreq).
  exact Hreq.
Defined.

Lemma vrc4_chr_register_is_written_as_two_nibbles_witness :
  JS.get (Mapper025.chrRegs
            (fst (Mapper025.cpuWrites [(0xC001, 0x3A); (0xC003, 0x75)]
                    example_vrc4))) 3
  = Some 0x5A.
Proof.
  assert (Hpins : vrc4_pins example_vrc4) by (right; split; reflexivity).
  assert (Hlen : length (Mapper025.chrRegs example_vrc4) = 8%nat)
    by reflexivity.
  assert (Hk : 0 <= 1 < 4) by lia.
  assert (Hsel : 0 <= 1 < 2) by lia.
  destruct (vrc4_chr_register_is_written_as_two_nibbles 1 1 0x3A 0x75
              example_vrc4 Hpins Hlen Hk Hsel) as (_ & Hreg & _).
  exact Hreg.
Defined.
(* ================================================================== *)
(** ** The CPU: branches *)
(* ================================================================== *)

Section CpuBranch.

Context {Env : Type} (D : Devices Env).

Local Abbreviation t := (CPU.t Env).

Lemma bus_proof_flag (f : t -> Z) :
  In f [CPU.F_SIGN; CPU.F_OVERFLOW; CPU.F_CARRY; CPU.F_ZERO; CPU.REG_PC] ->
  CPU.bus_proof f.
Proof.
  intros Hin. cbn [In] in Hin.
  repeat (destruct Hin as [<- | Hin]; [repeat split |]). contradiction.
Qed.

Lemma stepControllers_frame {A} (f : t -> A) (m : t) :
  CPU.bus_proof f -> f (snd (CPU.stepControllers m)) = f m.
Proof.
  intros (Hd & Hdb & Hlog & Hmem & Hc1 & Hc2 & Hr1 & Hr2).
  unfold CPU.stepControllers. run0.
  destruct (CPU.controller1Read m); run0;
    match goal with
    | |- context [if ?c then _ else _] => destruct c
    end; run0; rewrite ?Hr2, ?Hc2, ?Hr1, ?Hc1; reflexivity.
Qed.

(** A branch takes two cycles when it is not taken, three when it is
    taken to an address in the page of the next instruction and four
    when it is taken to another page.  It reads its opcode and its
    offset and nothing else; taken, it leaves the program counter at
    the next instruction's address plus the offset read as a signed
    byte (modulo 2^16), not taken, at the next instruction.  (The
    program counter holds the address before the one to fetch.) *)
Theorem branch_takes_2_3_or_4_cycles (m : t) :
  hasMapper D (CPU.env m) = true ->
  let opaddr := Z.land (CPU.REG_PC m + 1) 0xffff in
  let opcode := fst (CPU.cpuRead D opaddr m) in
  In opcode branchOpcodes ->
  exists rel,
    let pc := Z.land (CPU.REG_PC m + 2) 0xffff in
    let target := Z.land (Z.land (pc + 1) 0xFFFF + signed8 rel) 0xffff in
    let r := CPU.fetchExecute D m in
    CPU.busLog (snd r)
    = BusRead (opaddr + 1) rel :: BusRead opaddr opcode :: CPU.busLog m /\
    if branchTaken opcode m
    then CPU.REG_PC (snd r) = target - 1 /\
         fst r = (if Z.land (pc + 1) 0xff00 =? Z.land target 0xff00
                  then 3 else 4)
    else CPU.REG_PC (snd r) = pc /\ fst r = 2.
Proof.
  intros Hmap opaddr opcode Hop.
  unfold CPU.fetchExecute.
  rewrite bind_run, gets_run. cbn [fst snd]. rewrite Hmap. cbn [negb].
  rewrite bind_run, gets_run. cbn [fst snd].
  rewrite bind_run. fold opaddr. fold opcode.
  set (m1 := snd (CPU.cpuRead D opaddr m)).
  rewrite bind_run.
  set (m2 := snd (CPU.dev _ m1)).
  assert (Hfr : forall f : t -> Z,
            In f [CPU.F_SIGN; CPU.F_OVERFLOW; CPU.F_CARRY; CPU.F_ZERO;
                  CPU.REG_PC] -> f m2 = f m).
  { intros f Hf. pose proof (bus_proof_flag f Hf) as Hb.
    unfold m2. rewrite dev_frame by apply Hb.
    unfold m1. apply cpuRead_frame, Hb. }
  assert (Hlog2 : CPU.busLog m2 = BusRead opaddr opcode :: CPU.busLog m).
  { unfold m2. rewrite dev_frame by (repeat split).
    unfold m1. apply cpuRead_busLog. }
  clearbody m2. clear m1. clearbody opcode.
  assert (Hdec : CPU.addrModeOf (CPU.opInfo opcode) = 1 /\
                 CPU.opSizeOf (CPU.opInfo opcode) = 2 /\
                 CPU.baseCyclesOf (CPU.opInfo opcode) = 2 /\
                 CPU.hasPenalty (CPU.instructionTypeOf (CPU.opInfo opcode))
                 = false /\
                 forall addr (x : t),
                   CPU.execute D (CPU.instructionTypeOf (CPU.opInfo opcode))
                     1 addr x
                   = CPU.branch (branchTaken opcode x) addr x).
  { cbn [In branchOpcodes] in Hop.
    repeat (destruct Hop as [<- | Hop];
            [repeat (split; [vm_compute; reflexivity |]);
             intros addr x;
             match goal with
             | |- CPU.execute _ ?ty _ _ _ = _ =>
                 let v := eval vm_compute in ty in change ty with v
             end;
             unfold CPU.execute; rewrite bind_run, gets_run; reflexivity |]).
    contradiction. }
  destruct Hdec as (Hmode & Hsize & Hcyc & Hpen & Hexec).
  rewrite Hmode, Hsize, Hcyc, Hpen.
  rewrite bind_run, assign_run. cbn [fst snd].
  rewrite bind_run, gets_run. cbn [fst snd].
  rewrite bind_run, assign_run. cbn [fst snd].
  set (ma := CPU.set_REG_PC _ _).
  assert (Hfa : forall f : t -> Z,
            In f [CPU.F_SIGN; CPU.F_OVERFLOW; CPU.F_CARRY; CPU.F_ZERO] ->
            f ma = f m).
  { intros f Hf. rewrite <- (Hfr f) by (cbn [In] in *; tauto).
    cbn [In] in Hf.
    repeat (destruct Hf as [<- | Hf]; [reflexivity |]). contradiction. }
  assert (Hpca : CPU.REG_PC ma = Z.land (CPU.REG_PC m + 2) 0xffff).
  { unfold ma. cpu_fields. rewrite (Hfr CPU.REG_PC) by (cbn [In]; tauto).
    reflexivity. }
  assert (Hloga : CPU.busLog ma = BusRead opaddr opcode :: CPU.busLog m)
    by exact Hlog2.
  clearbody ma. clear m2 Hfr Hlog2.
  rewrite bind_run. unfold CPU.resolveAddress.
  rewrite bind_run.
  pose proof (cpuRead_busLog D (opaddr + 1) ma) as Hlogr.
  pose proof (fun f Hf => cpuRead_frame D f (opaddr + 1) ma
                            (bus_proof_flag f Hf)) as Hfrr.
  destruct (CPU.cpuRead D (opaddr + 1) ma) as [rel mr].
  cbn [fst snd] in *.
  exists rel. cbv zeta.
  rewrite bind_run, gets_run, ret_run. cbn [fst snd].
  rewrite bind_run, when_run.
  change (negb (0 =? 0) && false) with false. cbn [fst snd].
  rewrite bind_run, Hexec.
  assert (Htaken : branchTaken opcode mr = branchTaken opcode m).
  { unfold branchTaken.
    rewrite !(Hfrr CPU.F_SIGN), !(Hfrr CPU.F_OVERFLOW), !(Hfrr CPU.F_CARRY),
      !(Hfrr CPU.F_ZERO) by (cbn [In]; tauto).
    rewrite !(Hfa CPU.F_SIGN), !(Hfa CPU.F_OVERFLOW), !(Hfa CPU.F_CARRY),
      !(Hfa CPU.F_ZERO) by (cbn [In]; tauto).
    reflexivity. }
  assert (Hpcr : CPU.REG_PC mr = Z.land (CPU.REG_PC m + 2) 0xffff)
    by (rewrite (Hfrr CPU.REG_PC) by (cbn [In]; tauto); exact Hpca).
  rewrite Htaken, Hpcr. fold (signed8 rel).
  set (pc := Z.land (CPU.REG_PC m + 2) 0xffff).
  set (target := Z.land (Z.land (pc + 1) 0xFFFF + signed8 rel) 0xffff).
  unfold CPU.branch.
  destruct (branchTaken opcode m).
  - run0. rewrite Hpcr. fold pc.
    repeat split.
    + cpu_fields. rewrite stepControllers_busLog. cpu_fields.
      rewrite Hlogr, Hloga. reflexivity.
    + cpu_fields.
      rewrite (stepControllers_frame CPU.REG_PC)
        by (apply bus_proof_flag; cbn [In]; tauto).
      reflexivity.
    + destruct (Z.land (pc + 1) 0xff00 =? Z.land target 0xff00); reflexivity.
  - run0.
    repeat split.
    + cpu_fields. rewrite stepControllers_busLog. cpu_fields.
      rewrite Hlogr, Hloga. reflexivity.
    + cpu_fields.
      rewrite (stepControllers_frame CPU.REG_PC)
        by (apply bus_proof_flag; cbn [In]; tauto).
      cpu_fields. exact Hpcr.
Qed.

End CpuBranch.

(** [BNE] with offset $80 at $8000, the zero flag clear: taken, from
    page $80 to $7F82 in page $7F, in four cycles. *)
Lemma branch_takes_2_3_or_4_cycles_witness :
  branchTaken 0xD0 branch_machine = true /\
  exists rel,
    CPU.busLog (snd (CPU.fetchExecute nromDevices branch_machine))
    = BusRead 0x8001 rel :: BusRead 0x8000 0xD0
        :: CPU.busLog branch_machine /\
    CPU.REG_PC (snd (CPU.fetchExecute nromDevices branch_machine))
    = Z.land (0x8002 + signed8 rel) 0xffff - 1 /\
    fst (CPU.fetchExecute nromDevices branch_machine)
    = (if 0x8000 =? Z.land (Z.land (0x8002 + signed8 rel) 0xffff) 0xff00
       then 3 else 4).
Proof.
  split; [vm_compute; reflexivity |].
  assert (Hmap : hasMapper nromDevices (CPU.env branch_machine) = true)
    by reflexivity.
  assert (Hop : In (fst (CPU.cpuRead nromDevices
                          (Z.land (CPU.REG_PC branch_machine + 1) 0xffff)
                          branch_machine)) branchOpcodes)
    by (vm_compute; tauto).
  destruct (branch_takes_2_3_or_4_cycles nromDevices branch_machine Hmap Hop)
    as (rel & Hlog & Hrest).
  exists rel.
  change (fst (CPU.cpuRead nromDevices
                 (Z.land (CPU.REG_PC branch_machine + 1) 0xffff)
                 branch_machine)) with 0xD0 in Hlog, Hrest.
  change (branchTaken 0xD0 branch_machine) with true in Hrest.
  change (Z.land (CPU.REG_PC branch_machine + 1) 0xffff) with 0x8000 in Hlog.
  change (Z.land (CPU.REG_PC branch_machine + 2) 0xffff) with 0x8001 in Hrest.
  split; [exact Hlog | exact Hrest].
Defined.
(* ================================================================== *)
(** ** MMC5 pulse channel: the output sample *)
(* ================================================================== *)

Section Mmc5SquareOutput.

Import Mmc5Square.

Lemma updateOutput_output (s : t) :
  output (updateOutput s) = expectedOutput s /\
  expectedOutput (updateOutput s) = expectedOutput s /\
  (in_range s -> in_range (updateOutput s)).
Proof.
  unfold updateOutput, expectedOutput, in_range.
  destruct (isEnabled s && (0 <? lengthCounter s)) eqn:E; cbn; rewrite ?E;
    auto.
Qed.

Lemma updateOutput_ok (s : t) :
  in_range s ->
  in_range (updateOutput s) /\
  output (updateOutput s) = expectedOutput (updateOutput s).
Proof.
  intros Hr. destruct (updateOutput_output s) as (H1 & H2 & H3).
  split; [auto | congruence].
Qed.

Lemma duty_is_a_bit (mode pos : Z) :
  0 <= mode <= 3 -> 0 <= pos <= 7 ->
  0 <= tableAt DUTY_LOOKUP (Z.shiftl mode 3 + pos) <= 1.
Proof.
  intros Hm Hp.
  assert (Hcheck : forallb (fun i => (0 <=? tableAt DUTY_LOOKUP i)
                                     && (tableAt DUTY_LOOKUP i <=? 1))
                     (Zrange 32) = true) by (vm_compute; reflexivity).
  rewrite Z.shiftl_mul_pow2 by lia. change (2 ^ 3) with 8.
  pose proof (forallb_Zrange 32 _ Hcheck (mode * 8 + pos) ltac:(lia)) as H.
  cbv beta in H. apply andb_true_iff in H. lia.
Qed.

Lemma length_entry_nonneg (i : Z) : 0 <= tableAt LENGTH_LOOKUP i.
Proof.
  unfold tableAt, JS.getNum, JS.get.
  destruct (i <? 0); [cbn; lia |].
  destruct (LENGTH_LOOKUP !! Z.to_nat i) as [v |] eqn:E; [| cbn; lia].
  cbn [default].
  assert (Hall : Forall (fun v => 0 <= v) LENGTH_LOOKUP)
    by (unfold LENGTH_LOOKUP; repeat constructor; lia).
  exact (Forall_lookup_1 _ _ _ _ Hall E).
Qed.

Lemma lor_nonneg_2 a b : 0 <= a -> 0 <= b -> 0 <= Z.lor a b.
Proof. intros. apply Z.lor_nonneg. lia. Qed.

Lemma timerLoop_ok (fuel : nat) (s : t) :
  in_range s -> output s = expectedOutput s ->
  1 - timerCounter s <= Z.of_nat fuel ->
  let s' := timerLoop fuel s in
  in_range s' /\ output s' = expectedOutput s' /\ 0 < timerCounter s'.
Proof.
  revert s. induction fuel as [| fuel IH]; intros s Hr Ho Hf; cbv zeta.
  - cbn [timerLoop]. split; [exact Hr | split; [exact Ho | lia]].
  - cbn [timerLoop].
    destruct (Z.leb_spec (timerCounter s) 0) as [Hle | Hgt];
      [| split; [exact Hr | split; [exact Ho | lia]]].
    set (s1 := set_dutyPos (Z.land (dutyPos s + 1) 7)
                 (set_timerCounter
                    (timerCounter s + Z.shiftl (timerPeriod s + 1) 1) s)).
    assert (Hr1 : in_range s1).
    { unfold in_range in *. unfold s1. cbn.
      pose proof (land_le_r (dutyPos s + 1) 7 ltac:(lia)). tauto. }
    destruct (updateOutput_ok s1 Hr1) as (Hr2 & Ho2).
    assert (Htc : timerCounter (updateOutput s1)
                  = timerCounter s + 2 * (timerPeriod s + 1)).
    { unfold updateOutput. destruct (_ && _); unfold s1; cbn [timerCounter
        set_output set_dutyPos set_timerCounter];
        rewrite Z.shiftl_mul_pow2 by lia; change (2 ^ 1) with 2; lia. }
    apply IH; try assumption.
    rewrite Htc. destruct Hr as (_ & _ & _ & _ & _ & Htp & _). lia.
Qed.

Lemma clockTimer_ok (n : Z) (s : t) :
  in_range s -> output s = expectedOutput s ->
  let s' := clockTimer n s in
  in_range s' /\ output s' = expectedOutput s' /\ 0 < timerCounter s'.
Proof.
  intros Hr Ho. unfold clockTimer. cbv zeta.
  apply timerLoop_ok.
  - exact Hr.
  - exact Ho.
  - cbn [timerCounter set_timerCounter]. lia.
Qed.

Lemma clockEnvelope_ok (s : t) :
  in_range s -> in_range (clockEnvelope s) /\
  output (clockEnvelope s) = expectedOutput (clockEnvelope s).
Proof.
  intros Hr. unfold clockEnvelope. cbv zeta. apply updateOutput_ok.
  unfold in_range in *.
  destruct (envReset s).
  - cbn. destruct (envDecayDisable s); lia.
  - cbn [envDecayCounter set_envDecayCounter envDecayRate].
    destruct (envDecayCounter s - 1 <=? 0).
    + cbn [envVolume set_envDecayCounter envDecayLoopEnable].
      destruct (Z.ltb_spec 0 (envVolume s)).
      * cbn. destruct (envDecayDisable s); lia.
      * cbn. destruct (envDecayDisable s), (envDecayLoopEnable s); lia.
    + cbn. destruct (envDecayDisable s); lia.
Qed.

Lemma clockLengthCounter_ok (s : t) :
  in_range s -> output s = expectedOutput s ->
  in_range (clockLengthCounter s) /\
  output (clockLengthCounter s) = expectedOutput (clockLengthCounter s).
Proof.
  intros Hr Ho. unfold clockLengthCounter.
  destruct (negb (lengthCounterHalt s)); cbn [andb]; [| auto].
  destruct (Z.ltb_spec 0 (lengthCounter s)) as [Hpos | Hz]; [| auto].
  cbv zeta. cbn [lengthCounter set_lengthCounter].
  assert (Hr1 : in_range (set_lengthCounter (lengthCounter s - 1) s)).
  { unfold in_range in *. cbn. lia. }
  destruct (Z.eqb_spec (lengthCounter s - 1) 0) as [E | E].
  - apply updateOutput_ok, Hr1.
  - split; [exact Hr1 |].
    unfold expectedOutput in *. cbn. rewrite Ho.
    destruct (Z.ltb_spec 0 (lengthCounter s)); [| lia].
    destruct (Z.ltb_spec 0 (lengthCounter s - 1)); [| lia].
    reflexivity.
Qed.

Lemma writeReg_ok (a v : Z) (s : t) :
  0 <= v < 256 ->
  in_range s -> output s = expectedOutput s ->
  in_range (writeReg a v s) /\
  output (writeReg a v s) = expectedOutput (writeReg a v s).
Proof.
  intros Hv Hr Ho.
  assert (Hctl : let s1 := set_envDecayDisable (negb (Z.land v 0x10 =? 0)) s in
                 let s2 := set_envDecayRate (Z.land v 0x0f) s1 in
                 let s3 := set_lengthCounterHalt (negb (Z.land v 0x20 =? 0)) s2 in
                 let s4 := set_envDecayLoopEnable (lengthCounterHalt s3) s3 in
                 let s5 := set_dutyMode (Z.land (Z.shiftr v 6) 0x03) s4 in
                 let s6 := updateOutput
                             (set_masterVolume
                                (if envDecayDisable s5 then envDecayRate s5
                                 else envVolume s5) s5) in
                 in_range s6 /\ output s6 = expectedOutput s6).
  { cbv zeta. apply updateOutput_ok. unfold in_range in *. cbn.
    pose proof (land_le_r v 0x0f ltac:(lia)).
    pose proof (land_le_r (Z.shiftr v 6) 0x03 ltac:(lia)).
    destruct (negb (Z.land v 16 =? 0)); lia. }
  assert (Hlo : let s1 := set_timerPeriod
                            (Z.lor (Z.land (timerPeriod s) 0x700) v) s in
                in_range s1 /\ output s1 = expectedOutput s1).
  { cbv zeta. split.
    - unfold in_range in *. cbn.
      pose proof (land_le_r (timerPeriod s) 0x700 ltac:(lia)).
      pose proof (lor_nonneg_2 (Z.land (timerPeriod s) 0x700) v
                    ltac:(lia) ltac:(lia)). tauto.
    - exact Ho. }
  assert (Hhi : let s1 := set_timerPeriod
                            (Z.lor (Z.land (timerPeriod s) 0x0ff)
                               (Z.shiftl (Z.land v 0x07) 8)) s in
                let s2 := set_lengthReloadValue
                            (tableAt LENGTH_LOOKUP (Z.shiftr v 3)) s1 in
                let s3 := if isEnabled s2
                          then set_lengthCounter (lengthReloadValue s2) s2
                          else s2 in
                let s4 := updateOutput (set_envReset true s3) in
                in_range s4 /\ output s4 = expectedOutput s4).
  { cbv zeta. apply updateOutput_ok. unfold in_range in *.
    pose proof (land_le_r (timerPeriod s) 0x0ff ltac:(lia)).
    pose proof (land_le_r v 0x07 ltac:(lia)).
    pose proof (Z.shiftl_nonneg (Z.land v 0x07) 8).
    pose proof (lor_nonneg_2 (Z.land (timerPeriod s) 0x0ff)
                  (Z.shiftl (Z.land v 0x07) 8) ltac:(lia) ltac:(lia)).
    pose proof (length_entry_nonneg (Z.shiftr v 3)).
    cbn. destruct (isEnabled s); cbn; tauto. }
  unfold writeReg.
  destruct a as [| p | p]; [auto | | auto].
  do 15 (destruct p as [p | p |]; [auto | auto | auto]).
Qed.

Lemma setEnabled_ok (b : bool) (s : t) :
  in_range s -> in_range (setEnabled b s) /\
  output (setEnabled b s) = expectedOutput (setEnabled b s).
Proof.
  intros Hr. unfold setEnabled. cbv zeta. apply updateOutput_ok.
  unfold in_range in *. destruct b; cbn; lia.
Qed.

Lemma run_calls_ok (cs : list call) (s : t) :
  Forall byte_call cs ->
  in_range s -> output s = expectedOutput s ->
  in_range (run_calls s cs) /\
  output (run_calls s cs) = expectedOutput (run_calls s cs).
Proof.
  intros Hb. revert s. induction Hb as [| c cs Hc Hcs IH]; intros s Hr Ho;
    [auto |].
  cbn [run_calls fold_left]. apply IH.
  - destruct c; cbn [apply_call].
    + apply clockTimer_ok; assumption.
    + apply clockEnvelope_ok; assumption.
    + apply clockLengthCounter_ok; assumption.
    + apply writeReg_ok; assumption.
    + apply setEnabled_ok; assumption.
  - destruct c; cbn [apply_call].
    + apply clockTimer_ok; assumption.
    + apply clockEnvelope_ok; assumption.
    + apply clockLengthCounter_ok; assumption.
    + apply writeReg_ok; assumption.
    + apply setEnabled_ok; assumption.
Qed.

(** After [reset()], whatever sequence of timer, envelope and length
    clocks, register writes (of bytes) and enables follows: the sample
    is the one [updateOutput] would compute now (no method forgets to
    call it), it lies in 0..15, it is 0 whenever the length status is 0
    (channel disabled or length counter expired), and the loop of
    [clockTimer] always ends by its own test, with the timer counter
    positive. *)
Theorem mmc5_square_output_is_up_to_date_and_in_range
    (cs : list call) (n : Z) (s0 : t) :
  Forall byte_call cs ->
  let s := run_calls (reset s0) cs in
  getOutput s
  = (if getLengthStatus s =? 0 then 0
     else masterVolume s
          * tableAt DUTY_LOOKUP (Z.shiftl (dutyMode s) 3 + dutyPos s)) /\
  0 <= getOutput s <= 15 /\
  0 < timerCounter (clockTimer n s).
Proof.
  intros Hb. cbv zeta.
  assert (H0 : in_range (reset s0) /\
               output (reset s0) = expectedOutput (reset s0)).
  { split; [unfold in_range; cbn; lia | reflexivity]. }
  destruct H0 as (Hr0 & Ho0).
  destruct (run_calls_ok cs (reset s0) Hb Hr0 Ho0) as (Hr & Ho).
  set (s := run_calls (reset s0) cs) in *.
  destruct (clockTimer_ok n s Hr Ho) as (_ & _ & Htimer).
  pose proof Hr as (Hmv & _ & _ & Hdm & Hdp & _ & Hlc).
  pose proof (duty_is_a_bit (dutyMode s) (dutyPos s) Hdm Hdp) as Hduty.
  assert (Hstatus : (getLengthStatus s =? 0)
                    = negb (isEnabled s && (0 <? lengthCounter s))).
  { unfold getLengthStatus.
    destruct (Z.eqb_spec (lengthCounter s) 0) as [E | E];
      destruct (Z.ltb_spec 0 (lengthCounter s)); try lia;
      destruct (isEnabled s); reflexivity. }
  unfold getOutput. rewrite Ho, Hstatus. unfold expectedOutput.
  destruct (isEnabled s && (0 <? lengthCounter s)); cbn [negb].
  - repeat split; try exact Htimer; nia.
  - repeat split; try exact Htimer; lia.
Qed.

End Mmc5SquareOutput.

Lemma mmc5_square_output_is_up_to_date_and_in_range_witness :
  let s := Mmc5Square.run_calls (Mmc5Square.reset Mmc5Square.example)
             [Mmc5Square.SetEnabled true;
              Mmc5Square.WriteReg 0x5000 0xBF;
              Mmc5Square.WriteReg 0x5002 0x10;
              Mmc5Square.WriteReg 0x5003 0x08;
              Mmc5Square.ClockTimer 100] in
  Mmc5Square.getOutput s = 15 /\
  0 < Mmc5Square.timerCounter (Mmc5Square.clockTimer 1000 s).
Proof.
  cbv zeta.
  set (cs := [Mmc5Square.SetEnabled true; Mmc5Square.WriteReg 0x5000 0xBF;
              Mmc5Square.WriteReg 0x5002 0x10; Mmc5Square.WriteReg 0x5003 0x08;
              Mmc5Square.ClockTimer 100]).
  assert (Hb : Forall Mmc5Square.byte_call cs)
    by (unfold cs; repeat constructor; cbn; lia).
  destruct (mmc5_square_output_is_up_to_date_and_in_range cs 1000
              Mmc5Square.example Hb) as (Hout & _ & Htimer).
  split; [rewrite Hout; vm_compute; reflexivity | exact Htimer].
Defined.
